(** * libdeep: the Differentiable Neural Computer module (deeplearn_dnc.c)

    A shallow embedding of [src/deeplearn_dnc.c].  The C program works on one
    [deeplearn_dnc] structure, on blocks obtained from [malloc], and on an
    opaque controller network reached through the [deeplearn_*] functions of
    the rest of the library.  The embedding keeps exactly these three parts:

    - the structure is a record of integers and pointers;
    - the heap is a list of blocks, a block being an array of cells (floats
      or pointers) or the controller object; a fresh block has indeterminate
      cells; a freed block is dead;
    - the controller is an abstract state moved by the library functions,
      which are parameters of the development.

    A C function becomes a program of a small state monad whose outcome is
    either a result with the new world, or [Undefined] when the C program
    leaves defined behaviour (a dead or indeterminate pointer is used, an
    array is accessed out of bounds, a loop counter overflows). *)

From stdpp Require Import base list numbers strings.
From Stdlib Require Import ZArith Lia.

Local Open Scope Z_scope.

(** ** Machine integers *)

Definition INT_MAX : Z := 2147483647.
Definition UINT_MOD : Z := 4294967296.

(** Conversion to [unsigned int]: reduction modulo 2^32. *)
Definition to_uint (x : Z) : Z := x mod UINT_MOD.

(** Conversion to [int]: the two's complement reading of the low 32 bits. *)
Definition to_int (x : Z) : Z :=
  let u := x mod UINT_MOD in
  if u <=? INT_MAX then u else u - UINT_MOD.

(** [int] arithmetic, with the wrap-around written out; C division of
    [int]s truncates towards zero. *)
Definition int_add (a b : Z) : Z := to_int (a + b).
Definition int_mul (a b : Z) : Z := to_int (a * b).
Definition int_div (a b : Z) : Z := to_int (Z.quot a b).

(** [unsigned int] arithmetic. *)
Definition uint_add (a b : Z) : Z := to_uint (a + b).
Definition uint_div (a b : Z) : Z := to_uint a / to_uint b.

(** The two data models the library is built for: they differ in the size
    of a pointer, hence of [size_t]. *)
Inductive data_model := ILP32 | LP64.

Definition sizeof_float : Z := 4.
Definition sizeof_ptr (dm : data_model) : Z :=
  match dm with ILP32 => 4 | LP64 => 8 end.

Definition SIZE_MOD (dm : data_model) : Z := 2 ^ (8 * sizeof_ptr dm).

(** Conversion to [size_t]. *)
Definition to_size_t (dm : data_model) (x : Z) : Z := x mod SIZE_MOD dm.

(** ** Pointers, cells and blocks *)

Inductive pointer :=
| Pundef              (* indeterminate: never assigned *)
| Pnull
| Pblock (b : nat).   (* start of the heap block [b] *)

Inductive kind := KFloat | KPtr.

Definition sizeof (dm : data_model) (k : kind) : Z :=
  match k with KFloat => sizeof_float | KPtr => sizeof_ptr dm end.

(** A [float] is kept as its IEEE-754 bit pattern; the pattern 0 is +0.0f,
    which is what [memset (p, 0, n)] writes. *)
Inductive cell :=
| Cundef
| Cfloat (bits : Z)
| Cptr (p : pointer).

Definition zero_cell (k : kind) : cell :=
  match k with KFloat => Cfloat 0 | KPtr => Cptr Pnull end.

#[global] Instance pointer_eq_dec : EqDecision pointer.
Proof. solve_decision. Defined.
#[global] Instance kind_eq_dec : EqDecision kind.
Proof. solve_decision. Defined.
#[global] Instance cell_eq_dec : EqDecision cell.
Proof. solve_decision. Defined.

(** ** The structures of deeplearn_dnc.h, as the code uses them *)

Record deeplearn_dnc_read_head := ReadHead {
  rh_key : pointer
}.

Record deeplearn_dnc_write_head := WriteHead {
  wh_write : pointer;
  wh_erase : pointer;
  wh_key : pointer
}.

Record deeplearn_dnc_memory := Memory {
  m_size : Z;                          (* unsigned int size *)
  m_width : Z;                         (* unsigned int width *)
  m_address : pointer;                 (* float ** address *)
  m_usage : pointer;                   (* float * usage *)
  m_usage_temporal : list pointer      (* float * usage_temporal[READ+WRITE] *)
}.

Record deeplearn_dnc := Dnc {
  controller : pointer;                (* deeplearn * controller *)
  memory : deeplearn_dnc_memory;
  read_head : list deeplearn_dnc_read_head;
  write_head : list deeplearn_dnc_write_head;
  no_of_inputs : Z;
  no_of_outputs : Z
}.

(** The four subsystems that [deeplearn_dnc_init] builds. *)
Inductive subsystem := SBank | SUsage | SHeads | SController.

#[global] Instance subsystem_eq_dec : EqDecision subsystem.
Proof. solve_decision. Defined.

(** ** Requests forwarded to the controller library *)

(** One constructor per [deeplearn_*] function that the module calls on an
    initialised controller, with the arguments it forwards.  Pointers into
    the caller's memory (a sample, an image, a file) are kept as opaque
    handles. *)
Inductive request :=
| ReqFeedForward
| ReqUpdate
| ReqFree
| ReqSetInputText (text : string)
| ReqSetInput (index value : Z)
| ReqSetInputField (fieldindex value : Z)
| ReqSetInputFieldText (fieldindex : Z) (text : string)
| ReqSetInputs (sample : Z)
| ReqSetOutput (index value : Z)
| ReqSetOutputs (sample : Z)
| ReqGetOutputs (outputs : Z)
| ReqGetOutput (index : Z)
| ReqGetClass
| ReqCompare (learner2 : Z)
| ReqSetClass (class : Z)
| ReqSave (fp : Z)
| ReqLoad (fp random_seed : Z)
| ReqPlotHistory (filename title : string) (image_width image_height : Z)
| ReqInputsFromImagePatch (img image_width image_height tx ty : Z)
| ReqInputsFromImage (img image_width image_height : Z)
| ReqSetLearningRate (rate : Z)
| ReqSetDropouts (dropout_percent : Z)
| ReqExport (filename : string)
| ReqGetErrorThreshold (index : Z)
| ReqSetErrorThreshold (index value : Z)
| ReqUpdateContinuous
| ReqTrainingLastLayer.

(** The arguments of [deeplearn_init]. *)
Record init_args := InitArgs {
  ia_inputs : Z;
  ia_hiddens : Z;
  ia_hidden_layers : Z;
  ia_outputs : Z;
  ia_error_threshold : list Z;
  ia_random_seed : Z
}.

(** What the program does to the outside, in order. *)
Inductive event :=
| EvFree (p : pointer)             (* free (p) *)
| EvInit (a : init_args)           (* deeplearn_init (controller, ...) *)
| EvCall (r : request).            (* any other deeplearn_* call *)

(** ** Parameters: the header's constants and the controller library *)

(** The constants of deeplearn_dnc.h, and the data model of the build. *)
Class Header := {
  DEEPLEARNDNC_READ_HEADS : nat;
  DEEPLEARNDNC_WRITE_HEADS : nat;
  DEEPLEARNDNC_USAGE_BLOCK_SIZE : Z;
  dm : data_model
}.

(** The controller network of the rest of the library: its state, its
    initialiser (return code and initialised state) and its other functions
    (returned value and new state; the value is an [int], the bit pattern of
    a [float], or a value nobody reads for a [void] function).  What
    [deeplearn_free] does to the object it is given is the library's too:
    it may release the object itself or only what the network holds. *)
Class Library := {
  deeplearn : Type;
  deeplearn_init : init_args -> Z * deeplearn;
  deeplearn_call : request -> deeplearn -> Z * deeplearn;
  deeplearn_free_releases_object : bool
}.

Section Model.

Context {hdr : Header} {lib : Library}.

#[local] Abbreviation READ_HEADS := (Z.of_nat DEEPLEARNDNC_READ_HEADS).
#[local] Abbreviation WRITE_HEADS := (Z.of_nat DEEPLEARNDNC_WRITE_HEADS).
#[local] Abbreviation BLOCK := DEEPLEARNDNC_USAGE_BLOCK_SIZE.

(** ** The world *)

Inductive object :=
| Ocells (k : kind) (cells : list cell)     (* an array from malloc *)
| Octrl (c : option deeplearn).             (* the controller; None before
                                               deeplearn_init *)

Record world := World {
  w_heap : list (option object);   (* block b is entry b; None once freed *)
  w_plan : list bool;              (* outcome of the coming malloc calls;
                                      when exhausted, malloc succeeds *)
  w_trace : list event;
  w_dnc : deeplearn_dnc            (* the structure [learner] points to *)
}.

Inductive outcome (A : Type) :=
| Done (a : A) (w : world)
| Undefined.
Arguments Done {A} a w.
Arguments Undefined {A}.

Definition prog (A : Type) : Type := world -> outcome A.

#[global] Instance prog_ret : MRet prog := fun A a w => Done a w.
#[global] Instance prog_bind : MBind prog := fun A B f m w =>
  match m w with
  | Done a w' => f a w'
  | Undefined => Undefined
  end.

Definition undefined {A} : prog A := fun _ => Undefined.
Definition get_dnc : prog deeplearn_dnc := fun w => Done (w_dnc w) w.
Definition put_dnc (d : deeplearn_dnc) : prog unit := fun w =>
  Done tt (World (w_heap w) (w_plan w) (w_trace w) d).
Definition get_heap : prog (list (option object)) := fun w => Done (w_heap w) w.
Definition put_heap (h : list (option object)) : prog unit := fun w =>
  Done tt (World h (w_plan w) (w_trace w) (w_dnc w)).
Definition emit (e : event) : prog unit := fun w =>
  Done tt (World (w_heap w) (w_plan w) (w_trace w ++ [e]) (w_dnc w)).

(** The live object a pointer designates. *)
Definition deref (h : list (option object)) (p : pointer) : option object :=
  match p with
  | Pblock b => mjoin (h !! b)
  | _ => None
  end.

(** *** malloc and free *)

(** [(T* )malloc (nbytes)]: the next entry of the plan decides whether the
    request is served; a served request yields a fresh block of
    [nbytes / sizeof (T)] indeterminate cells. *)
Definition next_alloc (plan : list bool) : bool * list bool :=
  match plan with
  | [] => (true, [])
  | ok :: rest => (ok, rest)
  end.

Definition malloc_object (o : object) : prog pointer := fun w =>
  let '(ok, rest) := next_alloc (w_plan w) in
  if ok
  then Done (Pblock (length (w_heap w)))
            (World (w_heap w ++ [Some o]) rest (w_trace w) (w_dnc w))
  else Done Pnull (World (w_heap w) rest (w_trace w) (w_dnc w)).

Definition malloc (k : kind) (nbytes : Z) : prog pointer :=
  malloc_object (Ocells k (replicate (Z.to_nat (nbytes / sizeof dm k)) Cundef)).

(** [free (p)]: nothing for a null pointer, the block dies for a live one,
    undefined otherwise. *)
Definition free (p : pointer) : prog unit :=
  h ← get_heap;
  match p with
  | Pnull => emit (EvFree p)
  | Pblock b =>
      match deref h p with
      | Some _ => put_heap (<[b := None]> h);; emit (EvFree p)
      | None => undefined
      end
  | Pundef => undefined
  end.

(** *** Arrays *)

Definition index_ok (i : Z) (len : nat) : bool :=
  (0 <=? i) && (i <? Z.of_nat len).

(** [p[i]] read as a pointer, [p] being an array of pointers. *)
Definition load_ptr (p : pointer) (i : Z) : prog pointer :=
  h ← get_heap;
  match deref h p with
  | Some (Ocells KPtr cells) =>
      if index_ok i (length cells)
      then match cells !! Z.to_nat i with
           | Some (Cptr q) => mret q
           | Some Cundef => mret Pundef
           | _ => undefined
           end
      else undefined
  | _ => undefined
  end.

(** [p[i] = q]. *)
Definition store_ptr (p : pointer) (i : Z) (q : pointer) : prog unit :=
  h ← get_heap;
  match p, deref h p with
  | Pblock b, Some (Ocells KPtr cells) =>
      if index_ok i (length cells)
      then put_heap (<[b := Some (Ocells KPtr (<[Z.to_nat i := Cptr q]> cells))]> h)
      else undefined
  | _, _ => undefined
  end.

(** The cells after [memset (_, '\0', nbytes)] on an array of kind [k]. *)
Definition zero_prefix (k : kind) (n : nat) (cells : list cell) : list cell :=
  replicate (n `min` length cells)%nat (zero_cell k) ++ drop n cells.

(** [memset (p, '\0', nbytes)] on a heap array: the bytes must lie inside
    the block. *)
Definition memset_zero (p : pointer) (nbytes : Z) : prog unit :=
  h ← get_heap;
  match p, deref h p with
  | Pblock b, Some (Ocells k cells) =>
      if (nbytes <=? sizeof dm k * Z.of_nat (length cells))
         && (nbytes mod sizeof dm k =? 0)
      then put_heap
             (<[b := Some (Ocells k (zero_prefix k (Z.to_nat (nbytes / sizeof dm k)) cells))]> h)
      else undefined
  | _, _ => undefined
  end.

(** *** Loops *)

(** [for (i = i0; i < i0 + n; i++) body], [i] being an [int]; a body
    returning [Some r] stands for [return r] inside the loop.  The loops of
    the module never change their own bound. *)
Fixpoint for_loop {R} (n : nat) (i : Z) (body : Z -> prog (option R))
  : prog (option R) :=
  match n with
  | O => mret None
  | S n' =>
      r ← body i;
      match r with
      | Some x => mret (Some x)
      | None =>
          if i <? INT_MAX then for_loop n' (i + 1) body
          else undefined          (* i++ overflows *)
      end
  end.

(** *** Field updates of the structure *)

Definition set_memory (f : deeplearn_dnc_memory -> deeplearn_dnc_memory)
  : prog unit :=
  d ← get_dnc;
  put_dnc (Dnc (controller d) (f (memory d)) (read_head d) (write_head d)
               (no_of_inputs d) (no_of_outputs d)).

Definition set_size (v : Z) : prog unit :=
  set_memory (fun m => Memory v (m_width m) (m_address m) (m_usage m)
                              (m_usage_temporal m)).
Definition set_width (v : Z) : prog unit :=
  set_memory (fun m => Memory (m_size m) v (m_address m) (m_usage m)
                              (m_usage_temporal m)).
Definition set_address (p : pointer) : prog unit :=
  set_memory (fun m => Memory (m_size m) (m_width m) p (m_usage m)
                              (m_usage_temporal m)).
Definition set_usage (p : pointer) : prog unit :=
  set_memory (fun m => Memory (m_size m) (m_width m) (m_address m) p
                              (m_usage_temporal m)).

(** [learner->memory.usage_temporal[i] = p]. *)
Definition set_usage_temporal (i : Z) (p : pointer) : prog unit :=
  d ← get_dnc;
  if index_ok i (length (m_usage_temporal (memory d)))
  then set_memory (fun m => Memory (m_size m) (m_width m) (m_address m)
                     (m_usage m) (<[Z.to_nat i := p]> (m_usage_temporal m)))
  else undefined.

Definition get_usage_temporal (i : Z) : prog pointer :=
  d ← get_dnc;
  match m_usage_temporal (memory d) !! Z.to_nat i with
  | Some p => if index_ok i (length (m_usage_temporal (memory d)))
              then mret p else undefined
  | None => undefined
  end.

Definition set_controller (p : pointer) : prog unit :=
  d ← get_dnc;
  put_dnc (Dnc p (memory d) (read_head d) (write_head d)
               (no_of_inputs d) (no_of_outputs d)).
Definition set_no_of_inputs (v : Z) : prog unit :=
  d ← get_dnc;
  put_dnc (Dnc (controller d) (memory d) (read_head d) (write_head d)
               v (no_of_outputs d)).
Definition set_no_of_outputs (v : Z) : prog unit :=
  d ← get_dnc;
  put_dnc (Dnc (controller d) (memory d) (read_head d) (write_head d)
               (no_of_inputs d) v).

Definition get_read_head (i : Z) : prog deeplearn_dnc_read_head :=
  d ← get_dnc;
  match read_head d !! Z.to_nat i with
  | Some r => if index_ok i (length (read_head d)) then mret r else undefined
  | None => undefined
  end.
Definition set_read_head (i : Z) (r : deeplearn_dnc_read_head) : prog unit :=
  d ← get_dnc;
  if index_ok i (length (read_head d))
  then put_dnc (Dnc (controller d) (memory d) (<[Z.to_nat i := r]> (read_head d))
                    (write_head d) (no_of_inputs d) (no_of_outputs d))
  else undefined.

Definition get_write_head (i : Z) : prog deeplearn_dnc_write_head :=
  d ← get_dnc;
  match write_head d !! Z.to_nat i with
  | Some r => if index_ok i (length (write_head d)) then mret r else undefined
  | None => undefined
  end.
Definition set_write_head (i : Z) (f : deeplearn_dnc_write_head -> deeplearn_dnc_write_head)
  : prog unit :=
  r ← get_write_head i;
  d ← get_dnc;
  put_dnc (Dnc (controller d) (memory d) (read_head d)
               (<[Z.to_nat i := f r]> (write_head d))
               (no_of_inputs d) (no_of_outputs d)).

(** *** Calls into the controller library *)

(** [deeplearn_init (learner->controller, ...)]: the controller object must
    be live; its state and the return code come from the library. *)
Definition call_deeplearn_init (a : init_args) : prog Z :=
  d ← get_dnc;
  h ← get_heap;
  match controller d, deref h (controller d) with
  | Pblock b, Some (Octrl _) =>
      let '(rc, c) := deeplearn_init a in
      put_heap (<[b := Some (Octrl (Some c))]> h);;
      emit (EvInit a);;
      mret rc
  | _, _ => undefined
  end.

(** The controller object after a call that left the network in state
    [c']: after [deeplearn_free] the network is gone, and the object is
    dead when the library released it too, uninitialised otherwise; after
    any other call the object holds the new state. *)
Definition controller_after (r : request) (c' : deeplearn) : option object :=
  match r with
  | ReqFree =>
      if deeplearn_free_releases_object then None else Some (Octrl None)
  | _ => Some (Octrl (Some c'))
  end.

(** [deeplearn_xxx (learner->controller, ...)] for every other function:
    the controller must be live and initialised. *)
Definition call_deeplearn (r : request) : prog Z :=
  d ← get_dnc;
  h ← get_heap;
  match controller d, deref h (controller d) with
  | Pblock b, Some (Octrl (Some c)) =>
      let '(v, c') := deeplearn_call r c in
      put_heap (<[b := controller_after r c']> h);;
      emit (EvCall r);;
      mret v
  | _, _ => undefined
  end.

(** [memset ((void* )learner->memory.usage_temporal, '\0', nbytes)]: the
    target is the array of pointers inside the structure; the bytes must
    lie inside that array. *)
Definition memset_usage_temporal (nbytes : Z) : prog unit :=
  d ← get_dnc;
  let a := m_usage_temporal (memory d) in
  if (nbytes <=? sizeof_ptr dm * Z.of_nat (length a))
     && (nbytes mod sizeof_ptr dm =? 0)
  then set_memory (fun m =>
         Memory (m_size m) (m_width m) (m_address m) (m_usage m)
           (replicate (Z.to_nat (nbytes / sizeof_ptr dm) `min` length a)%nat Pnull
              ++ drop (Z.to_nat (nbytes / sizeof_ptr dm)) a))
  else undefined.

(** A loop without [return]. *)
Definition for_each (n : nat) (body : Z -> prog unit) : prog unit :=
  for_loop (R := unit) n 0 (fun i => body i;; mret None);; mret tt.

(** The value a function returns after a loop that may have returned. *)
Definition or_else (r : option Z) (k : prog Z) : prog Z :=
  match r with
  | Some x => mret x
  | None => k
  end.

(** ** The functions of deeplearn_dnc.c *)

(** [learner->memory.size / DEEPLEARNDNC_USAGE_BLOCK_SIZE], stored in an
    [int]. *)
Definition usage_size (d : deeplearn_dnc) : Z :=
  to_int (uint_div (m_size (memory d)) BLOCK).

Definition deeplearn_dnc_init_memory (memory_size memory_width : Z) : prog Z :=
  set_size (to_uint (int_mul (int_div memory_size BLOCK) BLOCK));;
  set_width (to_uint memory_width);;
  d ← get_dnc;
  p ← malloc KPtr (to_size_t dm (m_size (memory d) * sizeof_ptr dm));
  set_address p;;
  if decide (p = Pnull) then mret 1 else
  (* allocate memory vectors *)
  r ← for_loop (Z.to_nat (m_size (memory d))) 0 (fun i =>
        d ← get_dnc;
        q ← malloc KFloat (to_size_t dm (m_width (memory d) * sizeof_float));
        store_ptr (m_address (memory d)) i q;;
        if decide (q = Pnull) then mret (Some 2) else mret None);
  or_else r (mret 0).

Definition deeplearn_dnc_free_memory : prog unit :=
  d ← get_dnc;
  for_each (Z.to_nat (m_size (memory d))) (fun i =>
    d ← get_dnc;
    q ← load_ptr (m_address (memory d)) i;
    free q);;
  d ← get_dnc;
  free (m_address (memory d)).

Definition deeplearn_dnc_init_memory_usage : prog Z :=
  d ← get_dnc;
  let memory_usage_size := usage_size d in
  (* memory usage *)
  p ← malloc KFloat (to_size_t dm (memory_usage_size * sizeof_float));
  set_usage p;;
  if decide (p = Pnull) then mret 1 else
  (* temporal matrix of memory usage *)
  r ← for_loop (DEEPLEARNDNC_READ_HEADS + DEEPLEARNDNC_WRITE_HEADS) 0 (fun i =>
        q ← malloc KFloat
              (to_size_t dm (int_mul memory_usage_size memory_usage_size
                             * sizeof_float));
        set_usage_temporal i q;;
        if decide (q = Pnull) then mret (Some 2) else mret None);
  or_else r (mret 0).

Definition deeplearn_dnc_free_memory_usage : prog unit :=
  d ← get_dnc;
  free (m_usage (memory d));;
  for_each (DEEPLEARNDNC_READ_HEADS + DEEPLEARNDNC_WRITE_HEADS) (fun i =>
    q ← get_usage_temporal i;
    free q).

Definition malloc_vector : prog pointer :=
  d ← get_dnc;
  malloc KFloat (to_size_t dm (m_width (memory d) * sizeof_float)).

Definition deeplearn_dnc_init_heads : prog Z :=
  r ← for_loop DEEPLEARNDNC_READ_HEADS 0 (fun i =>
        q ← malloc_vector;
        set_read_head i (ReadHead q);;
        if decide (q = Pnull) then mret (Some 1) else mret None);
  or_else r (
  r ← for_loop DEEPLEARNDNC_WRITE_HEADS 0 (fun i =>
        q ← malloc_vector;
        set_write_head i (fun h => WriteHead q (wh_erase h) (wh_key h));;
        if decide (q = Pnull) then mret (Some 2) else
        q ← malloc_vector;
        set_write_head i (fun h => WriteHead (wh_write h) q (wh_key h));;
        if decide (q = Pnull) then mret (Some 3) else
        q ← malloc_vector;
        set_write_head i (fun h => WriteHead (wh_write h) (wh_erase h) q);;
        if decide (q = Pnull) then mret (Some 4) else mret None);
  or_else r (mret 0)).

Definition deeplearn_dnc_free_heads : prog unit :=
  for_each DEEPLEARNDNC_READ_HEADS (fun i =>
    r ← get_read_head i;
    free (rh_key r));;
  for_each DEEPLEARNDNC_WRITE_HEADS (fun i =>
    r ← get_write_head i;
    free (wh_write r);;
    free (wh_erase r);;
    free (wh_key r)).

(** The widths of the controller network. *)
Definition controller_inputs (memory_width no_of_inputs : Z) : Z :=
  int_add no_of_inputs (int_mul memory_width READ_HEADS).

Definition controller_outputs (memory_width no_of_outputs : Z) : Z :=
  int_add (int_add no_of_outputs (int_mul memory_width WRITE_HEADS))
          (int_mul (int_add memory_width 3) READ_HEADS).

(** [return base + retval;] with [unsigned int retval], the function
    returning [int]. *)
Definition tagged (base retval : Z) : Z := to_int (uint_add base retval).

Definition deeplearn_dnc_init
    (memory_size memory_width no_of_inputs no_of_hiddens hidden_layers
     no_of_outputs : Z) (error_threshold : list Z) (random_seed : Z)
  : prog Z :=
  set_no_of_inputs no_of_inputs;;
  set_no_of_outputs no_of_outputs;;
  p ← malloc_object (Octrl None);
  set_controller p;;
  if decide (p = Pnull) then mret 1000 else
  r ← deeplearn_dnc_init_memory memory_size memory_width;
  let retval := to_uint r in
  if decide (retval ≠ 0) then mret (tagged 2000 retval) else
  r ← deeplearn_dnc_init_memory_usage;
  let retval := to_uint r in
  if decide (retval ≠ 0) then mret (tagged 3000 retval) else
  r ← deeplearn_dnc_init_heads;
  let retval := to_uint r in
  if decide (retval ≠ 0) then mret (tagged 4000 retval) else
  r ← call_deeplearn_init
         (InitArgs (controller_inputs memory_width no_of_inputs)
                   no_of_hiddens hidden_layers
                   (controller_outputs memory_width no_of_outputs)
                   error_threshold random_seed);
  let retval := to_uint r in
  if decide (retval ≠ 0) then mret (tagged 5000 retval) else
  mret 0.

Definition deeplearn_dnc_update_read_heads : prog unit := mret tt.

Definition deeplearn_dnc_update_write_heads : prog unit := mret tt.

Definition deeplearn_dnc_feed_forward : prog unit :=
  deeplearn_dnc_update_read_heads;;
  call_deeplearn ReqFeedForward;;
  mret tt.

Definition deeplearn_dnc_update : prog unit :=
  call_deeplearn ReqUpdate;;
  mret tt.

Definition deeplearn_dnc_free : prog unit :=
  deeplearn_dnc_free_memory;;
  deeplearn_dnc_free_memory_usage;;
  deeplearn_dnc_free_heads;;
  (* free controller *)
  call_deeplearn ReqFree;;
  mret tt.

Definition deeplearn_dnc_clear_memory : prog unit :=
  d ← get_dnc;
  let memory_usage_size := usage_size d in
  (* clear all address vectors *)
  for_each (Z.to_nat (m_size (memory d))) (fun i =>
    d ← get_dnc;
    q ← load_ptr (m_address (memory d)) i;
    memset_zero q (to_size_t dm (m_width (memory d) * sizeof_float)));;
  (* clear the memory usage *)
  d ← get_dnc;
  memset_zero (m_usage (memory d))
              (to_size_t dm (memory_usage_size * sizeof_ptr dm));;
  (* clear the temporal matrix *)
  memset_usage_temporal
    (to_size_t dm (int_mul memory_usage_size memory_usage_size * sizeof_ptr dm)).

(** The remaining functions forward their arguments to the controller and
    return what it returns. *)
Definition deeplearn_dnc_set_input_text (text : string) : prog Z :=
  call_deeplearn (ReqSetInputText text).
Definition deeplearn_dnc_set_input (index value : Z) : prog Z :=
  call_deeplearn (ReqSetInput index value).
Definition deeplearn_dnc_set_input_field (fieldindex value : Z) : prog Z :=
  call_deeplearn (ReqSetInputField fieldindex value).
Definition deeplearn_dnc_set_input_field_text (fieldindex : Z) (text : string)
  : prog Z :=
  call_deeplearn (ReqSetInputFieldText fieldindex text).
Definition deeplearn_dnc_set_inputs (sample : Z) : prog Z :=
  call_deeplearn (ReqSetInputs sample).
Definition deeplearn_dnc_set_output (index value : Z) : prog Z :=
  call_deeplearn (ReqSetOutput index value).
Definition deeplearn_dnc_set_outputs (sample : Z) : prog Z :=
  call_deeplearn (ReqSetOutputs sample).
Definition deeplearn_dnc_get_outputs (outputs : Z) : prog Z :=
  call_deeplearn (ReqGetOutputs outputs).
Definition deeplearn_dnc_get_output (index : Z) : prog Z :=
  call_deeplearn (ReqGetOutput index).
Definition deeplearn_dnc_get_class : prog Z :=
  call_deeplearn ReqGetClass.
Definition deeplearn_dnc_set_class (class : Z) : prog Z :=
  call_deeplearn (ReqSetClass class).
Definition deeplearn_dnc_save (fp : Z) : prog Z :=
  call_deeplearn (ReqSave fp).
Definition deeplearn_dnc_load (fp random_seed : Z) : prog Z :=
  call_deeplearn (ReqLoad fp random_seed).
Definition deeplearn_dnc_compare (learner2 : Z) : prog Z :=
  call_deeplearn (ReqCompare learner2).
Definition deeplearn_dnc_plot_history (filename title : string)
    (image_width image_height : Z) : prog Z :=
  call_deeplearn (ReqPlotHistory filename title image_width image_height).
Definition deeplearn_dnc_inputs_from_image_patch
    (img image_width image_height tx ty : Z) : prog Z :=
  call_deeplearn (ReqInputsFromImagePatch img image_width image_height tx ty).
Definition deeplearn_dnc_inputs_from_image (img image_width image_height : Z)
  : prog Z :=
  call_deeplearn (ReqInputsFromImage img image_width image_height).
Definition deeplearn_dnc_set_learning_rate (rate : Z) : prog Z :=
  call_deeplearn (ReqSetLearningRate rate).
Definition deeplearn_dnc_set_dropouts (dropout_percent : Z) : prog Z :=
  call_deeplearn (ReqSetDropouts dropout_percent).
Definition deeplearn_dnc_export (filename : string) : prog Z :=
  call_deeplearn (ReqExport filename).
Definition deeplearn_dnc_get_error_threshold (index : Z) : prog Z :=
  call_deeplearn (ReqGetErrorThreshold index).
Definition deeplearn_dnc_set_error_threshold (index value : Z) : prog Z :=
  call_deeplearn (ReqSetErrorThreshold index value).
Definition deeplearn_dnc_update_continuous : prog Z :=
  call_deeplearn ReqUpdateContinuous.
Definition deeplearn_dnc_training_last_layer : prog Z :=
  call_deeplearn ReqTrainingLastLayer.

End Model.

Arguments Done {_ A} a w.
Arguments Undefined {_ A}.

(** ** Notions used to state the properties *)

Section Notions.

Context {hdr : Header} {lib : Library}.

(** The operations a client can perform on an initialised instance. *)
Inductive operation :=
| OpFeedForward
| OpUpdate
| OpClearMemory
| OpUpdateReadHeads
| OpUpdateWriteHeads
| OpFree
| OpForward (r : request).     (* any of the forwarding functions *)

Definition run_operation (o : operation) : prog unit :=
  match o with
  | OpFeedForward => deeplearn_dnc_feed_forward
  | OpUpdate => deeplearn_dnc_update
  | OpClearMemory => deeplearn_dnc_clear_memory
  | OpUpdateReadHeads => deeplearn_dnc_update_read_heads
  | OpUpdateWriteHeads => deeplearn_dnc_update_write_heads
  | OpFree => deeplearn_dnc_free
  | OpForward r => call_deeplearn r;; mret tt
  end.

Fixpoint run_operations (os : list operation) : prog unit :=
  match os with
  | [] => mret tt
  | o :: os' => run_operation o;; run_operations os'
  end.

(** The client stores [cells] into the array [p] points to (new key
    contents for a head, say). *)
Definition write_cells (p : pointer) (cells : list cell) : prog unit :=
  h ← get_heap;
  match p, deref h p with
  | Pblock b, Some (Ocells k old) =>
      if decide (length cells = length old)
      then put_heap (<[b := Some (Ocells k cells)]> h)
      else undefined
  | _, _ => undefined
  end.

(** The structure has its three arrays at their declared lengths. *)
Definition well_shaped (d : deeplearn_dnc) : Prop :=
  length (m_usage_temporal (memory d))
    = (DEEPLEARNDNC_READ_HEADS + DEEPLEARNDNC_WRITE_HEADS)%nat
  /\ length (read_head d) = DEEPLEARNDNC_READ_HEADS
  /\ length (write_head d) = DEEPLEARNDNC_WRITE_HEADS.

(** The first statements of [deeplearn_dnc_init], up to the allocation of
    the controller object. *)
Definition init_controller_object (no_of_inputs no_of_outputs : Z)
  : prog pointer :=
  set_no_of_inputs no_of_inputs;;
  set_no_of_outputs no_of_outputs;;
  p ← malloc_object (Octrl None);
  set_controller p;;
  mret p.

(** [init_run ... w s code w']: started in [w], the stages of the
    initialisation run in order, [s] is the first subsystem that fails
    ([None] when none does), nothing runs after it, [code] is the value
    returned and [w'] the world left. *)
Inductive init_run
    (memory_size memory_width no_of_inputs no_of_hiddens hidden_layers
     no_of_outputs : Z) (error_threshold : list Z) (random_seed : Z)
    (w : world) : option subsystem -> Z -> world -> Prop :=
| run_no_controller w1 :
    init_controller_object no_of_inputs no_of_outputs w = Done Pnull w1 ->
    init_run memory_size memory_width no_of_inputs no_of_hiddens hidden_layers
      no_of_outputs error_threshold random_seed w
      (Some SController) 1000 w1
| run_stages p w1 r1 w2 :
    init_controller_object no_of_inputs no_of_outputs w = Done p w1 ->
    p <> Pnull ->
    deeplearn_dnc_init_memory memory_size memory_width w1 = Done r1 w2 ->
    forall s code w',
    (if decide (to_uint r1 = 0) then
       exists r2 w3,
         deeplearn_dnc_init_memory_usage w2 = Done r2 w3 /\
         if decide (to_uint r2 = 0) then
           exists r3 w4,
             deeplearn_dnc_init_heads w3 = Done r3 w4 /\
             if decide (to_uint r3 = 0) then
               exists r4,
                 call_deeplearn_init
                   (InitArgs (controller_inputs memory_width no_of_inputs)
                      no_of_hiddens hidden_layers
                      (controller_outputs memory_width no_of_outputs)
                      error_threshold random_seed) w4 = Done r4 w' /\
                 if decide (to_uint r4 = 0)
                 then s = None /\ code = 0
                 else s = Some SController /\ code = tagged 5000 (to_uint r4)
             else s = Some SHeads /\ code = tagged 4000 (to_uint r3) /\ w' = w4
         else s = Some SUsage /\ code = tagged 3000 (to_uint r2) /\ w' = w3
     else s = Some SBank /\ code = tagged 2000 (to_uint r1) /\ w' = w2) ->
    init_run memory_size memory_width no_of_inputs no_of_hiddens hidden_layers
      no_of_outputs error_threshold random_seed w s code w'.

(** How many of the next [n] calls to malloc are served before the first one
    that fails. *)
Fixpoint served (n : nat) (plan : list bool) : nat :=
  match n, plan with
  | O, _ => O
  | S n', [] => n
  | S n', true :: rest => S (served n' rest)
  | S n', false :: _ => O
  end.

(** [n] cells holding pointers to the blocks [base], [base + 1], ... *)
Definition slots (base n : nat) : list cell :=
  (fun j => Cptr (Pblock (base + j))) <$> seq 0 n.

(** The block malloc returns for a vector of [memory.width] floats. *)
Definition fresh_vector (d : deeplearn_dnc) : object :=
  Ocells KFloat
    (replicate (Z.to_nat (to_size_t dm (m_width (memory d) * sizeof_float)
                          / sizeof_float)) Cundef).

(** The structure after [deeplearn_dnc_init_memory] has set the three
    fields of the bank. *)
Definition with_bank (d : deeplearn_dnc) (size width : Z) (address : pointer)
  : deeplearn_dnc :=
  Dnc (controller d)
      (Memory size width address (m_usage (memory d))
              (m_usage_temporal (memory d)))
      (read_head d) (write_head d) (no_of_inputs d) (no_of_outputs d).

(** Between [w] and [w'] nothing was released: no call to [free], and every
    block live in [w] is live in [w']. *)
Definition releases_nothing (w w' : world) : Prop :=
  (forall p, is_Some (deref (w_heap w) p) -> is_Some (deref (w_heap w') p))
  /\ exists evs, w_trace w' = w_trace w ++ evs
               /\ forall p, EvFree p ∉ evs.


(** [learner->memory.address[i]], and [learner->memory.address[i][j]]. *)
Definition bank_slot (w : world) (i : nat) : option cell :=
  match deref (w_heap w) (m_address (memory (w_dnc w))) with
  | Some (Ocells KPtr cells) => cells !! i
  | _ => None
  end.

Definition bank_cell (w : world) (i j : nat) : option cell :=
  match bank_slot w i with
  | Some (Cptr q) =>
      match deref (w_heap w) q with
      | Some (Ocells KFloat floats) => floats !! j
      | _ => None
      end
  | _ => None
  end.

(** The pointer a slot of the bank holds. *)
Definition slot_pointer (c : cell) : pointer :=
  match c with
  | Cptr q => q
  | _ => Pundef
  end.

(** What each subsystem has to release, in the order of its own
    deallocation function. *)
Definition bank_pointers (w : world) : list pointer :=
  match deref (w_heap w) (m_address (memory (w_dnc w))) with
  | Some (Ocells KPtr cells) =>
      slot_pointer <$> take (Z.to_nat (m_size (memory (w_dnc w)))) cells
  | _ => []
  end.

Definition write_head_pointers (r : deeplearn_dnc_write_head) : list pointer :=
  [wh_write r; wh_erase r; wh_key r].

Definition bank_releases (w : world) : list event :=
  EvFree <$> (bank_pointers w ++ [m_address (memory (w_dnc w))]).

Definition usage_releases (w : world) : list event :=
  EvFree <$> (m_usage (memory (w_dnc w))
              :: take (DEEPLEARNDNC_READ_HEADS + DEEPLEARNDNC_WRITE_HEADS)
                      (m_usage_temporal (memory (w_dnc w)))).

Definition heads_releases (w : world) : list event :=
  EvFree <$> ((rh_key <$> take DEEPLEARNDNC_READ_HEADS (read_head (w_dnc w)))
              ++ concat (write_head_pointers
                           <$> take DEEPLEARNDNC_WRITE_HEADS (write_head (w_dnc w)))).

Definition controller_releases : list event := [EvCall ReqFree].

(** The order of [deeplearn_dnc_free]. *)
Definition release_sequence (w : world) : list event :=
  bank_releases w ++ usage_releases w ++ heads_releases w
  ++ controller_releases.

(** The reverse of the allocation order: heads, usage tracker, bank,
    controller. *)
Definition reverse_release_sequence (w : world) : list event :=
  heads_releases w ++ usage_releases w ++ bank_releases w
  ++ controller_releases.

(** The pointers [deeplearn_dnc_free] hands to [free], in that order. *)
Definition release_pointers (w : world) : list pointer :=
  (bank_pointers w ++ [m_address (memory (w_dnc w))])
  ++ (m_usage (memory (w_dnc w))
      :: take (DEEPLEARNDNC_READ_HEADS + DEEPLEARNDNC_WRITE_HEADS)
              (m_usage_temporal (memory (w_dnc w))))
  ++ (rh_key <$> take DEEPLEARNDNC_READ_HEADS (read_head (w_dnc w)))
  ++ concat (write_head_pointers
               <$> take DEEPLEARNDNC_WRITE_HEADS (write_head (w_dnc w))).

(** An instance [deeplearn_dnc_free] can be called on: the array of the
    bank is readable over [memory.size] slots, every pointer to release is
    null or designates a live block, no block is listed twice, and the
    controller is a live, initialised network of its own. *)
Definition releasable (w : world) : Prop :=
  well_shaped (w_dnc w)
  /\ 0 <= m_size (memory (w_dnc w)) <= INT_MAX
  /\ Z.of_nat (DEEPLEARNDNC_READ_HEADS + DEEPLEARNDNC_WRITE_HEADS) <= INT_MAX
  /\ (exists cells,
        deref (w_heap w) (m_address (memory (w_dnc w))) = Some (Ocells KPtr cells)
        /\ (Z.to_nat (m_size (memory (w_dnc w))) <= length cells)%nat)
  /\ (forall p, p ∈ release_pointers w ->
        p = Pnull \/ is_Some (deref (w_heap w) p))
  /\ NoDup (filter (fun p => p <> Pnull) (release_pointers w))
  /\ (exists c, deref (w_heap w) (controller (w_dnc w)) = Some (Octrl (Some c)))
  /\ controller (w_dnc w) ∉ release_pointers w.

(** [w'] has the heap of [w] followed by [n] new arrays. *)
Definition grown (n : nat) (w w' : world) : Prop :=
  exists vs,
    length vs = n
    /\ Forall (fun o => exists k cells, o = Some (Ocells k cells)) vs
    /\ w_heap w' = w_heap w ++ vs.

(** The structure with one of its three arrays replaced. *)
Definition with_linkage (d : deeplearn_dnc) (a : list pointer) : deeplearn_dnc :=
  Dnc (controller d)
      (Memory (m_size (memory d)) (m_width (memory d)) (m_address (memory d))
              (m_usage (memory d)) a)
      (read_head d) (write_head d) (no_of_inputs d) (no_of_outputs d).

Definition with_read_heads (d : deeplearn_dnc)
    (a : list deeplearn_dnc_read_head) : deeplearn_dnc :=
  Dnc (controller d) (memory d) a (write_head d)
      (no_of_inputs d) (no_of_outputs d).

Definition with_write_heads (d : deeplearn_dnc)
    (a : list deeplearn_dnc_write_head) : deeplearn_dnc :=
  Dnc (controller d) (memory d) (read_head d) a
      (no_of_inputs d) (no_of_outputs d).

(** [n] write heads whose vectors are the blocks [base], [base + 1], ... in
    the order write, erase, key. *)
Fixpoint fresh_write_heads (base n : nat) : list deeplearn_dnc_write_head :=
  match n with
  | O => []
  | S n' =>
      WriteHead (Pblock base) (Pblock (base + 1)) (Pblock (base + 2))
      :: fresh_write_heads (base + 3) n'
  end.

(** The array of addresses is neither one of the vectors it lists nor the
    usage vector. *)
Definition bank_apart (w : world) : Prop :=
  forall cells,
    deref (w_heap w) (m_address (memory (w_dnc w))) = Some (Ocells KPtr cells) ->
    (Cptr (m_address (memory (w_dnc w))) ∉ cells)
    /\ m_usage (memory (w_dnc w)) <> m_address (memory (w_dnc w)).

(** The first [nbytes] bytes of the array [p] points to are zero. *)
Definition zeroed (h : list (option object)) (p : pointer) (nbytes : Z) : Prop :=
  exists k cells,
    deref h p = Some (Ocells k cells)
    /\ nbytes <= sizeof dm k * Z.of_nat (length cells)
    /\ (nbytes mod sizeof dm k) = 0
    /\ forall j, (j < Z.to_nat (nbytes / sizeof dm k))%nat ->
                 cells !! j = Some (zero_cell k).

(** [learner->memory.usage_temporal[head][j]]. *)
Definition linkage_cell (w : world) (head j : nat) : option cell :=
  match m_usage_temporal (memory (w_dnc w)) !! head with
  | Some q =>
      match deref (w_heap w) q with
      | Some (Ocells KFloat floats) => floats !! j
      | _ => None
      end
  | None => None
  end.

Definition size_of (w : world) : Z := m_size (memory (w_dnc w)).
Definition width_of (w : world) : Z := m_width (memory (w_dnc w)).

End Notions.

(** The subsystem an error code of [deeplearn_dnc_init] belongs to, by its
    range of thousands; [None] for the success code 0. *)
Definition subsystem_of_code (code : Z) : option subsystem :=
  if decide (code = 0) then None
  else if decide (2000 <= code < 3000) then Some SBank
  else if decide (3000 <= code < 4000) then Some SUsage
  else if decide (4000 <= code < 5000) then Some SHeads
  else Some SController.

(** ** Concrete builds and instances *)

(** A build with one read head, one write head and blocks of 16 addresses. *)
Definition header16 (m : data_model) : Header :=
  {| DEEPLEARNDNC_READ_HEADS := 1;
     DEEPLEARNDNC_WRITE_HEADS := 1;
     DEEPLEARNDNC_USAGE_BLOCK_SIZE := 16;
     dm := m |}.

(** A controller that records its widths and the number of requests it
    has served; its initialiser always succeeds. *)
Definition counting_library : Library :=
  {| deeplearn := Z * Z * nat;
     deeplearn_init := fun a => (0, (ia_inputs a, ia_outputs a, O));
     deeplearn_call := fun _ c => (0, (c.1, S c.2));
     deeplearn_free_releases_object := false |}.

(** The same, with an initialiser that fails with code 7. *)
Definition failing_library : Library :=
  {| deeplearn := Z * Z * nat;
     deeplearn_init := fun a => (7, (ia_inputs a, ia_outputs a, O));
     deeplearn_call := fun _ c => (0, (c.1, S c.2));
     deeplearn_free_releases_object := false |}.

(** The same, with an initialiser that fails with code -1. *)
Definition negative_library : Library :=
  {| deeplearn := Z * Z * nat;
     deeplearn_init := fun a => (-1, (ia_inputs a, ia_outputs a, O));
     deeplearn_call := fun _ c => (0, (c.1, S c.2));
     deeplearn_free_releases_object := false |}.

(** The same, with an initialiser that fails with code -5000. *)
Definition silent_library : Library :=
  {| deeplearn := Z * Z * nat;
     deeplearn_init := fun a => (-5000, (ia_inputs a, ia_outputs a, O));
     deeplearn_call := fun _ c => (0, (c.1, S c.2));
     deeplearn_free_releases_object := false |}.

(** A controller as the first one, whose [deeplearn_free] releases the
    object it is given. *)
Definition releasing_library : Library :=
  {| deeplearn := Z * Z * nat;
     deeplearn_init := fun a => (0, (ia_inputs a, ia_outputs a, O));
     deeplearn_call := fun _ c => (0, (c.1, S c.2));
     deeplearn_free_releases_object := true |}.

(** A structure nobody has written to, as a local variable is. *)
Definition blank_dnc (r w : nat) : deeplearn_dnc :=
  Dnc Pundef (Memory 0 0 Pundef Pundef (replicate (r + w) Pundef))
      (replicate r (ReadHead Pundef))
      (replicate w (WriteHead Pundef Pundef Pundef)) 0 0.

(** An empty heap, the given plan for malloc, and a blank structure. *)
Definition blank_world {lib : Library} (plan : list bool) : world :=
  World [] plan [] (blank_dnc 1 1).

(** The world a program leaves, when it leaves one. *)
Definition world_after {lib : Library} {A} (o : outcome A) (otherwise : world) : world :=
  match o with
  | Done _ w => w
  | Undefined => otherwise
  end.

(** Scenario A: 128 addresses of width 4, 10 inputs, 20 hidden units on one
    layer, 2 outputs, threshold 5.0f, seed 42; the build is ILP32 or LP64. *)
Definition scenario_a (m : data_model) : world (lib := counting_library) :=
  world_after
    (deeplearn_dnc_init (hdr := header16 m) (lib := counting_library)
       128 4 10 20 1 2 [1084227584] 42 (blank_world []))
    (blank_world []).

(** Scenario B: 20 addresses requested. *)
Definition scenario_b (m : data_model) : world (lib := counting_library) :=
  world_after
    (deeplearn_dnc_init (hdr := header16 m) (lib := counting_library)
       20 4 10 20 1 2 [1084227584] 42 (blank_world []))
    (blank_world []).

(** Scenario C: as scenario A, the fifth vector of the bank being refused
    (the controller object, the array and four vectors are served). *)
Definition scenario_c_plan : list bool :=
  true :: true :: replicate 4 true ++ false :: [].

Definition scenario_c (m : data_model) : world (lib := counting_library) :=
  world_after
    (deeplearn_dnc_init (hdr := header16 m) (lib := counting_library)
       128 4 10 20 1 2 [1084227584] 42 (blank_world scenario_c_plan))
    (blank_world scenario_c_plan).

(** One block of 16 addresses of width 2: the usage vector has one element
    and each linkage matrix one element. *)
Definition one_block (m : data_model) : world (lib := counting_library) :=
  world_after
    (deeplearn_dnc_init (hdr := header16 m) (lib := counting_library)
       16 2 10 20 1 2 [1084227584] 42 (blank_world []))
    (blank_world []).

(** * Properties *)

Section Properties.

Context {hdr : Header} {lib : Library}.

#[local] Abbreviation READ_HEADS := (Z.of_nat DEEPLEARNDNC_READ_HEADS).
#[local] Abbreviation WRITE_HEADS := (Z.of_nat DEEPLEARNDNC_WRITE_HEADS).
#[local] Abbreviation BLOCK := DEEPLEARNDNC_USAGE_BLOCK_SIZE.

(** ** The monad *)

Lemma bind_eq {A B} (m : prog A) (f : A -> prog B) w :
  (m ≫= f) w = match m w with Done a w' => f a w' | Undefined => Undefined end.
Proof. reflexivity. Qed.

Lemma bind_done {A B} (m : prog A) (f : A -> prog B) w a w' :
  m w = Done a w' -> (m ≫= f) w = f a w'.
Proof. intros E. rewrite bind_eq, E. reflexivity. Qed.

Lemma bind_undefined {A B} (m : prog A) (f : A -> prog B) w :
  m w = Undefined -> (m ≫= f) w = Undefined.
Proof. intros E. rewrite bind_eq, E. reflexivity. Qed.

Lemma bind_inv {A B} (m : prog A) (f : A -> prog B) w b w2 :
  (m ≫= f) w = Done b w2 ->
  exists a w1, m w = Done a w1 /\ f a w1 = Done b w2.
Proof.
  rewrite bind_eq. destruct (m w) as [a w1|] eqn:E; [|discriminate].
  intros E'. exists a, w1. auto.
Qed.

Lemma bind_assoc {A B C} (m : prog A) (f : A -> prog B) (g : B -> prog C) w :
  ((m ≫= f) ≫= g) w = (m ≫= (fun a => f a ≫= g)) w.
Proof. rewrite !bind_eq. destruct (m w); reflexivity. Qed.

(** ** Frames: what a program leaves related *)

(** [frame R m]: whenever [m] returns, the worlds before and after are
    related by [R]. *)
Definition frame {A} (R : relation world) (m : prog A) : Prop :=
  forall w a w', m w = Done a w' -> R w w'.

Lemma frame_ret {A} (R : relation world) `{!Reflexive R} (a : A) :
  frame R (mret a).
Proof. intros w a' w' E. inversion E. subst. reflexivity. Qed.

Lemma frame_undefined {A} (R : relation world) : frame R (@undefined lib A).
Proof. intros w a w' E. discriminate. Qed.

Lemma frame_bind {A B} (R : relation world) `{!Transitive R}
    (m : prog A) (f : A -> prog B) :
  frame R m -> (forall a, frame R (f a)) -> frame R (m ≫= f).
Proof.
  intros Hm Hf w b w2 E. apply bind_inv in E as (a & w1 & E1 & E2).
  transitivity w1; [eapply Hm | eapply Hf]; eassumption.
Qed.

Lemma frame_for_loop {X} (R : relation world) `{!PreOrder R} n i
    (body : Z -> prog (option X)) :
  (forall j, frame R (body j)) -> frame R (for_loop n i body).
Proof.
  intros Hb. revert i. induction n as [|n IH]; intros i; simpl.
  - apply frame_ret; apply _.
  - apply frame_bind; [apply _ | apply Hb |].
    intros [x|].
    + apply frame_ret; apply _.
    + destruct (i <? INT_MAX); [apply IH | apply frame_undefined].
Qed.

Lemma frame_for_each (R : relation world) `{!PreOrder R} n
    (body : Z -> prog unit) :
  (forall j, frame R (body j)) -> frame R (for_each n body).
Proof.
  intros Hb. unfold for_each.
  apply frame_bind; [apply _ | | intros; apply frame_ret; apply _].
  apply frame_for_loop; [apply _ |].
  intros j. apply frame_bind; [apply _ | apply Hb |].
  intros; apply frame_ret; apply _.
Qed.

(** Structural steps of a frame proof. *)
Ltac frame_step :=
  lazymatch goal with
  | |- frame _ (mret _) => apply frame_ret; apply _
  | |- frame _ undefined => apply frame_undefined
  | |- frame _ (mbind _ _) => apply frame_bind; [apply _ | | intros ?]
  | |- frame _ (for_loop _ _ _) => apply frame_for_loop; [apply _ | intros ?]
  | |- frame _ (for_each _ _) => apply frame_for_each; [apply _ | intros ?]
  | |- frame _ (or_else ?r _) => destruct r; simpl
  | |- frame _ (match ?x with _ => _ end) => destruct x
  end.

(** A primitive is run on a world in constructor form. *)
Ltac run_prim E :=
  cbv [malloc malloc_object free load_ptr store_ptr memset_zero
       memset_usage_temporal call_deeplearn_init call_deeplearn
       set_size set_width set_address set_usage set_memory
       set_usage_temporal get_usage_temporal set_controller
       set_no_of_inputs set_no_of_outputs get_read_head set_read_head
       get_write_head set_write_head malloc_vector write_cells
       get_dnc put_dnc get_heap put_heap emit undefined
       mbind mret prog_bind prog_ret] in E;
  cbn [w_heap w_plan w_trace w_dnc] in E;
  repeat (case_match; try discriminate);
  simplify_eq.

Ltac frame_prim :=
  let E := fresh "E" in
  intros [? ? ? ?] ? ? E; run_prim E.

(** *** The bank's dimensions *)

Definition same_dims : relation world := fun w w' =>
  size_of w' = size_of w /\ width_of w' = width_of w.

#[local] Instance same_dims_preorder : PreOrder same_dims.
Proof.
  split.
  - intros w. split; reflexivity.
  - intros w1 w2 w3 [? ?] [? ?]. split; congruence.
Qed.

Lemma same_dims_heap h p t d h' p' t' : 
  same_dims (World h p t d) (World h' p' t' d).
Proof. split; reflexivity. Qed.

Lemma malloc_dims k n : frame same_dims (malloc k n).
Proof. frame_prim; apply same_dims_heap. Qed.
Lemma malloc_object_dims o : frame same_dims (malloc_object o).
Proof. frame_prim; apply same_dims_heap. Qed.
Lemma malloc_vector_dims : frame same_dims malloc_vector.
Proof. frame_prim; apply same_dims_heap. Qed.
Lemma free_dims p : frame same_dims (free p).
Proof. frame_prim; apply same_dims_heap. Qed.
Lemma load_ptr_dims p i : frame same_dims (load_ptr p i).
Proof. frame_prim; apply same_dims_heap. Qed.
Lemma store_ptr_dims p i q : frame same_dims (store_ptr p i q).
Proof. frame_prim; apply same_dims_heap. Qed.
Lemma memset_zero_dims p n : frame same_dims (memset_zero p n).
Proof. frame_prim; apply same_dims_heap. Qed.
Lemma write_cells_dims p c : frame same_dims (write_cells p c).
Proof. frame_prim; apply same_dims_heap. Qed.
Lemma call_deeplearn_init_dims a : frame same_dims (call_deeplearn_init a).
Proof. frame_prim; apply same_dims_heap. Qed.
Lemma call_deeplearn_dims r : frame same_dims (call_deeplearn r).
Proof. frame_prim; apply same_dims_heap. Qed.
Lemma get_dnc_dims : frame same_dims get_dnc.
Proof. frame_prim; apply same_dims_heap. Qed.
Lemma memset_usage_temporal_dims n : frame same_dims (memset_usage_temporal n).
Proof. frame_prim; split; reflexivity. Qed.
Lemma set_usage_dims p : frame same_dims (set_usage p).
Proof. frame_prim; split; reflexivity. Qed.
Lemma set_usage_temporal_dims i p : frame same_dims (set_usage_temporal i p).
Proof. frame_prim; split; reflexivity. Qed.
Lemma get_usage_temporal_dims i : frame same_dims (get_usage_temporal i).
Proof. frame_prim; split; reflexivity. Qed.
Lemma get_read_head_dims i : frame same_dims (get_read_head i).
Proof. frame_prim; split; reflexivity. Qed.
Lemma set_read_head_dims i r : frame same_dims (set_read_head i r).
Proof. frame_prim; split; reflexivity. Qed.
Lemma get_write_head_dims i : frame same_dims (get_write_head i).
Proof. frame_prim; split; reflexivity. Qed.
Lemma set_write_head_dims i f : frame same_dims (set_write_head i f).
Proof. frame_prim; split; reflexivity. Qed.

Create HintDb dims discriminated.
#[local] Hint Resolve malloc_dims malloc_object_dims malloc_vector_dims
  free_dims load_ptr_dims store_ptr_dims memset_zero_dims write_cells_dims
  call_deeplearn_init_dims call_deeplearn_dims get_dnc_dims
  memset_usage_temporal_dims set_usage_dims set_usage_temporal_dims
  get_usage_temporal_dims get_read_head_dims set_read_head_dims
  get_write_head_dims set_write_head_dims : dims.

Ltac frame_dims := repeat (first [solve [auto with dims] | frame_step]).

Lemma init_memory_usage_dims : frame same_dims deeplearn_dnc_init_memory_usage.
Proof. unfold deeplearn_dnc_init_memory_usage. frame_dims. Qed.

Lemma init_heads_dims : frame same_dims deeplearn_dnc_init_heads.
Proof. unfold deeplearn_dnc_init_heads. frame_dims. Qed.

Lemma free_memory_dims : frame same_dims deeplearn_dnc_free_memory.
Proof. unfold deeplearn_dnc_free_memory. frame_dims. Qed.

Lemma free_memory_usage_dims : frame same_dims deeplearn_dnc_free_memory_usage.
Proof. unfold deeplearn_dnc_free_memory_usage. frame_dims. Qed.

Lemma free_heads_dims : frame same_dims deeplearn_dnc_free_heads.
Proof. unfold deeplearn_dnc_free_heads. frame_dims. Qed.

#[local] Hint Resolve init_memory_usage_dims init_heads_dims free_memory_dims
  free_memory_usage_dims free_heads_dims : dims.

Lemma free_dnc_dims : frame same_dims deeplearn_dnc_free.
Proof. unfold deeplearn_dnc_free. frame_dims. Qed.

Lemma clear_memory_dims : frame same_dims deeplearn_dnc_clear_memory.
Proof. unfold deeplearn_dnc_clear_memory. frame_dims. Qed.

Lemma feed_forward_dims : frame same_dims deeplearn_dnc_feed_forward.
Proof.
  unfold deeplearn_dnc_feed_forward, deeplearn_dnc_update_read_heads.
  frame_dims.
Qed.

Lemma update_dims : frame same_dims deeplearn_dnc_update.
Proof. unfold deeplearn_dnc_update. frame_dims. Qed.

#[local] Hint Resolve free_dnc_dims clear_memory_dims feed_forward_dims
  update_dims : dims.

Lemma run_operation_dims o : frame same_dims (run_operation o).
Proof.
  destruct o; simpl; auto with dims.
  - apply frame_ret; apply _.
  - apply frame_ret; apply _.
  - frame_dims.
Qed.

Lemma run_operations_dims os : frame same_dims (run_operations os).
Proof.
  induction os as [|o os IH]; simpl.
  - apply frame_ret; apply _.
  - apply frame_bind; [apply _ | apply run_operation_dims | intros; apply IH].
Qed.

(** ** Machine arithmetic on values in range *)

Lemma to_uint_small x : 0 <= x < UINT_MOD -> to_uint x = x.
Proof. intros Hx. unfold to_uint. apply Z.mod_small. exact Hx. Qed.

Lemma to_int_small x : 0 <= x <= INT_MAX -> to_int x = x.
Proof.
  intros Hx. unfold to_int, UINT_MOD, INT_MAX in *.
  rewrite Z.mod_small by lia.
  destruct (x <=? 2147483647) eqn:E; [reflexivity | lia].
Qed.

Lemma int_div_nonneg a b :
  0 <= a <= INT_MAX -> 0 < b -> int_div a b = a / b.
Proof.
  intros Ha Hb. unfold int_div.
  rewrite Z.quot_div_nonneg by lia.
  apply to_int_small. split.
  - apply Z.div_pos; lia.
  - transitivity a; [|lia]. apply Z.div_le_upper_bound; nia.
Qed.

(** The rounding of [deeplearn_dnc_init_memory]. *)
Definition rounded_size (memory_size : Z) : Z :=
  to_uint (int_mul (int_div memory_size BLOCK) BLOCK).

Lemma rounded_size_eq ms :
  0 < BLOCK -> 0 <= ms <= INT_MAX -> rounded_size ms = ms / BLOCK * BLOCK.
Proof.
  intros HB Hms. unfold rounded_size, int_mul.
  rewrite int_div_nonneg by lia.
  assert (0 <= ms / BLOCK) by (apply Z.div_pos; lia).
  assert (ms / BLOCK * BLOCK <= ms)
    by (rewrite Z.mul_comm; apply Z.mul_div_le; lia).
  rewrite to_int_small by nia.
  apply to_uint_small. unfold UINT_MOD, INT_MAX in *. nia.
Qed.

Lemma init_memory_dims ms mw w r w' :
  deeplearn_dnc_init_memory ms mw w = Done r w' ->
  size_of w' = rounded_size ms /\ width_of w' = to_uint mw.
Proof.
  unfold deeplearn_dnc_init_memory. intros E.
  apply bind_inv in E as (? & w1 & E1 & E).
  apply bind_inv in E as (? & w2 & E2 & E).
  assert (frame same_dims
    (d ← get_dnc;
     p ← malloc KPtr (to_size_t dm (m_size (memory d) * sizeof_ptr dm));
     set_address p;;
     if decide (p = Pnull) then mret 1 else
     r ← for_loop (Z.to_nat (m_size (memory d))) 0 (fun i =>
           d ← get_dnc;
           q ← malloc KFloat (to_size_t dm (m_width (memory d) * sizeof_float));
           store_ptr (m_address (memory d)) i q;;
           if decide (q = Pnull) then mret (Some 2) else mret None);
     or_else r (mret 0))) as Hrest.
  { assert (forall p, frame same_dims (set_address p))
      by (intros; frame_prim; split; reflexivity).
    frame_dims. }
  apply Hrest in E as [Es Ew].
  destruct w as [h p t d].
  run_prim E1. run_prim E2.
  rewrite Es, Ew. split; reflexivity.
Qed.


(** ** The shape of a run of the initialisation *)

Lemma init_run_iff ms mw ni nh hl no et seed w code w' :
  deeplearn_dnc_init ms mw ni nh hl no et seed w = Done code w' <->
  exists s, init_run ms mw ni nh hl no et seed w s code w'.
Proof.
  unfold deeplearn_dnc_init. split.
  - intros E.
    apply bind_inv in E as ([] & wa & Ea & E).
    apply bind_inv in E as ([] & wb & Eb & E).
    apply bind_inv in E as (p & wc & Ec & E).
    apply bind_inv in E as ([] & w1 & Ed & E).
    assert (init_controller_object ni no w = Done p w1) as Ep.
    { unfold init_controller_object.
      rewrite (bind_done _ _ _ _ _ Ea), (bind_done _ _ _ _ _ Eb),
        (bind_done _ _ _ _ _ Ec), (bind_done _ _ _ _ _ Ed). reflexivity. }
    destruct (decide (p = Pnull)) as [->|Hp].
    { inversion E; subst. eexists. apply run_no_controller. exact Ep. }
    apply bind_inv in E as (r1 & w2 & E1 & E). cbv zeta in E.
    assert (exists s,
      if decide (to_uint r1 = 0) then
       exists r2 w3,
         deeplearn_dnc_init_memory_usage w2 = Done r2 w3 /\
         if decide (to_uint r2 = 0) then
           exists r3 w4,
             deeplearn_dnc_init_heads w3 = Done r3 w4 /\
             if decide (to_uint r3 = 0) then
               exists r4,
                 call_deeplearn_init
                   (InitArgs (controller_inputs mw ni) nh hl
                      (controller_outputs mw no) et seed) w4 = Done r4 w' /\
                 if decide (to_uint r4 = 0)
                 then s = None /\ code = 0
                 else s = Some SController /\ code = tagged 5000 (to_uint r4)
             else s = Some SHeads /\ code = tagged 4000 (to_uint r3) /\ w' = w4
         else s = Some SUsage /\ code = tagged 3000 (to_uint r2) /\ w' = w3
     else s = Some SBank /\ code = tagged 2000 (to_uint r1) /\ w' = w2) as [s Hs].
    { destruct (decide (to_uint r1 = 0)) as [Z1|N1].
      2:{ rewrite decide_True in E by exact N1. inversion E; subst.
          exists (Some SBank). auto. }
      rewrite decide_False in E by tauto.
      apply bind_inv in E as (r2 & w3 & E2 & E). cbv zeta in E.
      destruct (decide (to_uint r2 = 0)) as [Z2|N2] eqn:D2.
      2:{ rewrite decide_True in E by exact N2. inversion E; subst.
          exists (Some SUsage), r2, w'. rewrite D2. auto. }
      rewrite decide_False in E by tauto.
      apply bind_inv in E as (r3 & w4 & E3 & E). cbv zeta in E.
      destruct (decide (to_uint r3 = 0)) as [Z3|N3] eqn:D3.
      2:{ rewrite decide_True in E by exact N3. inversion E; subst.
          exists (Some SHeads), r2, w3. rewrite D2. split; [exact E2|].
          exists r3, w'. rewrite D3. auto. }
      rewrite decide_False in E by tauto.
      apply bind_inv in E as (r4 & w5 & E4 & E). cbv zeta in E.
      destruct (decide (to_uint r4 = 0)) as [Z4|N4] eqn:D4.
      - rewrite decide_False in E by tauto. inversion E; subst.
        exists None, r2, w3. rewrite D2. split; [exact E2|].
        exists r3, w4. rewrite D3. split; [exact E3|].
        exists r4. rewrite D4. auto.
      - rewrite decide_True in E by exact N4. inversion E; subst.
        exists (Some SController), r2, w3. rewrite D2. split; [exact E2|].
        exists r3, w4. rewrite D3. split; [exact E3|].
        exists r4. rewrite D4. auto. }
    exists s. eapply run_stages; eassumption.
  - intros [s Hr]. destruct Hr as [w1 Ep | p w1 r1 w2 Ep Hp E1 s code w' Hs].
    + unfold init_controller_object in Ep.
      apply bind_inv in Ep as ([] & wa & Ea & Ep).
      apply bind_inv in Ep as ([] & wb & Eb & Ep).
      apply bind_inv in Ep as (p & wc & Ec & Ep).
      apply bind_inv in Ep as ([] & wd & Ed & Ep).
      inversion Ep; subst.
      rewrite (bind_done _ _ _ _ _ Ea), (bind_done _ _ _ _ _ Eb),
        (bind_done _ _ _ _ _ Ec), (bind_done _ _ _ _ _ Ed).
      reflexivity.
    + unfold init_controller_object in Ep.
      apply bind_inv in Ep as ([] & wa & Ea & Ep).
      apply bind_inv in Ep as ([] & wb & Eb & Ep).
      apply bind_inv in Ep as (p' & wc & Ec & Ep).
      apply bind_inv in Ep as ([] & wd & Ed & Ep).
      inversion Ep; subst.
      rewrite (bind_done _ _ _ _ _ Ea), (bind_done _ _ _ _ _ Eb),
        (bind_done _ _ _ _ _ Ec), (bind_done _ _ _ _ _ Ed).
      rewrite decide_False by exact Hp.
      rewrite (bind_done _ _ _ _ _ E1). cbv zeta.
      destruct (decide (to_uint r1 = 0)) as [Z1|N1].
      2:{ destruct Hs as (-> & -> & ->). rewrite decide_True by exact N1.
          reflexivity. }
      rewrite decide_False by tauto.
      destruct Hs as (r2 & w3 & E2 & Hs).
      rewrite (bind_done _ _ _ _ _ E2). cbv zeta.
      destruct (decide (to_uint r2 = 0)) as [Z2|N2].
      2:{ destruct Hs as (-> & -> & ->). rewrite decide_True by exact N2.
          reflexivity. }
      rewrite decide_False by tauto.
      destruct Hs as (r3 & w4 & E3 & Hs).
      rewrite (bind_done _ _ _ _ _ E3). cbv zeta.
      destruct (decide (to_uint r3 = 0)) as [Z3|N3].
      2:{ destruct Hs as (-> & -> & ->). rewrite decide_True by exact N3.
          reflexivity. }
      rewrite decide_False by tauto.
      destruct Hs as (r4 & E4 & Hs).
      rewrite (bind_done _ _ _ _ _ E4). cbv zeta.
      destruct (decide (to_uint r4 = 0)) as [Z4|N4].
      * destruct Hs as (-> & ->). rewrite decide_False by tauto. reflexivity.
      * destruct Hs as (-> & ->). rewrite decide_True by exact N4. reflexivity.
Qed.

(** ** The values the stages return *)

Lemma for_loop_returns {X} (P : X -> Prop) n i (body : Z -> prog (option X)) :
  (forall j w x w', body j w = Done (Some x) w' -> P x) ->
  forall w x w', for_loop n i body w = Done (Some x) w' -> P x.
Proof.
  intros Hb. revert i. induction n as [|n IH]; intros i w x w' E; simpl in E.
  - inversion E.
  - apply bind_inv in E as ([y|] & w1 & E1 & E).
    + inversion E; subst. eapply Hb; eassumption.
    + destruct (i <? INT_MAX); [eapply IH; eassumption | inversion E].
Qed.

Lemma init_memory_returns ms mw w r w' :
  deeplearn_dnc_init_memory ms mw w = Done r w' -> r = 0 \/ r = 1 \/ r = 2.
Proof.
  unfold deeplearn_dnc_init_memory. intros E.
  apply bind_inv in E as (? & ? & _ & E).
  apply bind_inv in E as (? & ? & _ & E).
  apply bind_inv in E as (d & ? & _ & E).
  apply bind_inv in E as (p & ? & _ & E).
  apply bind_inv in E as (? & ? & _ & E).
  destruct (decide (p = Pnull)); [inversion E; auto|].
  apply bind_inv in E as ([rl|] & ? & El & E); inversion E; subst; auto.
  right; right. revert El. apply (for_loop_returns (fun x => x = 2)).
  clear. intros j w x w' E.
  apply bind_inv in E as (d & ? & _ & E).
  apply bind_inv in E as (q & ? & _ & E).
  apply bind_inv in E as (? & ? & _ & E).
  destruct (decide (q = Pnull)); inversion E; reflexivity.
Qed.

Lemma init_memory_usage_returns w r w' :
  deeplearn_dnc_init_memory_usage w = Done r w' -> r = 0 \/ r = 1 \/ r = 2.
Proof.
  unfold deeplearn_dnc_init_memory_usage. intros E.
  apply bind_inv in E as (d & ? & _ & E).
  apply bind_inv in E as (p & ? & _ & E).
  apply bind_inv in E as (? & ? & _ & E).
  destruct (decide (p = Pnull)); [inversion E; auto|].
  apply bind_inv in E as ([rl|] & ? & El & E); inversion E; subst; auto.
  right; right. revert El. apply (for_loop_returns (fun x => x = 2)).
  clear. intros j w x w' E.
  apply bind_inv in E as (q & ? & _ & E).
  apply bind_inv in E as (? & ? & _ & E).
  destruct (decide (q = Pnull)); inversion E; reflexivity.
Qed.

Lemma init_heads_returns w r w' :
  deeplearn_dnc_init_heads w = Done r w' -> 0 <= r <= 4.
Proof.
  unfold deeplearn_dnc_init_heads. intros E.
  apply bind_inv in E as ([rl|] & ? & El & E); simpl in E.
  { inversion E; subst. enough (r = 1) by lia.
    revert El. apply (for_loop_returns (fun x => x = 1)).
    clear. intros j w x w' E.
    apply bind_inv in E as (q & ? & _ & E).
    apply bind_inv in E as (? & ? & _ & E).
    destruct (decide (q = Pnull)); inversion E; reflexivity. }
  apply bind_inv in E as ([rl|] & ? & El' & E); inversion E; subst; [|lia].
  enough (r = 2 \/ r = 3 \/ r = 4) by lia.
  revert El'. apply (for_loop_returns (fun x => x = 2 \/ x = 3 \/ x = 4)).
  clear. intros j w x w' E.
  apply bind_inv in E as (q & ? & _ & E).
  apply bind_inv in E as (? & ? & _ & E).
  destruct (decide (q = Pnull)); [inversion E; auto|].
  apply bind_inv in E as (q' & ? & _ & E).
  apply bind_inv in E as (? & ? & _ & E).
  destruct (decide (q' = Pnull)); [inversion E; auto|].
  apply bind_inv in E as (q'' & ? & _ & E).
  apply bind_inv in E as (? & ? & _ & E).
  destruct (decide (q'' = Pnull)); inversion E; auto.
Qed.

Lemma tagged_small base r :
  0 <= base -> 0 <= r -> base + r <= INT_MAX -> tagged base (to_uint r) = base + r.
Proof.
  intros Hb Hr Hs. unfold tagged, uint_add.
  assert (INT_MAX < UINT_MOD) by (unfold INT_MAX, UINT_MOD; lia).
  rewrite (to_uint_small r) by lia. rewrite to_uint_small by lia.
  apply to_int_small. lia.
Qed.

(** ** C1: the dimensions of the bank after a successful initialisation *)

Lemma init_run_dims ms mw ni nh hl no et seed w s code w' :
  init_run ms mw ni nh hl no et seed w s code w' ->
  code <> 1000 ->
  size_of w' = rounded_size ms /\ width_of w' = to_uint mw.
Proof.
  intros [w1 Ep | p w1 r1 w2 Ep Hp E1 s' code' w'' Hs] Hc; [congruence|].
  destruct (init_memory_dims _ _ _ _ _ E1) as [Es Ew].
  enough (same_dims w2 w'') as [-> ->] by auto.
  destruct (decide (to_uint r1 = 0)).
  2:{ destruct Hs as (_ & _ & ->). reflexivity. }
  destruct Hs as (r2 & w3 & E2 & Hs).
  transitivity w3; [eapply init_memory_usage_dims; eassumption|].
  destruct (decide (to_uint r2 = 0)).
  2:{ destruct Hs as (_ & _ & ->). reflexivity. }
  destruct Hs as (r3 & w4 & E3 & Hs).
  transitivity w4; [eapply init_heads_dims; eassumption|].
  destruct (decide (to_uint r3 = 0)).
  2:{ destruct Hs as (_ & _ & ->). reflexivity. }
  destruct Hs as (r4 & E4 & Hs).
  eapply call_deeplearn_init_dims; eassumption.
Qed.

(** C1.  After a successful [deeplearn_dnc_init] with
    [memory_size >= DEEPLEARNDNC_USAGE_BLOCK_SIZE], [memory.size] is the
    largest multiple of the block size not exceeding [memory_size], and
    [memory.width] is [memory_width]. *)
Theorem init_bank_dimensions ms mw ni nh hl no et seed w w' :
  0 < BLOCK ->
  BLOCK <= ms <= INT_MAX ->
  0 <= mw <= INT_MAX ->
  deeplearn_dnc_init ms mw ni nh hl no et seed w = Done 0 w' ->
  (BLOCK | size_of w')
  /\ size_of w' <= ms
  /\ (forall m, (BLOCK | m) -> m <= ms -> m <= size_of w')
  /\ width_of w' = mw.
Proof.
  intros HB Hms Hmw E.
  apply init_run_iff in E as [s Hr].
  apply init_run_dims in Hr as [Es Ew]; [|discriminate].
  rewrite Es, Ew, rounded_size_eq by lia.
  assert (INT_MAX < UINT_MOD) by (unfold INT_MAX, UINT_MOD; lia).
  repeat split.
  - exists (ms / BLOCK). reflexivity.
  - rewrite Z.mul_comm. apply Z.mul_div_le. lia.
  - intros m [k ->] Hle.
    apply Z.mul_le_mono_nonneg_r; [lia|].
    apply Z.div_le_lower_bound; lia.
  - apply to_uint_small. lia.
Qed.

(** C10.  No operation on an initialised instance changes [memory.size] or
    [memory.width]: whatever sequence of operations a client runs, the
    dimensions of the bank are those left by the initialisation. *)
Theorem bank_dimensions_invariant os w w' :
  run_operations os w = Done tt w' ->
  size_of w' = size_of w /\ width_of w' = width_of w.
Proof. apply run_operations_dims. Qed.

(** ** C7: the heads are placeholders *)

Lemma deref_insert_ne (h : list (option object)) b o p :
  p <> Pblock b -> deref (<[b := o]> h) p = deref h p.
Proof.
  intros Hp. destruct p as [| |b']; try reflexivity. simpl.
  rewrite list_lookup_insert_ne; [reflexivity | congruence].
Qed.

Lemma deref_insert_eq (h : list (option object)) b o o' :
  deref h (Pblock b) = Some o' -> deref (<[b := Some o]> h) (Pblock b) = Some o.
Proof.
  simpl. intros E. rewrite list_lookup_insert_eq; [reflexivity|].
  destruct (h !! b) eqn:Eb; [|discriminate].
  eapply lookup_lt_Some; eassumption.
Qed.

Lemma deref_insert_same (h : list (option object)) b o o' :
  deref h (Pblock b) = Some o' -> deref (<[b := o]> h) (Pblock b) = o.
Proof.
  simpl. intros E. rewrite list_lookup_insert_eq.
  - destruct o; reflexivity.
  - destruct (h !! b) eqn:Eb; [|discriminate].
    eapply lookup_lt_Some; eassumption.
Qed.

(** Only the controller object may differ. *)
Definition controller_only : relation world := fun w w' =>
  w_dnc w' = w_dnc w
  /\ w_plan w' = w_plan w
  /\ forall p, p <> controller (w_dnc w) ->
       deref (w_heap w') p = deref (w_heap w) p.

#[local] Instance controller_only_preorder : PreOrder controller_only.
Proof.
  split.
  - intros w. repeat split.
  - intros w1 w2 w3 (D1 & P1 & H1) (D2 & P2 & H2). repeat split.
    + congruence.
    + congruence.
    + intros p Hp. rewrite H2, H1; [reflexivity | exact Hp | congruence].
Qed.

Lemma call_deeplearn_controller_only r : frame controller_only (call_deeplearn r).
Proof.
  frame_prim. repeat split; cbn.
  intros p Hp. apply deref_insert_ne. congruence.
Qed.

Lemma feed_forward_eq w :
  deeplearn_dnc_feed_forward w = (call_deeplearn ReqFeedForward;; mret tt) w.
Proof. reflexivity. Qed.

Lemma feed_forward_controller_only : frame controller_only deeplearn_dnc_feed_forward.
Proof.
  unfold deeplearn_dnc_feed_forward, deeplearn_dnc_update_read_heads.
  repeat frame_step. apply call_deeplearn_controller_only.
Qed.

Lemma feed_forward_repeat n :
  frame controller_only (run_operations (replicate n OpFeedForward)).
Proof.
  induction n as [|n IH]; simpl.
  - frame_step.
  - frame_step; [apply feed_forward_controller_only | apply IH].
Qed.

Lemma call_deeplearn_run r h pl t d :
  call_deeplearn r (World h pl t d)
  = match controller d, deref h (controller d) with
    | Pblock b, Some (Octrl (Some c)) =>
        Done (deeplearn_call r c).1
             (World (<[b := controller_after r (deeplearn_call r c).2]> h)
                    pl (t ++ [EvCall r]) d)
    | _, _ => Undefined
    end.
Proof.
  cbv [call_deeplearn get_dnc put_dnc get_heap put_heap emit undefined
       mbind mret prog_bind prog_ret].
  cbn [w_heap w_plan w_trace w_dnc].
  repeat case_match; simplify_eq; reflexivity.
Qed.

Lemma write_cells_run p cells h pl t d :
  write_cells p cells (World h pl t d)
  = match p, deref h p with
    | Pblock b, Some (Ocells k old) =>
        if decide (length cells = length old)
        then Done tt (World (<[b := Some (Ocells k cells)]> h) pl t d)
        else Undefined
    | _, _ => Undefined
    end.
Proof.
  cbv [write_cells get_dnc put_dnc get_heap put_heap emit undefined
       mbind mret prog_bind prog_ret].
  cbn [w_heap w_plan w_trace w_dnc].
  repeat case_match; simplify_eq; reflexivity.
Qed.

Lemma write_cells_then_call p cells r w :
  (write_cells p cells;; call_deeplearn r) w
  = (v ← call_deeplearn r; write_cells p cells;; mret v) w.
Proof.
  destruct w as [h pl t d].
  rewrite !bind_eq, write_cells_run, call_deeplearn_run.
  destruct (controller d) as [| |bc] eqn:Ec.
  1,2: destruct p as [| |b]; try reflexivity;
       destruct (deref h (Pblock b)) as [[k old|c]|]; try reflexivity;
       destruct (decide (length cells = length old)); try reflexivity;
       rewrite call_deeplearn_run, Ec; reflexivity.
  destruct (decide (p = Pblock bc)) as [->|Hp].
  - destruct (deref h (Pblock bc)) as [[k old|[c|]]|] eqn:Eo; try reflexivity.
    + destruct (decide (length cells = length old)); [|reflexivity].
      rewrite call_deeplearn_run, Ec, (deref_insert_eq _ _ _ _ Eo). reflexivity.
    + rewrite bind_eq, write_cells_run, (deref_insert_same _ _ _ _ Eo).
      unfold controller_after.
      destruct r; try reflexivity.
      destruct deeplearn_free_releases_object; reflexivity.
  - assert (forall o, deref (<[bc := o]> h) p = deref h p) as Hbc
      by (intros; apply deref_insert_ne; exact Hp).
    destruct p as [| |b].
    + destruct (deref h (Pblock bc)) as [[k old|[c|]]|]; reflexivity.
    + destruct (deref h (Pblock bc)) as [[k old|[c|]]|]; reflexivity.
    + assert (b <> bc) as Hb by congruence.
      assert (forall o, deref (<[b := o]> h) (Pblock bc) = deref h (Pblock bc))
        as Hbb by (intros; apply deref_insert_ne; congruence).
      destruct (deref h (Pblock b)) as [[k old|c0]|] eqn:Eb.
      * destruct (decide (length cells = length old)).
        -- rewrite call_deeplearn_run, Ec, Hbb.
           destruct (deref h (Pblock bc)) as [[k' old'|[c|]]|]; try reflexivity.
           rewrite bind_eq, write_cells_run, Hbc.
           rewrite decide_True by assumption.
           rewrite list_insert_insert_ne by congruence. reflexivity.
        -- destruct (deref h (Pblock bc)) as [[k' old'|[c|]]|]; try reflexivity.
           rewrite bind_eq, write_cells_run, Hbc.
           rewrite decide_False by assumption. reflexivity.
      * destruct (deref h (Pblock bc)) as [[k' old'|[c|]]|]; try reflexivity.
        rewrite bind_eq, write_cells_run, Hbc. reflexivity.
      * destruct (deref h (Pblock bc)) as [[k' old'|[c|]]|]; try reflexivity.
        rewrite bind_eq, write_cells_run, Hbc. reflexivity.
Qed.

(** C7.  [deeplearn_dnc_update_read_heads] and
    [deeplearn_dnc_update_write_heads] change nothing;
    [deeplearn_dnc_feed_forward] is the controller's feed-forward alone; any
    number of calls leaves the structure and every block but the controller
    object as they were; and writing new contents into a head's key (or any
    other array) before a call has the same effect as writing them after
    it, so the step does not depend on them. *)
Theorem feed_forward_ignores_heads w :
  deeplearn_dnc_update_read_heads w = Done tt w
  /\ deeplearn_dnc_update_write_heads w = Done tt w
  /\ deeplearn_dnc_feed_forward w = (call_deeplearn ReqFeedForward;; mret tt) w
  /\ (forall n w',
        run_operations (replicate n OpFeedForward) w = Done tt w' ->
        w_dnc w' = w_dnc w
        /\ forall p, p <> controller (w_dnc w) ->
             deref (w_heap w') p = deref (w_heap w) p)
  /\ (forall p cells,
        (write_cells p cells;; deeplearn_dnc_feed_forward) w
        = (deeplearn_dnc_feed_forward;; write_cells p cells) w).
Proof.
  split; [reflexivity|]. split; [reflexivity|]. split; [reflexivity|]. split.
  - intros n w' E. apply (feed_forward_repeat n) in E as (Hd & _ & Hh). auto.
  - intros p cells.
    change ((write_cells p cells;; (call_deeplearn ReqFeedForward;; mret tt)) w
            = ((call_deeplearn ReqFeedForward;; mret tt);; write_cells p cells) w).
    rewrite <- bind_assoc.
    rewrite (bind_eq (write_cells p cells;; call_deeplearn ReqFeedForward)).
    rewrite write_cells_then_call.
    rewrite (bind_eq (call_deeplearn ReqFeedForward;; mret tt)).
    rewrite !(bind_eq (call_deeplearn ReqFeedForward)).
    destruct (call_deeplearn ReqFeedForward w) as [v w1|]; [|reflexivity].
    rewrite bind_eq. simpl.
    destruct (write_cells p cells w1) as [[] w2|]; reflexivity.
Qed.

(** ** What the stages of the initialisation leave alone *)

Lemma deref_app_live (h : list (option object)) l p :
  is_Some (deref h p) -> deref (h ++ l) p = deref h p.
Proof.
  destruct p as [| |b]; simpl; try reflexivity.
  intros [o Ho]. destruct (h !! b) as [x|] eqn:E; [|discriminate].
  rewrite (lookup_app_l_Some _ _ _ _ E). reflexivity.
Qed.

Lemma deref_insert_live (h : list (option object)) b o p :
  is_Some (deref h p) -> is_Some (deref (<[b := Some o]> h) p).
Proof.
  intros Hp. destruct (decide (p = Pblock b)) as [->|Hne].
  - destruct Hp as [o' Ho']. rewrite (deref_insert_eq _ _ _ _ Ho'). eauto.
  - rewrite deref_insert_ne by exact Hne. exact Hp.
Qed.

(** No event, and every live block stays live. *)
Definition builds : relation world := fun w w' =>
  w_trace w' = w_trace w
  /\ forall p, is_Some (deref (w_heap w) p) -> is_Some (deref (w_heap w') p).

#[local] Instance builds_preorder : PreOrder builds.
Proof.
  split.
  - intros w. split; auto.
  - intros w1 w2 w3 [T1 L1] [T2 L2]. split; [congruence | auto].
Qed.

Lemma builds_struct h p t d p' d' : builds (World h p t d) (World h p' t d').
Proof. split; auto. Qed.

Lemma builds_app h p t d l p' d' :
  builds (World h p t d) (World (h ++ l) p' t d').
Proof. split; [reflexivity|]. cbn. intros q Hq. rewrite deref_app_live; auto. Qed.

Lemma builds_insert h p t d b o p' d' :
  builds (World h p t d) (World (<[b := Some o]> h) p' t d').
Proof. split; [reflexivity|]. cbn. intros q. apply deref_insert_live. Qed.

Lemma malloc_builds k n : frame builds (malloc k n).
Proof. frame_prim; auto using builds_struct, builds_app. Qed.
Lemma malloc_object_builds o : frame builds (malloc_object o).
Proof. frame_prim; auto using builds_struct, builds_app. Qed.
Lemma malloc_vector_builds : frame builds malloc_vector.
Proof. frame_prim; auto using builds_struct, builds_app. Qed.
Lemma store_ptr_builds p i q : frame builds (store_ptr p i q).
Proof. frame_prim; apply builds_insert. Qed.
Lemma get_dnc_builds : frame builds get_dnc.
Proof. frame_prim; apply builds_struct. Qed.
Lemma set_size_builds v : frame builds (set_size v).
Proof. frame_prim; apply builds_struct. Qed.
Lemma set_width_builds v : frame builds (set_width v).
Proof. frame_prim; apply builds_struct. Qed.
Lemma set_address_builds v : frame builds (set_address v).
Proof. frame_prim; apply builds_struct. Qed.
Lemma set_usage_builds v : frame builds (set_usage v).
Proof. frame_prim; apply builds_struct. Qed.
Lemma set_usage_temporal_builds i v : frame builds (set_usage_temporal i v).
Proof. frame_prim; apply builds_struct. Qed.
Lemma set_controller_builds v : frame builds (set_controller v).
Proof. frame_prim; apply builds_struct. Qed.
Lemma set_no_of_inputs_builds v : frame builds (set_no_of_inputs v).
Proof. frame_prim; apply builds_struct. Qed.
Lemma set_no_of_outputs_builds v : frame builds (set_no_of_outputs v).
Proof. frame_prim; apply builds_struct. Qed.
Lemma set_read_head_builds i v : frame builds (set_read_head i v).
Proof. frame_prim; apply builds_struct. Qed.
Lemma set_write_head_builds i v : frame builds (set_write_head i v).
Proof. frame_prim; apply builds_struct. Qed.

Create HintDb builds discriminated.
#[local] Hint Resolve malloc_builds malloc_object_builds malloc_vector_builds
  store_ptr_builds get_dnc_builds set_size_builds set_width_builds
  set_address_builds set_usage_builds set_usage_temporal_builds
  set_controller_builds set_no_of_inputs_builds set_no_of_outputs_builds
  set_read_head_builds set_write_head_builds : builds.

Ltac frame_builds := repeat (first [solve [auto with builds] | frame_step]).

Lemma init_controller_object_builds ni no :
  frame builds (init_controller_object ni no).
Proof. unfold init_controller_object. frame_builds. Qed.

Lemma init_memory_builds ms mw : frame builds (deeplearn_dnc_init_memory ms mw).
Proof. unfold deeplearn_dnc_init_memory. frame_builds. Qed.

Lemma init_memory_usage_builds : frame builds deeplearn_dnc_init_memory_usage.
Proof. unfold deeplearn_dnc_init_memory_usage. frame_builds. Qed.

Lemma init_heads_builds : frame builds deeplearn_dnc_init_heads.
Proof. unfold deeplearn_dnc_init_heads. frame_builds. Qed.

(** [deeplearn_init] is the one event of the initialisation; it replaces
    the state of the controller object. *)
Lemma call_deeplearn_init_run a h pl t d :
  call_deeplearn_init a (World h pl t d)
  = match controller d, deref h (controller d) with
    | Pblock b, Some (Octrl _) =>
        Done (deeplearn_init a).1
             (World (<[b := Some (Octrl (Some (deeplearn_init a).2))]> h)
                    pl (t ++ [EvInit a]) d)
    | _, _ => Undefined
    end.
Proof.
  cbv [call_deeplearn_init get_dnc put_dnc get_heap put_heap emit undefined
       mbind mret prog_bind prog_ret].
  cbn [w_heap w_plan w_trace w_dnc].
  repeat case_match; simplify_eq; reflexivity.
Qed.

Lemma call_deeplearn_init_spec a w r w' :
  call_deeplearn_init a w = Done r w' ->
  r = (deeplearn_init a).1
  /\ w_trace w' = w_trace w ++ [EvInit a]
  /\ w_dnc w' = w_dnc w
  /\ deref (w_heap w') (controller (w_dnc w'))
     = Some (Octrl (Some (deeplearn_init a).2))
  /\ forall p, is_Some (deref (w_heap w) p) -> is_Some (deref (w_heap w') p).
Proof.
  destruct w as [h pl t d]. rewrite call_deeplearn_init_run.
  destruct (controller d) as [| |b] eqn:Ec; try discriminate.
  destruct (deref h (Pblock b)) as [[|c]|] eqn:Eb; try discriminate.
  intros E. inversion E; subst; cbn. rewrite Ec.
  repeat split.
  - eapply deref_insert_eq. exact Eb.
  - intros p. apply deref_insert_live.
Qed.

(** ** C4: the widths of the controller network *)

Lemma controller_inputs_eq mw ni :
  0 <= mw -> 0 <= ni -> ni + mw * READ_HEADS <= INT_MAX ->
  controller_inputs mw ni = ni + mw * READ_HEADS.
Proof.
  intros Hmw Hni Hs. unfold controller_inputs, int_add, int_mul.
  rewrite (to_int_small (mw * READ_HEADS)) by nia.
  apply to_int_small. nia.
Qed.

Lemma controller_outputs_eq mw no :
  0 <= mw -> 0 <= no ->
  no + mw * WRITE_HEADS + (mw + 3) * READ_HEADS <= INT_MAX ->
  controller_outputs mw no = no + mw * WRITE_HEADS + (mw + 3) * READ_HEADS.
Proof.
  intros Hmw Hno Hs. unfold controller_outputs, int_add, int_mul.
  rewrite (to_int_small (mw * WRITE_HEADS)) by nia.
  rewrite (to_int_small (no + mw * WRITE_HEADS)) by nia.
  assert (to_int (to_int (mw + 3) * READ_HEADS) = (mw + 3) * READ_HEADS) as ->.
  { destruct DEEPLEARNDNC_READ_HEADS as [|n].
    - rewrite !Z.mul_0_r. reflexivity.
    - rewrite (to_int_small (mw + 3)) by nia. apply to_int_small. nia. }
  apply to_int_small. nia.
Qed.

(** C4.  For a configuration whose widths fit an [int], a
    [deeplearn_dnc_init] that succeeds has initialised the controller
    network, once, with [no_of_inputs + memory_width * READ_HEADS] inputs
    and [no_of_outputs + memory_width * WRITE_HEADS + (memory_width + 3) *
    READ_HEADS] outputs, and the controller object holds the network so
    initialised. *)
Theorem init_controller_widths ms mw ni nh hl no et seed w w' :
  0 <= mw -> 0 <= ni -> 0 <= no ->
  ni + mw * READ_HEADS <= INT_MAX ->
  no + mw * WRITE_HEADS + (mw + 3) * READ_HEADS <= INT_MAX ->
  deeplearn_dnc_init ms mw ni nh hl no et seed w = Done 0 w' ->
  exists a,
    w_trace w' = w_trace w ++ [EvInit a]
    /\ ia_inputs a = ni + mw * READ_HEADS
    /\ ia_outputs a = no + mw * WRITE_HEADS + (mw + 3) * READ_HEADS
    /\ ia_hiddens a = nh /\ ia_hidden_layers a = hl
    /\ deref (w_heap w') (controller (w_dnc w'))
       = Some (Octrl (Some (deeplearn_init a).2)).
Proof.
  intros Hmw Hni Hno Hi Ho E.
  apply init_run_iff in E as [s Hr].
  inversion Hr as [w1 Ep | p w1 r1 w2 Ep Hp E1 s' code' w'' Hs]; subst.
  pose proof (init_memory_returns _ _ _ _ _ E1) as R1.
  destruct (decide (to_uint r1 = 0)) as [Z1|N1].
  2:{ destruct Hs as (_ & Hc & _). exfalso.
      rewrite tagged_small in Hc by (unfold INT_MAX; lia). lia. }
  destruct Hs as (r2 & w3 & E2 & Hs).
  pose proof (init_memory_usage_returns _ _ _ E2) as R2.
  destruct (decide (to_uint r2 = 0)) as [Z2|N2].
  2:{ destruct Hs as (_ & Hc & _). exfalso.
      rewrite tagged_small in Hc by (unfold INT_MAX; lia). lia. }
  destruct Hs as (r3 & w4 & E3 & Hs).
  pose proof (init_heads_returns _ _ _ E3) as R3.
  destruct (decide (to_uint r3 = 0)) as [Z3|N3].
  2:{ destruct Hs as (_ & Hc & _). exfalso.
      rewrite tagged_small in Hc by (unfold INT_MAX; lia). lia. }
  destruct Hs as (r4 & E4 & _).
  apply call_deeplearn_init_spec in E4 as (_ & Et & _ & Ec & _).
  eexists. split; [|split; [|split; [|split; [|split]]]]; [| | | | |exact Ec].
  - rewrite Et. f_equal.
    apply init_heads_builds in E3 as [-> _].
    apply init_memory_usage_builds in E2 as [-> _].
    apply init_memory_builds in E1 as [-> _].
    apply init_controller_object_builds in Ep as [-> _].
    reflexivity.
  - apply controller_inputs_eq; assumption.
  - apply controller_outputs_eq; assumption.
  - reflexivity.
  - reflexivity.
Qed.

(** ** Running the primitives *)

Lemma malloc_run k n h pl t d :
  malloc k n (World h pl t d)
  = if (next_alloc pl).1
    then Done (Pblock (length h))
           (World (h ++ [Some (Ocells k (replicate (Z.to_nat (n / sizeof dm k)) Cundef))])
                  (next_alloc pl).2 t d)
    else Done Pnull (World h (next_alloc pl).2 t d).
Proof.
  unfold malloc, malloc_object. cbn [w_heap w_plan w_trace w_dnc].
  destruct (next_alloc pl) as [[] rest]; reflexivity.
Qed.

Lemma store_ptr_run p i q h pl t d :
  store_ptr p i q (World h pl t d)
  = match p, deref h p with
    | Pblock b, Some (Ocells KPtr cells) =>
        if index_ok i (length cells)
        then Done tt (World (<[b := Some (Ocells KPtr (<[Z.to_nat i := Cptr q]> cells))]> h)
                            pl t d)
        else Undefined
    | _, _ => Undefined
    end.
Proof.
  cbv [store_ptr get_dnc put_dnc get_heap put_heap emit undefined
       mbind mret prog_bind prog_ret].
  cbn [w_heap w_plan w_trace w_dnc].
  repeat case_match; simplify_eq; reflexivity.
Qed.

Lemma index_ok_nat i n : (i < n)%nat -> index_ok (Z.of_nat i) n = true.
Proof.
  intros Hi. unfold index_ok. apply andb_true_intro. split.
  - apply Z.leb_le. lia.
  - apply Z.ltb_lt. lia.
Qed.

Lemma insert_middle {A} (l1 l2 : list A) x y i :
  i = length l1 -> <[i := y]> (l1 ++ x :: l2) = l1 ++ y :: l2.
Proof.
  intros ->. rewrite insert_app_r_alt by lia.
  rewrite Nat.sub_diag. reflexivity.
Qed.

(** ** The bank built by [deeplearn_dnc_init_memory] *)

Lemma slots_S base n :
  slots base (S n) = slots base n ++ [Cptr (Pblock (base + n))].
Proof. unfold slots. rewrite seq_S, fmap_app. reflexivity. Qed.

Lemma length_slots base n : length (slots base n) = n.
Proof. unfold slots. rewrite length_fmap, length_seq. reflexivity. Qed.

Lemma lookup_slots base n i :
  (i < n)%nat -> slots base n !! i = Some (Cptr (Pblock (base + i))).
Proof.
  intros Hi. unfold slots.
  rewrite list_lookup_fmap, lookup_seq_lt by exact Hi. reflexivity.
Qed.

Lemma served_le n plan : (served n plan <= n)%nat.
Proof.
  revert plan. induction n as [|n IH]; intros [|[] rest]; simpl; try lia.
  specialize (IH rest). lia.
Qed.

(** The loop of [deeplearn_dnc_init_memory], entered at slot [i] with [n]
    slots to go: the array is block [length h0], the vectors allocated so
    far follow it. *)
Definition bank_loop_body (i : Z) : prog (option Z) :=
  d ← get_dnc;
  q ← malloc KFloat (to_size_t dm (m_width (memory d) * sizeof_float));
  store_ptr (m_address (memory d)) i q;;
  if decide (q = Pnull) then mret (Some 2) else mret None.

Lemma bank_loop_body_run h0 t d i n plan :
  m_address (memory d) = Pblock (length h0) ->
  bank_loop_body (Z.of_nat i)
    (World (h0 ++ Some (Ocells KPtr (slots (S (length h0)) i ++ replicate (S n) Cundef))
               :: replicate i (Some (fresh_vector d)))
           plan t d)
  = if (next_alloc plan).1
    then Done None
           (World (h0 ++ Some (Ocells KPtr (slots (S (length h0)) (S i)
                                            ++ replicate n Cundef))
                      :: replicate (S i) (Some (fresh_vector d)))
                  (next_alloc plan).2 t d)
    else Done (Some 2)
           (World (h0 ++ Some (Ocells KPtr (slots (S (length h0)) i
                                            ++ Cptr Pnull :: replicate n Cundef))
                      :: replicate i (Some (fresh_vector d)))
                  (next_alloc plan).2 t d).
Proof.
  intros Ha. unfold bank_loop_body.
  rewrite bind_eq. cbn [get_dnc w_dnc]. rewrite bind_eq, malloc_run.
  change (sizeof dm KFloat) with sizeof_float. fold (fresh_vector d).
  rewrite Ha.
  assert (index_ok (Z.of_nat i)
            (length (slots (S (length h0)) i ++ replicate (S n) Cundef)) = true)
    as Hok.
  { apply index_ok_nat.
    rewrite length_app, length_slots, length_replicate. lia. }
  destruct (next_alloc plan) as [[] rest]; cbn [fst snd].
  - rewrite bind_eq, store_ptr_run.
    rewrite <- app_assoc. cbn [app deref].
    rewrite list_lookup_middle by reflexivity. cbn [mjoin option_join].
    rewrite Hok, Nat2Z.id.
    rewrite decide_False by discriminate.
    rewrite insert_middle by reflexivity.
    rewrite length_app. cbn [length]. rewrite length_replicate.
    cbn [replicate].
    rewrite (insert_middle (slots _ _)) by (rewrite length_slots; reflexivity).
    rewrite <- replicate_S_end, slots_S, <- app_assoc.
    replace (length h0 + S i)%nat with (S (length h0) + i)%nat by lia.
    reflexivity.
  - rewrite bind_eq, store_ptr_run. cbn [deref].
    rewrite list_lookup_middle by reflexivity. cbn [mjoin option_join].
    rewrite Hok, Nat2Z.id.
    rewrite decide_True by reflexivity.
    rewrite insert_middle by reflexivity.
    cbn [replicate].
    rewrite (insert_middle (slots _ _)) by (rewrite length_slots; reflexivity).
    reflexivity.
Qed.

Lemma bank_loop_run h0 t d n :
  m_address (memory d) = Pblock (length h0) ->
  forall i plan,
  Z.of_nat (i + n) <= INT_MAX ->
  for_loop n (Z.of_nat i) bank_loop_body
    (World (h0 ++ Some (Ocells KPtr (slots (S (length h0)) i ++ replicate n Cundef))
               :: replicate i (Some (fresh_vector d)))
           plan t d)
  = let k := served n plan in
    if decide (k = n)
    then Done None
           (World (h0 ++ Some (Ocells KPtr (slots (S (length h0)) (i + n)))
                      :: replicate (i + n) (Some (fresh_vector d)))
                  (drop n plan) t d)
    else Done (Some 2)
           (World (h0 ++ Some (Ocells KPtr
                                 (slots (S (length h0)) (i + k)
                                  ++ Cptr Pnull :: replicate (n - k - 1) Cundef))
                      :: replicate (i + k) (Some (fresh_vector d)))
                  (drop (S k) plan) t d).
Proof.
  intros Ha. induction n as [|n IH]; intros i plan Hn.
  - simpl. rewrite app_nil_r, Nat.add_0_r, drop_0. reflexivity.
  - cbn [for_loop]. rewrite bind_eq, bank_loop_body_run by exact Ha.
    assert ((Z.of_nat i <? INT_MAX) = true) as Hlt by (apply Z.ltb_lt; lia).
    destruct plan as [|[] rest]; cbn [next_alloc fst snd served].
    + rewrite Hlt.
      replace (Z.of_nat i + 1) with (Z.of_nat (S i)) by lia.
      rewrite IH by lia. cbv zeta.
      replace (served n []) with n by (destruct n; reflexivity).
      rewrite !decide_True by reflexivity.
      rewrite drop_nil. replace (S i + n)%nat with (i + S n)%nat by lia.
      reflexivity.
    + rewrite Hlt.
      replace (Z.of_nat i + 1) with (Z.of_nat (S i)) by lia.
      rewrite IH by lia. cbv zeta.
      destruct (decide (served n rest = n)) as [Ek|Nk].
      * rewrite decide_True by congruence.
        replace (S i + n)%nat with (i + S n)%nat by lia. reflexivity.
      * rewrite decide_False by congruence.
        replace (S i + served n rest)%nat with (i + S (served n rest))%nat by lia.
        reflexivity.
    + cbn [mret prog_ret]. rewrite decide_False by discriminate.
      rewrite Nat.add_0_r. simpl. rewrite Nat.sub_0_r.
      reflexivity.
Qed.

Lemma to_size_t_small x : 0 <= x < SIZE_MOD dm -> to_size_t dm x = x.
Proof. intros Hx. unfold to_size_t. apply Z.mod_small. exact Hx. Qed.

Lemma sizeof_ptr_pos : 0 < sizeof_ptr dm.
Proof. destruct dm; reflexivity. Qed.

Lemma get_dnc_run h pl t d : get_dnc (World h pl t d) = Done d (World h pl t d).
Proof. reflexivity. Qed.

Lemma set_memory_run f h pl t d :
  set_memory f (World h pl t d)
  = Done tt (World h pl t
       (Dnc (controller d) (f (memory d)) (read_head d) (write_head d)
            (no_of_inputs d) (no_of_outputs d))).
Proof. reflexivity. Qed.

Ltac struct_simpl :=
  cbn [w_heap w_plan w_trace w_dnc memory m_size m_width m_address m_usage
       m_usage_temporal controller read_head write_head no_of_inputs
       no_of_outputs fst snd].

Ltac struct_simpl_in H :=
  cbn [w_heap w_plan w_trace w_dnc memory m_size m_width m_address m_usage
       m_usage_temporal controller read_head write_head no_of_inputs
       no_of_outputs fst snd] in H.

(** [deeplearn_dnc_init_memory], run: the array is the first new block, the
    vectors follow; the first refused vector ends the function. *)
Lemma init_memory_run ms mw h pl t d :
  0 <= rounded_size ms <= INT_MAX ->
  rounded_size ms * sizeof_ptr dm < SIZE_MOD dm ->
  deeplearn_dnc_init_memory ms mw (World h pl t d)
  = let n := Z.to_nat (rounded_size ms) in
    let d' := with_bank d (rounded_size ms) (to_uint mw) in
    let rest := (next_alloc pl).2 in
    let k := served n rest in
    if (next_alloc pl).1 then
      if decide (k = n) then
        Done 0
          (World (h ++ Some (Ocells KPtr (slots (S (length h)) n))
                    :: replicate n (Some (fresh_vector (d' (Pblock (length h))))))
                 (drop n rest) t (d' (Pblock (length h))))
      else
        Done 2
          (World (h ++ Some (Ocells KPtr
                               (slots (S (length h)) k
                                ++ Cptr Pnull :: replicate (n - k - 1) Cundef))
                    :: replicate k (Some (fresh_vector (d' (Pblock (length h))))))
                 (drop (S k) rest) t (d' (Pblock (length h))))
    else Done 1 (World h rest t (d' Pnull)).
Proof.
  intros Hsz Hfit. cbv zeta.
  unfold deeplearn_dnc_init_memory. fold (rounded_size ms).
  fold bank_loop_body.
  unfold set_size, set_width, set_address.
  rewrite bind_eq, set_memory_run. struct_simpl.
  rewrite bind_eq, set_memory_run. struct_simpl.
  rewrite bind_eq, get_dnc_run. struct_simpl.
  rewrite bind_eq, malloc_run.
  change (sizeof dm KPtr) with (sizeof_ptr dm).
  rewrite to_size_t_small by (pose proof sizeof_ptr_pos; nia).
  rewrite Z.div_mul by (pose proof sizeof_ptr_pos; lia).
  destruct (next_alloc pl) as [[] rest]; struct_simpl.
  - rewrite bind_eq, set_memory_run. struct_simpl.
    rewrite decide_False by discriminate.
    fold (with_bank d (rounded_size ms) (to_uint mw) (Pblock (length h))).
    pose proof (bank_loop_run h t
      (with_bank d (rounded_size ms) (to_uint mw) (Pblock (length h)))
      (Z.to_nat (rounded_size ms)) eq_refl 0%nat rest) as Hloop.
    cbn [slots fmap list_fmap seq replicate app Nat.add] in Hloop.
    change (Z.of_nat 0) with 0 in Hloop.
    rewrite bind_eq, Hloop by lia. cbv zeta.
    destruct (decide (served (Z.to_nat (rounded_size ms)) rest
                      = Z.to_nat (rounded_size ms))); reflexivity.
  - rewrite bind_eq, set_memory_run. struct_simpl.
    rewrite decide_True by reflexivity. reflexivity.
Qed.

(** ** The stages after the bank: usage tracker and heads *)

(** They add blocks and set their own pointers: no event, every live block
    unchanged, the controller pointer, the fields of the bank and the
    lengths of the arrays of the structure unchanged. *)
Definition extends : relation world := fun w w' =>
  w_trace w' = w_trace w
  /\ (forall p o, deref (w_heap w) p = Some o -> deref (w_heap w') p = Some o)
  /\ controller (w_dnc w') = controller (w_dnc w)
  /\ size_of w' = size_of w /\ width_of w' = width_of w
  /\ m_address (memory (w_dnc w')) = m_address (memory (w_dnc w))
  /\ length (m_usage_temporal (memory (w_dnc w')))
     = length (m_usage_temporal (memory (w_dnc w)))
  /\ length (read_head (w_dnc w')) = length (read_head (w_dnc w))
  /\ length (write_head (w_dnc w')) = length (write_head (w_dnc w)).

#[local] Instance extends_preorder : PreOrder extends.
Proof.
  split.
  - intros w. repeat split; auto.
  - intros w1 w2 w3 (A1 & B1 & C1 & D1 & E1 & F1 & G1 & H1 & I1)
                    (A2 & B2 & C2 & D2 & E2 & F2 & G2 & H2 & I2).
    repeat split; try congruence. auto.
Qed.

Lemma extends_app h pl t d l pl' :
  extends (World h pl t d) (World (h ++ l) pl' t d).
Proof.
  repeat split; auto. cbn. intros p o Hp.
  rewrite deref_app_live; [exact Hp | rewrite Hp; eauto].
Qed.

Lemma extends_plan h pl t d pl' : extends (World h pl t d) (World h pl' t d).
Proof. repeat split; auto. Qed.

Lemma malloc_extends k n : frame extends (malloc k n).
Proof. frame_prim; auto using extends_app, extends_plan. Qed.
Lemma malloc_vector_extends : frame extends malloc_vector.
Proof. frame_prim; auto using extends_app, extends_plan. Qed.
Lemma get_dnc_extends : frame extends get_dnc.
Proof. frame_prim; reflexivity. Qed.
Lemma set_usage_extends v : frame extends (set_usage v).
Proof. frame_prim; repeat split; auto. Qed.
Lemma set_usage_temporal_extends i v : frame extends (set_usage_temporal i v).
Proof. frame_prim; repeat split; auto. cbn. apply length_insert. Qed.
Lemma set_read_head_extends i v : frame extends (set_read_head i v).
Proof. frame_prim; repeat split; auto. cbn. apply length_insert. Qed.
Lemma set_write_head_extends i v : frame extends (set_write_head i v).
Proof. frame_prim; repeat split; auto. cbn. apply length_insert. Qed.

Create HintDb extends discriminated.
#[local] Hint Resolve malloc_extends malloc_vector_extends get_dnc_extends
  set_usage_extends set_usage_temporal_extends set_read_head_extends
  set_write_head_extends : extends.

Ltac frame_extends := repeat (first [solve [auto with extends] | frame_step]).

Lemma init_memory_usage_extends : frame extends deeplearn_dnc_init_memory_usage.
Proof. unfold deeplearn_dnc_init_memory_usage. frame_extends. Qed.

Lemma init_heads_extends : frame extends deeplearn_dnc_init_heads.
Proof. unfold deeplearn_dnc_init_heads. frame_extends. Qed.

(** *** They always return *)

Lemma for_loop_total {X} (J : world -> Prop) n i (body : Z -> prog (option X)) :
  (forall j w, i <= j < i + Z.of_nat n -> J w ->
     exists r w', body j w = Done r w' /\ J w') ->
  i + Z.of_nat n <= INT_MAX ->
  forall w, J w -> exists r w', for_loop n i body w = Done r w' /\ J w'.
Proof.
  revert i. induction n as [|n IH]; intros i Hb Hn w Hw; cbn [for_loop].
  - exists None, w. auto.
  - destruct (Hb i w ltac:(lia) Hw) as (r & w1 & E1 & H1).
    rewrite (bind_done _ _ _ _ _ E1).
    destruct r as [x|].
    + exists (Some x), w1. auto.
    + destruct (i <? INT_MAX) eqn:Hlt; [|apply Z.ltb_ge in Hlt; lia].
      apply IH; [|lia|exact H1].
      intros j w2 Hj. apply Hb. lia.
Qed.

Lemma malloc_total k n w : exists p w', malloc k n w = Done p w'
  /\ w_dnc w' = w_dnc w.
Proof.
  destruct w as [h pl t d]. rewrite malloc_run.
  destruct (next_alloc pl).1; eauto.
Qed.

Lemma malloc_vector_total w : exists p w', malloc_vector w = Done p w'
  /\ w_dnc w' = w_dnc w.
Proof.
  destruct w as [h pl t d]. unfold malloc_vector.
  rewrite bind_eq, get_dnc_run. apply malloc_total.
Qed.

Lemma set_usage_temporal_total i p w :
  0 <= i < Z.of_nat (length (m_usage_temporal (memory (w_dnc w)))) ->
  exists w', set_usage_temporal i p w = Done tt w'
    /\ well_shaped (w_dnc w') = well_shaped (w_dnc w).
Proof.
  destruct w as [h pl t d]. intros Hi. unfold set_usage_temporal.
  rewrite bind_eq, get_dnc_run.
  replace (index_ok i _) with true
    by (symmetry; apply andb_true_intro; split;
        [apply Z.leb_le | apply Z.ltb_lt]; cbn in *; lia).
  rewrite set_memory_run. eexists. split; [reflexivity|].
  unfold well_shaped. struct_simpl. rewrite length_insert. reflexivity.
Qed.

Lemma set_read_head_total i r w :
  0 <= i < Z.of_nat (length (read_head (w_dnc w))) ->
  exists w', set_read_head i r w = Done tt w'
    /\ well_shaped (w_dnc w') = well_shaped (w_dnc w).
Proof.
  destruct w as [h pl t d]. intros Hi. unfold set_read_head.
  rewrite bind_eq, get_dnc_run.
  replace (index_ok i _) with true
    by (symmetry; apply andb_true_intro; split;
        [apply Z.leb_le | apply Z.ltb_lt]; cbn in *; lia).
  eexists. split; [reflexivity|].
  unfold well_shaped. struct_simpl. rewrite length_insert. reflexivity.
Qed.

Lemma set_write_head_total i f w :
  0 <= i < Z.of_nat (length (write_head (w_dnc w))) ->
  exists w', set_write_head i f w = Done tt w'
    /\ well_shaped (w_dnc w') = well_shaped (w_dnc w).
Proof.
  destruct w as [h pl t d]. intros Hi. cbn in Hi.
  unfold set_write_head, get_write_head.
  rewrite bind_eq, bind_eq, get_dnc_run. struct_simpl.
  destruct (write_head d !! Z.to_nat i) as [r|] eqn:Er.
  2:{ apply lookup_ge_None in Er. lia. }
  replace (index_ok i _) with true
    by (symmetry; apply andb_true_intro; split;
        [apply Z.leb_le | apply Z.ltb_lt]; lia).
  cbn [mret prog_ret]. rewrite bind_eq, get_dnc_run.
  eexists. split; [reflexivity|].
  unfold well_shaped. struct_simpl. rewrite length_insert. reflexivity.
Qed.

Lemma init_memory_usage_total w :
  well_shaped (w_dnc w) ->
  Z.of_nat (DEEPLEARNDNC_READ_HEADS + DEEPLEARNDNC_WRITE_HEADS) <= INT_MAX ->
  exists r w', deeplearn_dnc_init_memory_usage w = Done r w'
    /\ well_shaped (w_dnc w').
Proof.
  intros Hw Hn. unfold deeplearn_dnc_init_memory_usage.
  destruct w as [h pl t d]. rewrite bind_eq, get_dnc_run.
  destruct (malloc_total KFloat (to_size_t dm (usage_size d * sizeof_float))
              (World h pl t d)) as (p & [h1 pl1 t1 d1] & E1 & D1).
  rewrite (bind_done _ _ _ _ _ E1). cbn in D1. subst d1.
  unfold set_usage. rewrite bind_eq, set_memory_run.
  destruct (decide (p = Pnull)); [eexists _, _; split; [reflexivity | exact Hw]|].
  match goal with |- context [for_loop ?n ?i ?b] =>
    destruct (for_loop_total (fun w => well_shaped (w_dnc w)) n i b) with
      (w := World h1 pl1 t1
              (Dnc (controller d)
                 (Memory (m_size (memory d)) (m_width (memory d))
                    (m_address (memory d)) p (m_usage_temporal (memory d)))
                 (read_head d) (write_head d) (no_of_inputs d)
                 (no_of_outputs d)))
      as (r & w' & E & Hw')
  end.
  - intros j w Hj Jw.
    destruct (malloc_total KFloat
                (to_size_t dm (int_mul (usage_size d) (usage_size d) * sizeof_float))
                w) as (q & w1 & Eq & Dq).
    rewrite (bind_done _ _ _ _ _ Eq).
    destruct (set_usage_temporal_total j q w1) as (w2 & E2 & S2).
    { rewrite Dq. destruct Jw as (-> & _). lia. }
    rewrite (bind_done _ _ _ _ _ E2).
    destruct (decide (q = Pnull)); eexists _, _; (split; [reflexivity|]);
      rewrite S2, Dq; exact Jw.
  - lia.
  - exact Hw.
  - rewrite (bind_done _ _ _ _ _ E).
    destruct r; eexists _, _; (split; [reflexivity | exact Hw']).
Qed.

Lemma init_heads_total w :
  well_shaped (w_dnc w) ->
  Z.of_nat (DEEPLEARNDNC_READ_HEADS + DEEPLEARNDNC_WRITE_HEADS) <= INT_MAX ->
  exists r w', deeplearn_dnc_init_heads w = Done r w'.
Proof.
  intros Hw Hn. unfold deeplearn_dnc_init_heads.
  match goal with |- context [for_loop ?n ?i ?b ≫= _] =>
    destruct (for_loop_total (fun w => well_shaped (w_dnc w)) n i b) with (w := w)
      as (r & w1 & E & Hw1)
  end.
  - intros j w0 Hj Jw.
    destruct (malloc_vector_total w0) as (q & w1 & Eq & Dq).
    rewrite (bind_done _ _ _ _ _ Eq).
    destruct (set_read_head_total j (ReadHead q) w1) as (w2 & E2 & S2).
    { rewrite Dq. destruct Jw as (_ & -> & _). lia. }
    rewrite (bind_done _ _ _ _ _ E2).
    destruct (decide (q = Pnull)); eexists _, _; (split; [reflexivity|]);
      rewrite S2, Dq; exact Jw.
  - lia.
  - exact Hw.
  - rewrite (bind_done _ _ _ _ _ E).
    destruct r as [x|]; cbn [or_else]; [eexists _, _; reflexivity|].
    match goal with |- context [for_loop ?n ?i ?b ≫= _] =>
      destruct (for_loop_total (fun w => well_shaped (w_dnc w)) n i b) with (w := w1)
        as (r & w2 & E' & Hw2)
    end.
    + intros j w0 Hj Jw.
      assert (0 <= j < Z.of_nat (length (write_head (w_dnc w0)))) as Hj0
        by (destruct Jw as (_ & _ & ->); lia).
      destruct (malloc_vector_total w0) as (q & wa & Eq & Dq).
      rewrite (bind_done _ _ _ _ _ Eq).
      destruct (set_write_head_total j
                  (fun h => WriteHead q (wh_erase h) (wh_key h)) wa)
        as (wb & Eb & Sb).
      { rewrite Dq. exact Hj0. }
      rewrite (bind_done _ _ _ _ _ Eb).
      assert (well_shaped (w_dnc wb)) as Jb by (rewrite Sb, Dq; exact Jw).
      destruct (decide (q = Pnull)); [eexists _, _; split; [reflexivity | exact Jb]|].
      destruct (malloc_vector_total wb) as (q' & wc & Eq' & Dq').
      rewrite (bind_done _ _ _ _ _ Eq').
      destruct (set_write_head_total j
                  (fun h => WriteHead (wh_write h) q' (wh_key h)) wc)
        as (wd & Ed & Sd).
      { rewrite Dq'. destruct Jb as (_ & _ & ->). lia. }
      rewrite (bind_done _ _ _ _ _ Ed).
      assert (well_shaped (w_dnc wd)) as Jd by (rewrite Sd, Dq'; exact Jb).
      destruct (decide (q' = Pnull)); [eexists _, _; split; [reflexivity | exact Jd]|].
      destruct (malloc_vector_total wd) as (q'' & we & Eq'' & Dq'').
      rewrite (bind_done _ _ _ _ _ Eq'').
      destruct (set_write_head_total j
                  (fun h => WriteHead (wh_write h) (wh_erase h) q'') we)
        as (wf & Ef & Sf).
      { rewrite Dq''. destruct Jd as (_ & _ & ->). lia. }
      rewrite (bind_done _ _ _ _ _ Ef).
      assert (well_shaped (w_dnc wf)) as Jf by (rewrite Sf, Dq''; exact Jd).
      destruct (decide (q'' = Pnull)); eexists _, _; (split; [reflexivity | exact Jf]).
    + lia.
    + exact Hw1.
    + rewrite (bind_done _ _ _ _ _ E').
      destruct r; eexists _, _; reflexivity.
Qed.

(** ** C3: the error codes of the initialisation *)

Lemma builds_releases_nothing w w' : builds w w' -> releases_nothing w w'.
Proof.
  intros [Ht Hl]. split; [exact Hl|].
  exists []. rewrite app_nil_r. split; [exact Ht|].
  intros p Hp. inversion Hp.
Qed.

Lemma init_run_releases_nothing ms mw ni nh hl no et seed w s code w' :
  init_run ms mw ni nh hl no et seed w s code w' -> releases_nothing w w'.
Proof.
  intros [w1 Ep | p w1 r1 w2 Ep Hp E1 s' code' w'' Hs].
  { apply builds_releases_nothing.
    eapply init_controller_object_builds; eassumption. }
  assert (builds w w2) as B2.
  { transitivity w1; [eapply init_controller_object_builds; eassumption|].
    eapply init_memory_builds; eassumption. }
  destruct (decide (to_uint r1 = 0)).
  2:{ destruct Hs as (_ & _ & ->). apply builds_releases_nothing, B2. }
  destruct Hs as (r2 & w3 & E2 & Hs).
  assert (builds w w3) as B3.
  { transitivity w2; [exact B2|]. eapply init_memory_usage_builds; eassumption. }
  destruct (decide (to_uint r2 = 0)).
  2:{ destruct Hs as (_ & _ & ->). apply builds_releases_nothing, B3. }
  destruct Hs as (r3 & w4 & E3 & Hs).
  assert (builds w w4) as [T4 L4].
  { transitivity w3; [exact B3|]. eapply init_heads_builds; eassumption. }
  destruct (decide (to_uint r3 = 0)).
  2:{ destruct Hs as (_ & _ & ->). apply builds_releases_nothing. split; auto. }
  destruct Hs as (r4 & E4 & _).
  apply call_deeplearn_init_spec in E4 as (_ & Et & _ & _ & El).
  split; [auto|].
  eexists. rewrite Et, T4. split; [reflexivity|].
  intros q Hq. apply list_elem_of_singleton in Hq. discriminate.
Qed.

(** The codes of a run, stage by stage; [retval] is what [deeplearn_init]
    returns for the arguments the run passes to it. *)
Definition stage_code (retval : Z) (s : option subsystem) (code : Z) : Prop :=
  match s with
  | None => code = 0
  | Some SBank => 2001 <= code <= 2002
  | Some SUsage => 3001 <= code <= 3002
  | Some SHeads => 4001 <= code <= 4004
  | Some SController =>
      code = 1000
      \/ (to_uint retval <> 0 /\ code = tagged 5000 (to_uint retval))
  end.

Lemma init_run_code ms mw ni nh hl no et seed w s code w' :
  init_run ms mw ni nh hl no et seed w s code w' ->
  stage_code (deeplearn_init (InitArgs (controller_inputs mw ni) nh hl
                                (controller_outputs mw no) et seed)).1
             s code.
Proof.
  intros [w1 Ep | p w1 r1 w2 Ep Hp E1 s' code' w'' Hs]; [left; reflexivity|].
  pose proof (init_memory_returns _ _ _ _ _ E1) as R1.
  assert (forall r, 0 <= r <= 4 -> to_uint r = r) as Hsmall
    by (intros; apply to_uint_small; unfold UINT_MOD; lia).
  destruct (decide (to_uint r1 = 0)) as [Z1|N1].
  2:{ destruct Hs as (-> & -> & _). rewrite Hsmall in N1 by lia.
      rewrite Hsmall, <- (Hsmall r1) by lia.
      rewrite tagged_small by (unfold INT_MAX; lia).
      simpl. lia. }
  destruct Hs as (r2 & w3 & E2 & Hs).
  pose proof (init_memory_usage_returns _ _ _ E2) as R2.
  destruct (decide (to_uint r2 = 0)) as [Z2|N2].
  2:{ destruct Hs as (-> & -> & _). rewrite Hsmall in N2 by lia.
      rewrite tagged_small by (unfold INT_MAX; lia).
      simpl. lia. }
  destruct Hs as (r3 & w4 & E3 & Hs).
  pose proof (init_heads_returns _ _ _ E3) as R3.
  destruct (decide (to_uint r3 = 0)) as [Z3|N3].
  2:{ destruct Hs as (-> & -> & _). rewrite Hsmall in N3 by lia.
      rewrite tagged_small by (unfold INT_MAX; lia).
      simpl. lia. }
  destruct Hs as (r4 & E4 & Hs).
  apply call_deeplearn_init_spec in E4 as (-> & _).
  destruct (decide (to_uint _ = 0)) as [Z4|N4].
  - destruct Hs as (-> & ->). reflexivity.
  - destruct Hs as (-> & ->). right. split; [exact N4|reflexivity].
Qed.

(** The code tells the stage, but for a controller whose initialiser fails
    with a code outside 1 .. [INT_MAX - 5000]. *)
Lemma stage_code_subsystem retval s code :
  stage_code retval s code ->
  0 <= retval <= INT_MAX - 5000 ->
  subsystem_of_code code = s.
Proof.
  unfold stage_code, subsystem_of_code. intros Hc Hr.
  destruct s as [[]|].
  - rewrite decide_False, decide_True by lia. reflexivity.
  - rewrite !decide_False, decide_True by lia. reflexivity.
  - rewrite !decide_False, decide_True by lia. reflexivity.
  - destruct Hc as [->|[Hn ->]]; [reflexivity|].
    rewrite to_uint_small in Hn by (unfold INT_MAX, UINT_MOD in *; lia).
    rewrite tagged_small by (unfold INT_MAX in *; lia).
    rewrite !decide_False by lia. reflexivity.
  - rewrite decide_True by exact Hc. reflexivity.
Qed.

Lemma init_controller_object_run ni no h pl t d :
  init_controller_object ni no (World h pl t d)
  = if (next_alloc pl).1
    then Done (Pblock (length h))
           (World (h ++ [Some (Octrl None)]) (next_alloc pl).2 t
              (Dnc (Pblock (length h)) (memory d) (read_head d) (write_head d)
                   ni no))
    else Done Pnull
           (World h (next_alloc pl).2 t
              (Dnc Pnull (memory d) (read_head d) (write_head d) ni no)).
Proof.
  unfold init_controller_object, set_no_of_inputs, set_no_of_outputs,
    set_controller, malloc_object.
  cbv [get_dnc put_dnc mbind mret prog_bind prog_ret]. struct_simpl.
  destruct (next_alloc pl) as [[] rest]; reflexivity.
Qed.

Lemma init_total ms mw ni nh hl no et seed w :
  well_shaped (w_dnc w) ->
  0 < BLOCK ->
  0 <= ms <= INT_MAX ->
  rounded_size ms * sizeof_ptr dm < SIZE_MOD dm ->
  Z.of_nat (DEEPLEARNDNC_READ_HEADS + DEEPLEARNDNC_WRITE_HEADS) <= INT_MAX ->
  exists code w', deeplearn_dnc_init ms mw ni nh hl no et seed w = Done code w'.
Proof.
  intros Hw HB Hms Hfit Hn.
  assert (0 <= rounded_size ms <= INT_MAX) as Hsz.
  { rewrite rounded_size_eq by lia.
    assert (0 <= ms / BLOCK) by (apply Z.div_pos; lia).
    assert (ms / BLOCK * BLOCK <= ms)
      by (rewrite Z.mul_comm; apply Z.mul_div_le; lia).
    nia. }
  enough (exists s code w', init_run ms mw ni nh hl no et seed w s code w')
    as (s & code & w' & Hr).
  { exists code, w'. apply init_run_iff. eauto. }
  destruct w as [h pl t d].
  pose proof (init_controller_object_run ni no h pl t d) as Ep.
  destruct (next_alloc pl).1.
  2:{ eexists _, _, _. apply run_no_controller. exact Ep. }
  set (d1 := Dnc (Pblock (length h)) (memory d) (read_head d) (write_head d) ni no)
    in Ep.
  set (h1 := h ++ [Some (Octrl None)]) in Ep.
  assert (exists r1 w2,
    deeplearn_dnc_init_memory ms mw (World h1 (next_alloc pl).2 t d1) = Done r1 w2
    /\ well_shaped (w_dnc w2)
    /\ controller (w_dnc w2) = Pblock (length h)
    /\ deref (w_heap w2) (Pblock (length h)) = Some (Octrl None))
    as (r1 & w2 & E1 & W2 & C2 & L2).
  { rewrite init_memory_run by assumption. cbv zeta.
    assert (forall l, deref (h1 ++ l) (Pblock (length h)) = Some (Octrl None))
      as Hl.
    { intros l. unfold h1. rewrite <- app_assoc. simpl.
      rewrite list_lookup_middle by reflexivity. reflexivity. }
    destruct (next_alloc (next_alloc pl).2).1.
    - destruct (decide _); eexists _, _; (split; [reflexivity|]);
        (split; [exact Hw|]); (split; [reflexivity|]); apply Hl.
    - eexists _, _. split; [reflexivity|]. split; [exact Hw|].
      split; [reflexivity|]. specialize (Hl []). rewrite app_nil_r in Hl.
      exact Hl. }
  enough (exists s code w',
    if decide (to_uint r1 = 0) then
      exists r2 w3,
        deeplearn_dnc_init_memory_usage w2 = Done r2 w3 /\
        if decide (to_uint r2 = 0) then
          exists r3 w4,
            deeplearn_dnc_init_heads w3 = Done r3 w4 /\
            if decide (to_uint r3 = 0) then
              exists r4,
                call_deeplearn_init
                  (InitArgs (controller_inputs mw ni) nh hl
                     (controller_outputs mw no) et seed) w4 = Done r4 w' /\
                if decide (to_uint r4 = 0)
                then s = None /\ code = 0
                else s = Some SController /\ code = tagged 5000 (to_uint r4)
            else s = Some SHeads /\ code = tagged 4000 (to_uint r3) /\ w' = w4
        else s = Some SUsage /\ code = tagged 3000 (to_uint r2) /\ w' = w3
    else s = Some SBank /\ code = tagged 2000 (to_uint r1) /\ w' = w2)
    as (s & code & w' & Hs).
  { exists s, code, w'.
    eapply run_stages; [exact Ep | discriminate | exact E1 | exact Hs]. }
  destruct (decide (to_uint r1 = 0)); [|eauto 10].
  destruct (init_memory_usage_total w2 W2 Hn) as (r2 & w3 & E2 & W3).
  destruct (decide (to_uint r2 = 0)) eqn:D2.
  2:{ exists (Some SUsage), (tagged 3000 (to_uint r2)), w3, r2, w3.
      rewrite D2. auto. }
  destruct (init_heads_total w3 W3 Hn) as (r3 & w4 & E3).
  destruct (decide (to_uint r3 = 0)) eqn:D3.
  2:{ exists (Some SHeads), (tagged 4000 (to_uint r3)), w4, r2, w3.
      rewrite D2. split; [exact E2|]. exists r3, w4. rewrite D3. auto. }
  pose proof (init_memory_usage_extends _ _ _ E2) as (_ & X2 & K2 & _).
  pose proof (init_heads_extends _ _ _ E3) as (_ & X3 & K3 & _).
  destruct w4 as [h4 pl4 t4 d4]. cbn [w_dnc w_heap] in K3, X3.
  pose proof (call_deeplearn_init_run
                (InitArgs (controller_inputs mw ni) nh hl
                   (controller_outputs mw no) et seed) h4 pl4 t4 d4) as E4.
  rewrite K3, K2, C2 in E4. rewrite (X3 _ _ (X2 _ _ L2)) in E4.
  destruct (decide (to_uint (deeplearn_init
                (InitArgs (controller_inputs mw ni) nh hl
                   (controller_outputs mw no) et seed)).1 = 0)) eqn:D4.
  - eexists None, 0, _, r2, w3. rewrite D2. split; [exact E2|].
    eexists r3, _. rewrite D3. split; [exact E3|].
    eexists. split; [exact E4|]. rewrite D4. auto.
  - eexists (Some SController), _, _, r2, w3. rewrite D2. split; [exact E2|].
    eexists r3, _. rewrite D3. split; [exact E3|].
    eexists. split; [exact E4|]. rewrite D4. auto.
Qed.

(** C3, as the code has it.  On a structure with its arrays at their
    declared lengths and for a bank that fits the address space,
    [deeplearn_dnc_init] returns; it stops at the first stage that fails,
    without running anything after it, and releases nothing it allocated.
    The code is 1000 for the controller object, 2001 or 2002 for the bank,
    3001 or 3002 for the usage tracker, 4001 to 4004 for the heads, 0 when
    nothing failed, and [5000 + retval], computed on [unsigned int], when
    [deeplearn_init] returns [retval <> 0].  It tells which stage failed
    whenever [retval] lies between 0 and [INT_MAX - 5000]; no more is
    promised for other codes of the controller library. *)
Theorem init_reports_first_failure ms mw ni nh hl no et seed w :
  well_shaped (w_dnc w) ->
  0 < BLOCK ->
  0 <= ms <= INT_MAX ->
  rounded_size ms * sizeof_ptr dm < SIZE_MOD dm ->
  Z.of_nat (DEEPLEARNDNC_READ_HEADS + DEEPLEARNDNC_WRITE_HEADS) <= INT_MAX ->
  let retval :=
    (deeplearn_init (InitArgs (controller_inputs mw ni) nh hl
                       (controller_outputs mw no) et seed)).1 in
  exists s code w',
    deeplearn_dnc_init ms mw ni nh hl no et seed w = Done code w'
    /\ init_run ms mw ni nh hl no et seed w s code w'
    /\ releases_nothing w w'
    /\ stage_code retval s code
    /\ (0 <= retval <= INT_MAX - 5000 -> subsystem_of_code code = s).
Proof.
  intros Hw HB Hms Hfit Hn retval.
  destruct (init_total ms mw ni nh hl no et seed w Hw HB Hms Hfit Hn)
    as (code & w' & E).
  pose proof E as E'. apply init_run_iff in E' as [s Hr].
  pose proof (init_run_code _ _ _ _ _ _ _ _ _ _ _ _ Hr) as Hc.
  exists s, code, w'. split; [exact E|]. split; [exact Hr|]. split.
  - eapply init_run_releases_nothing; eassumption.
  - split; [exact Hc|]. apply stage_code_subsystem. exact Hc.
Qed.

(** ** A successful initialisation, stage by stage *)

Lemma init_success_stages ms mw ni nh hl no et seed w w' :
  deeplearn_dnc_init ms mw ni nh hl no et seed w = Done 0 w' ->
  exists p w1 w2 w3 w4 r4,
    init_controller_object ni no w = Done p w1
    /\ p <> Pnull
    /\ deeplearn_dnc_init_memory ms mw w1 = Done 0 w2
    /\ deeplearn_dnc_init_memory_usage w2 = Done 0 w3
    /\ deeplearn_dnc_init_heads w3 = Done 0 w4
    /\ call_deeplearn_init
         (InitArgs (controller_inputs mw ni) nh hl (controller_outputs mw no)
                   et seed) w4 = Done r4 w'.
Proof.
  intros E. apply init_run_iff in E as [s Hr].
  inversion Hr as [w1 Ep | p w1 r1 w2 Ep Hp E1 s' code' w'' Hs]; subst.
  assert (forall r, 0 <= r <= 4 -> to_uint r = 0 -> r = 0) as Hz.
  { intros r Hr0 Hu. rewrite to_uint_small in Hu by (unfold UINT_MOD; lia).
    exact Hu. }
  pose proof (init_memory_returns _ _ _ _ _ E1) as R1.
  destruct (decide (to_uint r1 = 0)) as [Z1|N1].
  2:{ destruct Hs as (_ & Hc & _). exfalso.
      rewrite tagged_small in Hc by (unfold INT_MAX; lia). lia. }
  apply Hz in Z1; [subst r1 | lia].
  destruct Hs as (r2 & w3 & E2 & Hs).
  pose proof (init_memory_usage_returns _ _ _ E2) as R2.
  destruct (decide (to_uint r2 = 0)) as [Z2|N2].
  2:{ destruct Hs as (_ & Hc & _). exfalso.
      rewrite tagged_small in Hc by (unfold INT_MAX; lia). lia. }
  apply Hz in Z2; [subst r2 | lia].
  destruct Hs as (r3 & w4 & E3 & Hs).
  pose proof (init_heads_returns _ _ _ E3) as R3.
  destruct (decide (to_uint r3 = 0)) as [Z3|N3].
  2:{ destruct Hs as (_ & Hc & _). exfalso.
      rewrite tagged_small in Hc by (unfold INT_MAX; lia). lia. }
  apply Hz in Z3; [subst r3 | lia].
  destruct Hs as (r4 & E4 & _).
  exists p, w1, w2, w3, w4, r4. auto 10.
Qed.

(** ** The cells of the bank *)

(** Every array of cells is kept as it is. *)
Definition keeps_cells (w w' : world) : Prop :=
  forall p k cells,
    deref (w_heap w) p = Some (Ocells k cells) ->
    deref (w_heap w') p = Some (Ocells k cells).

Lemma extends_keeps_cells w w' : extends w w' -> keeps_cells w w'.
Proof. intros (_ & Hx & _) p k cells. apply Hx. Qed.

Lemma call_deeplearn_init_keeps_cells a w r w' :
  call_deeplearn_init a w = Done r w' ->
  keeps_cells w w' /\ w_dnc w' = w_dnc w.
Proof.
  destruct w as [h pl t d]. rewrite call_deeplearn_init_run.
  destruct (controller d) as [| |b] eqn:Ec; try discriminate.
  destruct (deref h (Pblock b)) as [[|c]|] eqn:Eb; try discriminate.
  intros E. inversion E; subst. split; [|reflexivity].
  intros p k cells Hp. cbn [w_heap] in *.
  rewrite deref_insert_ne; [exact Hp|]. intros ->.
  rewrite Eb in Hp. discriminate.
Qed.

Lemma bank_slot_keeps w w' i :
  keeps_cells w w' ->
  m_address (memory (w_dnc w')) = m_address (memory (w_dnc w)) ->
  is_Some (bank_slot w i) ->
  bank_slot w' i = bank_slot w i.
Proof.
  intros Hk Ha [c Hc]. unfold bank_slot in *. rewrite Ha.
  destruct (deref (w_heap w) _) as [[[] cells|]|] eqn:E; try discriminate.
  rewrite (Hk _ _ _ E). reflexivity.
Qed.

Lemma bank_cell_keeps w w' i j :
  keeps_cells w w' ->
  m_address (memory (w_dnc w')) = m_address (memory (w_dnc w)) ->
  is_Some (bank_cell w i j) ->
  bank_cell w' i j = bank_cell w i j.
Proof.
  intros Hk Ha [c Hc]. unfold bank_cell in *.
  destruct (bank_slot w i) as [[| |q]|] eqn:Es; try discriminate.
  rewrite (bank_slot_keeps w w' i Hk Ha), Es by (rewrite Es; eauto).
  destruct (deref (w_heap w) q) as [[[] floats|]|] eqn:E; try discriminate.
  rewrite (Hk _ _ _ E). reflexivity.
Qed.

Lemma deref_bank_array (h : list (option object)) cells vs :
  deref (h ++ Some (Ocells KPtr cells) :: vs) (Pblock (length h))
  = Some (Ocells KPtr cells).
Proof. simpl. rewrite list_lookup_middle by reflexivity. reflexivity. Qed.

Lemma deref_bank_vector (h : list (option object)) x n v i :
  (i < n)%nat ->
  deref (h ++ x :: replicate n (Some v)) (Pblock (S (length h) + i)) = Some v.
Proof.
  intros Hi. simpl.
  rewrite lookup_app_r by lia.
  replace (S (length h + i) - length h)%nat with (S i) by lia.
  simpl. rewrite lookup_replicate_2 by exact Hi. reflexivity.
Qed.

(** The bank right after a successful [deeplearn_dnc_init_memory]. *)
Lemma init_memory_success ms mw w w2 :
  0 <= rounded_size ms <= INT_MAX ->
  rounded_size ms * sizeof_ptr dm < SIZE_MOD dm ->
  deeplearn_dnc_init_memory ms mw w = Done 0 w2 ->
  let base := S (length (w_heap w)) in
  m_address (memory (w_dnc w2)) = Pblock (length (w_heap w))
  /\ w_heap w2
     = w_heap w ++ Some (Ocells KPtr (slots base (Z.to_nat (rounded_size ms))))
         :: replicate (Z.to_nat (rounded_size ms)) (Some (fresh_vector (w_dnc w2))).
Proof.
  intros Hsz Hfit. destruct w as [h pl t d].
  rewrite init_memory_run by assumption. cbv zeta.
  destruct (next_alloc pl).1; [|discriminate].
  destruct (decide _); [|discriminate].
  intros E. inversion E; subst. cbn. auto.
Qed.

Lemma fresh_vector_width d :
  0 <= m_width (memory d) ->
  m_width (memory d) * sizeof_float < SIZE_MOD dm ->
  fresh_vector d
  = Ocells KFloat (replicate (Z.to_nat (m_width (memory d))) Cundef).
Proof.
  intros H0' Hfit. unfold fresh_vector.
  rewrite to_size_t_small by (unfold sizeof_float in *; lia).
  rewrite Z.div_mul by (unfold sizeof_float; lia). reflexivity.
Qed.

Lemma init_success_bank ms mw ni nh hl no et seed w w' :
  0 < BLOCK ->
  0 <= ms <= INT_MAX ->
  rounded_size ms * sizeof_ptr dm < SIZE_MOD dm ->
  deeplearn_dnc_init ms mw ni nh hl no et seed w = Done 0 w' ->
  exists w1 w2,
    length (w_heap w1) = S (length (w_heap w))
    /\ deeplearn_dnc_init_memory ms mw w1 = Done 0 w2
    /\ keeps_cells w2 w'
    /\ m_address (memory (w_dnc w')) = m_address (memory (w_dnc w2))
    /\ m_width (memory (w_dnc w')) = m_width (memory (w_dnc w2)).
Proof.
  intros HB Hms Hfit E.
  apply init_success_stages in E
    as (p & w1 & w2 & w3 & w4 & r4 & Ep & Hp & E1 & E2 & E3 & E4).
  exists w1, w2.
  apply init_memory_usage_extends in E2 as X2.
  apply init_heads_extends in E3 as X3.
  apply call_deeplearn_init_keeps_cells in E4 as [K4 D4].
  assert (extends w2 w4) as X by (transitivity w3; assumption).
  split; [|split; [exact E1|split; [|split]]].
  - destruct w as [h pl t d]. rewrite init_controller_object_run in Ep.
    destruct (next_alloc pl).1; inversion Ep; subst; [|congruence].
    cbn. rewrite length_app. simpl. lia.
  - intros q k cells Hq. apply K4. eapply extends_keeps_cells; eassumption.
  - rewrite D4. apply X.
  - rewrite D4. apply X.
Qed.

(** C5, as the code has it.  After a successful [deeplearn_dnc_init], the
    bank consists of [memory.size] distinct vectors of [memory.width]
    floats each, all addressable, and every one of these scalars is
    indeterminate: the vectors come from [malloc] and nothing writes to
    them before [deeplearn_dnc_clear_memory] is called. *)
Theorem init_bank_uninitialised ms mw ni nh hl no et seed w w' :
  0 < BLOCK ->
  0 <= ms <= INT_MAX ->
  rounded_size ms * sizeof_ptr dm < SIZE_MOD dm ->
  0 <= mw <= INT_MAX ->
  mw * sizeof_float < SIZE_MOD dm ->
  deeplearn_dnc_init ms mw ni nh hl no et seed w = Done 0 w' ->
  exists base,
    forall i, Z.of_nat i < size_of w' ->
      bank_slot w' i = Some (Cptr (Pblock (base + i)))
      /\ forall j, Z.of_nat j < width_of w' ->
           bank_cell w' i j = Some Cundef.
Proof.
  intros HB Hms Hfit Hmw Hwfit E.
  assert (0 <= rounded_size ms <= INT_MAX) as Hsz.
  { rewrite rounded_size_eq by lia.
    assert (0 <= ms / BLOCK) by (apply Z.div_pos; lia).
    assert (ms / BLOCK * BLOCK <= ms)
      by (rewrite Z.mul_comm; apply Z.mul_div_le; lia).
    nia. }
  assert (to_uint mw = mw) as Hw
    by (apply to_uint_small; unfold INT_MAX, UINT_MOD in *; lia).
  pose proof E as E'. apply init_run_iff in E' as [s Hr].
  apply init_run_dims in Hr as [Es Ew]; [|discriminate].
  rewrite Hw in Ew.
  apply init_success_bank in E as (w1 & w2 & Hl & E1 & K & Ka & Kw);
    try assumption.
  pose proof (init_memory_dims _ _ _ _ _ E1) as [_ Ew2].
  unfold width_of in Ew2. rewrite Hw in Ew2.
  apply init_memory_success in E1 as [Ea Eh]; try assumption.
  rewrite fresh_vector_width in Eh by (rewrite Ew2; lia).
  rewrite Ew2 in Eh.
  exists (S (length (w_heap w1))). intros i Hi. rewrite Es in Hi.
  assert (bank_slot w2 i = Some (Cptr (Pblock (S (length (w_heap w1)) + i))))
    as Hslot.
  { unfold bank_slot. rewrite Ea, Eh, deref_bank_array.
    apply lookup_slots. lia. }
  split.
  - rewrite (bank_slot_keeps w2 w' i K Ka) by (rewrite Hslot; eauto).
    exact Hslot.
  - intros j Hj. rewrite Ew in Hj.
    assert (bank_cell w2 i j = Some Cundef) as Hcell.
    { unfold bank_cell. rewrite Hslot, Eh, deref_bank_vector by lia.
      apply lookup_replicate_2. lia. }
    rewrite (bank_cell_keeps w2 w' i j K Ka) by (rewrite Hcell; eauto).
    exact Hcell.
Qed.

(** ** Releasing *)

Lemma free_run p h pl t d :
  free p (World h pl t d)
  = match p with
    | Pundef => Undefined
    | Pnull => Done tt (World h pl (t ++ [EvFree Pnull]) d)
    | Pblock b =>
        match deref h (Pblock b) with
        | Some _ => Done tt (World (<[b := None]> h) pl (t ++ [EvFree (Pblock b)]) d)
        | None => Undefined
        end
    end.
Proof.
  cbv [free get_dnc put_dnc get_heap put_heap emit undefined
       mbind mret prog_bind prog_ret].
  cbn [w_heap w_plan w_trace w_dnc].
  repeat case_match; simplify_eq; reflexivity.
Qed.

Lemma load_ptr_run p i h pl t d :
  load_ptr p i (World h pl t d)
  = match deref h p with
    | Some (Ocells KPtr cells) =>
        if index_ok i (length cells)
        then match cells !! Z.to_nat i with
             | Some (Cptr q) => Done q (World h pl t d)
             | Some Cundef => Done Pundef (World h pl t d)
             | _ => Undefined
             end
        else Undefined
    | _ => Undefined
    end.
Proof.
  cbv [load_ptr get_dnc put_dnc get_heap put_heap emit undefined
       mbind mret prog_bind prog_ret].
  cbn [w_heap w_plan w_trace w_dnc].
  repeat case_match; simplify_eq; reflexivity.
Qed.

Lemma deref_insert_None (h : list (option object)) b p :
  deref (<[b := None]> h) p = if decide (p = Pblock b) then None else deref h p.
Proof.
  destruct (decide (p = Pblock b)) as [->|Hne].
  - simpl. destruct (decide (b < length h)%nat).
    + rewrite list_lookup_insert_eq by assumption. reflexivity.
    + rewrite list_insert_ge by lia.
      rewrite (proj2 (lookup_ge_None _ _)) by lia. reflexivity.
  - apply deref_insert_ne. exact Hne.
Qed.

(** The body of the loop of [deeplearn_dnc_free_memory]. *)
Definition free_slot (i : Z) : prog unit :=
  d ← get_dnc;
  q ← load_ptr (m_address (memory d)) i;
  free q.

(** If the array of the bank, as long as it is readable, has an
    indeterminate slot, the loop that frees the slots is undefined. *)
Definition has_garbage_slot (m : nat) (w : world) : Prop :=
  forall cells,
    deref (w_heap w) (m_address (memory (w_dnc w))) = Some (Ocells KPtr cells) ->
    cells !! m = Some Cundef.

Lemma free_slots_undefined m n :
  forall i w,
  0 <= i <= Z.of_nat m -> Z.of_nat m < i + Z.of_nat n ->
  has_garbage_slot m w ->
  for_loop (R := unit) n i (fun i => free_slot i;; mret None) w = Undefined.
Proof.
  induction n as [|n IH]; intros i w Hi Hm Hg; [lia|].
  cbn [for_loop]. destruct w as [h pl t d].
  rewrite bind_eq, bind_eq. unfold free_slot at 1.
  rewrite bind_eq, get_dnc_run, bind_eq, load_ptr_run.
  unfold has_garbage_slot in Hg. cbn [w_heap w_dnc] in Hg.
  destruct (deref h (m_address (memory d))) as [[[] cells|]|] eqn:Ed;
    try reflexivity.
  specialize (Hg cells eq_refl).
  destruct (index_ok i (length cells)); [|reflexivity].
  assert (forall q w1, free q (World h pl t d) = Done tt w1 ->
            has_garbage_slot m w1) as Hfree.
  { intros q w1. rewrite free_run.
    destruct q as [| |b]; try discriminate.
    - intros E; inversion E; subst. intros cells'. cbn. rewrite Ed.
      congruence.
    - destruct (deref h (Pblock b)); [|discriminate].
      intros E; inversion E; subst. intros cells'. cbn.
      rewrite deref_insert_None. destruct (decide _); [discriminate|].
      rewrite Ed. congruence. }
  destruct (decide (i = Z.of_nat m)) as [->|Hne].
  - rewrite Nat2Z.id, Hg. rewrite free_run. reflexivity.
  - destruct (cells !! Z.to_nat i) as [[| |q]|]; try reflexivity.
    destruct (free q (World h pl t d)) as [[] w1|] eqn:Ef; [|reflexivity].
    cbn [mret prog_ret].
    destruct (i <? INT_MAX); [|reflexivity].
    apply IH; [lia | lia |]. eapply Hfree. exact Ef.
Qed.

Lemma free_undefined_of_garbage m w :
  Z.of_nat m < size_of w ->
  has_garbage_slot m w ->
  deeplearn_dnc_free w = Undefined.
Proof.
  intros Hm Hg. unfold deeplearn_dnc_free.
  apply bind_undefined. unfold deeplearn_dnc_free_memory.
  destruct w as [h pl t d]. rewrite bind_eq, get_dnc_run.
  apply bind_undefined. unfold for_each. apply bind_undefined.
  apply (free_slots_undefined m); [lia | | exact Hg].
  unfold size_of in Hm. cbn in Hm. lia.
Qed.

(** ** C6: a vector of the bank cannot be allocated *)

Lemma served_refused k n rest :
  (k < n)%nat -> served n (replicate k true ++ false :: rest) = k.
Proof.
  revert n. induction k as [|k IH]; intros [|n] Hk; try lia; simpl.
  - reflexivity.
  - rewrite IH by lia. reflexivity.
Qed.

(** C6, as the code has it.  When the controller object, the array of the
    bank and its first [k] vectors are allocated and the next vector is
    refused, [deeplearn_dnc_init] returns 2002, a code of the bank; the
    first [k] slots point to live vectors and slot [k] is null, but the
    slots after it are indeterminate, and the pointers of the usage
    tracker and of the heads are as the caller left them: nothing is set to
    null.  So when a slot follows the refused one, [deeplearn_dnc_free] on
    that instance is undefined. *)
Theorem init_partial_bank ms mw ni nh hl no et seed w k rest :
  0 < BLOCK ->
  0 <= ms <= INT_MAX ->
  rounded_size ms * sizeof_ptr dm < SIZE_MOD dm ->
  w_plan w = true :: true :: replicate k true ++ false :: rest ->
  Z.of_nat k < rounded_size ms ->
  exists w',
    deeplearn_dnc_init ms mw ni nh hl no et seed w = Done 2002 w'
    /\ subsystem_of_code 2002 = Some SBank
    /\ size_of w' = rounded_size ms
    /\ (forall i, (i < k)%nat ->
          exists b, bank_slot w' i = Some (Cptr (Pblock b))
                    /\ deref (w_heap w') (Pblock b) = Some (fresh_vector (w_dnc w')))
    /\ bank_slot w' k = Some (Cptr Pnull)
    /\ (forall i, (k < i)%nat -> Z.of_nat i < rounded_size ms ->
          bank_slot w' i = Some Cundef)
    /\ m_usage (memory (w_dnc w')) = m_usage (memory (w_dnc w))
    /\ m_usage_temporal (memory (w_dnc w')) = m_usage_temporal (memory (w_dnc w))
    /\ read_head (w_dnc w') = read_head (w_dnc w)
    /\ write_head (w_dnc w') = write_head (w_dnc w)
    /\ (Z.of_nat (S k) < rounded_size ms -> deeplearn_dnc_free w' = Undefined).
Proof.
  intros HB Hms Hfit Hplan Hk.
  assert (0 <= rounded_size ms <= INT_MAX) as Hsz.
  { rewrite rounded_size_eq by lia.
    assert (0 <= ms / BLOCK) by (apply Z.div_pos; lia).
    assert (ms / BLOCK * BLOCK <= ms)
      by (rewrite Z.mul_comm; apply Z.mul_div_le; lia).
    nia. }
  destruct w as [h pl t d]. cbn [w_plan] in Hplan. subst pl.
  pose proof (init_controller_object_run ni no h
    (true :: true :: replicate k true ++ false :: rest) t d) as Ep.
  cbn [next_alloc fst snd] in Ep.
  set (d1 := Dnc (Pblock (length h)) (memory d) (read_head d) (write_head d) ni no)
    in Ep.
  pose proof (init_memory_run ms mw (h ++ [Some (Octrl None)])
    (true :: replicate k true ++ false :: rest) t d1 Hsz Hfit) as E1.
  cbv zeta in E1. cbn [next_alloc fst snd] in E1.
  rewrite served_refused in E1 by lia.
  rewrite decide_False in E1 by lia.
  set (n := Z.to_nat (rounded_size ms)) in *.
  set (h1 := h ++ [Some (Octrl None)]) in *.
  set (d2 := with_bank d1 (rounded_size ms) (to_uint mw) (Pblock (length h1))) in *.
  set (cells := slots (S (length h1)) k ++ Cptr Pnull :: replicate (n - k - 1) Cundef)
    in *.
  eexists. split; [|split; [reflexivity|]].
  { apply init_run_iff. exists (Some SBank).
    eapply run_stages; [exact Ep | discriminate | exact E1 |].
    rewrite decide_False by (vm_compute; discriminate).
    split; [reflexivity|]. split; reflexivity. }
  assert (forall i, bank_slot (World (h1 ++ Some (Ocells KPtr cells)
                                        :: replicate k (Some (fresh_vector d2)))
                                     (drop (S k) (replicate k true ++ false :: rest))
                                     t d2) i = cells !! i) as Hslot.
  { intros i. unfold bank_slot. cbn [w_heap w_dnc d2 with_bank memory m_address].
    rewrite deref_bank_array. reflexivity. }
  cbn [w_dnc w_heap]. repeat split.
  - intros i Hi. exists (S (length h1) + i)%nat. split.
    + rewrite Hslot. unfold cells.
      rewrite lookup_app_l by (rewrite length_slots; exact Hi).
      apply lookup_slots. exact Hi.
    + apply deref_bank_vector. exact Hi.
  - rewrite Hslot. unfold cells.
    apply list_lookup_middle. rewrite length_slots. reflexivity.
  - intros i Hi Hin. rewrite Hslot. unfold cells.
    rewrite lookup_app_r by (rewrite length_slots; lia).
    rewrite length_slots.
    destruct (i - k)%nat as [|m] eqn:Em; [lia|]. simpl.
    apply lookup_replicate_2. lia.
  - intros Hin. apply (free_undefined_of_garbage (S k)).
    + exact Hin.
    + intros cells'. cbn [w_heap w_dnc d2 with_bank memory m_address].
      rewrite deref_bank_array. intros [= <-]. unfold cells.
      rewrite lookup_app_r by (rewrite length_slots; lia).
      rewrite length_slots.
      replace (S k - k)%nat with 1%nat by lia. simpl.
      apply lookup_replicate_2. lia.
Qed.

(** ** C8: the order of the releases *)

(** [free] leaves the structure alone and logs itself. *)
Lemma free_spec p w w' :
  free p w = Done tt w' ->
  w_dnc w' = w_dnc w
  /\ w_trace w' = w_trace w ++ [EvFree p]
  /\ forall q, deref (w_heap w') q = if decide (q = p) then None else deref (w_heap w) q.
Proof.
  destruct w as [h pl t d]. rewrite free_run.
  destruct p as [| |b]; try discriminate.
  - intros E; inversion E; subst. repeat split. intros q. cbn.
    destruct (decide _) as [->|]; reflexivity.
  - destruct (deref h (Pblock b)); [|discriminate].
    intros E; inversion E; subst. repeat split. intros q. cbn.
    apply deref_insert_None.
Qed.

(** The loop over the slots of the bank. *)
Lemma free_slots_trace n :
  forall i w r w' cells,
  0 <= i ->
  for_loop (R := unit) n i (fun i => free_slot i;; mret None) w = Done r w' ->
  (n <> O ->
   deref (w_heap w) (m_address (memory (w_dnc w))) = Some (Ocells KPtr cells)) ->
  w_dnc w' = w_dnc w
  /\ w_trace w'
     = w_trace w ++ (EvFree <$> (slot_pointer <$> take n (drop (Z.to_nat i) cells))).
Proof.
  induction n as [|n IH]; intros i w r w' cells Hi E Hc.
  - inversion E; subst. rewrite take_0, app_nil_r. auto.
  - specialize (Hc ltac:(discriminate)).
    cbn [for_loop] in E.
    apply bind_inv in E as ([x|] & w1 & E1 & E).
    { apply bind_inv in E1 as (? & ? & _ & E1). inversion E1. }
    apply bind_inv in E1 as ([] & w1' & E1 & Er). inversion Er; subst w1'.
    unfold free_slot in E1.
    apply bind_inv in E1 as (d & wa & Ea & E1). inversion Ea; subst d wa.
    apply bind_inv in E1 as (q & wb & Eb & Ef).
    destruct w as [h pl t d]. rewrite load_ptr_run in Eb.
    cbn [w_dnc w_heap] in Hc, Eb. rewrite Hc in Eb.
    destruct (index_ok i (length cells)); [|discriminate].
    destruct (cells !! Z.to_nat i) as [c|] eqn:Ec; [|discriminate].
    assert (q = slot_pointer c /\ wb = World h pl t d) as [-> ->]
      by (destruct c; inversion Eb; auto).
    apply free_spec in Ef as (Ed & Et & Eh).
    rewrite (drop_S _ _ _ Ec). cbn [take fmap list_fmap].
    destruct (i <? INT_MAX); [|inversion E].
    destruct n as [|n].
    + inversion E; subst. rewrite take_0. auto.
    + assert (deref (w_heap w1) (m_address (memory (w_dnc w1)))
              = Some (Ocells KPtr cells)) as Hc1.
      { pose proof E as E'. cbn [for_loop] in E'.
        apply bind_inv in E' as (? & ? & E' & _).
        apply bind_inv in E' as (? & ? & E' & _).
        unfold free_slot in E'.
        apply bind_inv in E' as (d' & wa & Ea' & E'). inversion Ea'; subst d' wa.
        apply bind_inv in E' as (? & ? & E' & _).
        destruct w1 as [h1 pl1 t1 d1]. rewrite load_ptr_run in E'.
        cbn [w_dnc w_heap] in *. subst d1.
        rewrite Eh in E' |- *.
        destruct (decide _); [discriminate|]. exact Hc. }
      eapply IH in E; [|lia|intros _; exact Hc1].
      destruct E as [Ed' Et'].
      split; [congruence|].
      rewrite Et', Et. cbn [w_trace].
      replace (Z.to_nat (i + 1)) with (S (Z.to_nat i)) by lia.
      rewrite <- app_assoc. reflexivity.
Qed.

Lemma free_memory_trace w w' :
  deeplearn_dnc_free_memory w = Done tt w' ->
  w_dnc w' = w_dnc w /\ w_trace w' = w_trace w ++ bank_releases w.
Proof.
  unfold deeplearn_dnc_free_memory. intros E.
  apply bind_inv in E as (d & wa & Ea & E). inversion Ea; subst d wa.
  apply bind_inv in E as ([] & w1 & E1 & E).
  apply bind_inv in E as (d & wa & Ea' & E). inversion Ea'; subst d wa.
  unfold for_each in E1.
  apply bind_inv in E1 as (r & w1' & E1 & Er). inversion Er; subst w1'.
  apply free_spec in E as (Ed & Et & _).
  unfold bank_releases, bank_pointers.
  destruct (deref (w_heap w) (m_address (memory (w_dnc w))))
    as [[[] cells|]|] eqn:Hc.
  2:{ eapply (free_slots_trace _ _ _ _ _ cells) in E1 as [Ed1 Et1];
        [|lia|intros _; exact Hc].
      split; [congruence|].
      rewrite Et, Et1, Ed1, drop_0, fmap_app, <- app_assoc. reflexivity. }
  all: destruct (Z.to_nat (m_size (memory (w_dnc w)))) as [|n] eqn:En.
  all: try (eapply (free_slots_trace _ _ _ _ _ []) in E1 as [Ed1 Et1];
            [|lia|intros Hn; congruence];
            split; [congruence|];
            rewrite Et, Et1, Ed1, app_nil_r; reflexivity).
  all: exfalso; cbn [for_loop] in E1;
       apply bind_inv in E1 as (? & ? & E1 & _);
       apply bind_inv in E1 as (? & ? & E1 & _);
       unfold free_slot in E1;
       apply bind_inv in E1 as (d' & wa & Ea'' & E1); inversion Ea''; subst d' wa;
       apply bind_inv in E1 as (? & ? & E1 & _);
       destruct w as [h pl t d]; rewrite load_ptr_run in E1;
       cbn [w_dnc w_heap] in *; rewrite Hc in E1; discriminate.
Qed.

(** The loops over an array of the structure: element [i] is read, and what
    it points to is released. *)
Lemma free_field_loop_trace {A} (field : deeplearn_dnc -> list A)
    (get : Z -> prog A) (release : A -> prog unit) (ptrs : A -> list pointer) :
  (forall i w x w', get i w = Done x w' ->
     w' = w /\ field (w_dnc w) !! Z.to_nat i = Some x) ->
  (forall x w w', release x w = Done tt w' ->
     w_dnc w' = w_dnc w /\ w_trace w' = w_trace w ++ (EvFree <$> ptrs x)) ->
  forall n i w r w',
  0 <= i ->
  for_loop (R := unit) n i (fun i => (x ← get i; release x);; mret None) w
    = Done r w' ->
  w_dnc w' = w_dnc w
  /\ w_trace w'
     = w_trace w
       ++ (EvFree <$> concat (ptrs <$> take n (drop (Z.to_nat i) (field (w_dnc w))))).
Proof.
  intros Hget Hrel.
  induction n as [|n IH]; intros i w r w' Hi E.
  - inversion E; subst. rewrite take_0. cbn. rewrite app_nil_r. auto.
  - cbn [for_loop] in E.
    apply bind_inv in E as ([x|] & w1 & E1 & E).
    { apply bind_inv in E1 as (? & ? & _ & E1). inversion E1. }
    apply bind_inv in E1 as ([] & w1' & E1 & Er). inversion Er; subst w1'.
    apply bind_inv in E1 as (x & wa & Ea & E1).
    apply Hget in Ea as [-> Ex].
    apply Hrel in E1 as [Ed Et].
    destruct (i <? INT_MAX); [|inversion E].
    apply IH in E as [Ed' Et']; [|lia].
    split; [congruence|].
    rewrite Et', Et, Ed, (drop_S _ _ _ Ex).
    replace (Z.to_nat (i + 1)) with (S (Z.to_nat i)) by lia.
    cbn [take fmap list_fmap concat].
    rewrite fmap_app, <- app_assoc. reflexivity.
Qed.

Lemma get_usage_temporal_spec i w x w' :
  get_usage_temporal i w = Done x w' ->
  w' = w /\ m_usage_temporal (memory (w_dnc w)) !! Z.to_nat i = Some x.
Proof.
  destruct w as [h pl t d]. unfold get_usage_temporal.
  rewrite bind_eq, get_dnc_run.
  destruct (_ !! _) as [p|] eqn:E; [|discriminate].
  destruct (index_ok _ _); [|discriminate].
  intros E'; inversion E'; subst. auto.
Qed.

Lemma get_read_head_spec i w x w' :
  get_read_head i w = Done x w' ->
  w' = w /\ read_head (w_dnc w) !! Z.to_nat i = Some x.
Proof.
  destruct w as [h pl t d]. unfold get_read_head.
  rewrite bind_eq, get_dnc_run.
  destruct (_ !! _) as [p|] eqn:E; [|discriminate].
  destruct (index_ok _ _); [|discriminate].
  intros E'; inversion E'; subst. auto.
Qed.

Lemma get_write_head_spec i w x w' :
  get_write_head i w = Done x w' ->
  w' = w /\ write_head (w_dnc w) !! Z.to_nat i = Some x.
Proof.
  destruct w as [h pl t d]. unfold get_write_head.
  rewrite bind_eq, get_dnc_run.
  destruct (_ !! _) as [p|] eqn:E; [|discriminate].
  destruct (index_ok _ _); [|discriminate].
  intros E'; inversion E'; subst. auto.
Qed.

Lemma free_one_trace p w w' :
  free p w = Done tt w' ->
  w_dnc w' = w_dnc w /\ w_trace w' = w_trace w ++ (EvFree <$> [p]).
Proof. intros E. apply free_spec in E as (? & ? & _). auto. Qed.

Lemma free_memory_usage_trace w w' :
  deeplearn_dnc_free_memory_usage w = Done tt w' ->
  w_dnc w' = w_dnc w /\ w_trace w' = w_trace w ++ usage_releases w.
Proof.
  unfold deeplearn_dnc_free_memory_usage. intros E.
  apply bind_inv in E as (d & wa & Ea & E). inversion Ea; subst d wa.
  apply bind_inv in E as ([] & w1 & E1 & E).
  apply free_spec in E1 as (Ed1 & Et1 & _).
  unfold for_each in E.
  apply bind_inv in E as (r & w2 & E & Er). inversion Er; subst w2.
  eapply (free_field_loop_trace (fun d => m_usage_temporal (memory d))
            get_usage_temporal free (fun p => [p])) in E as [Ed Et];
    [|apply get_usage_temporal_spec|intros; apply free_one_trace; assumption|lia].
  split; [congruence|].
  rewrite Et, Et1, Ed1, drop_0. unfold usage_releases.
  cbn [fmap list_fmap]. rewrite <- app_assoc. cbn [app].
  do 3 f_equal.
  generalize (take (DEEPLEARNDNC_READ_HEADS + DEEPLEARNDNC_WRITE_HEADS)
                (m_usage_temporal (memory (w_dnc w)))).
  intros l. induction l as [|p l IHl]; [reflexivity|].
  cbn. rewrite IHl. reflexivity.
Qed.

Lemma free_write_head_trace x w w' :
  (free (wh_write x);; free (wh_erase x);; free (wh_key x)) w = Done tt w' ->
  w_dnc w' = w_dnc w
  /\ w_trace w' = w_trace w ++ (EvFree <$> write_head_pointers x).
Proof.
  intros E.
  apply bind_inv in E as ([] & w1 & E1 & E).
  apply bind_inv in E as ([] & w2 & E2 & E3).
  apply free_spec in E1 as (D1 & T1 & _).
  apply free_spec in E2 as (D2 & T2 & _).
  apply free_spec in E3 as (D3 & T3 & _).
  split; [congruence|].
  rewrite T3, T2, T1, <- !app_assoc. reflexivity.
Qed.

Lemma free_heads_trace w w' :
  deeplearn_dnc_free_heads w = Done tt w' ->
  w_dnc w' = w_dnc w /\ w_trace w' = w_trace w ++ heads_releases w.
Proof.
  unfold deeplearn_dnc_free_heads. intros E.
  apply bind_inv in E as ([] & w1 & E1 & E).
  unfold for_each in E1, E.
  apply bind_inv in E1 as (r1 & w1' & E1 & Er). inversion Er; subst w1'.
  apply bind_inv in E as (r2 & w2' & E & Er'). inversion Er'; subst w2'.
  eapply (free_field_loop_trace read_head get_read_head
            (fun x => free (rh_key x)) (fun x => [rh_key x])) in E1 as [Ed1 Et1];
    [|apply get_read_head_spec|intros; apply free_one_trace; assumption|lia].
  eapply (free_field_loop_trace write_head get_write_head
            (fun x => free (wh_write x);; free (wh_erase x);; free (wh_key x))
            write_head_pointers) in E as [Ed Et];
    [|apply get_write_head_spec|intros; apply free_write_head_trace; assumption|lia].
  split; [congruence|].
  rewrite Et, Et1, Ed1, !drop_0. unfold heads_releases.
  rewrite fmap_app, <- app_assoc. do 2 f_equal.
  generalize (take DEEPLEARNDNC_READ_HEADS (read_head (w_dnc w))).
  intros l. induction l as [|p l IHl]; [reflexivity|].
  cbn. rewrite IHl. reflexivity.
Qed.

Lemma call_deeplearn_trace r w v w' :
  call_deeplearn r w = Done v w' ->
  w_dnc w' = w_dnc w /\ w_trace w' = w_trace w ++ [EvCall r].
Proof.
  destruct w as [h pl t d]. rewrite call_deeplearn_run.
  repeat case_match; try discriminate.
  intros E; inversion E; subst. auto.
Qed.

(** Whenever [deeplearn_dnc_free] returns, its releases are those of the
    four deallocation steps, in the order they are written. *)
Lemma free_trace w w' :
  deeplearn_dnc_free w = Done tt w' ->
  w_trace w' = w_trace w ++ release_sequence w.
Proof.
  unfold deeplearn_dnc_free. intros E.
  apply bind_inv in E as ([] & w1 & E1 & E).
  apply bind_inv in E as ([] & w2 & E2 & E).
  apply bind_inv in E as ([] & w3 & E3 & E).
  apply bind_inv in E as (v & w4 & E4 & E). inversion E; subst w4.
  apply free_memory_trace in E1 as [D1 T1].
  apply free_memory_usage_trace in E2 as [D2 T2].
  apply free_heads_trace in E3 as [D3 T3].
  apply call_deeplearn_trace in E4 as [D4 T4].
  rewrite T4, T3, T2, T1. unfold release_sequence, controller_releases.
  unfold usage_releases, heads_releases. rewrite D2, D1.
  rewrite <- !app_assoc. reflexivity.
Qed.

(** ** C9: clearing twice *)

Lemma memset_zero_run p n h pl t d :
  memset_zero p n (World h pl t d)
  = match p, deref h p with
    | Pblock b, Some (Ocells k cells) =>
        if (n <=? sizeof dm k * Z.of_nat (length cells))
           && (n mod sizeof dm k =? 0)
        then Done tt
               (World (<[b := Some (Ocells k
                          (zero_prefix k (Z.to_nat (n / sizeof dm k)) cells))]> h)
                      pl t d)
        else Undefined
    | _, _ => Undefined
    end.
Proof.
  cbv [memset_zero get_dnc put_dnc get_heap put_heap emit undefined
       mbind mret prog_bind prog_ret].
  cbn [w_heap w_plan w_trace w_dnc].
  repeat case_match; simplify_eq; reflexivity.
Qed.

Lemma length_zero_prefix k n cells :
  length (zero_prefix k n cells) = length cells.
Proof.
  unfold zero_prefix. rewrite length_app, length_replicate, length_drop. lia.
Qed.

Lemma lookup_zero_prefix k n cells j :
  zero_prefix k n cells !! j
  = if decide (j < n `min` length cells)%nat then Some (zero_cell k)
    else cells !! j.
Proof.
  unfold zero_prefix. destruct (decide _) as [Hj|Hj].
  - rewrite lookup_app_l by (rewrite length_replicate; exact Hj).
    apply lookup_replicate_2. exact Hj.
  - rewrite lookup_app_r by (rewrite length_replicate; lia).
    rewrite length_replicate, lookup_drop.
    destruct (decide (n <= length cells)%nat).
    + f_equal. lia.
    + rewrite !(proj2 (lookup_ge_None _ _)) by lia. reflexivity.
Qed.

Lemma zero_prefix_id k n cells :
  (forall j, (j < n)%nat -> (j < length cells)%nat -> cells !! j = Some (zero_cell k)) ->
  zero_prefix k n cells = cells.
Proof.
  intros Hz. apply list_eq. intros j. rewrite lookup_zero_prefix.
  destruct (decide _) as [Hj|Hj]; [|reflexivity].
  symmetry. apply Hz; lia.
Qed.

Lemma memset_zero_again p n w :
  zeroed (w_heap w) p n -> memset_zero p n w = Done tt w.
Proof.
  intros (k & cells & Hd & Hle & Hmod & Hz).
  destruct w as [h pl t d]. rewrite memset_zero_run. cbn [w_heap] in Hd.
  destruct p as [| |b]; try discriminate. rewrite Hd.
  replace (n <=? _) with true by (symmetry; apply Z.leb_le; exact Hle).
  replace (n mod _ =? 0) with true by (symmetry; apply Z.eqb_eq; exact Hmod).
  cbn [andb]. rewrite zero_prefix_id by (intros; apply Hz; assumption).
  rewrite list_insert_id; [reflexivity|].
  simpl in Hd. destruct (h !! b) as [[o|]|]; inversion Hd; reflexivity.
Qed.

Lemma memset_zero_spec p n w w' :
  memset_zero p n w = Done tt w' ->
  w_dnc w' = w_dnc w /\ w_plan w' = w_plan w /\ w_trace w' = w_trace w
  /\ zeroed (w_heap w') p n
  /\ (forall q m, zeroed (w_heap w) q m -> zeroed (w_heap w') q m)
  /\ (forall q, q <> p -> deref (w_heap w') q = deref (w_heap w) q).
Proof.
  destruct w as [h pl t d]. rewrite memset_zero_run.
  destruct p as [| |b]; try discriminate.
  destruct (deref h (Pblock b)) as [[k cells|]|] eqn:Hd; try discriminate.
  destruct (_ && _) eqn:Hc; [|discriminate].
  apply andb_prop in Hc as [Hle Hmod].
  apply Z.leb_le in Hle. apply Z.eqb_eq in Hmod.
  intros E; inversion E; subst; clear E. cbn [w_dnc w_plan w_trace w_heap].
  assert (0 < sizeof dm k) as Hpos by (destruct k, dm; reflexivity).
  repeat split.
  - exists k, (zero_prefix k (Z.to_nat (n / sizeof dm k)) cells).
    rewrite (deref_insert_eq _ _ _ _ Hd), length_zero_prefix.
    repeat split; try assumption.
    intros j Hj. rewrite lookup_zero_prefix, decide_True; [reflexivity|].
    assert (n / sizeof dm k <= Z.of_nat (length cells))
      by (apply Z.div_le_upper_bound; lia).
    lia.
  - intros q m (k' & cells' & Hd' & Hle' & Hmod' & Hz').
    destruct (decide (q = Pblock b)) as [->|Hq].
    + rewrite Hd in Hd'. simplify_eq.
      exists k', (zero_prefix k' (Z.to_nat (n / sizeof dm k')) cells').
      rewrite (deref_insert_eq _ _ _ _ Hd), length_zero_prefix.
      repeat split; try assumption.
      intros j Hj. rewrite lookup_zero_prefix.
      destruct (decide _); [reflexivity | apply Hz'; exact Hj].
    + exists k', cells'. rewrite deref_insert_ne by exact Hq. auto.
  - intros q Hq. apply deref_insert_ne. exact Hq.
Qed.

Lemma zeroed_block h p n : zeroed h p n -> exists b, p = Pblock b.
Proof.
  intros (k & cells & Hd & _). destruct p as [| |b]; try discriminate. eauto.
Qed.

(** The body of the first loop of [deeplearn_dnc_clear_memory]. *)
Definition clear_slot (i : Z) : prog unit :=
  d ← get_dnc;
  q ← load_ptr (m_address (memory d)) i;
  memset_zero q (to_size_t dm (m_width (memory d) * sizeof_float)).

Definition vector_bytes (w : world) : Z :=
  to_size_t dm (m_width (memory (w_dnc w)) * sizeof_float).

Lemma clear_slot_inv i w w' :
  clear_slot i w = Done tt w' ->
  exists cells c,
    deref (w_heap w) (m_address (memory (w_dnc w))) = Some (Ocells KPtr cells)
    /\ index_ok i (length cells) = true
    /\ cells !! Z.to_nat i = Some c
    /\ memset_zero (slot_pointer c) (vector_bytes w) w = Done tt w'.
Proof.
  unfold clear_slot. intros E.
  apply bind_inv in E as (d & wa & Ea & E). inversion Ea; subst d wa.
  apply bind_inv in E as (q & wb & Eb & E).
  destruct w as [h pl t d]. rewrite load_ptr_run in Eb. cbn [w_dnc w_heap] in *.
  destruct (deref h (m_address (memory d))) as [[[] cells|]|]; try discriminate.
  destruct (index_ok i (length cells)) eqn:Hi; [|discriminate].
  destruct (cells !! Z.to_nat i) as [c|] eqn:Ec; [|discriminate].
  exists cells, c.
  split; [reflexivity|]. split; [exact Hi|]. split; [exact Ec|].
  destruct c; inversion Eb; subst; exact E.
Qed.

Lemma clear_slots_spec n :
  forall i w r w' cells,
  0 <= i ->
  for_loop (R := unit) n i (fun i => clear_slot i;; mret None) w = Done r w' ->
  (n <> O ->
   deref (w_heap w) (m_address (memory (w_dnc w))) = Some (Ocells KPtr cells)) ->
  Cptr (m_address (memory (w_dnc w))) ∉ cells ->
  w_dnc w' = w_dnc w /\ w_plan w' = w_plan w /\ w_trace w' = w_trace w
  /\ deref (w_heap w') (m_address (memory (w_dnc w)))
     = deref (w_heap w) (m_address (memory (w_dnc w)))
  /\ (forall q m, zeroed (w_heap w) q m -> zeroed (w_heap w') q m)
  /\ (forall j c, i <= j < i + Z.of_nat n -> cells !! Z.to_nat j = Some c ->
        zeroed (w_heap w') (slot_pointer c) (vector_bytes w))
  /\ (n <> O -> i + Z.of_nat n <= INT_MAX
               /\ i + Z.of_nat n <= Z.of_nat (length cells)).
Proof.
  induction n as [|n IH]; intros i w r w' cells Hi E Hc Hnot.
  - inversion E; subst. repeat split; auto; try lia; try congruence.
  - specialize (Hc ltac:(discriminate)).
    cbn [for_loop] in E.
    apply bind_inv in E as ([x|] & w1 & E1 & E).
    { apply bind_inv in E1 as (? & ? & _ & E1). inversion E1. }
    apply bind_inv in E1 as ([] & w1' & E1 & Er). inversion Er; subst w1'.
    apply clear_slot_inv in E1 as (cells' & c & Hc' & Hok & Ec & Em).
    rewrite Hc in Hc'. inversion Hc'; subst cells'. clear Hc'.
    apply memset_zero_spec in Em as (Ed & Ep & Et & Hz & Hmono & Hne).
    assert (slot_pointer c <> m_address (memory (w_dnc w))) as Hq.
    { intros Heq. apply zeroed_block in Hz as [b Hb].
      destruct c as [| |q]; try discriminate. simpl in Heq, Hb. subst q.
      apply Hnot. rewrite <- Heq. eapply list_elem_of_lookup_2. exact Ec. }
    assert (deref (w_heap w1) (m_address (memory (w_dnc w)))
            = Some (Ocells KPtr cells)) as Hc1
      by (rewrite Hne by congruence; exact Hc).
    destruct (i <? INT_MAX) eqn:Hlt; [|inversion E].
    apply Z.ltb_lt in Hlt.
    unfold index_ok in Hok. apply andb_prop in Hok as [_ Hok].
    apply Z.ltb_lt in Hok.
    eapply (IH _ _ _ _ cells) in E; [|lia|rewrite Ed; intros _; exact Hc1
                                     |rewrite Ed; exact Hnot].
    destruct E as (Ed' & Ep' & Et' & Hd' & Hmono' & Hz' & Hb').
    rewrite Ed in Hd'.
    assert (vector_bytes w1 = vector_bytes w) as Hvb
      by (unfold vector_bytes; rewrite Ed; reflexivity).
    rewrite Hvb in Hz'.
    repeat split; try congruence.
    + auto.
    + intros j c' Hj Ec'. destruct (decide (j = i)) as [->|Hji].
      * rewrite Ec in Ec'. inversion Ec'; subst c'. apply Hmono'. exact Hz.
      * apply (Hz' j); [lia | exact Ec'].
    + destruct n; [lia|]. destruct Hb' as [? ?]; [discriminate|]. lia.
    + destruct n; [lia|]. destruct Hb' as [? ?]; [discriminate|]. lia.
Qed.

Lemma clear_slots_again n :
  forall i w cells,
  0 <= i ->
  (n <> O ->
   deref (w_heap w) (m_address (memory (w_dnc w))) = Some (Ocells KPtr cells)
   /\ i + Z.of_nat n <= INT_MAX
   /\ i + Z.of_nat n <= Z.of_nat (length cells)) ->
  (forall j c, i <= j < i + Z.of_nat n -> cells !! Z.to_nat j = Some c ->
     zeroed (w_heap w) (slot_pointer c) (vector_bytes w)) ->
  for_loop (R := unit) n i (fun i => clear_slot i;; mret None) w = Done None w.
Proof.
  induction n as [|n IH]; intros i w cells Hi Hc Hz; [reflexivity|].
  destruct Hc as (Hc & Hmax & Hlen); [discriminate|].
  cbn [for_loop].
  assert (clear_slot i w = Done tt w) as E1.
  { unfold clear_slot. destruct w as [h pl t d].
    rewrite bind_eq, get_dnc_run, bind_eq, load_ptr_run.
    cbn [w_dnc w_heap] in *. rewrite Hc.
    replace (index_ok i (length cells)) with true
      by (symmetry; apply andb_true_intro; split;
          [apply Z.leb_le | apply Z.ltb_lt]; lia).
    destruct (cells !! Z.to_nat i) as [c|] eqn:Ec.
    2:{ apply lookup_ge_None in Ec. lia. }
    specialize (Hz i c ltac:(lia) Ec).
    pose proof (zeroed_block _ _ _ Hz) as [b Hb].
    destruct c as [| |q]; try discriminate. simpl in Hb. subst q.
    apply (memset_zero_again _ _ (World h pl t d)). exact Hz. }
  rewrite bind_eq, bind_eq, E1. cbn [mret prog_ret].
  replace (i <? INT_MAX) with true by (symmetry; apply Z.ltb_lt; lia).
  apply (IH _ _ cells); [lia | | ].
  - intros Hn. split; [exact Hc|]. lia.
  - intros j c Hj. apply Hz. lia.
Qed.

Lemma memset_usage_temporal_again n w w' :
  memset_usage_temporal n w = Done tt w' ->
  memset_usage_temporal n w' = Done tt w'
  /\ w_heap w' = w_heap w /\ w_plan w' = w_plan w /\ w_trace w' = w_trace w
  /\ size_of w' = size_of w /\ width_of w' = width_of w
  /\ m_address (memory (w_dnc w')) = m_address (memory (w_dnc w))
  /\ m_usage (memory (w_dnc w')) = m_usage (memory (w_dnc w)).
Proof.
  destruct w as [h pl t d]. unfold memset_usage_temporal.
  rewrite bind_eq, get_dnc_run. cbv zeta.
  destruct (_ && _) eqn:Hc; [|discriminate].
  rewrite set_memory_run. intros E; inversion E; subst; clear E.
  rewrite bind_eq, get_dnc_run. cbv zeta. struct_simpl.
  set (k := Z.to_nat (n / sizeof_ptr dm)) in *.
  set (a := m_usage_temporal (memory d)) in *.
  assert (length (replicate (k `min` length a) Pnull ++ drop k a) = length a)
    as Hlen by (rewrite length_app, length_replicate, length_drop; lia).
  rewrite Hlen, Hc, set_memory_run. struct_simpl.
  assert (k <= length a)%nat as Hk.
  { apply andb_prop in Hc as [Hle _]. apply Z.leb_le in Hle.
    pose proof sizeof_ptr_pos.
    assert (n / sizeof_ptr dm <= Z.of_nat (length a))
      by (apply Z.div_le_upper_bound; lia).
    unfold k. lia. }
  repeat split. do 4 f_equal.
  rewrite Nat.min_l by exact Hk.
  rewrite drop_app_length'; [reflexivity|]. symmetry; apply length_replicate.
Qed.

Definition same_dnc : relation world := fun w w' => w_dnc w' = w_dnc w.

#[local] Instance same_dnc_preorder : PreOrder same_dnc.
Proof. split; [intros w; reflexivity | intros w1 w2 w3; unfold same_dnc; congruence]. Qed.

Lemma clear_slots_same_dnc n i :
  frame same_dnc (for_loop (R := unit) n i (fun i => clear_slot i;; mret None)).
Proof.
  unfold clear_slot.
  assert (frame same_dnc get_dnc) by (frame_prim; reflexivity).
  assert (forall p j, frame same_dnc (load_ptr p j)) by (intros; frame_prim; reflexivity).
  assert (forall p m, frame same_dnc (memset_zero p m)) by (intros; frame_prim; reflexivity).
  repeat (first [solve [auto] | frame_step]).
Qed.

Lemma clear_memory_unfold w :
  deeplearn_dnc_clear_memory w
  = (for_loop (R := unit) (Z.to_nat (size_of w)) 0
       (fun i => clear_slot i;; mret None);;
     memset_zero (m_usage (memory (w_dnc w)))
       (to_size_t dm (usage_size (w_dnc w) * sizeof_ptr dm));;
     memset_usage_temporal
       (to_size_t dm (int_mul (usage_size (w_dnc w)) (usage_size (w_dnc w))
                      * sizeof_ptr dm))) w.
Proof.
  unfold deeplearn_dnc_clear_memory, for_each, size_of.
  destruct w as [h pl t d].
  rewrite bind_eq, get_dnc_run. cbn [w_dnc].
  rewrite !bind_eq. fold clear_slot.
  destruct (for_loop _ _ _ _) as [r w1|] eqn:E; [|reflexivity].
  cbn [mret prog_ret].
  apply clear_slots_same_dnc in E. unfold same_dnc in E. cbn [w_dnc] in E.
  destruct w1 as [h1 pl1 t1 d1]. cbn [w_dnc] in E. subst d1.
  reflexivity.
Qed.

Lemma clear_slots_readable n i w r w' :
  for_loop (R := unit) (S n) i (fun i => clear_slot i;; mret None) w = Done r w' ->
  exists cells,
    deref (w_heap w) (m_address (memory (w_dnc w))) = Some (Ocells KPtr cells).
Proof.
  cbn [for_loop]. intros E.
  apply bind_inv in E as (? & ? & E & _).
  apply bind_inv in E as ([] & ? & E & _).
  apply clear_slot_inv in E as (cells & _ & Hc & _). eauto.
Qed.

(** A world cleared once is left as it is by the next clearing. *)
Lemma clear_memory_fixes w w1 :
  bank_apart w ->
  deeplearn_dnc_clear_memory w = Done tt w1 ->
  deeplearn_dnc_clear_memory w1 = Done tt w1.
Proof.
  intros Hapart E. rewrite clear_memory_unfold in E.
  apply bind_inv in E as (r & wa & Ea & E).
  apply bind_inv in E as ([] & wb & Eb & Ec).
  (* the array of addresses, when the loop reads it *)
  assert (exists cells,
            (Z.to_nat (size_of w) <> O ->
             deref (w_heap w) (m_address (memory (w_dnc w)))
             = Some (Ocells KPtr cells)
             /\ m_usage (memory (w_dnc w)) <> m_address (memory (w_dnc w)))
            /\ Cptr (m_address (memory (w_dnc w))) ∉ cells)
    as (cells & Hread & Hnot).
  { destruct (Z.to_nat (size_of w)) as [|n] eqn:En.
    - exists []. split; [congruence|]. apply not_elem_of_nil.
    - apply clear_slots_readable in Ea as [cells Hc]. exists cells.
      destruct (Hapart cells Hc). auto. }
  eapply (clear_slots_spec _ _ _ _ _ cells) in Ea;
    [|lia|intros Hn; apply Hread; exact Hn|exact Hnot].
  destruct Ea as (Da & Pa & Ta & Ha & Mono_a & Za & Ba).
  apply memset_zero_spec in Eb as (Db & Pb & Tb & Zb & Mono_b & Hb).
  apply memset_usage_temporal_again in Ec
    as (Ec & Hc & Pc & Tc & Sc & Wc & Ac & Uc).
  assert (size_of wb = size_of w /\ width_of wb = width_of w
          /\ m_address (memory (w_dnc wb)) = m_address (memory (w_dnc w))
          /\ m_usage (memory (w_dnc wb)) = m_usage (memory (w_dnc w)))
    as (Sb & Wb & Ab & Ub)
    by (unfold size_of, width_of; rewrite Db, Da; auto).
  assert (usage_size (w_dnc w1) = usage_size (w_dnc w)) as Hus.
  { unfold usage_size. unfold size_of in Sc, Sb. rewrite Sc, Sb. reflexivity. }
  assert (vector_bytes w1 = vector_bytes w) as Hvb.
  { unfold vector_bytes. unfold width_of in Wc, Wb. rewrite Wc, Wb. reflexivity. }
  rewrite clear_memory_unfold.
  rewrite Sc, Sb, Uc, Ub, Hus.
  rewrite bind_eq.
  rewrite (clear_slots_again _ _ _ cells).
  - rewrite bind_eq, memset_zero_again by (rewrite Hc; exact Zb).
    exact Ec.
  - lia.
  - intros Hn. rewrite Ac, Ab, Hc.
    destruct (Hread Hn) as [Hrd Hne].
    rewrite Hb by congruence. rewrite Ha.
    split; [exact Hrd|]. apply Ba. exact Hn.
  - intros j c Hj Hjc. rewrite Hvb, Hc. apply Mono_b. apply (Za j); assumption.
Qed.

(** On an instance whose array of addresses is a block of its own (as
    after any successful initialisation), whatever the bank, the usage
    vector and the linkage matrices hold, clearing the memory twice in a
    row has the outcome of clearing it once: the same world when the
    clearing is defined, and no defined outcome otherwise. *)
Theorem clear_memory_idempotent w :
  bank_apart w ->
  (deeplearn_dnc_clear_memory;; deeplearn_dnc_clear_memory) w
  = deeplearn_dnc_clear_memory w.
Proof.
  intros Hapart. rewrite bind_eq.
  destruct (deeplearn_dnc_clear_memory w) as [[] w1|] eqn:E; [|reflexivity].
  apply clear_memory_fixes with w; assumption.
Qed.


(** ** Releasing a releasable instance *)

Lemma release_sequence_pointers w :
  release_sequence w = (EvFree <$> release_pointers w) ++ [EvCall ReqFree].
Proof.
  unfold release_sequence, release_pointers, bank_releases, usage_releases,
    heads_releases, controller_releases.
  rewrite !fmap_app, <- !app_assoc. reflexivity.
Qed.

(** A loop without [return] whose body always returns, [J j] holding before
    iteration [j]. *)
Lemma for_each_total (J : nat -> world -> Prop) n (body : Z -> prog unit) :
  (forall j w, (j < n)%nat -> J j w ->
     exists w', body (Z.of_nat j) w = Done tt w' /\ J (S j) w') ->
  Z.of_nat n <= INT_MAX ->
  forall w, J O w -> exists w', for_each n body w = Done tt w' /\ J n w'.
Proof.
  intros Hb Hn.
  assert (forall m i w, (i + m = n)%nat -> J i w ->
            exists w', for_loop (R := unit) m (Z.of_nat i)
                         (fun i => body i;; mret None) w = Done None w'
                       /\ J n w') as Hloop.
  { induction m as [|m IH]; intros i w Him Hw; cbn [for_loop].
    - replace n with i by lia. exists w. auto.
    - destruct (Hb i w ltac:(lia) Hw) as (w1 & E1 & H1).
      rewrite bind_eq, bind_eq, E1. cbn [mret prog_ret].
      destruct (Z.of_nat i <? INT_MAX) eqn:Hlt; [|apply Z.ltb_ge in Hlt; lia].
      replace (Z.of_nat i + 1) with (Z.of_nat (S i)) by lia.
      apply IH; [lia | exact H1]. }
  intros w Hw. destruct (Hloop n O w ltac:(lia) Hw) as (w' & E & H').
  exists w'. split; [|exact H'].
  unfold for_each. change 0 with (Z.of_nat 0). rewrite bind_eq, E. reflexivity.
Qed.

Lemma filter_NoDup_take {A} (P : A -> Prop) `{!forall x, Decision (P x)}
    (l : list A) k x :
  NoDup (filter P l) -> l !! k = Some x -> P x -> x ∉ take k l.
Proof.
  intros Hnd Hk Hx Hin.
  rewrite <- (take_drop_middle l k x Hk) in Hnd.
  rewrite filter_app, filter_cons_True in Hnd by exact Hx.
  apply NoDup_app in Hnd as (_ & Hd & _).
  apply (Hd x).
  - apply list_elem_of_filter. auto.
  - constructor.
Qed.

(** The first [k] pointers of [w0] have been released, nothing else has
    changed. *)
Definition released (w0 : world) (k : nat) (w : world) : Prop :=
  w_dnc w = w_dnc w0
  /\ forall q, deref (w_heap w) q
               = if decide (q ∈ take k (release_pointers w0)) then None
                 else deref (w_heap w0) q.

Lemma released_start w : released w O w.
Proof.
  split; [reflexivity|]. intros q. rewrite take_0.
  rewrite decide_False; [reflexivity|]. intros Hq. inversion Hq.
Qed.

Lemma released_at w0 k k' w : k' = k -> released w0 k w -> released w0 k' w.
Proof. intros ->. auto. Qed.

Lemma released_deref w0 k w q :
  released w0 k w -> q ∉ take k (release_pointers w0) ->
  deref (w_heap w) q = deref (w_heap w0) q.
Proof. intros [_ Hh] Hq. rewrite Hh, decide_False by exact Hq. reflexivity. Qed.

Lemma free_total p w :
  p = Pnull \/ is_Some (deref (w_heap w) p) -> exists w', free p w = Done tt w'.
Proof.
  destruct w as [h pl t d]. rewrite free_run. cbn [w_heap].
  intros [->|[o Ho]]; [eauto|].
  destruct p as [| |b]; simpl in Ho; try discriminate.
  cbn [deref]. rewrite Ho. eauto.
Qed.

Lemma released_next w0 k w p :
  releasable w0 -> released w0 k w -> release_pointers w0 !! k = Some p ->
  exists w', free p w = Done tt w' /\ released w0 (S k) w'.
Proof.
  intros (_ & _ & _ & _ & Hlive & Hnd & _) [Hd Hh] Hk.
  assert (p = Pnull \/ is_Some (deref (w_heap w) p)) as Hp.
  { destruct (decide (p = Pnull)) as [|Hne]; [auto|right].
    rewrite Hh, decide_False.
    - destruct (Hlive p (list_elem_of_lookup_2 _ _ _ Hk));
        [contradiction|assumption].
    - apply (filter_NoDup_take (fun p => p <> Pnull)); assumption. }
  destruct (free_total p w Hp) as (w' & E). exists w'. split; [exact E|].
  apply free_spec in E as (Ed & _ & Eh).
  split; [congruence|]. intros q. rewrite Eh, Hh.
  rewrite (take_S_r _ _ _ Hk).
  destruct (decide (q = p)) as [->|Hq].
  - rewrite decide_True; [reflexivity|]. apply elem_of_app. right. constructor.
  - destruct (decide (q ∈ take k (release_pointers w0))) as [Hin|Hin].
    + rewrite decide_True; [reflexivity|]. apply elem_of_app. auto.
    + rewrite decide_False; [reflexivity|].
      rewrite elem_of_app, list_elem_of_singleton. tauto.
Qed.

(** Where each pointer stands in the list. *)
Lemma release_pointers_eq w :
  release_pointers w
  = bank_pointers w
    ++ [m_address (memory (w_dnc w)); m_usage (memory (w_dnc w))]
    ++ take (DEEPLEARNDNC_READ_HEADS + DEEPLEARNDNC_WRITE_HEADS)
         (m_usage_temporal (memory (w_dnc w)))
    ++ (rh_key <$> take DEEPLEARNDNC_READ_HEADS (read_head (w_dnc w)))
    ++ concat (write_head_pointers
                 <$> take DEEPLEARNDNC_WRITE_HEADS (write_head (w_dnc w))).
Proof. unfold release_pointers. rewrite <- app_assoc. reflexivity. Qed.

Lemma length_bank_pointers w cells :
  deref (w_heap w) (m_address (memory (w_dnc w))) = Some (Ocells KPtr cells) ->
  (Z.to_nat (m_size (memory (w_dnc w))) <= length cells)%nat ->
  length (bank_pointers w) = Z.to_nat (m_size (memory (w_dnc w))).
Proof.
  intros Hc Hlen. unfold bank_pointers. rewrite Hc.
  rewrite length_fmap, length_take_le by exact Hlen. reflexivity.
Qed.

Lemma lookup_write_head_pointers (l : list deeplearn_dnc_write_head) j x r :
  l !! j = Some x -> (r < 3)%nat ->
  concat (write_head_pointers <$> l) !! (3 * j + r)%nat
  = write_head_pointers x !! r.
Proof.
  revert j. induction l as [|y l IH]; intros [|j] Hj Hr; try discriminate.
  - simpl in Hj. inversion Hj; subst. cbn [fmap list_fmap concat].
    rewrite lookup_app_l by (simpl; lia). reflexivity.
  - cbn [fmap list_fmap concat]. rewrite lookup_app_r by (simpl; lia).
    replace (3 * S j + r - length (write_head_pointers y))%nat
      with (3 * j + r)%nat by (simpl; lia).
    apply IH; assumption.
Qed.

Section Releasable.

Variable w0 : world.
Hypothesis Hrel : releasable w0.

Let slots_of := Z.to_nat (m_size (memory (w_dnc w0))).

Lemma release_pointers_slot cells j :
  deref (w_heap w0) (m_address (memory (w_dnc w0))) = Some (Ocells KPtr cells) ->
  (j < slots_of)%nat ->
  exists q, cells !! j = Some (Cptr q) /\ release_pointers w0 !! j = Some q.
Proof.
  intros Hc Hj.
  destruct Hrel as (_ & _ & _ & (cells' & Hc' & Hlen) & Hlive & _).
  rewrite Hc in Hc'. inversion Hc'; subst cells'.
  destruct (cells !! j) as [c|] eqn:Ec.
  2:{ apply lookup_ge_None in Ec. unfold slots_of in Hj. lia. }
  assert (release_pointers w0 !! j = Some (slot_pointer c)) as Hk.
  { rewrite release_pointers_eq, lookup_app_l
      by (rewrite (length_bank_pointers _ cells) by assumption; exact Hj).
    unfold bank_pointers. rewrite Hc, list_lookup_fmap.
    rewrite lookup_take_lt by exact Hj. rewrite Ec. reflexivity. }
  destruct (Hlive _ (list_elem_of_lookup_2 _ _ _ Hk)) as [Hn|[o Ho]];
    destruct c as [| |q]; try discriminate; eauto.
Qed.

Lemma release_pointers_address :
  release_pointers w0 !! slots_of = Some (m_address (memory (w_dnc w0))).
Proof.
  destruct Hrel as (_ & _ & _ & (cells & Hc & Hlen) & _).
  rewrite release_pointers_eq, lookup_app_r
    by (rewrite (length_bank_pointers _ cells) by assumption; reflexivity).
  rewrite (length_bank_pointers _ cells) by assumption.
  fold slots_of. rewrite Nat.sub_diag. reflexivity.
Qed.

Lemma release_pointers_usage :
  release_pointers w0 !! (slots_of + 1)%nat = Some (m_usage (memory (w_dnc w0))).
Proof.
  destruct Hrel as (_ & _ & _ & (cells & Hc & Hlen) & _).
  rewrite release_pointers_eq, lookup_app_r
    by (rewrite (length_bank_pointers _ cells) by assumption; fold slots_of; lia).
  rewrite (length_bank_pointers _ cells) by assumption.
  fold slots_of. replace (slots_of + 1 - slots_of)%nat with 1%nat by lia.
  reflexivity.
Qed.

Lemma release_pointers_linkage j p :
  m_usage_temporal (memory (w_dnc w0)) !! j = Some p ->
  (j < DEEPLEARNDNC_READ_HEADS + DEEPLEARNDNC_WRITE_HEADS)%nat ->
  release_pointers w0 !! (slots_of + 2 + j)%nat = Some p.
Proof.
  intros Hp Hj.
  destruct Hrel as (_ & _ & _ & (cells & Hc & Hlen) & _).
  rewrite release_pointers_eq, lookup_app_r
    by (rewrite (length_bank_pointers _ cells) by assumption; fold slots_of; lia).
  rewrite (length_bank_pointers _ cells) by assumption.
  fold slots_of.
  replace (slots_of + 2 + j - slots_of)%nat with (2 + j)%nat by lia.
  rewrite lookup_app_r by (simpl; lia).
  replace (2 + j - length [m_address (memory (w_dnc w0));
                           m_usage (memory (w_dnc w0))])%nat
    with j by (simpl; lia).
  rewrite lookup_app_l
    by (rewrite length_take; apply lookup_lt_Some in Hp; lia).
  rewrite lookup_take_lt by exact Hj. exact Hp.
Qed.

Lemma length_linkage_pointers :
  length (take (DEEPLEARNDNC_READ_HEADS + DEEPLEARNDNC_WRITE_HEADS)
            (m_usage_temporal (memory (w_dnc w0))))
  = (DEEPLEARNDNC_READ_HEADS + DEEPLEARNDNC_WRITE_HEADS)%nat.
Proof.
  destruct Hrel as ((Hut & _) & _). rewrite length_take, Hut. lia.
Qed.

Lemma release_pointers_read_head j r :
  read_head (w_dnc w0) !! j = Some r ->
  (j < DEEPLEARNDNC_READ_HEADS)%nat ->
  release_pointers w0
    !! (slots_of + 2 + (DEEPLEARNDNC_READ_HEADS + DEEPLEARNDNC_WRITE_HEADS) + j)%nat
  = Some (rh_key r).
Proof.
  intros Hp Hj.
  destruct Hrel as ((Hut & Hrh & Hwh) & _ & _ & (cells & Hc & Hlen) & _).
  rewrite release_pointers_eq, lookup_app_r
    by (rewrite (length_bank_pointers _ cells) by assumption; fold slots_of; lia).
  rewrite (length_bank_pointers _ cells) by assumption.
  fold slots_of.
  rewrite lookup_app_r by (simpl; lia).
  rewrite lookup_app_r by (rewrite length_linkage_pointers; simpl; lia).
  rewrite length_linkage_pointers.
  rewrite lookup_app_l by (rewrite length_fmap, length_take, Hrh; simpl; lia).
  rewrite list_lookup_fmap, lookup_take_lt by (simpl; lia).
  replace (slots_of + 2 + (DEEPLEARNDNC_READ_HEADS + DEEPLEARNDNC_WRITE_HEADS) + j
           - slots_of
           - length [m_address (memory (w_dnc w0)); m_usage (memory (w_dnc w0))]
           - (DEEPLEARNDNC_READ_HEADS + DEEPLEARNDNC_WRITE_HEADS))%nat
    with j by (simpl; lia).
  rewrite Hp. reflexivity.
Qed.

Lemma release_pointers_write_head j x r :
  write_head (w_dnc w0) !! j = Some x ->
  (j < DEEPLEARNDNC_WRITE_HEADS)%nat -> (r < 3)%nat ->
  release_pointers w0
    !! (slots_of + 2 + (DEEPLEARNDNC_READ_HEADS + DEEPLEARNDNC_WRITE_HEADS)
        + DEEPLEARNDNC_READ_HEADS + (3 * j + r))%nat
  = write_head_pointers x !! r.
Proof.
  intros Hp Hj Hr3.
  destruct Hrel as ((Hut & Hrh & Hwh) & _ & _ & (cells & Hc & Hlen) & _).
  assert (length (rh_key <$> take DEEPLEARNDNC_READ_HEADS (read_head (w_dnc w0)))
          = DEEPLEARNDNC_READ_HEADS) as Hl
    by (rewrite length_fmap, length_take, Hrh; lia).
  rewrite release_pointers_eq, lookup_app_r
    by (rewrite (length_bank_pointers _ cells) by assumption; fold slots_of; lia).
  rewrite (length_bank_pointers _ cells) by assumption.
  fold slots_of.
  rewrite lookup_app_r by (simpl; lia).
  rewrite lookup_app_r by (rewrite length_linkage_pointers; simpl; lia).
  rewrite length_linkage_pointers.
  rewrite lookup_app_r by (rewrite Hl; simpl; lia).
  rewrite Hl.
  replace (slots_of + 2 + (DEEPLEARNDNC_READ_HEADS + DEEPLEARNDNC_WRITE_HEADS)
           + DEEPLEARNDNC_READ_HEADS + (3 * j + r)
           - slots_of
           - length [m_address (memory (w_dnc w0)); m_usage (memory (w_dnc w0))]
           - (DEEPLEARNDNC_READ_HEADS + DEEPLEARNDNC_WRITE_HEADS)
           - DEEPLEARNDNC_READ_HEADS)%nat
    with (3 * j + r)%nat by (simpl; lia).
  apply lookup_write_head_pointers; [|exact Hr3].
  rewrite lookup_take_lt by exact Hj. exact Hp.
Qed.

End Releasable.


(** Reads that cannot fail. *)
Lemma get_dnc_eq w : get_dnc w = Done (w_dnc w) w.
Proof. reflexivity. Qed.

Lemma load_ptr_total p j w cells q :
  deref (w_heap w) p = Some (Ocells KPtr cells) ->
  cells !! j = Some (Cptr q) ->
  load_ptr p (Z.of_nat j) w = Done q w.
Proof.
  destruct w as [h pl t d]. intros Hp Hj. rewrite load_ptr_run.
  cbn [w_heap] in Hp. rewrite Hp.
  rewrite index_ok_nat by (apply lookup_lt_Some in Hj; exact Hj).
  rewrite Nat2Z.id, Hj. reflexivity.
Qed.

Lemma get_usage_temporal_total j w p :
  m_usage_temporal (memory (w_dnc w)) !! j = Some p ->
  get_usage_temporal (Z.of_nat j) w = Done p w.
Proof.
  intros Hp. unfold get_usage_temporal. rewrite bind_eq, get_dnc_eq.
  rewrite Nat2Z.id, Hp.
  rewrite index_ok_nat by (apply lookup_lt_Some in Hp; exact Hp).
  reflexivity.
Qed.

Lemma get_read_head_total j w r :
  read_head (w_dnc w) !! j = Some r ->
  get_read_head (Z.of_nat j) w = Done r w.
Proof.
  intros Hp. unfold get_read_head. rewrite bind_eq, get_dnc_eq.
  rewrite Nat2Z.id, Hp.
  rewrite index_ok_nat by (apply lookup_lt_Some in Hp; exact Hp).
  reflexivity.
Qed.

Lemma get_write_head_total j w r :
  write_head (w_dnc w) !! j = Some r ->
  get_write_head (Z.of_nat j) w = Done r w.
Proof.
  intros Hp. unfold get_write_head. rewrite bind_eq, get_dnc_eq.
  rewrite Nat2Z.id, Hp.
  rewrite index_ok_nat by (apply lookup_lt_Some in Hp; exact Hp).
  reflexivity.
Qed.

Lemma call_deeplearn_total r w c :
  deref (w_heap w) (controller (w_dnc w)) = Some (Octrl (Some c)) ->
  exists v w', call_deeplearn r w = Done v w'.
Proof.
  destruct w as [h pl t d]. cbn [w_heap w_dnc]. intros Hc.
  rewrite call_deeplearn_run, Hc.
  destruct (controller d); simpl in Hc; try discriminate. eauto.
Qed.

(** The bank: every vector, then the array. *)
Lemma free_memory_returns w0 w :
  releasable w0 -> released w0 O w ->
  exists w', deeplearn_dnc_free_memory w = Done tt w'
    /\ released w0 (Z.to_nat (m_size (memory (w_dnc w0))) + 1) w'.
Proof.
  intros Hr Hw.
  pose proof Hr as (_ & Hsz & _ & (cells & Hc & Hlen) & _ & Hnd & _).
  pose proof (release_pointers_address w0 Hr) as Ha.
  assert (forall j w1, (j <= Z.to_nat (m_size (memory (w_dnc w0))))%nat ->
            released w0 j w1 ->
            deref (w_heap w1) (m_address (memory (w_dnc w1)))
            = Some (Ocells KPtr cells)) as Hread.
  { intros j w1 Hj H1. rewrite (proj1 H1).
    rewrite (released_deref w0 j w1 _ H1); [exact Hc|].
    intros Hin.
    apply (filter_NoDup_take (fun p => p <> Pnull) _ _ _ Hnd Ha).
    - intros E. rewrite E in Hc. discriminate.
    - replace j with (j `min` Z.to_nat (m_size (memory (w_dnc w0))))%nat in Hin
        by lia.
      rewrite <- take_take in Hin. eapply subseteq_take. exact Hin. }
  unfold deeplearn_dnc_free_memory. rewrite bind_eq, get_dnc_eq.
  rewrite (proj1 Hw).
  destruct (for_each_total (released w0)
              (Z.to_nat (m_size (memory (w_dnc w0))))
              (fun i => d ← get_dnc;
                        q ← load_ptr (m_address (memory d)) i;
                        free q)) with (w := w) as (w1 & E1 & H1).
  - intros j wj Hj Hwj.
    destruct (release_pointers_slot w0 Hr cells j Hc Hj) as (q & Hq & Hk).
    rewrite bind_eq, get_dnc_eq, bind_eq.
    rewrite (load_ptr_total _ j wj cells q); [|apply (Hread j); [lia|exact Hwj]|exact Hq].
    apply released_next; assumption.
  - lia.
  - exact Hw.
  - rewrite bind_eq, E1, bind_eq, get_dnc_eq, (proj1 H1).
    rewrite Nat.add_1_r. apply released_next; assumption.
Qed.

(** The usage tracker: the vector, then every linkage matrix. *)
Lemma free_memory_usage_returns w0 w :
  releasable w0 ->
  released w0 (Z.to_nat (m_size (memory (w_dnc w0))) + 1) w ->
  exists w', deeplearn_dnc_free_memory_usage w = Done tt w'
    /\ released w0 (Z.to_nat (m_size (memory (w_dnc w0))) + 2
                    + (DEEPLEARNDNC_READ_HEADS + DEEPLEARNDNC_WRITE_HEADS)) w'.
Proof.
  intros Hr Hw.
  pose proof Hr as ((Hut & _) & _ & Hhd & _).
  unfold deeplearn_dnc_free_memory_usage. rewrite bind_eq, get_dnc_eq.
  rewrite (proj1 Hw).
  destruct (released_next w0 _ w _ Hr Hw (release_pointers_usage w0 Hr))
    as (w1 & E1 & H1).
  rewrite bind_eq, E1.
  apply (for_each_total
           (fun j => released w0 (Z.to_nat (m_size (memory (w_dnc w0))) + 2 + j))).
  - intros j wj Hj Hwj.
    destruct (m_usage_temporal (memory (w_dnc w0)) !! j) as [p|] eqn:Ep.
    2:{ apply lookup_ge_None in Ep. lia. }
    rewrite bind_eq, (get_usage_temporal_total j wj p)
      by (rewrite (proj1 Hwj); exact Ep).
    replace (Z.to_nat (m_size (memory (w_dnc w0))) + 2 + S j)%nat
      with (S (Z.to_nat (m_size (memory (w_dnc w0))) + 2 + j)) by lia.
    apply released_next; [assumption..|].
    apply release_pointers_linkage; assumption.
  - exact Hhd.
  - replace (Z.to_nat (m_size (memory (w_dnc w0))) + 2 + 0)%nat
      with (S (Z.to_nat (m_size (memory (w_dnc w0))) + 1)) by lia.
    exact H1.
Qed.

(** The heads: the keys of the read heads, then the three vectors of every
    write head. *)
Lemma free_heads_returns w0 w :
  releasable w0 ->
  released w0 (Z.to_nat (m_size (memory (w_dnc w0))) + 2
               + (DEEPLEARNDNC_READ_HEADS + DEEPLEARNDNC_WRITE_HEADS)) w ->
  exists w', deeplearn_dnc_free_heads w = Done tt w'
    /\ w_dnc w' = w_dnc w0
    /\ forall q, q ∉ release_pointers w0 ->
         deref (w_heap w') q = deref (w_heap w0) q.
Proof.
  intros Hr Hw.
  pose proof Hr as ((_ & Hrh & Hwh) & _ & Hhd & _).
  unfold deeplearn_dnc_free_heads.
  destruct (for_each_total
              (fun j => released w0 (Z.to_nat (m_size (memory (w_dnc w0))) + 2
                          + (DEEPLEARNDNC_READ_HEADS + DEEPLEARNDNC_WRITE_HEADS)
                          + j))
              DEEPLEARNDNC_READ_HEADS
              (fun i => r ← get_read_head i; free (rh_key r))) with (w := w)
    as (w1 & E1 & H1).
  - intros j wj Hj Hwj.
    destruct (read_head (w_dnc w0) !! j) as [r|] eqn:Ep.
    2:{ apply lookup_ge_None in Ep. lia. }
    rewrite bind_eq, (get_read_head_total j wj r)
      by (rewrite (proj1 Hwj); exact Ep).
    rewrite Nat.add_succ_r.
    apply released_next; [assumption..|].
    apply release_pointers_read_head; assumption.
  - lia.
  - rewrite Nat.add_0_r. exact Hw.
  - rewrite bind_eq, E1.
    destruct (for_each_total
                (fun j => released w0 (Z.to_nat (m_size (memory (w_dnc w0))) + 2
                            + (DEEPLEARNDNC_READ_HEADS + DEEPLEARNDNC_WRITE_HEADS)
                            + DEEPLEARNDNC_READ_HEADS + 3 * j))
                DEEPLEARNDNC_WRITE_HEADS
                (fun i => r ← get_write_head i;
                          free (wh_write r);; free (wh_erase r);; free (wh_key r)))
      with (w := w1) as (w2 & E2 & H2).
    + intros j wj Hj Hwj.
      destruct (write_head (w_dnc w0) !! j) as [x|] eqn:Ep.
      2:{ apply lookup_ge_None in Ep. lia. }
      rewrite bind_eq, (get_write_head_total j wj x)
        by (rewrite (proj1 Hwj); exact Ep).
      pose proof (release_pointers_write_head w0 Hr j x 0 Ep Hj ltac:(lia)) as K0.
      pose proof (release_pointers_write_head w0 Hr j x 1 Ep Hj ltac:(lia)) as K1.
      pose proof (release_pointers_write_head w0 Hr j x 2 Ep Hj ltac:(lia)) as K2.
      cbn [write_head_pointers lookup list_lookup] in K0, K1, K2.
      eapply released_at in Hwj; [|shelve].
      destruct (released_next w0 _ wj _ Hr Hwj K0) as (wa & Ea & Ha).
      rewrite bind_eq, Ea.
      eapply released_at in Ha; [|shelve].
      destruct (released_next w0 _ wa _ Hr Ha K1) as (wb & Eb & Hb).
      rewrite bind_eq, Eb.
      eapply released_at in Hb; [|shelve].
      destruct (released_next w0 _ wb _ Hr Hb K2) as (wc & Ec & Hc).
      exists wc. split; [exact Ec|].
      eapply released_at; [|exact Hc].
      Unshelve. all: lia.
    + lia.
    + rewrite Nat.mul_0_r, Nat.add_0_r. exact H1.
    + exists w2. split; [exact E2|]. split; [exact (proj1 H2)|].
      intros q Hq. eapply released_deref; [exact H2|].
      intros Hin. apply Hq. eapply subseteq_take. exact Hin.
Qed.

(** [deeplearn_dnc_free] returns on every releasable instance. *)
Lemma free_returns w :
  releasable w -> exists w', deeplearn_dnc_free w = Done tt w'.
Proof.
  intros Hr.
  pose proof Hr as (_ & _ & _ & _ & _ & _ & (c & Hc) & Hout).
  unfold deeplearn_dnc_free.
  destruct (free_memory_returns w w Hr (released_start w)) as (w1 & E1 & H1).
  destruct (free_memory_usage_returns w w1 Hr H1) as (w2 & E2 & H2).
  destruct (free_heads_returns w w2 Hr H2) as (w3 & E3 & D3 & H3).
  rewrite bind_eq, E1, bind_eq, E2, bind_eq, E3.
  destruct (call_deeplearn_total ReqFree w3 c) as (v & w4 & E4).
  { rewrite D3, H3 by exact Hout. exact Hc. }
  rewrite bind_eq, E4. eauto.
Qed.


(** ** The layout a successful initialisation leaves *)

Lemma grown_refl w : grown O w w.
Proof. exists []. rewrite app_nil_r. auto. Qed.

Lemma grown_trans a b w1 w2 w3 :
  grown a w1 w2 -> grown b w2 w3 -> grown (a + b) w1 w3.
Proof.
  intros (v1 & L1 & F1 & H1) (v2 & L2 & F2 & H2). exists (v1 ++ v2).
  rewrite length_app, Forall_app, H2, H1, <- app_assoc. auto with lia.
Qed.

Lemma grown_length n w w' :
  grown n w w' -> length (w_heap w') = (length (w_heap w) + n)%nat.
Proof. intros (vs & L & _ & H). rewrite H, length_app, L. reflexivity. Qed.

Lemma grown_old n w w' p o :
  grown n w w' -> deref (w_heap w) p = Some o -> deref (w_heap w') p = Some o.
Proof.
  intros (vs & _ & _ & H) Hp. rewrite H.
  rewrite deref_app_live; [exact Hp | rewrite Hp; eauto].
Qed.

Lemma grown_new n w w' b :
  grown n w w' ->
  (length (w_heap w) <= b < length (w_heap w) + n)%nat ->
  exists k cells, deref (w_heap w') (Pblock b) = Some (Ocells k cells).
Proof.
  intros (vs & L & F & H) Hb. rewrite H. cbn [deref].
  rewrite lookup_app_r by lia.
  destruct (vs !! (b - length (w_heap w))%nat) as [o|] eqn:Eo.
  2:{ apply lookup_ge_None in Eo. lia. }
  rewrite Forall_lookup in F. destruct (F _ _ Eo) as (k & cells & ->).
  exists k, cells. reflexivity.
Qed.

Lemma malloc_served k nb w q w' :
  malloc k nb w = Done q w' -> q <> Pnull ->
  q = Pblock (length (w_heap w)) /\ grown 1 w w' /\ w_dnc w' = w_dnc w.
Proof.
  destruct w as [h pl t d]. rewrite malloc_run.
  destruct (next_alloc pl).1; intros E Hq; inversion E; subst; [|contradiction].
  split; [reflexivity|]. split; [|reflexivity].
  eexists [_]. split; [reflexivity|]. split; [|reflexivity].
  constructor; [eauto|constructor].
Qed.

Lemma malloc_vector_served w q w' :
  malloc_vector w = Done q w' -> q <> Pnull ->
  q = Pblock (length (w_heap w)) /\ grown 1 w w' /\ w_dnc w' = w_dnc w.
Proof.
  unfold malloc_vector. rewrite bind_eq, get_dnc_eq. apply malloc_served.
Qed.

Lemma take_S_insert {A} (l : list A) i x :
  (i < length l)%nat -> take (S i) (<[i := x]> l) = take i l ++ [x].
Proof.
  intros Hi.
  rewrite (take_S_r _ _ x) by (apply list_lookup_insert_eq; exact Hi).
  rewrite take_insert_ge by lia. reflexivity.
Qed.

Lemma with_linkage_id d : with_linkage d (m_usage_temporal (memory d)) = d.
Proof. destruct d as [c [s wd a u ut] rh wh ni no]. reflexivity. Qed.

Lemma with_read_heads_id d : with_read_heads d (read_head d) = d.
Proof. destruct d. reflexivity. Qed.

Lemma with_write_heads_id d : with_write_heads d (write_head d) = d.
Proof. destruct d. reflexivity. Qed.

Lemma set_usage_temporal_spec i q w w' :
  set_usage_temporal (Z.of_nat i) q w = Done tt w' ->
  (i < length (m_usage_temporal (memory (w_dnc w))))%nat
  /\ w_heap w' = w_heap w
  /\ w_dnc w' = with_linkage (w_dnc w)
                  (<[i := q]> (m_usage_temporal (memory (w_dnc w)))).
Proof.
  destruct w as [h pl t d]. unfold set_usage_temporal.
  rewrite bind_eq, get_dnc_run. struct_simpl.
  destruct (index_ok _ _) eqn:Hok; [|discriminate].
  rewrite set_memory_run, Nat2Z.id. intros E; inversion E; subst.
  unfold index_ok in Hok. apply andb_prop in Hok as [_ Hlt].
  apply Z.ltb_lt in Hlt. split; [lia|]. split; reflexivity.
Qed.

Lemma set_read_head_spec i r w w' :
  set_read_head (Z.of_nat i) r w = Done tt w' ->
  (i < length (read_head (w_dnc w)))%nat
  /\ w_heap w' = w_heap w
  /\ w_dnc w' = with_read_heads (w_dnc w) (<[i := r]> (read_head (w_dnc w))).
Proof.
  destruct w as [h pl t d]. unfold set_read_head.
  rewrite bind_eq, get_dnc_run. struct_simpl.
  destruct (index_ok _ _) eqn:Hok; [|discriminate].
  rewrite Nat2Z.id. intros E; inversion E; subst.
  unfold index_ok in Hok. apply andb_prop in Hok as [_ Hlt].
  apply Z.ltb_lt in Hlt. split; [lia|]. split; reflexivity.
Qed.

Lemma set_write_head_spec i f w w' :
  set_write_head (Z.of_nat i) f w = Done tt w' ->
  exists r,
    write_head (w_dnc w) !! i = Some r
    /\ w_heap w' = w_heap w
    /\ w_dnc w' = with_write_heads (w_dnc w)
                    (<[i := f r]> (write_head (w_dnc w))).
Proof.
  destruct w as [h pl t d]. unfold set_write_head, get_write_head.
  rewrite bind_eq, bind_eq, get_dnc_run. struct_simpl. rewrite Nat2Z.id.
  destruct (write_head d !! i) as [r|] eqn:Er; [|discriminate].
  destruct (index_ok _ _); [|discriminate].
  cbn [mret prog_ret]. rewrite bind_eq, get_dnc_run.
  intros E; inversion E; subst. exists r. auto.
Qed.

(** The loop of [deeplearn_dnc_init_memory_usage], when no allocation is
    refused: matrix [i + j] is the [j]-th new block. *)
Lemma usage_loop_layout nbytes n :
  forall i w w',
  for_loop n (Z.of_nat i)
    (fun i => q ← malloc KFloat nbytes;
              set_usage_temporal i q;;
              if decide (q = Pnull) then mret (Some 2) else mret None) w
    = Done None w' ->
  grown n w w'
  /\ exists a,
       w_dnc w' = with_linkage (w_dnc w) a
       /\ length a = length (m_usage_temporal (memory (w_dnc w)))
       /\ take (i + n) a
          = take i (m_usage_temporal (memory (w_dnc w)))
            ++ (Pblock <$> seq (length (w_heap w)) n).
Proof.
  induction n as [|n IH]; intros i w w' E.
  - inversion E; subst. split; [apply grown_refl|].
    exists (m_usage_temporal (memory (w_dnc w'))).
    rewrite with_linkage_id, Nat.add_0_r, app_nil_r. auto.
  - cbn [for_loop] in E.
    apply bind_inv in E as (r & w1 & Eb & E).
    apply bind_inv in Eb as (q & wa & Em & Eb).
    apply bind_inv in Eb as ([] & wb & Es & Er).
    destruct (decide (q = Pnull)) as [|Hq];
      inversion Er; subst r w1; [inversion E|].
    apply malloc_served in Em as (-> & Ga & Da); [|exact Hq].
    apply set_usage_temporal_spec in Es as (Hi & Hb & Db).
    destruct (Z.of_nat i <? INT_MAX); [|inversion E].
    replace (Z.of_nat i + 1) with (Z.of_nat (S i)) in E by lia.
    apply IH in E as (G & a & Da' & La & Ta).
    assert (grown 1 w wb) as Gb.
    { destruct Ga as (vs & ? & ? & Hvs). exists vs. rewrite Hb. auto. }
    rewrite Db, Da in Da', La, Ta. unfold with_linkage in Da', La, Ta.
    struct_simpl_in Da'. struct_simpl_in La. struct_simpl_in Ta.
    rewrite length_insert in La. rewrite Da in Hi.
    split; [exact (grown_trans 1 n _ _ _ Gb G)|].
    exists a. split; [exact Da'|]. split; [exact La|].
    replace (i + S n)%nat with (S i + n)%nat by lia.
    rewrite Ta, take_S_insert by exact Hi.
    rewrite (grown_length _ _ _ Gb), Nat.add_1_r, <- app_assoc. reflexivity.
Qed.

(** The same for the loop over the read heads. *)
Lemma read_heads_loop_layout n :
  forall i w w',
  for_loop n (Z.of_nat i)
    (fun i => q ← malloc_vector;
              set_read_head i (ReadHead q);;
              if decide (q = Pnull) then mret (Some 1) else mret None) w
    = Done None w' ->
  grown n w w'
  /\ exists a,
       w_dnc w' = with_read_heads (w_dnc w) a
       /\ length a = length (read_head (w_dnc w))
       /\ take (i + n) a
          = take i (read_head (w_dnc w))
            ++ ((fun b => ReadHead (Pblock b)) <$> seq (length (w_heap w)) n).
Proof.
  induction n as [|n IH]; intros i w w' E.
  - inversion E; subst. split; [apply grown_refl|].
    exists (read_head (w_dnc w')).
    rewrite with_read_heads_id, Nat.add_0_r, app_nil_r. auto.
  - cbn [for_loop] in E.
    apply bind_inv in E as (r & w1 & Eb & E).
    apply bind_inv in Eb as (q & wa & Em & Eb).
    apply bind_inv in Eb as ([] & wb & Es & Er).
    destruct (decide (q = Pnull)) as [|Hq];
      inversion Er; subst r w1; [inversion E|].
    apply malloc_vector_served in Em as (-> & Ga & Da); [|exact Hq].
    apply set_read_head_spec in Es as (Hi & Hb & Db).
    destruct (Z.of_nat i <? INT_MAX); [|inversion E].
    replace (Z.of_nat i + 1) with (Z.of_nat (S i)) in E by lia.
    apply IH in E as (G & a & Da' & La & Ta).
    assert (grown 1 w wb) as Gb.
    { destruct Ga as (vs & ? & ? & Hvs). exists vs. rewrite Hb. auto. }
    rewrite Db, Da in Da', La, Ta. unfold with_read_heads in Da', La, Ta.
    struct_simpl_in Da'. struct_simpl_in La. struct_simpl_in Ta.
    rewrite length_insert in La. rewrite Da in Hi.
    split; [exact (grown_trans 1 n _ _ _ Gb G)|].
    exists a. split; [exact Da'|]. split; [exact La|].
    replace (i + S n)%nat with (S i + n)%nat by lia.
    rewrite Ta, take_S_insert by exact Hi.
    rewrite (grown_length _ _ _ Gb), Nat.add_1_r, <- app_assoc. reflexivity.
Qed.


Lemma set_write_head_again d a i x f w w' :
  w_dnc w = with_write_heads d (<[i := x]> a) ->
  (i < length a)%nat ->
  set_write_head (Z.of_nat i) f w = Done tt w' ->
  w_heap w' = w_heap w /\ w_dnc w' = with_write_heads d (<[i := f x]> a).
Proof.
  intros Hd Hi E. apply set_write_head_spec in E as (r & Hr & Hh & Hd').
  rewrite Hd in Hr, Hd'. unfold with_write_heads in Hr, Hd'.
  struct_simpl_in Hr. struct_simpl_in Hd'.
  rewrite list_lookup_insert_eq in Hr by exact Hi. inversion Hr; subst r.
  rewrite list_insert_insert_eq in Hd'. auto.
Qed.

Lemma grown_same_heap n w w1 w2 :
  grown n w w1 -> w_heap w2 = w_heap w1 -> grown n w w2.
Proof. intros (vs & ? & ? & H) E. exists vs. rewrite E. auto. Qed.

(** The loop over the write heads: three new blocks for each. *)
Lemma write_heads_loop_layout n :
  forall i w w',
  for_loop n (Z.of_nat i)
    (fun i =>
       q ← malloc_vector;
       set_write_head i (fun h => WriteHead q (wh_erase h) (wh_key h));;
       if decide (q = Pnull) then mret (Some 2) else
       q ← malloc_vector;
       set_write_head i (fun h => WriteHead (wh_write h) q (wh_key h));;
       if decide (q = Pnull) then mret (Some 3) else
       q ← malloc_vector;
       set_write_head i (fun h => WriteHead (wh_write h) (wh_erase h) q);;
       if decide (q = Pnull) then mret (Some 4) else mret None) w
    = Done None w' ->
  grown (3 * n) w w'
  /\ exists a,
       w_dnc w' = with_write_heads (w_dnc w) a
       /\ length a = length (write_head (w_dnc w))
       /\ take (i + n) a
          = take i (write_head (w_dnc w))
            ++ fresh_write_heads (length (w_heap w)) n.
Proof.
  induction n as [|n IH]; intros i w w' E.
  - inversion E; subst. split; [apply grown_refl|].
    exists (write_head (w_dnc w')).
    rewrite with_write_heads_id, Nat.add_0_r, app_nil_r. auto.
  - cbn [for_loop] in E.
    apply bind_inv in E as (r & w1 & Eb & E).
    apply bind_inv in Eb as (q1 & wa & Em1 & Eb).
    apply bind_inv in Eb as ([] & wb & Es1 & Eb).
    destruct (decide (q1 = Pnull)) as [|Hq1];
      [inversion Eb; subst r w1; inversion E|].
    apply bind_inv in Eb as (q2 & wc & Em2 & Eb).
    apply bind_inv in Eb as ([] & wd & Es2 & Eb).
    destruct (decide (q2 = Pnull)) as [|Hq2];
      [inversion Eb; subst r w1; inversion E|].
    apply bind_inv in Eb as (q3 & we & Em3 & Eb).
    apply bind_inv in Eb as ([] & wf & Es3 & Er).
    destruct (decide (q3 = Pnull)) as [|Hq3];
      inversion Er; subst r w1; [inversion E|].
    apply malloc_vector_served in Em1 as (-> & Ga & Da); [|exact Hq1].
    apply malloc_vector_served in Em2 as (-> & Gc & Dc); [|exact Hq2].
    apply malloc_vector_served in Em3 as (-> & Ge & De); [|exact Hq3].
    apply set_write_head_spec in Es1 as (r1 & Hr1 & Hb & Db).
    rewrite Da in Hr1, Db.
    pose proof (lookup_lt_Some _ _ _ Hr1) as Hi.
    rewrite Db in Dc.
    destruct (set_write_head_again _ _ _ _ _ _ _ Dc Hi Es2) as [Hd Dd].
    rewrite Dd in De.
    destruct (set_write_head_again _ _ _ _ _ _ _ De Hi Es3) as [Hf Df].
    cbn [wh_write wh_erase wh_key] in Df.
    pose proof (grown_same_heap _ _ _ _ Ga Hb) as Gb.
    pose proof (grown_same_heap _ _ _ _ Gc Hd) as Gd.
    pose proof (grown_same_heap _ _ _ _ Ge Hf) as Gf.
    pose proof (grown_length _ _ _ Gb) as Lb.
    pose proof (grown_length _ _ _ Gd) as Ld.
    pose proof (grown_length _ _ _ Gf) as Lf.
    destruct (Z.of_nat i <? INT_MAX); [|inversion E].
    replace (Z.of_nat i + 1) with (Z.of_nat (S i)) in E by lia.
    apply IH in E as (G & a & Da' & La & Ta).
    rewrite Df in Da', La, Ta. unfold with_write_heads in Da', La, Ta.
    struct_simpl_in Da'. struct_simpl_in La. struct_simpl_in Ta.
    rewrite length_insert in La.
    split.
    { replace (3 * S n)%nat with (1 + (1 + (1 + 3 * n)))%nat by lia.
      eapply grown_trans; [exact Gb|].
      eapply grown_trans; [exact Gd|].
      eapply grown_trans; [exact Gf|exact G]. }
    exists a. split; [exact Da'|]. split; [exact La|].
    replace (i + S n)%nat with (S i + n)%nat by lia.
    rewrite Ta, take_S_insert by exact Hi.
    rewrite <- app_assoc. cbn [app fresh_write_heads].
    rewrite Lf, Ld, Lb.
    replace (length (w_heap w) + 1 + 1 + 1)%nat with (length (w_heap w) + 3)%nat
      by lia.
    replace (length (w_heap w) + 1 + 1)%nat with (length (w_heap w) + 2)%nat
      by lia.
    reflexivity.
Qed.

(** [deeplearn_dnc_init_memory_usage], when it succeeds: the usage vector
    is the first new block, the linkage matrices follow. *)
Lemma init_memory_usage_layout w w' :
  well_shaped (w_dnc w) ->
  deeplearn_dnc_init_memory_usage w = Done 0 w' ->
  grown (1 + (DEEPLEARNDNC_READ_HEADS + DEEPLEARNDNC_WRITE_HEADS)) w w'
  /\ w_dnc w'
     = Dnc (controller (w_dnc w))
         (Memory (m_size (memory (w_dnc w))) (m_width (memory (w_dnc w)))
            (m_address (memory (w_dnc w)))
            (Pblock (length (w_heap w)))
            (Pblock <$> seq (S (length (w_heap w)))
                          (DEEPLEARNDNC_READ_HEADS + DEEPLEARNDNC_WRITE_HEADS)))
         (read_head (w_dnc w)) (write_head (w_dnc w))
         (no_of_inputs (w_dnc w)) (no_of_outputs (w_dnc w)).
Proof.
  intros (Hut & _) E. unfold deeplearn_dnc_init_memory_usage in E.
  apply bind_inv in E as (d & w0 & Eg & E). inversion Eg; subst d w0.
  apply bind_inv in E as (p & wa & Em & E).
  apply bind_inv in E as ([] & wb & Es & E).
  destruct (decide (p = Pnull)) as [|Hp]; [inversion E|].
  apply malloc_served in Em as (-> & Ga & Da); [|exact Hp].
  unfold set_usage in Es. destruct wa as [ha pla ta da].
  rewrite set_memory_run in Es. inversion Es; subst wb. cbn [w_dnc] in Da.
  subst da.
  apply bind_inv in E as ([rl|] & wc & El & E).
  { cbn [or_else] in E. inversion E; subst rl wc. exfalso.
    assert (0 <> 0) as Hne; [|exact (Hne eq_refl)].
    revert El. apply (for_loop_returns (fun x => x <> 0)).
    clear. intros j wj x wj' E.
    apply bind_inv in E as (q & ? & _ & E).
    apply bind_inv in E as (? & ? & _ & E).
    destruct (decide (q = Pnull)); inversion E; discriminate. }
  cbn [or_else] in E. inversion E; subst wc.
  change 0 with (Z.of_nat 0) in El.
  apply usage_loop_layout in El as (G & a & Da & La & Ta).
  struct_simpl_in Da. struct_simpl_in La. struct_simpl_in Ta.
  rewrite take_0, app_nil_l, Nat.add_0_l in Ta.
  rewrite take_ge in Ta by lia.
  split.
  { eapply grown_trans; [|exact G].
    eapply grown_same_heap; [exact Ga|reflexivity]. }
  rewrite Da, Ta. unfold with_linkage. struct_simpl.
  pose proof (grown_length _ _ _ Ga) as Lg. cbn [w_heap] in Lg.
  rewrite Lg, Nat.add_1_r. reflexivity.
Qed.

(** [deeplearn_dnc_init_heads], when it succeeds: the keys of the read
    heads are the first new blocks, the vectors of the write heads
    follow. *)
Lemma init_heads_layout w w' :
  well_shaped (w_dnc w) ->
  deeplearn_dnc_init_heads w = Done 0 w' ->
  grown (DEEPLEARNDNC_READ_HEADS + 3 * DEEPLEARNDNC_WRITE_HEADS) w w'
  /\ w_dnc w'
     = Dnc (controller (w_dnc w)) (memory (w_dnc w))
         ((fun b => ReadHead (Pblock b))
            <$> seq (length (w_heap w)) DEEPLEARNDNC_READ_HEADS)
         (fresh_write_heads (length (w_heap w) + DEEPLEARNDNC_READ_HEADS)
            DEEPLEARNDNC_WRITE_HEADS)
         (no_of_inputs (w_dnc w)) (no_of_outputs (w_dnc w)).
Proof.
  intros (_ & Hrh & Hwh) E. unfold deeplearn_dnc_init_heads in E.
  apply bind_inv in E as ([rl|] & w1 & El & E).
  { cbn [or_else] in E. inversion E; subst rl w1. exfalso.
    assert (0 <> 0) as Hne; [|exact (Hne eq_refl)].
    revert El. apply (for_loop_returns (fun x => x <> 0)).
    clear. intros j wj x wj' E.
    apply bind_inv in E as (q & ? & _ & E).
    apply bind_inv in E as (? & ? & _ & E).
    destruct (decide (q = Pnull)); inversion E; discriminate. }
  cbn [or_else] in E.
  apply bind_inv in E as ([rl|] & w2 & El' & E).
  { cbn [or_else] in E. inversion E; subst rl w2. exfalso.
    assert (0 <> 0) as Hne; [|exact (Hne eq_refl)].
    revert El'. apply (for_loop_returns (fun x => x <> 0)).
    clear. intros j wj x wj' E.
    apply bind_inv in E as (q & ? & _ & E).
    apply bind_inv in E as (? & ? & _ & E).
    destruct (decide (q = Pnull)); [inversion E; discriminate|].
    apply bind_inv in E as (q' & ? & _ & E).
    apply bind_inv in E as (? & ? & _ & E).
    destruct (decide (q' = Pnull)); [inversion E; discriminate|].
    apply bind_inv in E as (q'' & ? & _ & E).
    apply bind_inv in E as (? & ? & _ & E).
    destruct (decide (q'' = Pnull)); inversion E; discriminate. }
  cbn [or_else] in E. inversion E; subst w2.
  change 0 with (Z.of_nat 0) in El, El'.
  apply read_heads_loop_layout in El as (G1 & a1 & D1 & L1 & T1).
  apply write_heads_loop_layout in El' as (G2 & a2 & D2 & L2 & T2).
  rewrite take_0, app_nil_l, Nat.add_0_l in T1.
  rewrite take_0, app_nil_l, Nat.add_0_l in T2.
  rewrite D1 in D2, L2. unfold with_read_heads in D2, L2.
  struct_simpl_in D2. struct_simpl_in L2.
  rewrite take_ge in T1 by lia. rewrite take_ge in T2 by lia.
  split; [exact (grown_trans _ _ _ _ _ G1 G2)|].
  rewrite D2, T1, T2, (grown_length _ _ _ G1). reflexivity.
Qed.


Lemma rounded_size_range ms :
  0 < BLOCK -> 0 <= ms <= INT_MAX -> 0 <= rounded_size ms <= INT_MAX.
Proof.
  intros HB Hms. rewrite rounded_size_eq by lia.
  assert (0 <= ms / BLOCK) by (apply Z.div_pos; lia).
  assert (ms / BLOCK * BLOCK <= ms)
    by (rewrite Z.mul_comm; apply Z.mul_div_le; lia).
  nia.
Qed.

(** What a successful [deeplearn_dnc_init] leaves, block by block: the
    controller object, the array of the bank, its vectors, the usage vector,
    the linkage matrices, the keys of the read heads and the vectors of the
    write heads, allocated in that order. *)
Lemma init_layout ms mw ni nh hl no et seed w w' :
  0 < BLOCK -> 0 <= ms <= INT_MAX ->
  rounded_size ms * sizeof_ptr dm < SIZE_MOD dm ->
  well_shaped (w_dnc w) ->
  deeplearn_dnc_init ms mw ni nh hl no et seed w = Done 0 w' ->
  let L := length (w_heap w) in
  let n := Z.to_nat (rounded_size ms) in
  let heads := (DEEPLEARNDNC_READ_HEADS + DEEPLEARNDNC_WRITE_HEADS)%nat in
  w_dnc w'
  = Dnc (Pblock L)
      (Memory (rounded_size ms) (to_uint mw) (Pblock (L + 1))
         (Pblock (L + 2 + n))
         (Pblock <$> seq (L + 3 + n) heads))
      ((fun b => ReadHead (Pblock b))
         <$> seq (L + 3 + n + heads) DEEPLEARNDNC_READ_HEADS)
      (fresh_write_heads (L + 3 + n + heads + DEEPLEARNDNC_READ_HEADS)
         DEEPLEARNDNC_WRITE_HEADS)
      ni no
  /\ (exists c, deref (w_heap w') (Pblock L) = Some (Octrl (Some c)))
  /\ deref (w_heap w') (Pblock (L + 1)) = Some (Ocells KPtr (slots (L + 2) n))
  /\ forall b,
       (L + 2 <= b < L + 3 + n + heads + DEEPLEARNDNC_READ_HEADS
                     + 3 * DEEPLEARNDNC_WRITE_HEADS)%nat ->
       exists k cells, deref (w_heap w') (Pblock b) = Some (Ocells k cells).
Proof.
  intros HB Hms Hfit Hws E L n heads.
  pose proof (rounded_size_range ms HB Hms) as Hsz.
  apply init_success_stages in E
    as (p & w1 & w2 & w3 & w4 & r4 & Ep & Hp & E1 & E2 & E3 & E4).
  destruct w as [h pl t d]. cbn [w_heap w_dnc] in *.
  rewrite init_controller_object_run in Ep.
  destruct (next_alloc pl).1; inversion Ep; subst p w1; [|contradiction].
  clear Ep Hp.
  rewrite init_memory_run in E1 by assumption. cbv zeta in E1.
  destruct (next_alloc (next_alloc pl).2).1; [|discriminate].
  destruct (decide _); [|discriminate]. injection E1 as E1.
  fold n in E1.
  assert (w_heap w2
          = (h ++ [Some (Octrl None)])
            ++ Some (Ocells KPtr (slots (S (length (h ++ [Some (Octrl None)]))) n))
            :: replicate n
                 (Some (fresh_vector
                    (with_bank (Dnc (Pblock (length h)) (memory d) (read_head d)
                                  (write_head d) ni no)
                       (rounded_size ms) (to_uint mw)
                       (Pblock (length (h ++ [Some (Octrl None)])))))))
    as Hh2 by (rewrite <- E1; reflexivity).
  assert (w_dnc w2
          = with_bank (Dnc (Pblock (length h)) (memory d) (read_head d)
                         (write_head d) ni no)
              (rounded_size ms) (to_uint mw)
              (Pblock (length (h ++ [Some (Octrl None)]))))
    as Hd2 by (rewrite <- E1; reflexivity).
  clear E1.
  assert (length (h ++ [Some (Octrl None)]) = (L + 1)%nat) as L1
    by (rewrite length_app; reflexivity).
  rewrite L1 in Hh2, Hd2.
  assert (length (w_heap w2) = (L + 2 + n)%nat) as L2.
  { rewrite Hh2, length_app, L1. cbn [length]. rewrite length_replicate. lia. }
  assert (well_shaped (w_dnc w2)) as Hws2 by (rewrite Hd2; exact Hws).
  apply init_memory_usage_layout in E2 as (G2 & D2); [|exact Hws2].
  rewrite L2, Hd2 in D2. unfold with_bank in D2. struct_simpl_in D2.
  assert (well_shaped (w_dnc w3)) as Hws3.
  { rewrite D2. destruct Hws as (? & ? & ?). unfold well_shaped. struct_simpl.
    rewrite length_fmap, length_seq. auto. }
  apply init_heads_layout in E3 as (G3 & D3); [|exact Hws3].
  pose proof (grown_length _ _ _ G2) as L3. rewrite L2 in L3.
  rewrite L3, D2 in D3. struct_simpl_in D3.
  (* the heap, block by block *)
  assert (deref (w_heap w4) (Pblock L) = Some (Octrl None)) as HL.
  { apply (grown_old _ _ _ _ _ G3), (grown_old _ _ _ _ _ G2). rewrite Hh2.
    rewrite <- app_assoc. cbn [app deref]. unfold L.
    rewrite list_lookup_middle by reflexivity. reflexivity. }
  assert (deref (w_heap w4) (Pblock (L + 1))
          = Some (Ocells KPtr (slots (L + 2) n))) as HA.
  { apply (grown_old _ _ _ _ _ G3), (grown_old _ _ _ _ _ G2). rewrite Hh2.
    replace (Pblock (L + 1)) with (Pblock (length (h ++ [Some (Octrl None)])))
      by (rewrite L1; reflexivity).
    rewrite deref_bank_array.
    replace (S (L + 1)) with (L + 2)%nat by lia. reflexivity. }
  assert (forall b, (L + 2 <= b < L + 3 + n + heads + DEEPLEARNDNC_READ_HEADS
                                   + 3 * DEEPLEARNDNC_WRITE_HEADS)%nat ->
            exists k cells, deref (w_heap w4) (Pblock b) = Some (Ocells k cells))
    as HB4.
  { intros b Hb.
    destruct (decide (b < L + 2 + n)%nat) as [Hb1|Hb1].
    - exists KFloat. eexists.
      apply (grown_old _ _ _ _ _ G3), (grown_old _ _ _ _ _ G2). rewrite Hh2.
      replace b with (S (length (h ++ [Some (Octrl None)])) + (b - (L + 2)))%nat
        by (rewrite L1; lia).
      rewrite deref_bank_vector by lia. reflexivity.
    - destruct (decide (b < L + 3 + n + heads)%nat) as [Hb2|Hb2].
      + destruct (grown_new _ _ _ b G2) as (k & cells & Hk).
        { rewrite L2. unfold heads in Hb2. lia. }
        exists k, cells. apply (grown_old _ _ _ _ _ G3). exact Hk.
      + apply (grown_new _ _ _ b G3). rewrite L3. unfold heads in *. lia. }
  destruct w4 as [h4 pl4 t4 d4]. cbn [w_heap w_dnc] in *. subst d4.
  rewrite call_deeplearn_init_run in E4. struct_simpl_in E4.
  pose proof HL as HL'. unfold L in HL'. rewrite HL' in E4. clear HL'.
  inversion E4; subst w'. cbn [w_heap w_dnc]. fold L.
  split.
  { unfold heads.
    replace (L + 1 + 1 + n)%nat with (L + 2 + n)%nat by lia.
    replace (S (L + 2 + n)) with (L + 3 + n)%nat by lia.
    replace (L + 2 + n + (1 + (DEEPLEARNDNC_READ_HEADS + DEEPLEARNDNC_WRITE_HEADS)))%nat
      with (L + 3 + n + (DEEPLEARNDNC_READ_HEADS + DEEPLEARNDNC_WRITE_HEADS))%nat
      by lia.
    reflexivity. }
  split.
  { eexists. eapply deref_insert_eq. exact HL. }
  split.
  { rewrite deref_insert_ne; [exact HA|]. intros Hx. inversion Hx. lia. }
  intros b Hb. rewrite deref_insert_ne; [apply HB4; exact Hb|].
  intros Hx. inversion Hx. lia.
Qed.


Lemma length_fresh_write_heads base n : length (fresh_write_heads base n) = n.
Proof.
  revert base. induction n as [|n IH]; intros base; [reflexivity|].
  cbn [fresh_write_heads length]. rewrite IH. reflexivity.
Qed.

Lemma fresh_write_heads_pointers base n :
  concat (write_head_pointers <$> fresh_write_heads base n)
  = Pblock <$> seq base (3 * n).
Proof.
  revert base. induction n as [|n IH]; intros base; [reflexivity|].
  cbn [fresh_write_heads fmap list_fmap concat write_head_pointers
       wh_write wh_erase wh_key].
  rewrite IH. replace (3 * S n)%nat with (3 + 3 * n)%nat by lia.
  rewrite seq_app, fmap_app. cbn [seq fmap list_fmap app].
  replace (base + 1)%nat with (S base) by lia.
  replace (base + 2)%nat with (S (S base)) by lia.
  reflexivity.
Qed.

Lemma slot_pointers_slots base n :
  slot_pointer <$> slots base n = Pblock <$> seq base n.
Proof.
  induction n as [|n IH]; [reflexivity|].
  rewrite slots_S, seq_S, !fmap_app, IH. reflexivity.
Qed.

#[local] Instance Pblock_inj : Inj (=) (=) Pblock.
Proof. intros x y E. inversion E. reflexivity. Qed.

(** The pointers to release after a successful initialisation: the blocks
    in the order of their allocation, except that the array of the bank,
    allocated before its vectors, is released after them. *)
Lemma init_release_pointers ms mw ni nh hl no et seed w w' :
  0 < BLOCK -> 0 <= ms <= INT_MAX ->
  rounded_size ms * sizeof_ptr dm < SIZE_MOD dm ->
  well_shaped (w_dnc w) ->
  deeplearn_dnc_init ms mw ni nh hl no et seed w = Done 0 w' ->
  let L := length (w_heap w) in
  let n := Z.to_nat (rounded_size ms) in
  release_pointers w'
  = Pblock <$> (seq (L + 2) n
                ++ (L + 1)%nat
                :: seq (L + 2 + n)
                     (1 + (DEEPLEARNDNC_READ_HEADS + DEEPLEARNDNC_WRITE_HEADS)
                      + DEEPLEARNDNC_READ_HEADS
                      + 3 * DEEPLEARNDNC_WRITE_HEADS)).
Proof.
  intros HB Hms Hfit Hws E L n.
  pose proof (rounded_size_range ms HB Hms) as Hsz.
  destruct (init_layout _ _ _ _ _ _ _ _ _ _ HB Hms Hfit Hws E)
    as (D & _ & HA & _).
  fold L n in D, HA.
  set (heads := (DEEPLEARNDNC_READ_HEADS + DEEPLEARNDNC_WRITE_HEADS)%nat) in *.
  rewrite release_pointers_eq. unfold bank_pointers.
  rewrite D. struct_simpl. rewrite HA. fold n.
  rewrite (take_ge (slots _ _)) by (rewrite length_slots; lia).
  rewrite (take_ge (Pblock <$> _))
    by (rewrite length_fmap, length_seq; unfold heads; lia).
  rewrite (take_ge (_ <$> seq _ DEEPLEARNDNC_READ_HEADS))
    by (rewrite length_fmap, length_seq; lia).
  rewrite (take_ge (fresh_write_heads _ _))
    by (rewrite length_fresh_write_heads; lia).
  rewrite slot_pointers_slots, fresh_write_heads_pointers.
  rewrite <- list_fmap_compose.
  change (rh_key ∘ (fun b => ReadHead (Pblock b))) with Pblock.
  rewrite fmap_app. f_equal.
  rewrite !seq_app. cbn [seq]. rewrite fmap_cons, !fmap_app, <- !app_assoc.
  cbn [fmap list_fmap app].
  replace (L + 2 + n + 1)%nat with (L + 3 + n)%nat by lia.
  replace (L + 2 + n + (1 + heads))%nat with (L + 3 + n + heads)%nat by lia.
  replace (L + 2 + n + (1 + heads + DEEPLEARNDNC_READ_HEADS))%nat
    with (L + 3 + n + heads + DEEPLEARNDNC_READ_HEADS)%nat by lia.
  reflexivity.
Qed.

(** A successful initialisation leaves a releasable instance. *)
Lemma init_releasable ms mw ni nh hl no et seed w w' :
  0 < BLOCK -> 0 <= ms <= INT_MAX ->
  rounded_size ms * sizeof_ptr dm < SIZE_MOD dm ->
  Z.of_nat (DEEPLEARNDNC_READ_HEADS + DEEPLEARNDNC_WRITE_HEADS) <= INT_MAX ->
  well_shaped (w_dnc w) ->
  deeplearn_dnc_init ms mw ni nh hl no et seed w = Done 0 w' ->
  releasable w'.
Proof.
  intros HB Hms Hfit Hhd Hws E.
  pose proof (rounded_size_range ms HB Hms) as Hsz.
  pose proof (init_release_pointers _ _ _ _ _ _ _ _ _ _ HB Hms Hfit Hws E)
    as HRP.
  destruct (init_layout _ _ _ _ _ _ _ _ _ _ HB Hms Hfit Hws E)
    as (D & (c & Hc) & HA & Hlive).
  cbv zeta in HRP.
  set (L := length (w_heap w)) in *.
  set (n := Z.to_nat (rounded_size ms)) in *.
  set (heads := (DEEPLEARNDNC_READ_HEADS + DEEPLEARNDNC_WRITE_HEADS)%nat) in *.
  assert (forall p, p ∈ release_pointers w' ->
            exists b, p = Pblock b
              /\ (L + 1 <= b < L + 3 + n + heads + DEEPLEARNDNC_READ_HEADS
                                 + 3 * DEEPLEARNDNC_WRITE_HEADS)%nat) as Hin.
  { intros p Hp. rewrite HRP in Hp.
    apply list_elem_of_fmap in Hp as (b & -> & Hb). exists b.
    split; [reflexivity|].
    rewrite elem_of_app, elem_of_cons, !elem_of_seq in Hb. lia. }
  repeat split.
  - rewrite D. struct_simpl. rewrite length_fmap, length_seq. reflexivity.
  - rewrite D. struct_simpl. rewrite length_fmap, length_seq. reflexivity.
  - rewrite D. struct_simpl. apply length_fresh_write_heads.
  - rewrite D. struct_simpl. lia.
  - rewrite D. struct_simpl. lia.
  - exact Hhd.
  - rewrite D. struct_simpl. exists (slots (L + 2) n).
    rewrite length_slots. split; [exact HA|]. fold n. lia.
  - intros p Hp. right. apply Hin in Hp as (b & -> & Hb).
    destruct (decide (b = L + 1)%nat) as [->|Hne]; [rewrite HA; eauto|].
    destruct (Hlive b ltac:(lia)) as (k & cells & ->). eauto.
  - apply NoDup_filter. rewrite HRP. apply NoDup_fmap_2; [apply _|].
    apply NoDup_app. split; [apply NoDup_seq|]. split.
    + intros x Hx. rewrite elem_of_cons, !elem_of_seq in *. lia.
    + apply NoDup_cons. split; [|apply NoDup_seq].
      rewrite elem_of_seq. lia.
  - exists c. rewrite D. exact Hc.
  - intros Hp. apply Hin in Hp as (b & Eb & Hb).
    rewrite D in Eb. struct_simpl_in Eb. inversion Eb. lia.
Qed.

(** C8, as the code has it.  On every releasable instance (every
    successfully initialised one is, by [init_releasable])
    [deeplearn_dnc_free] returns, and it releases the subsystems in the
    order of their allocation: first the memory bank (every address vector,
    then the array of addresses), then the usage tracker (the usage vector,
    then every linkage matrix), then the heads (the keys of the read heads,
    then write, erase and key of every write head), and last the controller
    network. *)
Theorem free_releases_in_allocation_order w :
  releasable w ->
  exists w',
    deeplearn_dnc_free w = Done tt w'
    /\ w_trace w' = w_trace w ++ release_sequence w.
Proof.
  intros Hr. destruct (free_returns w Hr) as (w' & E).
  exists w'. split; [exact E|]. apply free_trace. exact E.
Qed.


(** ** After a successful initialisation *)

(** The array of the bank is a block of its own. *)
Lemma init_bank_apart ms mw ni nh hl no et seed w w' :
  0 < BLOCK -> 0 <= ms <= INT_MAX ->
  rounded_size ms * sizeof_ptr dm < SIZE_MOD dm ->
  well_shaped (w_dnc w) ->
  deeplearn_dnc_init ms mw ni nh hl no et seed w = Done 0 w' ->
  bank_apart w'.
Proof.
  intros HB Hms Hfit Hws E.
  destruct (init_layout _ _ _ _ _ _ _ _ _ _ HB Hms Hfit Hws E)
    as (D & _ & HA & _).
  intros cells. rewrite D. struct_simpl. rewrite HA.
  intros Hc. inversion Hc; subst cells. split.
  - unfold slots. intros Hin.
    apply list_elem_of_fmap in Hin as (j & Ej & _). inversion Ej. lia.
  - intros Ej. inversion Ej. lia.
Qed.

(** The first loop of [deeplearn_dnc_clear_memory] writes to the vectors
    the array lists, and to nothing else. *)
Lemma clear_slots_frame n :
  forall i w r w' cells,
  0 <= i ->
  for_loop (R := unit) n i (fun i => clear_slot i;; mret None) w = Done r w' ->
  (n <> O ->
   deref (w_heap w) (m_address (memory (w_dnc w))) = Some (Ocells KPtr cells)) ->
  Cptr (m_address (memory (w_dnc w))) ∉ cells ->
  forall q, (forall c, c ∈ cells -> slot_pointer c <> q) ->
    deref (w_heap w') q = deref (w_heap w) q.
Proof.
  induction n as [|n IH]; intros i w r w' cells Hi E Hc Hnot q Hq.
  - inversion E; subst. reflexivity.
  - specialize (Hc ltac:(discriminate)).
    cbn [for_loop] in E.
    apply bind_inv in E as ([x|] & w1 & E1 & E).
    { apply bind_inv in E1 as (? & ? & _ & E1). inversion E1. }
    apply bind_inv in E1 as ([] & w1' & E1 & Er). inversion Er; subst w1'.
    apply clear_slot_inv in E1 as (cells' & c & Hc' & Hok & Ec & Em).
    rewrite Hc in Hc'. inversion Hc'; subst cells'. clear Hc'.
    apply memset_zero_spec in Em as (Ed & _ & _ & Hz & _ & Hne).
    assert (slot_pointer c <> m_address (memory (w_dnc w))) as Hca.
    { intros Heq. apply zeroed_block in Hz as [b Hb].
      destruct c as [| |p]; try discriminate. simpl in Heq, Hb. subst p.
      apply Hnot. rewrite <- Heq. eapply list_elem_of_lookup_2. exact Ec. }
    assert (deref (w_heap w1) (m_address (memory (w_dnc w)))
            = Some (Ocells KPtr cells)) as Hc1
      by (rewrite Hne by congruence; exact Hc).
    destruct (i <? INT_MAX); [|inversion E].
    transitivity (deref (w_heap w1) q).
    + apply (IH (i + 1) w1 r w' cells);
        [lia | exact E | rewrite Ed; intros _; exact Hc1
        | rewrite Ed; exact Hnot | exact Hq].
    + apply Hne. intros ->. apply (Hq c); [|reflexivity].
      eapply list_elem_of_lookup_2. exact Ec.
Qed.

(** [deeplearn_dnc_clear_memory] never writes to a linkage matrix: called
    on a freshly initialised instance, it leaves every block the array
    [usage_temporal] points to as it was. *)
Lemma clear_memory_spares_linkage ms mw ni nh hl no et seed w0 w w' :
  0 < BLOCK -> 0 <= ms <= INT_MAX ->
  rounded_size ms * sizeof_ptr dm < SIZE_MOD dm ->
  well_shaped (w_dnc w0) ->
  deeplearn_dnc_init ms mw ni nh hl no et seed w0 = Done 0 w ->
  deeplearn_dnc_clear_memory w = Done tt w' ->
  forall p, p ∈ m_usage_temporal (memory (w_dnc w)) ->
    deref (w_heap w') p = deref (w_heap w) p.
Proof.
  intros HB Hms Hfit Hws E Ec p Hp.
  destruct (init_layout _ _ _ _ _ _ _ _ _ _ HB Hms Hfit Hws E)
    as (D & _ & HA & _).
  pose proof (init_bank_apart _ _ _ _ _ _ _ _ _ _ HB Hms Hfit Hws E) as Hapart.
  set (L := length (w_heap w0)) in *.
  set (n := Z.to_nat (rounded_size ms)) in *.
  specialize (Hapart (slots (L + 2) n)).
  rewrite D in Hp, Hapart. struct_simpl_in Hp. struct_simpl_in Hapart.
  destruct (Hapart HA) as [Hnot _].
  apply list_elem_of_fmap in Hp as (b & -> & Hb). apply elem_of_seq in Hb.
  rewrite clear_memory_unfold in Ec.
  apply bind_inv in Ec as (r & wa & Ea & Ec).
  apply bind_inv in Ec as ([] & wb & Eb & Ec).
  apply memset_usage_temporal_again in Ec as (_ & Hh & _).
  apply memset_zero_spec in Eb as (_ & _ & _ & _ & _ & Hne).
  pose proof (clear_slots_same_dnc _ _ _ _ _ Ea) as Da. unfold same_dnc in Da.
  rewrite Hh, Hne.
  - eapply (clear_slots_frame _ _ _ _ _ (slots (L + 2) n)); [|exact Ea|..].
    + lia.
    + intros _. rewrite D. exact HA.
    + rewrite D. exact Hnot.
    + intros c Hc. unfold slots in Hc.
      apply list_elem_of_fmap in Hc as (j & -> & Hj). apply elem_of_seq in Hj.
      simpl. intros Ej. inversion Ej. lia.
  - rewrite D. struct_simpl. intros Ej. inversion Ej. lia.
Qed.


(** ** The heap after a release *)

(** Between [w] and [w'] some pointers were passed to [free], each logged
    and its block dead since; nothing else changed in the heap or the
    structure. *)
Definition frees_logged : relation world := fun w w' =>
  w_dnc w' = w_dnc w
  /\ exists ps,
       w_trace w' = w_trace w ++ (EvFree <$> ps)
       /\ forall q, deref (w_heap w') q
                    = if decide (q ∈ ps) then None else deref (w_heap w) q.

#[local] Instance frees_logged_preorder : PreOrder frees_logged.
Proof.
  split.
  - intros w. split; [reflexivity|]. exists []. rewrite app_nil_r.
    split; [reflexivity|]. intros q.
    rewrite decide_False; [reflexivity|]. apply not_elem_of_nil.
  - intros w1 w2 w3 (D1 & ps1 & T1 & H1) (D2 & ps2 & T2 & H2).
    split; [congruence|]. exists (ps1 ++ ps2).
    rewrite T2, T1, fmap_app, app_assoc. split; [reflexivity|].
    intros q. rewrite H2, H1.
    destruct (decide (q ∈ ps2)) as [I2|I2], (decide (q ∈ ps1)) as [I1|I1];
      first [rewrite decide_True by (apply elem_of_app; auto)
            |rewrite decide_False by (rewrite elem_of_app; tauto)];
      reflexivity.
Qed.

Lemma free_logged p : frame frees_logged (free p).
Proof.
  intros w [] w' E. apply free_spec in E as (D & T & H).
  split; [exact D|]. exists [p]. split; [exact T|].
  intros q. rewrite H.
  destruct (decide (q = p)) as [->|Hq].
  - rewrite decide_True; [reflexivity|]. apply list_elem_of_singleton. reflexivity.
  - rewrite decide_False; [reflexivity|]. rewrite list_elem_of_singleton. exact Hq.
Qed.

Lemma get_dnc_logged : frame frees_logged get_dnc.
Proof. frame_prim; reflexivity. Qed.
Lemma load_ptr_logged p i : frame frees_logged (load_ptr p i).
Proof. frame_prim; reflexivity. Qed.
Lemma get_usage_temporal_logged i : frame frees_logged (get_usage_temporal i).
Proof. frame_prim; reflexivity. Qed.
Lemma get_read_head_logged i : frame frees_logged (get_read_head i).
Proof. frame_prim; reflexivity. Qed.
Lemma get_write_head_logged i : frame frees_logged (get_write_head i).
Proof. frame_prim; reflexivity. Qed.

Create HintDb frees discriminated.
#[local] Hint Resolve free_logged get_dnc_logged load_ptr_logged
  get_usage_temporal_logged get_read_head_logged get_write_head_logged : frees.

Ltac frame_frees := repeat (first [solve [auto with frees] | frame_step]).

Lemma free_memory_logged : frame frees_logged deeplearn_dnc_free_memory.
Proof. unfold deeplearn_dnc_free_memory. frame_frees. Qed.
Lemma free_memory_usage_logged : frame frees_logged deeplearn_dnc_free_memory_usage.
Proof. unfold deeplearn_dnc_free_memory_usage. frame_frees. Qed.
Lemma free_heads_logged : frame frees_logged deeplearn_dnc_free_heads.
Proof. unfold deeplearn_dnc_free_heads. frame_frees. Qed.

#[local] Instance EvFree_inj : Inj (=) (=) EvFree.
Proof. intros x y E. inversion E. reflexivity. Qed.

(** When [deeplearn_dnc_free] returns, every block it was to release is
    dead, the controller object is what [deeplearn_free] has left of it,
    and every other block is as it was. *)
Lemma free_heap w w' :
  deeplearn_dnc_free w = Done tt w' ->
  w_dnc w' = w_dnc w
  /\ (forall q, q <> controller (w_dnc w) ->
        deref (w_heap w') q
        = if decide (q ∈ release_pointers w) then None else deref (w_heap w) q)
  /\ deref (w_heap w') (controller (w_dnc w))
     = if deeplearn_free_releases_object then None else Some (Octrl None).
Proof.
  unfold deeplearn_dnc_free. intros E.
  apply bind_inv in E as ([] & w1 & E1 & E).
  apply bind_inv in E as ([] & w2 & E2 & E).
  apply bind_inv in E as ([] & w3 & E3 & E).
  apply bind_inv in E as (v & w4 & E4 & E). inversion E; subst w4.
  assert (frees_logged w w3) as (D & ps & T & H).
  { transitivity w1; [exact (free_memory_logged _ _ _ E1)|].
    transitivity w2; [exact (free_memory_usage_logged _ _ _ E2)|].
    exact (free_heads_logged _ _ _ E3). }
  apply free_memory_trace in E1 as [D1 T1].
  apply free_memory_usage_trace in E2 as [D2 T2].
  apply free_heads_trace in E3 as [D3 T3].
  assert (ps = release_pointers w) as ->.
  { apply (inj (fmap EvFree)). apply (app_inv_head (w_trace w)).
    rewrite <- T, T3, T2, T1.
    unfold release_pointers, bank_releases, usage_releases, heads_releases.
    rewrite D2, D1, !fmap_app, <- !app_assoc. reflexivity. }
  clear D1 D2 D3 T1 T2 T3.
  destruct w3 as [h3 pl3 t3 d3]. cbn [w_dnc w_heap] in *. subst d3.
  rewrite call_deeplearn_run in E4.
  destruct (controller (w_dnc w)) as [| |b] eqn:Ec; try discriminate.
  destruct (deref h3 (Pblock b)) as [[|[c|]]|] eqn:Eb; try discriminate.
  inversion E4; subst. cbn [w_dnc w_heap].
  split; [reflexivity|]. split.
  - intros q Hq. rewrite deref_insert_ne by exact Hq. apply H.
  - eapply deref_insert_same. exact Eb.
Qed.

(** After the release the controller cannot be called: its object is dead
    or uninitialised, whatever the library. *)
Lemma call_after_free_undefined r w :
  releasable w -> (deeplearn_dnc_free;; call_deeplearn r) w = Undefined.
Proof.
  intros Hr. destruct (free_returns w Hr) as (w' & E).
  rewrite bind_eq, E.
  destruct (free_heap w w' E) as (D & _ & Hc).
  destruct w' as [h pl t d]. cbn [w_dnc w_heap] in *. subst d.
  rewrite call_deeplearn_run.
  destruct (controller (w_dnc w)); try reflexivity.
  rewrite Hc. destruct deeplearn_free_releases_object; reflexivity.
Qed.

(** A freed array cannot be read again. *)
Lemma free_memory_dead_array w :
  deref (w_heap w) (m_address (memory (w_dnc w))) = None ->
  m_address (memory (w_dnc w)) <> Pnull ->
  deeplearn_dnc_free_memory w = Undefined.
Proof.
  intros Hd Hn. destruct w as [h pl t d]. cbn [w_heap w_dnc] in *.
  unfold deeplearn_dnc_free_memory. rewrite bind_eq, get_dnc_run.
  destruct (Z.to_nat (m_size (memory d))) as [|n].
  - unfold for_each. cbn [for_loop]. rewrite !bind_eq. cbn [mret prog_ret].
    rewrite bind_eq, get_dnc_run, free_run.
    destruct (m_address (memory d)) as [| |b]; [reflexivity|contradiction|].
    rewrite Hd. reflexivity.
  - apply bind_undefined. unfold for_each. apply bind_undefined.
    cbn [for_loop]. apply bind_undefined. apply bind_undefined.
    rewrite bind_eq, get_dnc_run. apply bind_undefined.
    rewrite load_ptr_run, Hd. reflexivity.
Qed.

Lemma clear_memory_dead_bank w :
  deref (w_heap w) (m_address (memory (w_dnc w))) = None ->
  deref (w_heap w) (m_usage (memory (w_dnc w))) = None ->
  deeplearn_dnc_clear_memory w = Undefined.
Proof.
  intros Ha Hu. rewrite clear_memory_unfold.
  destruct w as [h pl t d]. cbn [w_heap w_dnc] in *. unfold size_of.
  cbn [w_dnc].
  destruct (Z.to_nat (m_size (memory d))) as [|n].
  - cbn [for_loop]. rewrite bind_eq. cbn [mret prog_ret].
    apply bind_undefined. rewrite memset_zero_run.
    destruct (m_usage (memory d)); try reflexivity.
    rewrite Hu. reflexivity.
  - apply bind_undefined. cbn [for_loop]. apply bind_undefined.
    apply bind_undefined. unfold clear_slot.
    rewrite bind_eq, get_dnc_run. apply bind_undefined.
    rewrite load_ptr_run, Ha. reflexivity.
Qed.

(** X5.  An instance is released once: after [deeplearn_dnc_free] has
    returned, calling it again is undefined (the array of the bank is read,
    or released, after it was freed), and so is
    [deeplearn_dnc_clear_memory]. *)
Theorem use_after_free_undefined w :
  releasable w ->
  (deeplearn_dnc_free;; deeplearn_dnc_free) w = Undefined
  /\ (deeplearn_dnc_free;; deeplearn_dnc_clear_memory) w = Undefined.
Proof.
  intros Hr.
  destruct (free_returns w Hr) as (w' & E).
  pose proof (free_heap w w' E) as (D & H & _).
  pose proof Hr as (_ & _ & _ & (cells & Hc & _) & Hlive & _ & _ & Hout).
  assert (forall q, q ∈ release_pointers w -> deref (w_heap w') q = None) as Hdead.
  { intros q Hq. rewrite H, decide_True by (try exact Hq; congruence).
    reflexivity. }
  assert (m_address (memory (w_dnc w)) ∈ release_pointers w) as Ha.
  { eapply list_elem_of_lookup_2. apply release_pointers_address. exact Hr. }
  assert (m_usage (memory (w_dnc w)) ∈ release_pointers w) as Hu.
  { eapply list_elem_of_lookup_2. apply release_pointers_usage. exact Hr. }
  rewrite !bind_eq, E. split.
  - unfold deeplearn_dnc_free. apply bind_undefined.
    apply free_memory_dead_array; rewrite D.
    + apply Hdead. exact Ha.
    + intros En. rewrite En in Hc. discriminate.
  - apply clear_memory_dead_bank; rewrite D; apply Hdead; assumption.
Qed.


(** ** Initialising, then releasing *)

(** A successful [deeplearn_dnc_init] appends its blocks to the heap and
    leaves the blocks that were there alone. *)
Lemma init_heap ms mw ni nh hl no et seed w w' :
  0 < BLOCK -> 0 <= ms <= INT_MAX ->
  rounded_size ms * sizeof_ptr dm < SIZE_MOD dm ->
  well_shaped (w_dnc w) ->
  deeplearn_dnc_init ms mw ni nh hl no et seed w = Done 0 w' ->
  length (w_heap w')
  = (length (w_heap w) + 3 + Z.to_nat (rounded_size ms)
     + (DEEPLEARNDNC_READ_HEADS + DEEPLEARNDNC_WRITE_HEADS)
     + DEEPLEARNDNC_READ_HEADS + 3 * DEEPLEARNDNC_WRITE_HEADS)%nat
  /\ forall b, (b < length (w_heap w))%nat ->
       deref (w_heap w') (Pblock b) = deref (w_heap w) (Pblock b).
Proof.
  intros HB Hms Hfit Hws E.
  pose proof (rounded_size_range ms HB Hms) as Hsz.
  apply init_success_stages in E
    as (p & w1 & w2 & w3 & w4 & r4 & Ep & Hp & E1 & E2 & E3 & E4).
  destruct w as [h pl t d]. cbn [w_heap w_dnc] in *.
  rewrite init_controller_object_run in Ep.
  destruct (next_alloc pl).1; inversion Ep; subst p w1; [|contradiction].
  clear Ep Hp.
  pose proof (init_memory_success _ _ _ _ Hsz Hfit E1) as [_ Hh2].
  cbn [w_heap] in Hh2.
  assert (well_shaped (w_dnc w2)) as Hws2.
  { rewrite init_memory_run in E1 by assumption. cbv zeta in E1.
    destruct (next_alloc (next_alloc pl).2).1; [|discriminate].
    destruct (decide _); [|discriminate]. inversion E1; subst w2. exact Hws. }
  apply init_memory_usage_layout in E2 as (G2 & D2); [|exact Hws2].
  assert (well_shaped (w_dnc w3)) as Hws3.
  { rewrite D2. destruct Hws2 as (? & ? & ?). unfold well_shaped. struct_simpl.
    rewrite length_fmap, length_seq. auto. }
  apply init_heads_layout in E3 as (G3 & D3); [|exact Hws3].
  assert (w_heap w' = <[length h := Some (Octrl (Some (deeplearn_init
            (InitArgs (controller_inputs mw ni) nh hl (controller_outputs mw no)
               et seed)).2))]> (w_heap w4)) as Hh'.
  { destruct w4 as [h4 pl4 t4 d4]. rewrite call_deeplearn_init_run in E4.
    cbn [w_dnc] in D3. rewrite D3, D2 in E4. struct_simpl_in E4.
    assert (controller (w_dnc w2) = Pblock (length h)) as Hc.
    { rewrite init_memory_run in E1 by assumption. cbv zeta in E1.
      destruct (next_alloc (next_alloc pl).2).1; [|discriminate].
      destruct (decide _); [|discriminate]. inversion E1; subst w2.
      reflexivity. }
    rewrite Hc in E4.
    destruct (deref h4 (Pblock (length h))) as [[|c]|]; try discriminate.
    inversion E4; subst. reflexivity. }
  pose proof (grown_length _ _ _ G2) as L3.
  pose proof (grown_length _ _ _ G3) as L4.
  assert (length (w_heap w2)
          = (length h + 2 + Z.to_nat (rounded_size ms))%nat) as L2.
  { rewrite Hh2, length_app, length_app. cbn [length].
    rewrite length_replicate. lia. }
  split.
  - rewrite Hh', length_insert, L4, L3, L2. lia.
  - intros b Hb. rewrite Hh', deref_insert_ne by (intros Eb; inversion Eb; lia).
    assert (deref (w_heap w2) (Pblock b) = deref h (Pblock b)) as H2.
    { rewrite Hh2. cbn [deref]. rewrite <- app_assoc.
      rewrite lookup_app_l by exact Hb. reflexivity. }
    destruct G2 as (v2 & _ & _ & Hv2). destruct G3 as (v3 & _ & _ & Hv3).
    rewrite Hv3, Hv2. cbn [deref].
    rewrite !lookup_app_l by (rewrite ?length_app; lia). exact H2.
Qed.

(** X6.  Initialising and then releasing gives back every block the
    initialisation allocated after the controller object: after
    [deeplearn_dnc_free] each of them is dead, and the blocks that were
    there before the initialisation are as they were.  The controller
    object itself, obtained from [malloc] by [deeplearn_dnc_init], is never
    passed to [free] by [deeplearn_dnc_free]: the calls to [free] are those
    of the release sequence, which does not name it, and the structure
    keeps its address.  What becomes of it is left to [deeplearn_free]. *)
Theorem init_free_round_trip ms mw ni nh hl no et seed w0 w :
  0 < BLOCK -> 0 <= ms <= INT_MAX ->
  rounded_size ms * sizeof_ptr dm < SIZE_MOD dm ->
  Z.of_nat (DEEPLEARNDNC_READ_HEADS + DEEPLEARNDNC_WRITE_HEADS) <= INT_MAX ->
  well_shaped (w_dnc w0) ->
  deeplearn_dnc_init ms mw ni nh hl no et seed w0 = Done 0 w ->
  exists w',
    deeplearn_dnc_free w = Done tt w'
    /\ (forall b, (b < length (w_heap w0))%nat ->
          deref (w_heap w') (Pblock b) = deref (w_heap w0) (Pblock b))
    /\ (forall b, (length (w_heap w0) < b)%nat ->
          deref (w_heap w') (Pblock b) = None)
    /\ controller (w_dnc w') = Pblock (length (w_heap w0))
    /\ w_trace w' = w_trace w ++ release_sequence w
    /\ EvFree (Pblock (length (w_heap w0))) ∉ release_sequence w.
Proof.
  intros HB Hms Hfit Hhd Hws E.
  pose proof (init_releasable _ _ _ _ _ _ _ _ _ _ HB Hms Hfit Hhd Hws E) as Hr.
  pose proof (init_release_pointers _ _ _ _ _ _ _ _ _ _ HB Hms Hfit Hws E)
    as HRP. cbv zeta in HRP.
  destruct (init_layout _ _ _ _ _ _ _ _ _ _ HB Hms Hfit Hws E) as (D & _).
  destruct (init_heap _ _ _ _ _ _ _ _ _ _ HB Hms Hfit Hws E) as (Hlen & Hold).
  assert (controller (w_dnc w) = Pblock (length (w_heap w0))) as Hc
    by (rewrite D; reflexivity).
  destruct (free_returns w Hr) as (w' & Ef). exists w'.
  split; [exact Ef|].
  destruct (free_heap w w' Ef) as (Dw & H & _).
  rewrite Hc in H.
  assert (forall b, Pblock b ∈ release_pointers w <->
            (length (w_heap w0) < b < length (w_heap w))%nat) as Hin.
  { intros b. rewrite HRP, Hlen.
    rewrite (list_elem_of_fmap_inj Pblock).
    rewrite elem_of_app, elem_of_cons, !elem_of_seq. lia. }
  split; [|split; [|split; [|split]]].
  - intros b Hb. rewrite H by (intros Eb; inversion Eb; lia).
    rewrite decide_False by (rewrite Hin; lia). apply Hold. exact Hb.
  - intros b Hb. rewrite H by (intros Eb; inversion Eb; lia).
    destruct (decide (Pblock b ∈ release_pointers w)) as [|Hn]; [reflexivity|].
    rewrite Hin in Hn. cbn [deref].
    rewrite (proj2 (lookup_ge_None _ _)) by lia. reflexivity.
  - rewrite Dw. exact Hc.
  - apply free_trace. exact Ef.
  - rewrite release_sequence_pointers, elem_of_app.
    intros [Hx|Hx].
    + apply (list_elem_of_fmap_inj EvFree) in Hx. apply Hin in Hx. lia.
    + apply list_elem_of_singleton in Hx. discriminate.
Qed.


(** ** What the initialisation allocates *)

(** [w'] has the heap of [w] followed by copies of [o]. *)
Definition appends (o : object) : relation world := fun w w' =>
  exists vs, w_heap w' = w_heap w ++ vs /\ Forall (fun x => x = Some o) vs.

#[local] Instance appends_preorder o : PreOrder (appends o).
Proof.
  split.
  - intros w. exists []. rewrite app_nil_r. auto.
  - intros w1 w2 w3 (v1 & H1 & F1) (v2 & H2 & F2). exists (v1 ++ v2).
    rewrite H2, H1, <- app_assoc, Forall_app. auto.
Qed.

Lemma appends_same_heap o w w' : w_heap w' = w_heap w -> appends o w w'.
Proof. intros E. exists []. rewrite app_nil_r. auto. Qed.

Lemma malloc_appends nb :
  frame (appends (Ocells KFloat
                    (replicate (Z.to_nat (nb / sizeof dm KFloat)) Cundef)))
        (malloc KFloat nb).
Proof.
  intros [h pl t d] q w' E. rewrite malloc_run in E.
  destruct (next_alloc pl).1; inversion E; subst.
  - eexists [_]. split; [reflexivity|]. constructor; [reflexivity|constructor].
  - apply appends_same_heap. reflexivity.
Qed.

Lemma set_usage_temporal_appends o i q : frame (appends o) (set_usage_temporal i q).
Proof. frame_prim; apply appends_same_heap; reflexivity. Qed.

(** The same for vectors of [memory.width] floats, the width being left as
    it is. *)
Definition appends_vectors (o : object) : relation world := fun w w' =>
  fresh_vector (w_dnc w) = o ->
  fresh_vector (w_dnc w') = o /\ appends o w w'.

#[local] Instance appends_vectors_preorder o : PreOrder (appends_vectors o).
Proof.
  split.
  - intros w Hw. split; [exact Hw|reflexivity].
  - intros w1 w2 w3 H1 H2 Hw.
    destruct (H1 Hw) as [Hw2 A1]. destruct (H2 Hw2) as [Hw3 A2].
    split; [exact Hw3|]. transitivity w2; assumption.
Qed.

Lemma malloc_vector_appends o : frame (appends_vectors o) malloc_vector.
Proof.
  intros [h pl t d] q w' E Ho. cbn [w_dnc] in Ho.
  unfold malloc_vector in E. rewrite bind_eq, get_dnc_run in E.
  pose proof (malloc_appends _ _ _ _ E) as A.
  rewrite malloc_run in E.
  destruct (next_alloc pl).1; inversion E; subst; (split; [reflexivity|exact A]).
Qed.

Lemma set_read_head_appends o i r : frame (appends_vectors o) (set_read_head i r).
Proof.
  frame_prim. intros Ho. split; [exact Ho|].
  apply appends_same_heap. reflexivity.
Qed.

Lemma set_write_head_appends o i f : frame (appends_vectors o) (set_write_head i f).
Proof.
  frame_prim. intros Ho. split; [exact Ho|].
  apply appends_same_heap. reflexivity.
Qed.

Lemma init_heads_appends o : frame (appends_vectors o) deeplearn_dnc_init_heads.
Proof.
  unfold deeplearn_dnc_init_heads.
  repeat (first [solve [auto using malloc_vector_appends, set_read_head_appends,
                          set_write_head_appends]
                | frame_step]).
Qed.

(** The usage vector and the linkage matrices, as [malloc] hands them
    over. *)
Lemma init_memory_usage_objects w w' :
  deeplearn_dnc_init_memory_usage w = Done 0 w' ->
  exists vs,
    w_heap w'
    = w_heap w
      ++ Some (Ocells KFloat
                 (replicate (Z.to_nat (to_size_t dm (usage_size (w_dnc w) * sizeof_float)
                                       / sizeof_float)) Cundef))
         :: vs
    /\ Forall (fun x => x = Some (Ocells KFloat
                 (replicate
                    (Z.to_nat (to_size_t dm (int_mul (usage_size (w_dnc w))
                                                     (usage_size (w_dnc w))
                                             * sizeof_float)
                               / sizeof_float)) Cundef))) vs.
Proof.
  intros E. unfold deeplearn_dnc_init_memory_usage in E.
  apply bind_inv in E as (d & wx & Eg & E). inversion Eg; subst d wx.
  apply bind_inv in E as (p & wa & Em & E).
  apply bind_inv in E as ([] & wb & Es & E).
  destruct (decide (p = Pnull)) as [|Hp]; [inversion E|].
  destruct w as [h pl t d]. rewrite malloc_run in Em.
  destruct (next_alloc pl).1; inversion Em; subst p wa; [|contradiction].
  unfold set_usage in Es. rewrite set_memory_run in Es. inversion Es; subst wb.
  apply bind_inv in E as (r & wc & El & E).
  match type of El with
  | ?m _ = _ =>
      assert (frame (appends (Ocells KFloat
                (replicate
                   (Z.to_nat (to_size_t dm (int_mul (usage_size d) (usage_size d)
                                            * sizeof_float)
                              / sizeof_float)) Cundef))) m) as Fl
  end.
  { apply frame_for_loop; [apply _|].
    intros j. apply frame_bind; [apply _|apply malloc_appends|].
    intros q. apply frame_bind; [apply _|apply set_usage_temporal_appends|].
    intros []. destruct (decide (q = Pnull)); apply frame_ret; apply _. }
  apply Fl in El as (vs & Hvs & Fvs).
  assert (w' = wc) as -> by (destruct r; inversion E; reflexivity).
  exists vs. cbn [w_heap w_dnc] in *. rewrite Hvs, <- app_assoc.
  split; [reflexivity|exact Fvs].
Qed.


(** The stages of a successful initialisation, with the world each one
    starts from. *)
Lemma init_stages ms mw ni nh hl no et seed w w' :
  0 < BLOCK -> 0 <= ms <= INT_MAX ->
  rounded_size ms * sizeof_ptr dm < SIZE_MOD dm ->
  deeplearn_dnc_init ms mw ni nh hl no et seed w = Done 0 w' ->
  exists w2 w3 w4 c,
    w_heap w2
    = (w_heap w ++ [Some (Octrl None)])
      ++ Some (Ocells KPtr (slots (length (w_heap w) + 2)
                              (Z.to_nat (rounded_size ms))))
      :: replicate (Z.to_nat (rounded_size ms)) (Some (fresh_vector (w_dnc w2)))
    /\ m_size (memory (w_dnc w2)) = rounded_size ms
    /\ m_width (memory (w_dnc w2)) = to_uint mw
    /\ read_head (w_dnc w2) = read_head (w_dnc w)
    /\ write_head (w_dnc w2) = write_head (w_dnc w)
    /\ m_usage_temporal (memory (w_dnc w2)) = m_usage_temporal (memory (w_dnc w))
    /\ deeplearn_dnc_init_memory_usage w2 = Done 0 w3
    /\ deeplearn_dnc_init_heads w3 = Done 0 w4
    /\ w_heap w' = <[length (w_heap w) := Some (Octrl (Some c))]> (w_heap w4)
    /\ w_dnc w' = w_dnc w4.
Proof.
  intros HB Hms Hfit E.
  pose proof (rounded_size_range ms HB Hms) as Hsz.
  apply init_success_stages in E
    as (p & w1 & w2 & w3 & w4 & r4 & Ep & Hp & E1 & E2 & E3 & E4).
  destruct w as [h pl t d]. cbn [w_heap w_dnc] in *.
  rewrite init_controller_object_run in Ep.
  destruct (next_alloc pl).1; inversion Ep; subst p w1; [|contradiction].
  clear Ep Hp.
  rewrite init_memory_run in E1 by assumption. cbv zeta in E1.
  destruct (next_alloc (next_alloc pl).2).1; [|discriminate].
  destruct (decide _); [|discriminate]. injection E1 as E1.
  assert (length (h ++ [Some (Octrl None)]) = (length h + 1)%nat) as L1
    by (rewrite length_app; reflexivity).
  rewrite L1 in E1.
  replace (S (length h + 1)) with (length h + 2)%nat in E1 by lia.
  subst w2.
  destruct w4 as [h4 pl4 t4 d4]. rewrite call_deeplearn_init_run in E4.
  pose proof (init_memory_usage_extends _ _ _ E2) as (_ & _ & C2 & _).
  pose proof (init_heads_extends _ _ _ E3) as (_ & _ & C3 & _).
  cbn [w_dnc] in C3, C2. rewrite C3, C2 in E4. unfold with_bank in E4.
  struct_simpl_in E4.
  destruct (deref h4 (Pblock (length h))) as [[|c]|]; try discriminate.
  match type of E2 with _ ?w = _ => exists w, w3 end.
  eexists _, _.
  split; [reflexivity|]. do 5 (split; [reflexivity|]).
  split; [exact E2|]. split; [exact E3|].
  inversion E4; subst. split; reflexivity.
Qed.

Lemma usage_size_rounded d ms :
  0 < BLOCK <= INT_MAX -> 0 <= ms <= INT_MAX ->
  m_size (memory d) = rounded_size ms ->
  usage_size d = ms / BLOCK.
Proof.
  intros HB Hms Hd. unfold usage_size, uint_div. rewrite Hd.
  pose proof (rounded_size_range ms ltac:(lia) Hms) as Hsz.
  rewrite (to_uint_small (rounded_size ms)) by (unfold UINT_MOD, INT_MAX in *; lia).
  rewrite (to_uint_small BLOCK) by (unfold UINT_MOD, INT_MAX in *; lia).
  rewrite rounded_size_eq by lia. rewrite Z.div_mul by lia.
  apply to_int_small.
  assert (0 <= ms / BLOCK) by (apply Z.div_pos; lia).
  assert (ms / BLOCK <= ms) by (apply Z.div_le_upper_bound; nia).
  lia.
Qed.

Lemma lookup_appended (h vs : list (option object)) o j :
  Forall (fun x => x = Some o) vs -> (j < length vs)%nat ->
  (h ++ vs) !! (length h + j)%nat = Some (Some o).
Proof.
  intros F Hj. rewrite lookup_app_r by lia.
  replace (length h + j - length h)%nat with j by lia.
  destruct (vs !! j) as [x|] eqn:Ex.
  - rewrite Forall_lookup in F. rewrite (F _ _ Ex). reflexivity.
  - apply lookup_ge_None in Ex. lia.
Qed.

(** The blocks a successful initialisation leaves after the array of the
    bank, by number: the vectors of the bank, the usage vector, the linkage
    matrices, and the vectors of the heads; all as [malloc] hands them
    over. *)
Lemma init_objects ms mw ni nh hl no et seed w w' :
  0 < BLOCK <= INT_MAX -> 0 <= ms <= INT_MAX ->
  rounded_size ms * sizeof_ptr dm < SIZE_MOD dm ->
  0 <= mw <= INT_MAX -> mw * sizeof_float < SIZE_MOD dm ->
  (ms / BLOCK) * (ms / BLOCK) <= INT_MAX ->
  (ms / BLOCK) * (ms / BLOCK) * sizeof_float < SIZE_MOD dm ->
  well_shaped (w_dnc w) ->
  deeplearn_dnc_init ms mw ni nh hl no et seed w = Done 0 w' ->
  let L := length (w_heap w) in
  let n := Z.to_nat (rounded_size ms) in
  let heads := (DEEPLEARNDNC_READ_HEADS + DEEPLEARNDNC_WRITE_HEADS)%nat in
  (forall i, (i < n)%nat ->
     deref (w_heap w') (Pblock (L + 2 + i))
     = Some (Ocells KFloat (replicate (Z.to_nat mw) Cundef)))
  /\ deref (w_heap w') (Pblock (L + 2 + n))
     = Some (Ocells KFloat (replicate (Z.to_nat (ms / BLOCK)) Cundef))
  /\ (forall j, (j < heads)%nat ->
        deref (w_heap w') (Pblock (L + 3 + n + j))
        = Some (Ocells KFloat
                  (replicate (Z.to_nat (ms / BLOCK * (ms / BLOCK))) Cundef)))
  /\ (forall j, (j < DEEPLEARNDNC_READ_HEADS + 3 * DEEPLEARNDNC_WRITE_HEADS)%nat ->
        deref (w_heap w') (Pblock (L + 3 + n + heads + j))
        = Some (Ocells KFloat (replicate (Z.to_nat mw) Cundef))).
Proof.
  intros HB Hms Hfit Hmw Hwfit Hsq Hsqfit Hws E L n heads.
  assert (0 < BLOCK) as HB' by lia.
  pose proof (rounded_size_range ms HB' Hms) as Hsz.
  destruct (init_layout _ _ _ _ _ _ _ _ _ _ HB' Hms Hfit Hws E) as (D & _).
  destruct (init_stages _ _ _ _ _ _ _ _ _ _ HB' Hms Hfit E)
    as (w2 & w3 & w4 & c & Hh2 & Hs2 & Hw2 & Hr2 & Hwh2 & Hut2 & E2 & E3 & Hh' & Hd').
  fold L n heads in D, Hh2, Hh'.
  assert (length (w_heap w2) = (L + 2 + n)%nat) as L2.
  { rewrite Hh2, length_app, length_app. cbn [length].
    rewrite length_replicate. fold L. lia. }
  assert (well_shaped (w_dnc w2)) as Hws2.
  { destruct Hws as (A & B & C). unfold well_shaped.
    rewrite Hut2, Hr2, Hwh2. auto. }
  (* the usage tracker *)
  pose proof (usage_size_rounded (w_dnc w2) ms HB Hms Hs2) as Hus.
  assert (0 <= ms / BLOCK) as Hus0 by (apply Z.div_pos; lia).
  destruct (init_memory_usage_objects _ _ E2) as (vm & Hh3 & Fm).
  rewrite Hus in Hh3, Fm.
  assert (ms / BLOCK * sizeof_float < SIZE_MOD dm) as Hufit.
  { rewrite rounded_size_eq in Hfit by lia.
    pose proof sizeof_ptr_pos.
    assert (4 <= sizeof_ptr dm) by (destruct dm; simpl; lia).
    unfold sizeof_float in *.
    assert (ms / BLOCK <= ms / BLOCK * BLOCK) by nia.
    assert (ms / BLOCK * BLOCK * 4 <= ms / BLOCK * BLOCK * sizeof_ptr dm)
      by (apply Z.mul_le_mono_nonneg_l; lia).
    lia. }
  rewrite (to_size_t_small (ms / BLOCK * sizeof_float)) in Hh3
    by (unfold sizeof_float in *; lia).
  rewrite Z.div_mul in Hh3 by (unfold sizeof_float; lia).
  unfold int_mul in Fm. rewrite to_int_small in Fm by nia.
  rewrite to_size_t_small in Fm by (unfold sizeof_float in *; nia).
  rewrite Z.div_mul in Fm by (unfold sizeof_float; lia).
  pose proof (init_memory_usage_layout _ _ Hws2 E2) as (G3 & D3).
  pose proof (grown_length _ _ _ G3) as L3.
  assert (length vm = heads) as Lvm.
  { rewrite Hh3, length_app in L3. cbn [length] in L3. unfold heads. lia. }
  (* the heads *)
  assert (well_shaped (w_dnc w3)) as Hws3.
  { rewrite D3. destruct Hws2 as (? & ? & ?). unfold well_shaped. struct_simpl.
    rewrite length_fmap, length_seq. auto. }
  assert (fresh_vector (w_dnc w3)
          = Ocells KFloat (replicate (Z.to_nat mw) Cundef)) as Hfv.
  { assert (m_width (memory (w_dnc w3)) = mw) as Hw3.
    { rewrite D3. struct_simpl. rewrite Hw2.
      apply to_uint_small. unfold UINT_MOD, INT_MAX in *. lia. }
    rewrite fresh_vector_width by (rewrite Hw3; lia).
    rewrite Hw3. reflexivity. }
  destruct (init_heads_appends _ _ _ _ E3 Hfv) as (_ & vh & Hh4 & Fh).
  pose proof (init_heads_layout _ _ Hws3 E3) as (G4 & _).
  pose proof (grown_length _ _ _ G4) as L4.
  assert (length vh = (DEEPLEARNDNC_READ_HEADS + 3 * DEEPLEARNDNC_WRITE_HEADS)%nat)
    as Lvh by (rewrite Hh4, length_app in L4; lia).
  (* every new block but the controller object *)
  assert (forall b, (L < b)%nat ->
            deref (w_heap w') (Pblock b) = mjoin (w_heap w4 !! b)) as Hb.
  { intros b Hlt. rewrite Hh'. cbn [deref].
    rewrite list_lookup_insert_ne by lia. reflexivity. }
  assert (forall j, (j < heads)%nat ->
            deref (w_heap w') (Pblock (L + 3 + n + j))
            = Some (Ocells KFloat
                      (replicate (Z.to_nat (ms / BLOCK * (ms / BLOCK))) Cundef)))
    as Hmat.
  { intros j Hj. rewrite Hb by lia. rewrite Hh4, Hh3.
    rewrite lookup_app_l by (rewrite length_app; cbn [length]; lia).
    rewrite (cons_middle _ (w_heap w2)), app_assoc.
    replace (L + 3 + n + j)%nat
      with (length (w_heap w2 ++ [Some (Ocells KFloat
                     (replicate (Z.to_nat (ms / BLOCK)) Cundef))]) + j)%nat
      by (rewrite length_app; cbn [length]; lia).
    rewrite (lookup_appended _ _ _ _ Fm) by lia. reflexivity. }
  assert (forall j, (j < DEEPLEARNDNC_READ_HEADS + 3 * DEEPLEARNDNC_WRITE_HEADS)%nat ->
            deref (w_heap w') (Pblock (L + 3 + n + heads + j))
            = Some (Ocells KFloat (replicate (Z.to_nat mw) Cundef))) as Hvec.
  { intros j Hj. rewrite Hb by lia. rewrite Hh4.
    replace (L + 3 + n + heads + j)%nat with (length (w_heap w3) + j)%nat
      by (unfold heads; lia).
    rewrite (lookup_appended _ _ _ _ Fh) by lia. reflexivity. }
  split; [|split; [|split; [exact Hmat|exact Hvec]]].
  - intros i Hi. rewrite Hb by lia. rewrite Hh4, Hh3.
    rewrite lookup_app_l by (rewrite length_app; cbn [length]; lia).
    rewrite lookup_app_l by lia.
    assert (fresh_vector (w_dnc w2)
            = Ocells KFloat (replicate (Z.to_nat mw) Cundef)) as Hfv2.
    { assert (m_width (memory (w_dnc w2)) = mw) as Hw2'
        by (rewrite Hw2; apply to_uint_small; unfold UINT_MOD, INT_MAX in *; lia).
      rewrite fresh_vector_width by (rewrite Hw2'; lia).
      rewrite Hw2'. reflexivity. }
    pose proof (deref_bank_vector (w_heap w ++ [Some (Octrl None)])
                  (Some (Ocells KPtr (slots (L + 2) n))) n
                  (fresh_vector (w_dnc w2)) i Hi) as Hv.
    rewrite <- Hh2, Hfv2 in Hv. cbn [deref] in Hv.
    rewrite length_app in Hv. cbn [length] in Hv. fold L in Hv.
    replace (L + 2 + i)%nat with (S (L + 1) + i)%nat by lia.
    rewrite Hv. reflexivity.
  - rewrite Hb by lia. rewrite Hh4, Hh3.
    rewrite lookup_app_l by (rewrite length_app; cbn [length]; lia).
    rewrite <- L2, list_lookup_middle by reflexivity. reflexivity.
Qed.

(** X7.  What a successful initialisation allocates besides the bank: a
    usage vector of [memory_size / BLOCK] floats, one linkage matrix of
    [(memory_size / BLOCK)^2] floats for every head, and for every read
    head a key, for every write head a write, an erase and a key vector, of
    [memory_width] floats each; all of them uninitialised. *)
Theorem init_allocations ms mw ni nh hl no et seed w w' :
  0 < BLOCK <= INT_MAX -> 0 <= ms <= INT_MAX ->
  rounded_size ms * sizeof_ptr dm < SIZE_MOD dm ->
  0 <= mw <= INT_MAX -> mw * sizeof_float < SIZE_MOD dm ->
  (ms / BLOCK) * (ms / BLOCK) <= INT_MAX ->
  (ms / BLOCK) * (ms / BLOCK) * sizeof_float < SIZE_MOD dm ->
  well_shaped (w_dnc w) ->
  deeplearn_dnc_init ms mw ni nh hl no et seed w = Done 0 w' ->
  deref (w_heap w') (m_usage (memory (w_dnc w')))
  = Some (Ocells KFloat (replicate (Z.to_nat (ms / BLOCK)) Cundef))
  /\ (forall p, p ∈ m_usage_temporal (memory (w_dnc w')) ->
        deref (w_heap w') p
        = Some (Ocells KFloat
                  (replicate (Z.to_nat ((ms / BLOCK) * (ms / BLOCK))) Cundef)))
  /\ (forall r, r ∈ read_head (w_dnc w') ->
        deref (w_heap w') (rh_key r)
        = Some (Ocells KFloat (replicate (Z.to_nat mw) Cundef)))
  /\ (forall x p, x ∈ write_head (w_dnc w') -> p ∈ write_head_pointers x ->
        deref (w_heap w') p
        = Some (Ocells KFloat (replicate (Z.to_nat mw) Cundef))).
Proof.
  intros HB Hms Hfit Hmw Hwfit Hsq Hsqfit Hws E.
  assert (0 < BLOCK) as HB' by lia.
  destruct (init_layout _ _ _ _ _ _ _ _ _ _ HB' Hms Hfit Hws E) as (D & _).
  destruct (init_objects _ _ _ _ _ _ _ _ _ _ HB Hms Hfit Hmw Hwfit Hsq Hsqfit
              Hws E) as (_ & Hus & Hmat & Hvec).
  set (L := length (w_heap w)) in *.
  set (n := Z.to_nat (rounded_size ms)) in *.
  set (heads := (DEEPLEARNDNC_READ_HEADS + DEEPLEARNDNC_WRITE_HEADS)%nat) in *.
  rewrite D. struct_simpl. fold L n heads. repeat split.
  - exact Hus.
  - intros p Hp. apply list_elem_of_fmap in Hp as (b & -> & Hin).
    apply elem_of_seq in Hin.
    replace b with (L + 3 + n + (b - (L + 3 + n)))%nat by lia.
    apply Hmat. lia.
  - intros r Hr. apply list_elem_of_fmap in Hr as (b & -> & Hin).
    apply elem_of_seq in Hin. cbn [rh_key].
    replace b with (L + 3 + n + heads + (b - (L + 3 + n + heads)))%nat by lia.
    apply Hvec. lia.
  - intros x p Hx Hp.
    assert (p ∈ concat (write_head_pointers
                          <$> fresh_write_heads
                                (L + 3 + n + heads + DEEPLEARNDNC_READ_HEADS)
                                DEEPLEARNDNC_WRITE_HEADS)) as Hin.
    { apply list_elem_of_In, in_concat. exists (write_head_pointers x).
      split; [|apply list_elem_of_In; exact Hp].
      apply list_elem_of_In, list_elem_of_fmap_2. exact Hx. }
    rewrite fresh_write_heads_pointers in Hin.
    apply list_elem_of_fmap in Hin as (b & -> & Hin).
    apply elem_of_seq in Hin.
    replace b with (L + 3 + n + heads + (b - (L + 3 + n + heads)))%nat by lia.
    apply Hvec. lia.
Qed.


(** ** The code a refused allocation gives *)

Lemma served_nil n : served n [] = n.
Proof. destruct n; reflexivity. Qed.

Lemma served_S n plan :
  served (S n) plan
  = if (next_alloc plan).1 then S (served n (next_alloc plan).2) else O.
Proof.
  destruct plan as [|[] rest]; cbn [served next_alloc fst snd];
    [rewrite served_nil|..]; reflexivity.
Qed.

Lemma drop_next_alloc n (plan : list bool) :
  drop (S n) plan = drop n (next_alloc plan).2.
Proof.
  destruct plan; [|reflexivity].
  cbn [next_alloc snd]. rewrite !drop_nil. reflexivity.
Qed.

Lemma served_add a b plan :
  served (a + b) plan
  = if decide (served a plan = a) then (a + served b (drop a plan))%nat
    else served a plan.
Proof.
  revert plan. induction a as [|a IH]; intros plan.
  - cbn [served Nat.add]. rewrite decide_True by (destruct plan; reflexivity).
    rewrite drop_0. replace (served 0 plan) with O by (destruct plan; reflexivity).
    reflexivity.
  - cbn [Nat.add]. rewrite !served_S, drop_next_alloc.
    destruct (next_alloc plan).1.
    + rewrite IH.
      destruct (decide (served a (next_alloc plan).2 = a)) as [E|N].
      * rewrite decide_True by congruence. reflexivity.
      * rewrite decide_False by congruence. reflexivity.
    + rewrite decide_False by discriminate. reflexivity.
Qed.

(** A loop each of whose iterations makes [c] allocations, returning
    [code s] when the one after the [s]-th is refused: it returns the code
    of the first refusal among its [c * n] allocations. *)
Lemma for_loop_allocating (J : world -> Prop) (c : nat) (code : nat -> Z) n
    (body : Z -> prog (option Z)) :
  (forall j w, (j < n)%nat -> J w ->
     exists w',
       body (Z.of_nat j) w
       = Done (if decide (served c (w_plan w) = c) then None
               else Some (code (served c (w_plan w)))) w'
       /\ (served c (w_plan w) = c -> w_plan w' = drop c (w_plan w) /\ J w')) ->
  (0 < c)%nat ->
  Z.of_nat n <= INT_MAX ->
  forall w, J w ->
  exists w',
    for_loop n 0 body w
    = Done (if decide (served (c * n) (w_plan w) = (c * n)%nat) then None
            else Some (code (served (c * n) (w_plan w) mod c)%nat)) w'
    /\ (served (c * n) (w_plan w) = (c * n)%nat ->
        w_plan w' = drop (c * n) (w_plan w) /\ J w').
Proof.
  intros Hb Hc Hn.
  assert (forall m i w, (i + m = n)%nat -> J w ->
            exists w',
              for_loop m (Z.of_nat i) body w
              = Done (if decide (served (c * m) (w_plan w) = (c * m)%nat) then None
                      else Some (code (served (c * m) (w_plan w) mod c)%nat)) w'
              /\ (served (c * m) (w_plan w) = (c * m)%nat ->
                  w_plan w' = drop (c * m) (w_plan w) /\ J w')) as Hloop.
  { induction m as [|m IH]; intros i w Him Hw.
    - rewrite Nat.mul_0_r. cbn [for_loop served].
      replace (served 0 (w_plan w)) with O by (destruct (w_plan w); reflexivity).
      rewrite decide_True by reflexivity. exists w. split; [reflexivity|].
      intros _. rewrite drop_0. auto.
    - cbn [for_loop].
      destruct (Hb i w ltac:(lia) Hw) as (w1 & E1 & H1).
      rewrite bind_eq, E1.
      replace (c * S m)%nat with (c + c * m)%nat by lia.
      rewrite served_add.
      pose proof (served_le c (w_plan w)) as Hle.
      destruct (decide (served c (w_plan w) = c)) as [Ec|Nc].
      + destruct (H1 Ec) as [P1 J1].
        destruct (Z.of_nat i <? INT_MAX) eqn:Hlt; [|apply Z.ltb_ge in Hlt; lia].
        replace (Z.of_nat i + 1) with (Z.of_nat (S i)) by lia.
        destruct (IH (S i) w1 ltac:(lia) J1) as (w' & E' & H').
        exists w'. rewrite E', P1. split.
        * destruct (decide (served (c * m) (drop c (w_plan w)) = (c * m)%nat))
            as [Em|Nm].
          -- rewrite decide_True by lia. reflexivity.
          -- rewrite decide_False by lia.
             replace (c + served (c * m) (drop c (w_plan w)))%nat
               with (served (c * m) (drop c (w_plan w)) + 1 * c)%nat by lia.
             rewrite Nat.Div0.mod_add. reflexivity.
        * intros Es. assert (served (c * m) (drop c (w_plan w)) = (c * m)%nat)
            as Em by lia.
          rewrite <- P1 in Em. destruct (H' Em) as [P' J'].
          rewrite P', P1, drop_drop. auto.
      + cbn [mret prog_ret]. exists w1.
        rewrite decide_False by nia.
        rewrite Nat.mod_small by lia. split; [reflexivity|]. nia. }
  intros w Hw. apply (Hloop n O w); [lia|exact Hw].
Qed.

(** Setting a field of the structure leaves the plan of [malloc] alone. *)
Definition keeps_plan : relation world := fun w w' => w_plan w' = w_plan w.

Lemma set_usage_temporal_keeps_plan i q : frame keeps_plan (set_usage_temporal i q).
Proof. frame_prim; reflexivity. Qed.
Lemma set_read_head_keeps_plan i r : frame keeps_plan (set_read_head i r).
Proof. frame_prim; reflexivity. Qed.
Lemma set_write_head_keeps_plan i f : frame keeps_plan (set_write_head i f).
Proof. frame_prim; reflexivity. Qed.

Lemma malloc_vector_run h pl t d :
  malloc_vector (World h pl t d)
  = if (next_alloc pl).1
    then Done (Pblock (length h))
           (World (h ++ [Some (fresh_vector d)]) (next_alloc pl).2 t d)
    else Done Pnull (World h (next_alloc pl).2 t d).
Proof.
  unfold malloc_vector. rewrite bind_eq, get_dnc_run, malloc_run. reflexivity.
Qed.

(** One iteration of each of the three allocating loops. *)
Lemma usage_body_allocating nb j w :
  (j < DEEPLEARNDNC_READ_HEADS + DEEPLEARNDNC_WRITE_HEADS)%nat ->
  well_shaped (w_dnc w) ->
  exists w',
    (q ← malloc KFloat nb;
     set_usage_temporal (Z.of_nat j) q;;
     if decide (q = Pnull) then mret (Some 2) else mret None) w
    = Done (if decide (served 1 (w_plan w) = 1%nat) then None
            else Some ((fun _ => 2) (served 1 (w_plan w)))) w'
    /\ (served 1 (w_plan w) = 1%nat ->
        w_plan w' = drop 1 (w_plan w) /\ well_shaped (w_dnc w')).
Proof.
  intros Hj Hw. destruct w as [h pl t d]. cbn [w_plan w_dnc] in *.
  rewrite bind_eq, malloc_run, served_S, drop_next_alloc, drop_0.
  destruct (next_alloc pl).1; cbv beta iota.
  - match goal with |- context [set_usage_temporal ?i ?q ≫= _] =>
      match goal with |- context [(_ ≫= _) ?w1] =>
        destruct (set_usage_temporal_total i q w1) as (w' & E & S')
      end
    end.
    { cbn [w_dnc]. destruct Hw as (-> & _). lia. }
    rewrite bind_eq, E.
    rewrite decide_False by discriminate.
    exists w'. split; [reflexivity|]. intros _.
    rewrite (set_usage_temporal_keeps_plan _ _ _ _ _ E), S'. auto.
  - match goal with |- context [set_usage_temporal ?i ?q ≫= _] =>
      match goal with |- context [(_ ≫= _) ?w1] =>
        destruct (set_usage_temporal_total i q w1) as (w' & E & S')
      end
    end.
    { cbn [w_dnc]. destruct Hw as (-> & _). lia. }
    rewrite bind_eq, E.
    rewrite decide_True by reflexivity.
    exists w'. split; [reflexivity|]. discriminate.
Qed.

Lemma read_head_body_allocating j w :
  (j < DEEPLEARNDNC_READ_HEADS)%nat ->
  well_shaped (w_dnc w) ->
  exists w',
    (q ← malloc_vector;
     set_read_head (Z.of_nat j) (ReadHead q);;
     if decide (q = Pnull) then mret (Some 1) else mret None) w
    = Done (if decide (served 1 (w_plan w) = 1%nat) then None
            else Some ((fun _ => 1) (served 1 (w_plan w)))) w'
    /\ (served 1 (w_plan w) = 1%nat ->
        w_plan w' = drop 1 (w_plan w) /\ well_shaped (w_dnc w')).
Proof.
  intros Hj Hw. destruct w as [h pl t d]. cbn [w_plan w_dnc] in *.
  rewrite bind_eq, malloc_vector_run, served_S, drop_next_alloc, drop_0.
  destruct (next_alloc pl).1; cbv beta iota.
  - match goal with |- context [set_read_head ?i ?q ≫= _] =>
      match goal with |- context [(_ ≫= _) ?w1] =>
        destruct (set_read_head_total i q w1) as (w' & E & S')
      end
    end.
    { cbn [w_dnc]. destruct Hw as (_ & -> & _). lia. }
    rewrite bind_eq, E.
    rewrite decide_False by discriminate.
    exists w'. split; [reflexivity|]. intros _.
    rewrite (set_read_head_keeps_plan _ _ _ _ _ E), S'. auto.
  - match goal with |- context [set_read_head ?i ?q ≫= _] =>
      match goal with |- context [(_ ≫= _) ?w1] =>
        destruct (set_read_head_total i q w1) as (w' & E & S')
      end
    end.
    { cbn [w_dnc]. destruct Hw as (_ & -> & _). lia. }
    rewrite bind_eq, E.
    rewrite decide_True by reflexivity.
    exists w'. split; [reflexivity|]. discriminate.
Qed.


Lemma write_head_step j (f : pointer -> deeplearn_dnc_write_head -> deeplearn_dnc_write_head)
    (k : pointer -> prog (option Z)) w :
  (j < DEEPLEARNDNC_WRITE_HEADS)%nat ->
  well_shaped (w_dnc w) ->
  exists w',
    well_shaped (w_dnc w')
    /\ w_plan w' = (next_alloc (w_plan w)).2
    /\ (q ← malloc_vector; set_write_head (Z.of_nat j) (f q);; k q) w
       = k (if (next_alloc (w_plan w)).1 then Pblock (length (w_heap w)) else Pnull) w'.
Proof.
  intros Hj Hw. destruct w as [h pl t d]. cbn [w_plan w_dnc w_heap] in *.
  rewrite bind_eq, malloc_vector_run.
  destruct (next_alloc pl).1; cbv beta iota;
    match goal with |- context [(set_write_head ?i ?g ≫= _) ?w1] =>
      destruct (set_write_head_total i g w1) as (w' & E & S');
        [cbn [w_dnc]; destruct Hw as (_ & _ & ->); lia|]
    end;
    exists w'; rewrite S', (set_write_head_keeps_plan _ _ _ _ _ E);
    (split; [exact Hw|]); (split; [reflexivity|]);
    rewrite bind_eq, E; reflexivity.
Qed.

Lemma write_head_body_allocating j w :
  (j < DEEPLEARNDNC_WRITE_HEADS)%nat ->
  well_shaped (w_dnc w) ->
  exists w',
    (q ← malloc_vector;
     set_write_head (Z.of_nat j) (fun h => WriteHead q (wh_erase h) (wh_key h));;
     if decide (q = Pnull) then mret (Some 2) else
     q ← malloc_vector;
     set_write_head (Z.of_nat j) (fun h => WriteHead (wh_write h) q (wh_key h));;
     if decide (q = Pnull) then mret (Some 3) else
     q ← malloc_vector;
     set_write_head (Z.of_nat j) (fun h => WriteHead (wh_write h) (wh_erase h) q);;
     if decide (q = Pnull) then mret (Some 4) else mret None) w
    = Done (if decide (served 3 (w_plan w) = 3%nat) then None
            else Some ((fun s => 2 + Z.of_nat s) (served 3 (w_plan w)))) w'
    /\ (served 3 (w_plan w) = 3%nat ->
        w_plan w' = drop 3 (w_plan w) /\ well_shaped (w_dnc w')).
Proof.
  intros Hj Hw.
  destruct (write_head_step j
              (fun q h => WriteHead q (wh_erase h) (wh_key h))
              (fun q => if decide (q = Pnull) then mret (Some 2) else
                 q ← malloc_vector;
                 set_write_head (Z.of_nat j)
                   (fun h => WriteHead (wh_write h) q (wh_key h));;
                 if decide (q = Pnull) then mret (Some 3) else
                 q ← malloc_vector;
                 set_write_head (Z.of_nat j)
                   (fun h => WriteHead (wh_write h) (wh_erase h) q);;
                 if decide (q = Pnull) then mret (Some 4) else mret None)
              w Hj Hw) as (w1 & W1 & P1 & E1).
  rewrite E1. clear E1. rewrite served_S, !drop_next_alloc, drop_0.
  destruct (next_alloc (w_plan w)).1.
  2:{ rewrite decide_True by reflexivity. exists w1.
      split; [reflexivity|]. discriminate. }
  rewrite decide_False by discriminate.
  destruct (write_head_step j
              (fun q h => WriteHead (wh_write h) q (wh_key h))
              (fun q => if decide (q = Pnull) then mret (Some 3) else
                 q ← malloc_vector;
                 set_write_head (Z.of_nat j)
                   (fun h => WriteHead (wh_write h) (wh_erase h) q);;
                 if decide (q = Pnull) then mret (Some 4) else mret None)
              w1 Hj W1) as (w2 & W2 & P2 & E2).
  rewrite E2. clear E2. rewrite served_S, <- P1.
  destruct (next_alloc (w_plan w1)).1.
  2:{ rewrite decide_True by reflexivity. exists w2.
      split; [reflexivity|]. discriminate. }
  rewrite decide_False by discriminate.
  destruct (write_head_step j
              (fun q h => WriteHead (wh_write h) (wh_erase h) q)
              (fun q => if decide (q = Pnull) then mret (Some 4) else mret None)
              w2 Hj W2) as (w3 & W3 & P3 & E3).
  rewrite E3. clear E3. rewrite served_S, <- P2.
  destruct (next_alloc (w_plan w2)).1.
  2:{ rewrite decide_True by reflexivity. exists w3.
      split; [reflexivity|]. discriminate. }
  rewrite decide_False by discriminate.
  exists w3. rewrite decide_True by (destruct (next_alloc (w_plan w2)).2; reflexivity).
  split; [reflexivity|]. intros _. rewrite P3. auto.
Qed.

(** The code of each stage, from the plan of [malloc]. *)
Lemma init_memory_code ms mw w :
  0 <= rounded_size ms <= INT_MAX ->
  rounded_size ms * sizeof_ptr dm < SIZE_MOD dm ->
  well_shaped (w_dnc w) ->
  let n := Z.to_nat (rounded_size ms) in
  let s := served (1 + n) (w_plan w) in
  exists w',
    deeplearn_dnc_init_memory ms mw w
    = Done (if decide (s = (1 + n)%nat) then 0
            else if decide (s = O) then 1 else 2) w'
    /\ (s = (1 + n)%nat ->
        w_plan w' = drop (1 + n) (w_plan w) /\ well_shaped (w_dnc w')).
Proof.
  intros Hsz Hfit Hw n s. destruct w as [h pl t d]. subst s.
  cbn [w_plan w_dnc w_heap] in *.
  rewrite init_memory_run by assumption. cbv zeta. fold n.
  cbn [Nat.add]. rewrite served_S, (drop_next_alloc n pl).
  destruct (next_alloc pl).1.
  2:{ rewrite decide_False by discriminate. rewrite decide_True by reflexivity.
      eexists. split; [reflexivity|]. discriminate. }
  destruct (decide (served n (next_alloc pl).2 = n)) as [E|N].
  - rewrite decide_True by congruence. eexists. split; [reflexivity|].
    intros _. cbn [w_plan w_dnc]. split; [reflexivity|exact Hw].
  - rewrite decide_False by congruence. rewrite decide_False by discriminate.
    eexists. split; [reflexivity|]. congruence.
Qed.

Lemma init_memory_usage_code w :
  well_shaped (w_dnc w) ->
  Z.of_nat (DEEPLEARNDNC_READ_HEADS + DEEPLEARNDNC_WRITE_HEADS) <= INT_MAX ->
  let heads := (DEEPLEARNDNC_READ_HEADS + DEEPLEARNDNC_WRITE_HEADS)%nat in
  let s := served (1 + heads) (w_plan w) in
  exists w',
    deeplearn_dnc_init_memory_usage w
    = Done (if decide (s = (1 + heads)%nat) then 0
            else if decide (s = O) then 1 else 2) w'
    /\ (s = (1 + heads)%nat ->
        w_plan w' = drop (1 + heads) (w_plan w) /\ well_shaped (w_dnc w')).
Proof.
  intros Hw Hn heads s. destruct w as [h pl t d]. subst s.
  cbn [w_plan w_dnc] in *.
  unfold deeplearn_dnc_init_memory_usage.
  rewrite bind_eq, get_dnc_run, bind_eq, malloc_run.
  cbn [Nat.add]. rewrite served_S, (drop_next_alloc heads pl).
  destruct (next_alloc pl).1; cbv beta iota;
    unfold set_usage; rewrite bind_eq, set_memory_run.
  2:{ rewrite decide_True by reflexivity.
      rewrite decide_False by discriminate. rewrite decide_True by reflexivity.
      eexists. split; [reflexivity|]. discriminate. }
  rewrite decide_False by discriminate.
  match goal with |- context [(for_loop ?n ?i ?b ≫= _) ?w1] =>
    destruct (for_loop_allocating (fun w => well_shaped (w_dnc w)) 1
                (fun _ => 2) n b) with (w := w1) as (w' & E & H')
  end.
  - intros j w Hj Jw. apply usage_body_allocating; assumption.
  - lia.
  - exact Hn.
  - exact Hw.
  - rewrite bind_eq, E. cbn [w_plan] in *. rewrite Nat.mul_1_l in *.
    fold heads in H' |- *.
    destruct (decide (served heads (next_alloc pl).2 = heads)) as [Es|Ns].
    + rewrite decide_True by congruence. exists w'. split; [reflexivity|].
      intros _. apply H'. exact Es.
    + rewrite decide_False by congruence. rewrite decide_False by discriminate.
      exists w'. split; [reflexivity|]. congruence.
Qed.

Lemma init_heads_code w :
  well_shaped (w_dnc w) ->
  Z.of_nat (DEEPLEARNDNC_READ_HEADS + DEEPLEARNDNC_WRITE_HEADS) <= INT_MAX ->
  let s := served (DEEPLEARNDNC_READ_HEADS + 3 * DEEPLEARNDNC_WRITE_HEADS)
             (w_plan w) in
  exists w',
    deeplearn_dnc_init_heads w
    = Done (if decide (s = (DEEPLEARNDNC_READ_HEADS + 3 * DEEPLEARNDNC_WRITE_HEADS)%nat)
            then 0
            else if decide (s < DEEPLEARNDNC_READ_HEADS)%nat then 1
            else 2 + Z.of_nat ((s - DEEPLEARNDNC_READ_HEADS) mod 3)) w'.
Proof.
  intros Hw Hn s. subst s. unfold deeplearn_dnc_init_heads.
  rewrite served_add.
  pose proof (served_le DEEPLEARNDNC_READ_HEADS (w_plan w)) as Hle.
  match goal with |- context [(for_loop ?n ?i ?b ≫= _) w] =>
    destruct (for_loop_allocating (fun w => well_shaped (w_dnc w)) 1
                (fun _ => 1) n b) with (w := w) as (w1 & E1 & H1)
  end.
  - intros j w0 Hj Jw. apply read_head_body_allocating; assumption.
  - lia.
  - lia.
  - exact Hw.
  - rewrite bind_eq, E1. rewrite Nat.mul_1_l in *.
    destruct (decide (served DEEPLEARNDNC_READ_HEADS (w_plan w)
                      = DEEPLEARNDNC_READ_HEADS)) as [Es|Ns].
    2:{ cbn [or_else mret prog_ret]. exists w1.
        rewrite decide_False by lia. rewrite decide_True by lia. reflexivity. }
    destruct (H1 Es) as [P1 W1]. cbn [or_else].
    match goal with |- context [(for_loop ?n ?i ?b ≫= _) w1] =>
      destruct (for_loop_allocating (fun w => well_shaped (w_dnc w)) 3
                  (fun s => 2 + Z.of_nat s) n b) with (w := w1) as (w2 & E2 & H2)
    end.
    + intros j w0 Hj Jw. apply write_head_body_allocating; assumption.
    + lia.
    + lia.
    + exact W1.
    + rewrite bind_eq, E2, P1.
      pose proof (served_le (3 * DEEPLEARNDNC_WRITE_HEADS)
                    (drop DEEPLEARNDNC_READ_HEADS (w_plan w))) as Hle2.
      destruct (decide (served (3 * DEEPLEARNDNC_WRITE_HEADS)
                          (drop DEEPLEARNDNC_READ_HEADS (w_plan w))
                        = (3 * DEEPLEARNDNC_WRITE_HEADS)%nat)) as [Ew|Nw].
      * cbn [or_else mret prog_ret]. rewrite decide_True by lia.
        exists w2. reflexivity.
      * cbn [or_else mret prog_ret]. rewrite decide_False by lia.
        rewrite decide_False by lia.
        replace (DEEPLEARNDNC_READ_HEADS
                 + served (3 * DEEPLEARNDNC_WRITE_HEADS)
                     (drop DEEPLEARNDNC_READ_HEADS (w_plan w))
                 - DEEPLEARNDNC_READ_HEADS)%nat
          with (served (3 * DEEPLEARNDNC_WRITE_HEADS)
                  (drop DEEPLEARNDNC_READ_HEADS (w_plan w))) by lia.
        exists w2. reflexivity.
Qed.


(** The code expected from [deeplearn_dnc_init] when the [k]-th call to
    [malloc], counted from 0, is the first one refused, the bank having [n]
    vectors.  The calls are, in order: the controller object, the array of
    the bank, its [n] vectors, the usage vector, the linkage matrices, the
    keys of the read heads, and write, erase and key of every write head. *)
Definition refusal_code (n k : nat) : Z :=
  let heads := (DEEPLEARNDNC_READ_HEADS + DEEPLEARNDNC_WRITE_HEADS)%nat in
  if decide (k = 0)%nat then 1000
  else if decide (k = 1)%nat then 2001
  else if decide (k < 2 + n)%nat then 2002
  else if decide (k = 2 + n)%nat then 3001
  else if decide (k < 3 + n + heads)%nat then 3002
  else if decide (k < 3 + n + heads + DEEPLEARNDNC_READ_HEADS)%nat then 4001
  else 4002 + Z.of_nat ((k - (3 + n + heads + DEEPLEARNDNC_READ_HEADS)) mod 3).

Ltac settle_decide :=
  repeat first [rewrite decide_True by lia | rewrite decide_False by lia].

(** X8.  The error code tells which allocation was refused: when the first
    refused call to [malloc] is the [k]-th one made by the initialisation,
    [deeplearn_dnc_init] returns 1000 for the controller object, 2001 for
    the array of the bank, 2002 for any of its vectors, 3001 for the usage
    vector, 3002 for any linkage matrix, 4001 for the key of any read head,
    and 4002, 4003 or 4004 for the write, erase or key vector of any write
    head. *)
Theorem init_refusal_code ms mw ni nh hl no et seed w :
  well_shaped (w_dnc w) ->
  0 < BLOCK ->
  0 <= ms <= INT_MAX ->
  rounded_size ms * sizeof_ptr dm < SIZE_MOD dm ->
  Z.of_nat (DEEPLEARNDNC_READ_HEADS + DEEPLEARNDNC_WRITE_HEADS) <= INT_MAX ->
  let n := Z.to_nat (rounded_size ms) in
  let total := (3 + n + (DEEPLEARNDNC_READ_HEADS + DEEPLEARNDNC_WRITE_HEADS)
                + DEEPLEARNDNC_READ_HEADS + 3 * DEEPLEARNDNC_WRITE_HEADS)%nat in
  let k := served total (w_plan w) in
  (k < total)%nat ->
  exists w',
    deeplearn_dnc_init ms mw ni nh hl no et seed w = Done (refusal_code n k) w'.
Proof.
  intros Hw HB Hms Hfit Hn n total k Hk.
  pose proof (rounded_size_range ms HB Hms) as Hsz.
  enough (exists s w',
            init_run ms mw ni nh hl no et seed w s (refusal_code n k) w')
    as (s & w' & Hr) by (exists w'; apply init_run_iff; eauto).
  set (heads := (DEEPLEARNDNC_READ_HEADS + DEEPLEARNDNC_WRITE_HEADS)%nat) in *.
  destruct w as [h pl t d].
  pose proof (init_controller_object_run ni no h pl t d) as Ep.
  subst k total. cbn [w_plan w_dnc] in *.
  replace (3 + n + heads + DEEPLEARNDNC_READ_HEADS + 3 * DEEPLEARNDNC_WRITE_HEADS)%nat
    with (S ((1 + n) + ((1 + heads)
                        + (DEEPLEARNDNC_READ_HEADS + 3 * DEEPLEARNDNC_WRITE_HEADS))))
    in * by lia.
  rewrite served_S in *.
  destruct (next_alloc pl).1.
  2:{ exists (Some SController). eexists. apply run_no_controller. exact Ep. }
  assert (forall r, 0 <= r <= 4 -> to_uint r = r) as Hu
    by (intros r Hr; apply to_uint_small; unfold UINT_MOD; lia).
  (* the bank *)
  match type of Ep with _ = Done _ ?w1 =>
    destruct (init_memory_code ms mw w1 Hsz Hfit Hw) as (w2 & E1 & H1)
  end.
  cbv zeta in E1, H1. cbn [w_plan] in E1, H1. fold n in E1, H1.
  rewrite (served_add (1 + n)
             ((1 + heads)
              + (DEEPLEARNDNC_READ_HEADS + 3 * DEEPLEARNDNC_WRITE_HEADS)))
    in Hk |- *.
  pose proof (served_le (1 + n) (next_alloc pl).2) as Hle1.
  destruct (decide (served (1 + n) (next_alloc pl).2 = (1 + n)%nat)) as [S1|N1].
  2:{ exists (Some SBank), w2.
      eapply run_stages; [exact Ep|discriminate|exact E1|].
      destruct (decide (served (1 + n) (next_alloc pl).2 = O)) as [Z1|Z1].
      - rewrite Hu, decide_False by lia. split; [reflexivity|].
        split; [|reflexivity].
        rewrite <- (Hu 1) by lia.
        rewrite tagged_small by (unfold INT_MAX; lia).
        unfold refusal_code. cbv zeta. settle_decide. reflexivity.
      - rewrite Hu, decide_False by lia. split; [reflexivity|].
        split; [|reflexivity].
        rewrite <- (Hu 2) by lia.
        rewrite tagged_small by (unfold INT_MAX; lia).
        unfold refusal_code. cbv zeta. settle_decide. reflexivity. }
  destruct (H1 S1) as [P2 W2]. clear H1.
  (* the usage tracker *)
  destruct (init_memory_usage_code w2 W2 Hn) as (w3 & E2 & H2).
  cbv zeta in E2, H2. fold heads in E2, H2. rewrite P2 in E2, H2.
  rewrite (served_add (1 + heads)
             (DEEPLEARNDNC_READ_HEADS + 3 * DEEPLEARNDNC_WRITE_HEADS))
    in Hk |- *.
  pose proof (served_le (1 + heads) (drop (1 + n) (next_alloc pl).2)) as Hle2.
  destruct (decide (served (1 + heads) (drop (1 + n) (next_alloc pl).2)
                    = (1 + heads)%nat)) as [S2|N2].
  2:{ exists (Some SUsage), w3.
      eapply run_stages; [exact Ep|discriminate|exact E1|].
      rewrite Hu, decide_True by lia. eexists. exists w3. split; [exact E2|].
      destruct (decide (served (1 + heads) (drop (1 + n) (next_alloc pl).2) = O))
        as [Z2|Z2].
      - rewrite Hu, decide_False by lia. split; [reflexivity|].
        split; [|reflexivity].
        rewrite <- (Hu 1) by lia.
        rewrite tagged_small by (unfold INT_MAX; lia).
        unfold refusal_code. cbv zeta. fold heads. settle_decide. reflexivity.
      - rewrite Hu, decide_False by lia. split; [reflexivity|].
        split; [|reflexivity].
        rewrite <- (Hu 2) by lia.
        rewrite tagged_small by (unfold INT_MAX; lia).
        unfold refusal_code. cbv zeta. fold heads. settle_decide. reflexivity. }
  destruct (H2 S2) as [P3 W3]. clear H2.
  (* the heads *)
  destruct (init_heads_code w3 W3 Hn) as (w4 & E3).
  cbv zeta in E3. rewrite P3, drop_drop in E3.
  rewrite drop_drop in *.
  pose proof (served_le (DEEPLEARNDNC_READ_HEADS + 3 * DEEPLEARNDNC_WRITE_HEADS)
                (drop (1 + n + (1 + heads)) (next_alloc pl).2)) as Hle3.
  set (s3 := served (DEEPLEARNDNC_READ_HEADS + 3 * DEEPLEARNDNC_WRITE_HEADS)
               (drop (1 + n + (1 + heads)) (next_alloc pl).2)) in *.
  exists (Some SHeads), w4.
  eapply run_stages; [exact Ep|discriminate|exact E1|].
  rewrite Hu, decide_True by lia. eexists. exists w3. split; [exact E2|].
  rewrite Hu, decide_True by lia. eexists. exists w4. split; [exact E3|].
  destruct (decide (s3 = (DEEPLEARNDNC_READ_HEADS + 3 * DEEPLEARNDNC_WRITE_HEADS)%nat))
    as [?|_]; [lia|].
  pose proof (Nat.mod_upper_bound (s3 - DEEPLEARNDNC_READ_HEADS) 3 ltac:(lia))
    as Hm.
  destruct (decide (s3 < DEEPLEARNDNC_READ_HEADS)%nat) as [Hlt|Hge].
  - rewrite Hu, decide_False by lia. split; [reflexivity|].
    split; [|reflexivity].
    rewrite <- (Hu 1) by lia.
    rewrite tagged_small by (unfold INT_MAX; lia).
    unfold refusal_code. cbv zeta. fold heads. settle_decide. reflexivity.
  - rewrite Hu, decide_False by lia. split; [reflexivity|].
    split; [|reflexivity].
    rewrite <- (Hu (2 + Z.of_nat ((s3 - DEEPLEARNDNC_READ_HEADS) mod 3))) by lia.
    rewrite tagged_small by (unfold INT_MAX; lia).
    unfold refusal_code. cbv zeta. fold heads. settle_decide.
    replace (S (1 + n + (1 + heads + s3))
             - (3 + n + heads + DEEPLEARNDNC_READ_HEADS))%nat
      with (s3 - DEEPLEARNDNC_READ_HEADS)%nat by lia.
    lia.
Qed.


(** X12.  When no allocation is refused, the code of [deeplearn_dnc_init]
    is that of the controller: 0 when [deeplearn_init] returns 0, and
    [5000 + retval], computed on [unsigned int] and converted to [int],
    when it returns [retval <> 0].  With the table of the refusals this
    gives the code of every initialisation. *)
Theorem init_code_all_served ms mw ni nh hl no et seed w :
  well_shaped (w_dnc w) ->
  0 < BLOCK ->
  0 <= ms <= INT_MAX ->
  rounded_size ms * sizeof_ptr dm < SIZE_MOD dm ->
  Z.of_nat (DEEPLEARNDNC_READ_HEADS + DEEPLEARNDNC_WRITE_HEADS) <= INT_MAX ->
  let n := Z.to_nat (rounded_size ms) in
  let total := (3 + n + (DEEPLEARNDNC_READ_HEADS + DEEPLEARNDNC_WRITE_HEADS)
                + DEEPLEARNDNC_READ_HEADS + 3 * DEEPLEARNDNC_WRITE_HEADS)%nat in
  let retval :=
    (deeplearn_init (InitArgs (controller_inputs mw ni) nh hl
                       (controller_outputs mw no) et seed)).1 in
  served total (w_plan w) = total ->
  exists w',
    deeplearn_dnc_init ms mw ni nh hl no et seed w
    = Done (if decide (to_uint retval = 0) then 0
            else tagged 5000 (to_uint retval)) w'.
Proof.
  intros Hw HB Hms Hfit Hn n total retval Hall.
  pose proof (rounded_size_range ms HB Hms) as Hsz.
  destruct (init_total ms mw ni nh hl no et seed w Hw HB Hms Hfit Hn)
    as (code & w' & E).
  exists w'. rewrite E. f_equal.
  apply init_run_iff in E as [s Hr].
  set (heads := (DEEPLEARNDNC_READ_HEADS + DEEPLEARNDNC_WRITE_HEADS)%nat) in *.
  destruct w as [h pl t d].
  pose proof (init_controller_object_run ni no h pl t d) as Ep0.
  subst total. cbn [w_plan w_dnc] in *.
  replace (3 + n + heads + DEEPLEARNDNC_READ_HEADS + 3 * DEEPLEARNDNC_WRITE_HEADS)%nat
    with (S ((1 + n) + ((1 + heads)
                        + (DEEPLEARNDNC_READ_HEADS + 3 * DEEPLEARNDNC_WRITE_HEADS))))
    in Hall by lia.
  rewrite served_S in Hall.
  destruct (next_alloc pl).1; [|discriminate].
  destruct Hr as [w1 Ep | p w1 r1 w2 Ep Hp E1 s code w' Hs];
    rewrite Ep0 in Ep; [discriminate|].
  inversion Ep; subst p w1. clear Ep Ep0 Hp.
  (* the bank *)
  match type of E1 with _ ?w1 = _ =>
    destruct (init_memory_code ms mw w1 Hsz Hfit Hw) as (w2' & E1' & H1)
  end.
  cbv zeta in E1', H1. cbn [w_plan] in E1', H1. fold n in E1', H1.
  rewrite (served_add (1 + n)
             ((1 + heads)
              + (DEEPLEARNDNC_READ_HEADS + 3 * DEEPLEARNDNC_WRITE_HEADS)))
    in Hall.
  pose proof (served_le (1 + n) (next_alloc pl).2) as Hle1.
  destruct (decide (served (1 + n) (next_alloc pl).2 = (1 + n)%nat))
    as [S1|N1]; [|lia].
  rewrite E1' in E1. inversion E1; subst r1 w2'. clear E1 E1'.
  destruct (H1 S1) as [P2 W2]. clear H1.
  rewrite decide_True in Hs by reflexivity.
  destruct Hs as (r2 & w3 & E2 & Hs).
  (* the usage tracker *)
  destruct (init_memory_usage_code w2 W2 Hn) as (w3' & E2' & H2).
  cbv zeta in E2', H2. fold heads in E2', H2. rewrite P2 in E2', H2.
  rewrite (served_add (1 + heads)
             (DEEPLEARNDNC_READ_HEADS + 3 * DEEPLEARNDNC_WRITE_HEADS))
    in Hall.
  pose proof (served_le (1 + heads) (drop (1 + n) (next_alloc pl).2)) as Hle2.
  destruct (decide (served (1 + heads) (drop (1 + n) (next_alloc pl).2)
                    = (1 + heads)%nat)) as [S2|N2]; [|lia].
  rewrite E2' in E2. inversion E2; subst r2 w3'. clear E2 E2'.
  destruct (H2 S2) as [P3 W3]. clear H2.
  rewrite decide_True in Hs by reflexivity.
  destruct Hs as (r3 & w4 & E3 & Hs).
  (* the heads *)
  destruct (init_heads_code w3 W3 Hn) as (w4' & E3').
  cbv zeta in E3'. rewrite P3, drop_drop in E3'. rewrite drop_drop in Hall.
  rewrite decide_True in E3' by lia.
  rewrite E3' in E3. inversion E3; subst r3 w4'. clear E3 E3'.
  rewrite decide_True in Hs by reflexivity.
  (* the controller *)
  destruct Hs as (r4 & E4 & Hs).
  apply call_deeplearn_init_spec in E4 as (-> & _).
  fold retval in Hs.
  destruct (decide (to_uint retval = 0)); destruct Hs as [_ ->]; reflexivity.
Qed.

(** ** When clearing is defined *)

Lemma clear_memory_eq w :
  deeplearn_dnc_clear_memory w
  = (for_each (Z.to_nat (m_size (memory (w_dnc w)))) clear_slot;;
     d ← get_dnc;
     memset_zero (m_usage (memory d))
       (to_size_t dm (usage_size (w_dnc w) * sizeof_ptr dm));;
     memset_usage_temporal
       (to_size_t dm (int_mul (usage_size (w_dnc w)) (usage_size (w_dnc w))
                      * sizeof_ptr dm))) w.
Proof.
  unfold deeplearn_dnc_clear_memory. destruct w as [h pl t d].
  rewrite bind_eq, get_dnc_run. reflexivity.
Qed.

(** The structure is the same, the arrays of pointers are as they were and
    the arrays of floats have kept their lengths. *)
Definition same_arrays (w w' : world) : Prop :=
  w_dnc w' = w_dnc w
  /\ (forall p cells, deref (w_heap w) p = Some (Ocells KPtr cells) ->
        deref (w_heap w') p = Some (Ocells KPtr cells))
  /\ (forall p cells, deref (w_heap w) p = Some (Ocells KFloat cells) ->
        exists cells', deref (w_heap w') p = Some (Ocells KFloat cells')
                       /\ length cells' = length cells).

(** The first loop of [deeplearn_dnc_clear_memory] returns when every slot
    of the bank points to an array of floats of at least [memory.width]
    elements. *)
Lemma clear_bank_total w cells :
  0 <= m_size (memory (w_dnc w)) <= INT_MAX ->
  deref (w_heap w) (m_address (memory (w_dnc w))) = Some (Ocells KPtr cells) ->
  (Z.to_nat (m_size (memory (w_dnc w))) <= length cells)%nat ->
  vector_bytes w mod sizeof_float = 0 ->
  (forall j c, (j < Z.to_nat (m_size (memory (w_dnc w))))%nat ->
     cells !! j = Some c ->
     exists q vs, c = Cptr q
       /\ deref (w_heap w) q = Some (Ocells KFloat vs)
       /\ vector_bytes w <= sizeof_float * Z.of_nat (length vs)) ->
  exists w',
    for_each (Z.to_nat (m_size (memory (w_dnc w)))) clear_slot w = Done tt w'
    /\ same_arrays w w'
    /\ (forall i c, (i < Z.to_nat (m_size (memory (w_dnc w))))%nat ->
          cells !! i = Some c ->
          exists vs, deref (w_heap w') (slot_pointer c) = Some (Ocells KFloat vs)
            /\ forall x, (x < Z.to_nat (vector_bytes w / sizeof_float))%nat ->
                 (x < length vs)%nat -> vs !! x = Some (Cfloat 0)).
Proof.
  intros Hsz Ha Hlen Hmod Hslots.
  apply (for_each_total (fun j w1 =>
           same_arrays w w1
           /\ (forall i c, (i < j)%nat -> cells !! i = Some c ->
                 exists vs,
                   deref (w_heap w1) (slot_pointer c) = Some (Ocells KFloat vs)
                   /\ forall x,
                        (x < Z.to_nat (vector_bytes w / sizeof_float))%nat ->
                        (x < length vs)%nat -> vs !! x = Some (Cfloat 0)))).
  - intros j [h1 pl1 t1 d1] Hj ((D1 & P1 & F1) & Z1).
    cbn [w_dnc w_heap] in *. subst d1.
    destruct (lookup_lt_is_Some_2 cells j ltac:(lia)) as [c Hc].
    destruct (Hslots j c Hj Hc) as (q & vs & -> & Hq & Hfit).
    destruct (F1 _ _ Hq) as (vs' & Hq' & Lvs).
    unfold clear_slot.
    rewrite bind_eq, get_dnc_run, bind_eq, load_ptr_run, (P1 _ _ Ha).
    unfold index_ok.
    destruct (0 <=? Z.of_nat j) eqn:H0; [|apply Z.leb_gt in H0; lia].
    destruct (Z.of_nat j <? Z.of_nat (length cells)) eqn:H1;
      [|apply Z.ltb_ge in H1; lia].
    cbn [andb]. rewrite Nat2Z.id, Hc.
    destruct q as [| |b]; try discriminate.
    rewrite memset_zero_run, Hq'. cbn [sizeof].
    fold (vector_bytes w).
    destruct (vector_bytes w <=? sizeof_float * Z.of_nat (length vs')) eqn:H2;
      [|apply Z.leb_gt in H2; lia].
    rewrite Hmod. cbn [andb Z.eqb].
    eexists. split; [reflexivity|]. unfold same_arrays. cbn [w_dnc w_heap].
    split; [split; [reflexivity|split]|].
    + intros p cs Hp. rewrite deref_insert_ne; [apply P1; exact Hp|].
      intros ->. rewrite Hq in Hp. discriminate.
    + intros p cs Hp. destruct (decide (p = Pblock b)) as [->|Hne].
      * rewrite Hq in Hp. inversion Hp; subst cs.
        eexists. split; [eapply deref_insert_eq; exact Hq'|].
        rewrite length_zero_prefix. exact Lvs.
      * rewrite deref_insert_ne by exact Hne. apply F1. exact Hp.
    + intros i ci Hi Hci.
      destruct (decide (slot_pointer ci = Pblock b)) as [->|Hne].
      * eexists. split; [eapply deref_insert_eq; exact Hq'|].
        intros x Hx Hlx. rewrite length_zero_prefix in Hlx.
        rewrite lookup_zero_prefix, decide_True by lia. reflexivity.
      * rewrite deref_insert_ne by exact Hne. apply (Z1 i); [|exact Hci].
        destruct (decide (i = j)) as [->|]; [|lia].
        rewrite Hc in Hci. inversion Hci; subst ci. contradiction.
  - lia.
  - split; [|intros i c Hi; lia].
    split; [reflexivity|]. split; eauto.
Qed.

(** X9.  On a freshly initialised instance [deeplearn_dnc_clear_memory]
    runs out of bounds, and is undefined, exactly in two cases: pointers are
    wider than floats and the bank has at least one block (the usage vector
    of [memory_size / BLOCK] floats is cleared over that many pointers), or
    the square of [memory_size / BLOCK] exceeds the number of heads (the
    array [usage_temporal] of that many pointers is cleared over the square
    of [memory_size / BLOCK] pointers).  In every other case it returns. *)
Theorem clear_memory_after_init ms mw ni nh hl no et seed w w' :
  0 < BLOCK <= INT_MAX -> 0 <= ms <= INT_MAX ->
  rounded_size ms * sizeof_ptr dm < SIZE_MOD dm ->
  0 <= mw <= INT_MAX -> mw * sizeof_float < SIZE_MOD dm ->
  (ms / BLOCK) * (ms / BLOCK) <= INT_MAX ->
  (ms / BLOCK) * (ms / BLOCK) * sizeof_ptr dm < SIZE_MOD dm ->
  well_shaped (w_dnc w) ->
  deeplearn_dnc_init ms mw ni nh hl no et seed w = Done 0 w' ->
  deeplearn_dnc_clear_memory w' = Undefined
  <-> (0 < ms / BLOCK /\ sizeof_float < sizeof_ptr dm)
      \/ Z.of_nat (DEEPLEARNDNC_READ_HEADS + DEEPLEARNDNC_WRITE_HEADS)
         < (ms / BLOCK) * (ms / BLOCK).
Proof.
  intros HB Hms Hfit Hmw Hwfit Hsq Hsqfit Hws E.
  assert (0 < BLOCK) as HB' by lia.
  pose proof (rounded_size_range ms HB' Hms) as Hsz.
  pose proof sizeof_ptr_pos as Hpp.
  assert (sizeof_float <= sizeof_ptr dm) as Hfp
    by (destruct dm; cbn [sizeof_ptr]; unfold sizeof_float; lia).
  assert (0 <= ms / BLOCK) as Hu0 by (apply Z.div_pos; lia).
  assert (ms / BLOCK * (ms / BLOCK) * sizeof_float < SIZE_MOD dm) as Hsqfit'
    by (unfold sizeof_float in *; nia).
  destruct (init_layout _ _ _ _ _ _ _ _ _ _ HB' Hms Hfit Hws E)
    as (D & _ & Harr & _).
  destruct (init_objects _ _ _ _ _ _ _ _ _ _ HB Hms Hfit Hmw Hwfit Hsq Hsqfit'
              Hws E) as (Hbank & Hus & _).
  set (L := length (w_heap w)) in *.
  set (n := Z.to_nat (rounded_size ms)) in *.
  set (heads := (DEEPLEARNDNC_READ_HEADS + DEEPLEARNDNC_WRITE_HEADS)%nat) in *.
  assert (m_size (memory (w_dnc w')) = rounded_size ms) as Hs'
    by (rewrite D; reflexivity).
  assert (vector_bytes w' = mw * sizeof_float) as Hvb.
  { unfold vector_bytes. rewrite D. struct_simpl.
    rewrite to_uint_small by (unfold UINT_MOD, INT_MAX in *; lia).
    apply to_size_t_small. unfold sizeof_float in *. lia. }
  pose proof (usage_size_rounded (w_dnc w') ms HB Hms Hs') as Hu.
  (* the loop over the bank *)
  destruct (clear_bank_total w' (slots (L + 2) n))
    as (w1 & E1 & (D1 & _ & F1) & _).
  { rewrite Hs'. exact Hsz. }
  { rewrite D. struct_simpl. exact Harr. }
  { rewrite Hs'. unfold slots. rewrite length_fmap, length_seq. fold n. lia. }
  { rewrite Hvb. apply Z.mod_mul. unfold sizeof_float. lia. }
  { rewrite Hs'. fold n. intros j c Hj Hc.
    rewrite lookup_slots in Hc by exact Hj. inversion Hc; subst c.
    eexists _, _. split; [reflexivity|]. split; [apply Hbank; exact Hj|].
    rewrite Hvb, length_replicate. unfold sizeof_float. lia. }
  rewrite clear_memory_eq, bind_eq, E1, Hu.
  destruct w1 as [h1 pl1 t1 d1]. cbn [w_dnc w_heap] in D1, F1. subst d1.
  rewrite bind_eq, get_dnc_run, bind_eq.
  assert (deref (w_heap w') (m_usage (memory (w_dnc w')))
          = Some (Ocells KFloat (replicate (Z.to_nat (ms / BLOCK)) Cundef)))
    as Hus' by (rewrite D; struct_simpl; exact Hus).
  destruct (F1 _ _ Hus') as (us & Hus1 & Lus).
  rewrite length_replicate in Lus.
  assert (ms / BLOCK * sizeof_ptr dm < SIZE_MOD dm) as Hufit.
  { rewrite rounded_size_eq in Hfit by lia.
    assert (ms / BLOCK <= ms / BLOCK * BLOCK) by nia. nia. }
  rewrite memset_zero_run.
  destruct (m_usage (memory (w_dnc w'))) as [| |bu] eqn:Ebu; try discriminate.
  rewrite Hus1. cbn [sizeof].
  rewrite to_size_t_small by nia.
  unfold int_mul. rewrite to_int_small by nia.
  rewrite to_size_t_small by nia.
  rewrite Lus, Z2Nat.id by lia.
  destruct ((ms / BLOCK * sizeof_ptr dm <=? sizeof_float * (ms / BLOCK))
            && (ms / BLOCK * sizeof_ptr dm mod sizeof_float =? 0)) eqn:C1.
  - apply andb_prop in C1 as [C1 _]. apply Z.leb_le in C1.
    unfold memset_usage_temporal.
    rewrite bind_eq, get_dnc_run. cbv zeta.
    assert (length (m_usage_temporal (memory (w_dnc w'))) = heads) as Lut
      by (rewrite D; struct_simpl; rewrite length_fmap, length_seq; reflexivity).
    rewrite Lut, Z.mod_mul by lia. rewrite Z.eqb_refl, andb_true_r.
    destruct (ms / BLOCK * (ms / BLOCK) * sizeof_ptr dm
              <=? sizeof_ptr dm * Z.of_nat heads) eqn:C2.
    + apply Z.leb_le in C2. rewrite set_memory_run. split; [discriminate|].
      intros [[Hpos Hlt]|Hlt]; nia.
    + apply Z.leb_gt in C2. split; [|reflexivity].
      intros _. right. nia.
  - split; [|reflexivity]. intros _.
    apply andb_false_iff in C1 as [C1|C1].
    + apply Z.leb_gt in C1. left. unfold sizeof_float in *. nia.
    + apply Z.eqb_neq in C1. exfalso. apply C1.
      destruct dm; cbn [sizeof_ptr]; unfold sizeof_float.
      * apply Z.mod_mul. lia.
      * replace (ms / BLOCK * 8) with (ms / BLOCK * 2 * 4) by lia.
        apply Z.mod_mul. lia.
Qed.


(** ** Between initialisation and release *)

(** The operations that only call into the controller: all but the
    clearing of the memory and the release. *)
Definition controller_operation (o : operation) : bool :=
  match o with
  | OpClearMemory | OpFree | OpForward ReqFree => false
  | _ => true
  end.

Lemma call_deeplearn_releasable r w :
  r <> ReqFree ->
  releasable w ->
  exists v w',
    call_deeplearn r w = Done v w'
    /\ releasable w'
    /\ w_dnc w' = w_dnc w
    /\ release_pointers w' = release_pointers w
    /\ (forall p, p <> controller (w_dnc w) ->
          deref (w_heap w') p = deref (w_heap w) p).
Proof.
  intros Hfree
    (Hws & Hsz & Hhd & (cells & Ha & Hlen) & Hlive & Hnd & (c & Hc) & Hnot).
  destruct w as [h pl t d]. cbn [w_heap w_dnc] in *.
  rewrite call_deeplearn_run, Hc.
  destruct (controller d) as [| |b] eqn:Eb; try discriminate.
  replace (controller_after r (deeplearn_call r c).2)
    with (Some (Octrl (Some (deeplearn_call r c).2)))
    by (destruct r; try reflexivity; contradiction).
  eexists _, _. split; [reflexivity|].
  assert (m_address (memory d) <> Pblock b) as Hab.
  { intros Heq. apply Hnot. rewrite <- Heq. unfold release_pointers.
    cbn [w_dnc]. rewrite !elem_of_app, list_elem_of_singleton. auto. }
  match goal with |- releasable ?w1 /\ _ =>
    assert (release_pointers w1
            = release_pointers (World h pl t d)) as Hrp
  end.
  { unfold release_pointers, bank_pointers. cbn [w_heap w_dnc].
    rewrite deref_insert_ne by exact Hab. reflexivity. }
  split; [|split; [cbn [w_dnc]; congruence|split; [exact Hrp|]]].
  - unfold releasable. rewrite Hrp. cbn [w_heap w_dnc].
    split; [exact Hws|]. split; [exact Hsz|]. split; [exact Hhd|].
    split; [exists cells; rewrite deref_insert_ne by exact Hab; auto|].
    split.
    { intros p Hp. destruct (Hlive p Hp) as [->|Hl]; [left; reflexivity|].
      right. rewrite deref_insert_ne; [exact Hl|].
      intros ->. apply Hnot. exact Hp. }
    split; [exact Hnd|]. rewrite Eb.
    split; [|exact Hnot].
    eexists. eapply deref_insert_eq. exact Hc.
  - cbn [w_heap w_dnc]. intros p Hp.
    apply deref_insert_ne. exact Hp.
Qed.

Lemma controller_operation_releasable o w :
  controller_operation o = true ->
  releasable w ->
  exists w',
    run_operation o w = Done tt w'
    /\ releasable w'
    /\ w_dnc w' = w_dnc w
    /\ release_pointers w' = release_pointers w
    /\ (forall p, p <> controller (w_dnc w) ->
          deref (w_heap w') p = deref (w_heap w) p).
Proof.
  intros Ho Hr.
  assert (forall r, r <> ReqFree -> exists w',
            (call_deeplearn r;; mret tt) w = Done tt w'
            /\ releasable w' /\ w_dnc w' = w_dnc w
            /\ release_pointers w' = release_pointers w
            /\ (forall p, p <> controller (w_dnc w) ->
                  deref (w_heap w') p = deref (w_heap w) p)) as Hcall.
  { intros r Hfree.
    destruct (call_deeplearn_releasable r w Hfree Hr) as (v & w' & E & H').
    exists w'. rewrite bind_eq, E. split; [reflexivity|exact H']. }
  destruct o; try discriminate; cbn [run_operation].
  - rewrite feed_forward_eq. apply Hcall. discriminate.
  - apply Hcall. discriminate.
  - exists w. split; [reflexivity|]. split; [exact Hr|]. auto.
  - exists w. split; [reflexivity|]. split; [exact Hr|]. auto.
  - apply Hcall. intros ->. discriminate.
Qed.

(** X10.  Between its initialisation and its release an instance stays
    whole: any sequence of feed-forward passes, updates, updates of the
    heads and forwarding calls returns, leaves the structure and every
    block but the controller's as they were, and leaves an instance that
    [deeplearn_dnc_free] releases as it would have released the first one
    (the functions of the controller library being taken to return). *)
Theorem operations_keep_releasable os w :
  releasable w ->
  forallb controller_operation os = true ->
  exists w1 w2,
    run_operations os w = Done tt w1
    /\ w_dnc w1 = w_dnc w
    /\ (forall p, p <> controller (w_dnc w) ->
          deref (w_heap w1) p = deref (w_heap w) p)
    /\ releasable w1
    /\ deeplearn_dnc_free w1 = Done tt w2
    /\ w_trace w2 = w_trace w1 ++ release_sequence w.
Proof.
  intros Hr Hos.
  assert (exists w1,
            run_operations os w = Done tt w1
            /\ releasable w1 /\ w_dnc w1 = w_dnc w
            /\ release_pointers w1 = release_pointers w
            /\ (forall p, p <> controller (w_dnc w) ->
                  deref (w_heap w1) p = deref (w_heap w) p))
    as (w1 & E1 & R1 & D1 & P1 & H1).
  { revert w Hr. induction os as [|o os IH]; intros w Hr.
    - exists w. split; [reflexivity|]. split; [exact Hr|]. auto.
    - cbn [forallb] in Hos. apply andb_prop in Hos as [Ho Hos].
      destruct (controller_operation_releasable o w Ho Hr)
        as (wa & Ea & Ra & Da & Pa & Ha).
      destruct (IH Hos wa Ra) as (wb & Eb & Rb & Db & Pb & Hb).
      exists wb. cbn [run_operations]. rewrite bind_eq, Ea.
      split; [exact Eb|]. split; [exact Rb|].
      split; [congruence|]. split; [congruence|].
      intros p Hp. rewrite Hb, Ha; [reflexivity|exact Hp|].
      rewrite Da. exact Hp. }
  destruct (free_returns w1 R1) as (w2 & E2).
  exists w1, w2. repeat (split; [assumption|]).
  rewrite (free_trace _ _ E2), !release_sequence_pointers, P1. reflexivity.
Qed.


(** X11.  What a clearing that returns has done to a freshly initialised
    instance: every scalar of every vector of the bank and every element of
    the usage vector reads +0.0f; no linkage matrix has been written to;
    and the first [(memory_size / BLOCK)^2] pointers of [usage_temporal]
    are null, the matrices they designated being out of reach. *)
Theorem clear_memory_zeroes ms mw ni nh hl no et seed w w' w'' :
  0 < BLOCK <= INT_MAX -> 0 <= ms <= INT_MAX ->
  rounded_size ms * sizeof_ptr dm < SIZE_MOD dm ->
  0 <= mw <= INT_MAX -> mw * sizeof_float < SIZE_MOD dm ->
  (ms / BLOCK) * (ms / BLOCK) <= INT_MAX ->
  (ms / BLOCK) * (ms / BLOCK) * sizeof_ptr dm < SIZE_MOD dm ->
  well_shaped (w_dnc w) ->
  deeplearn_dnc_init ms mw ni nh hl no et seed w = Done 0 w' ->
  deeplearn_dnc_clear_memory w' = Done tt w'' ->
  (forall i j, Z.of_nat i < size_of w'' -> Z.of_nat j < width_of w'' ->
     bank_cell w'' i j = Some (Cfloat 0))
  /\ deref (w_heap w'') (m_usage (memory (w_dnc w'')))
     = Some (Ocells KFloat (replicate (Z.to_nat (ms / BLOCK)) (Cfloat 0)))
  /\ (forall p, p ∈ m_usage_temporal (memory (w_dnc w')) ->
        deref (w_heap w'') p = deref (w_heap w') p)
  /\ m_usage_temporal (memory (w_dnc w''))
     = replicate (Z.to_nat ((ms / BLOCK) * (ms / BLOCK))) Pnull
       ++ drop (Z.to_nat ((ms / BLOCK) * (ms / BLOCK)))
            (m_usage_temporal (memory (w_dnc w'))).
Proof.
  intros HB Hms Hfit Hmw Hwfit Hsq Hsqfit Hws E Ec.
  assert (0 < BLOCK) as HB' by lia.
  pose proof (clear_memory_spares_linkage _ _ _ _ _ _ _ _ _ _ _
                HB' Hms Hfit Hws E Ec) as Hspare.
  pose proof (rounded_size_range ms HB' Hms) as Hsz.
  pose proof sizeof_ptr_pos as Hpp.
  assert (sizeof_float <= sizeof_ptr dm) as Hfp
    by (destruct dm; cbn [sizeof_ptr]; unfold sizeof_float; lia).
  assert (0 <= ms / BLOCK) as Hu0 by (apply Z.div_pos; lia).
  assert (ms / BLOCK * (ms / BLOCK) * sizeof_float < SIZE_MOD dm) as Hsqfit'
    by (unfold sizeof_float in *; nia).
  destruct (init_layout _ _ _ _ _ _ _ _ _ _ HB' Hms Hfit Hws E)
    as (D & _ & Harr & _).
  destruct (init_objects _ _ _ _ _ _ _ _ _ _ HB Hms Hfit Hmw Hwfit Hsq Hsqfit'
              Hws E) as (Hbank & Hus & _).
  set (L := length (w_heap w)) in *.
  set (n := Z.to_nat (rounded_size ms)) in *.
  set (heads := (DEEPLEARNDNC_READ_HEADS + DEEPLEARNDNC_WRITE_HEADS)%nat) in *.
  assert (m_size (memory (w_dnc w')) = rounded_size ms) as Hs'
    by (rewrite D; reflexivity).
  assert (m_width (memory (w_dnc w')) = mw) as Hw'.
  { rewrite D. struct_simpl.
    apply to_uint_small. unfold UINT_MOD, INT_MAX in *. lia. }
  assert (m_address (memory (w_dnc w')) = Pblock (L + 1)) as Ha'
    by (rewrite D; reflexivity).
  assert (m_usage (memory (w_dnc w')) = Pblock (L + 2 + n)) as Hmu
    by (rewrite D; reflexivity).
  assert (vector_bytes w' = mw * sizeof_float) as Hvb.
  { unfold vector_bytes. rewrite Hw'.
    apply to_size_t_small. unfold sizeof_float in *. lia. }
  pose proof (usage_size_rounded (w_dnc w') ms HB Hms Hs') as Hu.
  (* the loop over the bank *)
  destruct (clear_bank_total w' (slots (L + 2) n))
    as (w1 & E1 & (D1 & P1 & F1) & Z1).
  { rewrite Hs'. exact Hsz. }
  { rewrite Ha'. exact Harr. }
  { rewrite Hs'. unfold slots. rewrite length_fmap, length_seq. fold n. lia. }
  { rewrite Hvb. apply Z.mod_mul. unfold sizeof_float. lia. }
  { rewrite Hs'. fold n. intros j c Hj Hc.
    rewrite lookup_slots in Hc by exact Hj. inversion Hc; subst c.
    eexists _, _. split; [reflexivity|]. split; [apply Hbank; exact Hj|].
    rewrite Hvb, length_replicate. unfold sizeof_float. lia. }
  rewrite Hs', Hvb in Z1. fold n in Z1.
  rewrite Z.div_mul in Z1 by (unfold sizeof_float; lia).
  revert Ec.
  rewrite clear_memory_eq, bind_eq, E1, Hu.
  destruct w1 as [h1 pl1 t1 d1]. cbn [w_dnc w_heap] in D1, P1, F1, Z1. subst d1.
  rewrite bind_eq, get_dnc_run, bind_eq.
  destruct (F1 _ _ Hus) as (us & Hus1 & Lus).
  rewrite length_replicate in Lus.
  assert (ms / BLOCK * sizeof_ptr dm < SIZE_MOD dm) as Hufit.
  { rewrite rounded_size_eq in Hfit by lia.
    assert (ms / BLOCK <= ms / BLOCK * BLOCK) by nia. nia. }
  rewrite memset_zero_run, Hmu, Hus1. cbn [sizeof].
  rewrite to_size_t_small by nia.
  unfold int_mul. rewrite to_int_small by nia.
  rewrite to_size_t_small by nia.
  rewrite Lus, Z2Nat.id by lia.
  destruct ((ms / BLOCK * sizeof_ptr dm <=? sizeof_float * (ms / BLOCK))
            && (ms / BLOCK * sizeof_ptr dm mod sizeof_float =? 0)) eqn:C1;
    [|discriminate].
  apply andb_prop in C1 as [C1 _]. apply Z.leb_le in C1.
  unfold memset_usage_temporal.
  rewrite bind_eq, get_dnc_run. cbv zeta.
  assert (length (m_usage_temporal (memory (w_dnc w'))) = heads) as Lut
    by (rewrite D; struct_simpl; rewrite length_fmap, length_seq; reflexivity).
  rewrite Lut, Z.mod_mul by lia. rewrite Z.eqb_refl, andb_true_r.
  destruct (ms / BLOCK * (ms / BLOCK) * sizeof_ptr dm
            <=? sizeof_ptr dm * Z.of_nat heads) eqn:C2; [|discriminate].
  apply Z.leb_le in C2. rewrite set_memory_run.
  intros Ec. inversion Ec; subst w''. clear Ec.
  assert (ms / BLOCK * sizeof_ptr dm = ms / BLOCK * sizeof_float) as Hsame
    by (unfold sizeof_float in *; nia).
  unfold size_of, width_of, bank_cell, bank_slot.
  cbn [w_heap w_dnc memory m_size m_width m_address m_usage m_usage_temporal]
    in *.
  rewrite Hs', Hw', Ha', Hmu.
  split; [|split; [|split; [exact Hspare|]]].
  - intros i j Hi Hj.
    assert (i < n)%nat as Hin by (unfold n; lia).
    rewrite deref_insert_ne by (intros [=]; lia).
    rewrite (P1 _ _ Harr), lookup_slots by exact Hin.
    rewrite deref_insert_ne by (intros [=]; lia).
    destruct (Z1 i _ Hin (lookup_slots (L + 2) n i Hin)) as (vs & Hvs & Hz).
    cbn [slot_pointer] in Hvs. rewrite Hvs.
    destruct (F1 _ _ (Hbank i Hin)) as (vs' & Hvs' & Lvs).
    rewrite Hvs in Hvs'. inversion Hvs'; subst vs'.
    rewrite length_replicate in Lvs.
    apply Hz; lia.
  - erewrite deref_insert_eq by exact Hus1.
    f_equal. f_equal. rewrite Hsame, Z.div_mul by (unfold sizeof_float; lia).
    unfold zero_prefix. rewrite Lus, Nat.min_id.
    rewrite drop_ge by lia. rewrite app_nil_r. reflexivity.
  - rewrite Z.div_mul by lia.
    rewrite Nat.min_l by nia. reflexivity.
Qed.

End Properties.

(** * The scenarios, evaluated *)

Abbreviation header32 := (header16 ILP32).
Abbreviation header64 := (header16 LP64).
Abbreviation init16 m :=
  (deeplearn_dnc_init (hdr := header16 m) (lib := counting_library)).

(** Scenario A returns 0 with a bank of 128 vectors of width 4. *)
Example scenario_a_succeeds :
  init16 LP64 128 4 10 20 1 2 [1084227584] 42 (blank_world [])
  = Done 0 (scenario_a LP64)
  /\ size_of (scenario_a LP64) = 128 /\ width_of (scenario_a LP64) = 4.
Proof. vm_compute. auto. Qed.

(** Scenario B: 20 addresses are rounded down to 16. *)
Example scenario_b_rounds_down :
  init16 LP64 20 4 10 20 1 2 [1084227584] 42 (blank_world [])
  = Done 0 (scenario_b LP64)
  /\ size_of (scenario_b LP64) = 16.
Proof. vm_compute. auto. Qed.

Lemma init_bank_dimensions_witness :
  (16 | size_of (scenario_b LP64))
  /\ size_of (scenario_b LP64) <= 20
  /\ (forall m, (16 | m) -> m <= 20 -> m <= size_of (scenario_b LP64))
  /\ width_of (scenario_b LP64) = 4.
Proof.
  apply (init_bank_dimensions (hdr := header64) (lib := counting_library)
           20 4 10 20 1 2 [1084227584] 42 (blank_world [])).
  - reflexivity.
  - unfold INT_MAX. simpl. lia.
  - unfold INT_MAX. lia.
  - vm_compute. reflexivity.
Defined.

Lemma blank_well_shaped (m : data_model) :
  well_shaped (hdr := header16 m) (blank_dnc 1 1).
Proof. repeat split. Qed.

(** Scenario C: the fifth vector of the bank is refused; the run stops in
    the bank with code 2002 and releases nothing. *)
Lemma init_reports_first_failure_witness :
  exists w',
    init16 ILP32 128 4 10 20 1 2 [1084227584] 42 (blank_world scenario_c_plan)
    = Done 2002 w'
    /\ init_run (hdr := header32) 128 4 10 20 1 2 [1084227584] 42
         (blank_world scenario_c_plan) (Some SBank) 2002 w'
    /\ releases_nothing (blank_world scenario_c_plan) w'
    /\ subsystem_of_code 2002 = Some SBank.
Proof.
  destruct (init_reports_first_failure (hdr := header32)
              (lib := counting_library)
              128 4 10 20 1 2 [1084227584] 42 (blank_world scenario_c_plan))
    as (s & code & w' & E & Hr & Hn & _ & Hs).
  - apply blank_well_shaped.
  - reflexivity.
  - unfold INT_MAX. lia.
  - vm_compute. reflexivity.
  - unfold INT_MAX. simpl. lia.
  - assert (init16 ILP32 128 4 10 20 1 2 [1084227584] 42
              (blank_world scenario_c_plan) = Done 2002 (scenario_c ILP32))
      as E0 by (vm_compute; reflexivity).
    assert (code = 2002) as ->
      by exact (f_equal (fun o => match o with Done c _ => c | Undefined => 0 end)
                  (eq_trans (eq_sym E) E0)).
    assert (s = Some SBank) as ->
      by (symmetry; apply Hs; change (0 <= 0 <= INT_MAX - 5000);
          unfold INT_MAX; lia).
    exists w'. auto.
Defined.

(** C3, as stated, fails: with every allocation served and a controller
    whose initialiser fails with -1, the failing stage is the controller's
    and the code is 4999, in the range of the heads; with one that fails
    with -5000 the code is 0, that of a success. *)
Lemma init_code_collision_counterexample :
  (exists w,
     deeplearn_dnc_init (hdr := header64) (lib := negative_library)
       128 4 10 20 1 2 [] 42 (blank_world []) = Done 4999 w
     /\ init_run (hdr := header64) (lib := negative_library)
          128 4 10 20 1 2 [] 42 (blank_world []) (Some SController) 4999 w
     /\ subsystem_of_code 4999 = Some SHeads)
  /\ (exists w,
        deeplearn_dnc_init (hdr := header64) (lib := silent_library)
          128 4 10 20 1 2 [] 42 (blank_world []) = Done 0 w
        /\ init_run (hdr := header64) (lib := silent_library)
             128 4 10 20 1 2 [] 42 (blank_world []) (Some SController) 0 w
        /\ subsystem_of_code 0 = None).
Proof.
  split; eexists; (split; [vm_compute; reflexivity|]); (split; [|reflexivity]).
  - eapply run_stages;
      [vm_compute; reflexivity | discriminate | vm_compute; reflexivity |].
    rewrite decide_True by reflexivity.
    eexists; eexists. split; [vm_compute; reflexivity|].
    rewrite decide_True by reflexivity.
    eexists; eexists. split; [vm_compute; reflexivity|].
    rewrite decide_True by reflexivity.
    eexists. split; [vm_compute; reflexivity|].
    rewrite decide_False by (vm_compute; discriminate).
    split; reflexivity.
  - eapply run_stages;
      [vm_compute; reflexivity | discriminate | vm_compute; reflexivity |].
    rewrite decide_True by reflexivity.
    eexists; eexists. split; [vm_compute; reflexivity|].
    rewrite decide_True by reflexivity.
    eexists; eexists. split; [vm_compute; reflexivity|].
    rewrite decide_True by reflexivity.
    eexists. split; [vm_compute; reflexivity|].
    rewrite decide_False by (vm_compute; discriminate).
    split; reflexivity.
Qed.

(** The codes of four failing runs: no controller object, no array for the
    bank, the fifth vector refused, a controller that fails with code 7. *)
Example init_codes :
  (exists w, init16 LP64 128 4 10 20 1 2 [] 42 (blank_world [false]) = Done 1000 w)
  /\ (exists w, init16 LP64 128 4 10 20 1 2 [] 42 (blank_world [true; false])
                = Done 2001 w)
  /\ (exists w, init16 LP64 128 4 10 20 1 2 [] 42 (blank_world scenario_c_plan)
                = Done 2002 w)
  /\ (exists w, deeplearn_dnc_init (hdr := header64) (lib := failing_library)
                  128 4 10 20 1 2 [] 42 (blank_world []) = Done 5007 w).
Proof. repeat split; eexists; vm_compute; reflexivity. Qed.

(** A controller that fails with the negative code -1 is reported as 4999,
    in the range of the heads. *)
Example init_code_negative_controller :
  (exists w, deeplearn_dnc_init (hdr := header64) (lib := negative_library)
               128 4 10 20 1 2 [] 42 (blank_world []) = Done 4999 w)
  /\ subsystem_of_code 4999 = Some SHeads.
Proof. split; [eexists; vm_compute; reflexivity | reflexivity]. Qed.

Lemma init_controller_widths_witness :
  exists a,
    w_trace (scenario_a LP64) = w_trace (lib := counting_library) (blank_world []) ++ [EvInit a]
    /\ ia_inputs a = 10 + 4 * 1
    /\ ia_outputs a = 2 + 4 * 1 + (4 + 3) * 1
    /\ ia_hiddens a = 20 /\ ia_hidden_layers a = 1
    /\ deref (w_heap (scenario_a LP64)) (controller (w_dnc (scenario_a LP64)))
       = Some (Octrl (Some (deeplearn_init (Library := counting_library) a).2)).
Proof.
  apply (init_controller_widths (hdr := header64) (lib := counting_library)
           128 4 10 20 1 2 [1084227584] 42 (blank_world [])).
  - lia.
  - lia.
  - lia.
  - unfold INT_MAX. simpl. lia.
  - unfold INT_MAX. simpl. lia.
  - vm_compute. reflexivity.
Defined.

(** C5, as stated, fails: after the successful initialisation of scenario
    A, the first scalar of the first vector of the bank is not zero but
    indeterminate. *)
Lemma init_zeroes_bank_counterexample :
  init16 LP64 128 4 10 20 1 2 [1084227584] 42 (blank_world [])
  = Done 0 (scenario_a LP64)
  /\ bank_cell (scenario_a LP64) 0 0 = Some Cundef
  /\ bank_cell (scenario_a LP64) 0 0 <> Some (Cfloat 0).
Proof. vm_compute. repeat split. discriminate. Qed.

Lemma init_bank_uninitialised_witness :
  exists base,
    forall i, Z.of_nat i < size_of (scenario_a LP64) ->
      bank_slot (scenario_a LP64) i = Some (Cptr (Pblock (base + i)))
      /\ forall j, Z.of_nat j < width_of (scenario_a LP64) ->
           bank_cell (scenario_a LP64) i j = Some Cundef.
Proof.
  apply (init_bank_uninitialised (hdr := header64) (lib := counting_library)
           128 4 10 20 1 2 [1084227584] 42 (blank_world [])).
  - reflexivity.
  - unfold INT_MAX. lia.
  - vm_compute. reflexivity.
  - unfold INT_MAX. lia.
  - vm_compute. reflexivity.
  - vm_compute. reflexivity.
Defined.

(** C6, as stated, fails: in scenario C the initialisation returns the bank
    code 2002, but the sixth slot of the bank is indeterminate, not null,
    and so are the pointers of the usage tracker and of the heads; releasing
    the instance is undefined. *)
Lemma init_partial_releasable_counterexample :
  init16 LP64 128 4 10 20 1 2 [1084227584] 42 (blank_world scenario_c_plan)
  = Done 2002 (scenario_c LP64)
  /\ bank_slot (scenario_c LP64) 5 = Some Cundef
  /\ m_usage (memory (w_dnc (scenario_c LP64))) = Pundef
  /\ deeplearn_dnc_free (hdr := header64) (scenario_c LP64) = Undefined.
Proof. vm_compute. repeat split. Qed.

Lemma init_partial_bank_witness :
  exists w',
    init16 LP64 128 4 10 20 1 2 [1084227584] 42 (blank_world scenario_c_plan)
    = Done 2002 w'
    /\ subsystem_of_code 2002 = Some SBank
    /\ size_of w' = rounded_size (hdr := header64) 128
    /\ (forall i, (i < 4)%nat ->
          exists b, bank_slot w' i = Some (Cptr (Pblock b))
                    /\ deref (w_heap w') (Pblock b)
                       = Some (fresh_vector (hdr := header64) (w_dnc w')))
    /\ bank_slot w' 4 = Some (Cptr Pnull)
    /\ (forall i, (4 < i)%nat -> Z.of_nat i < rounded_size (hdr := header64) 128 ->
          bank_slot w' i = Some Cundef)
    /\ m_usage (memory (w_dnc w'))
       = m_usage (memory (w_dnc (lib := counting_library) (blank_world scenario_c_plan)))
    /\ m_usage_temporal (memory (w_dnc w'))
       = m_usage_temporal (memory (w_dnc (lib := counting_library) (blank_world scenario_c_plan)))
    /\ read_head (w_dnc w')
       = read_head (w_dnc (lib := counting_library) (blank_world scenario_c_plan))
    /\ write_head (w_dnc w')
       = write_head (w_dnc (lib := counting_library) (blank_world scenario_c_plan))
    /\ (Z.of_nat 5 < rounded_size (hdr := header64) 128 ->
        deeplearn_dnc_free (hdr := header64) w' = Undefined).
Proof.
  apply (init_partial_bank (hdr := header64) (lib := counting_library)
           128 4 10 20 1 2 [1084227584] 42 (blank_world scenario_c_plan) 4 []).
  - reflexivity.
  - unfold INT_MAX. lia.
  - vm_compute. reflexivity.
  - reflexivity.
  - vm_compute. reflexivity.
Defined.

(** New contents for a key: two floats, 1.0f and 2.0f. *)
Definition some_key : list cell := [Cfloat 1065353216; Cfloat 1073741824].

Lemma feed_forward_ignores_heads_witness :
  let w := one_block ILP32 in
  let w' := world_after (run_operations (hdr := header32)
                           (replicate 3 OpFeedForward) w) w in
  w_dnc w' = w_dnc w
  /\ forall p, p <> controller (w_dnc w) ->
       deref (w_heap w') p = deref (w_heap w) p.
Proof.
  apply (proj1 (proj2 (proj2 (proj2
           (feed_forward_ignores_heads (hdr := header32)
              (lib := counting_library) (one_block ILP32))))) 3%nat).
  vm_compute. reflexivity.
Defined.

(** Three steps on one block, with the key of the read head rewritten
    before each of them or never: the controller ends in the same state,
    having served three requests. *)
Example feed_forward_three_steps :
  let step := deeplearn_dnc_feed_forward (lib := counting_library) in
  let rewrite_key := write_cells (lib := counting_library) (Pblock 21) some_key in
  deref (w_heap (world_after ((step;; step;; step) (one_block LP64)) (one_block LP64)))
        (Pblock 0)
  = Some (Octrl (lib := counting_library) (Some (12, 9, 3%nat)))
  /\ deref (w_heap (world_after
                      ((rewrite_key;; step;; rewrite_key;; step;; rewrite_key;; step)
                         (one_block LP64)) (one_block LP64)))
           (Pblock 0)
     = Some (Octrl (lib := counting_library) (Some (12, 9, 3%nat))).
Proof. vm_compute. auto. Qed.

(** C8, as stated, fails: on the instance of one block the first release is
    that of the first vector of the bank, block 2, and the heads come after
    the usage tracker; the reverse of the allocation order would start with
    the key of the read head, block 21. *)
Lemma free_reverse_order_counterexample :
  exists w',
    deeplearn_dnc_free (hdr := header32) (one_block ILP32) = Done tt w'
    /\ w_trace w'
       = w_trace (one_block ILP32) ++ release_sequence (hdr := header32) (one_block ILP32)
    /\ w_trace w'
       <> w_trace (one_block ILP32)
          ++ reverse_release_sequence (hdr := header32) (one_block ILP32)
    /\ head (release_sequence (hdr := header32) (one_block ILP32))
       = Some (EvFree (Pblock 2))
    /\ head (reverse_release_sequence (hdr := header32) (one_block ILP32))
       = Some (EvFree (Pblock 21)).
Proof.
  eexists. split; [vm_compute; reflexivity|].
  split; [vm_compute; reflexivity|].
  split; [vm_compute; discriminate|].
  split; vm_compute; reflexivity.
Qed.

Lemma one_block_releasable :
  releasable (hdr := header32) (one_block ILP32).
Proof.
  apply (init_releasable (hdr := header32) (lib := counting_library)
           16 2 10 20 1 2 [1084227584] 42 (blank_world [])).
  - reflexivity.
  - unfold INT_MAX. lia.
  - vm_compute. reflexivity.
  - vm_compute. discriminate.
  - apply blank_well_shaped.
  - vm_compute. reflexivity.
Qed.

Lemma free_releases_in_allocation_order_witness :
  exists w',
    deeplearn_dnc_free (hdr := header32) (one_block ILP32) = Done tt w'
    /\ w_trace w'
       = w_trace (one_block ILP32)
         ++ release_sequence (hdr := header32) (one_block ILP32).
Proof.
  apply (free_releases_in_allocation_order (hdr := header32)
           (lib := counting_library) (one_block ILP32)).
  apply one_block_releasable.
Defined.

Lemma one_block_apart (m : data_model) :
  bank_apart (one_block m).
Proof.
  intros cells. destruct m; vm_compute; intros [= <-]; (split; [|discriminate]);
    intros Hin; apply list_elem_of_In in Hin; simpl in Hin;
    repeat (destruct Hin as [Hin|Hin]; [discriminate|]); exact Hin.
Qed.

Lemma clear_memory_idempotent_witness :
  (deeplearn_dnc_clear_memory (hdr := header32);;
   deeplearn_dnc_clear_memory (hdr := header32)) (one_block ILP32)
  = deeplearn_dnc_clear_memory (hdr := header32) (one_block ILP32).
Proof.
  apply (clear_memory_idempotent (hdr := header32) (lib := counting_library)
           (one_block ILP32)).
  apply one_block_apart.
Defined.

(** The same with a bank, a usage vector and linkage matrices that hold
    1.0f and 2.0f: once is defined, and twice is once. *)
Example clear_memory_twice_nonzero :
  let fill :=
    write_cells (lib := counting_library) (Pblock 2) some_key;;
    write_cells (Pblock 17) some_key;;
    write_cells (Pblock 18) [Cfloat 1065353216];;
    write_cells (Pblock 20) [Cfloat 1073741824] in
  let clear := deeplearn_dnc_clear_memory (hdr := header32) in
  (fill;; clear;; clear) (one_block ILP32) = (fill;; clear) (one_block ILP32)
  /\ (fill;; clear) (one_block ILP32) <> Undefined.
Proof. vm_compute. split; [reflexivity | discriminate]. Qed.

(** C9 fails on the code.  In scenario A the initialisation succeeds and
    the first clearing already runs past the array [usage_temporal] of the
    structure (64 pointers cleared over an array of 2), on either build:
    it is undefined and yields no state, once or twice.  On an LP64 build
    the same holds for the instance of one block, whose usage vector of one
    float is cleared over one pointer.  Where the clearing is defined, as on
    the instance of one block of an ILP32 build, twice is once. *)
Theorem clear_memory_twice_undefined :
  let clear32 := deeplearn_dnc_clear_memory (hdr := header32)
                   (lib := counting_library) in
  let clear64 := deeplearn_dnc_clear_memory (hdr := header64)
                   (lib := counting_library) in
  init16 ILP32 128 4 10 20 1 2 [1084227584] 42 (blank_world [])
  = Done 0 (scenario_a ILP32)
  /\ clear32 (scenario_a ILP32) = Undefined
  /\ (clear32;; clear32) (scenario_a ILP32) = Undefined
  /\ init16 LP64 128 4 10 20 1 2 [1084227584] 42 (blank_world [])
     = Done 0 (scenario_a LP64)
  /\ clear64 (scenario_a LP64) = Undefined
  /\ (clear64;; clear64) (scenario_a LP64) = Undefined
  /\ init16 LP64 16 2 10 20 1 2 [1084227584] 42 (blank_world [])
     = Done 0 (one_block LP64)
  /\ (clear64;; clear64) (one_block LP64) = Undefined
  /\ exists w1,
       clear32 (one_block ILP32) = Done tt w1
       /\ (clear32;; clear32) (one_block ILP32) = Done tt w1.
Proof.
  cbv zeta. repeat (split; [vm_compute; reflexivity|]).
  eexists. split; vm_compute; reflexivity.
Qed.

(** A session on the instance of one block. *)
Definition session : list operation :=
  [OpForward (ReqSetInput 0 1065353216); OpFeedForward; OpUpdate;
   OpUpdateReadHeads; OpUpdateWriteHeads; OpClearMemory;
   OpForward (ReqGetOutput 1); OpForward ReqUpdateContinuous; OpFree].

Lemma bank_dimensions_invariant_witness :
  size_of (world_after (run_operations (hdr := header32) session (one_block ILP32))
                       (one_block ILP32))
  = size_of (one_block ILP32)
  /\ width_of (world_after (run_operations (hdr := header32) session (one_block ILP32))
                          (one_block ILP32))
     = width_of (one_block ILP32).
Proof.
  apply (bank_dimensions_invariant (hdr := header32) (lib := counting_library)
           session (one_block ILP32)).
  vm_compute. reflexivity.
Defined.

(** * C2: what [deeplearn_dnc_clear_memory] clears *)

(** The instance of one block, whose two linkage matrices (blocks 19 and
    20) hold 1.0f and 2.0f. *)
Definition linked_block (m : data_model) : world (lib := counting_library) :=
  world_after
    ((write_cells (Pblock 19) [Cfloat 1065353216];;
      write_cells (Pblock 20) [Cfloat 1073741824]) (one_block m))
    (one_block m).

(** C2 fails on the code.  On an ILP32 build the call is defined and zeroes
    the bank and the usage vector, but its last memset is applied to the
    array of pointers [usage_temporal] of the structure, not to the
    matrices: the pointer to the first matrix becomes null (the matrix is
    lost, still holding 1.0f), and the second matrix still reads 2.0f.  On
    an LP64 build the memset of the usage vector, sized with
    [sizeof (float* )], runs past the vector; and in scenario A, on either
    build, the last memset runs past the array of pointers of the
    structure: both are undefined. *)
Theorem clear_memory_misses_linkage :
  (exists w',
     deeplearn_dnc_clear_memory (hdr := header32) (linked_block ILP32) = Done tt w'
     /\ (forall i j, (i < 16)%nat -> (j < 2)%nat ->
           bank_cell w' i j = Some (Cfloat 0))
     /\ deref (w_heap w') (m_usage (memory (w_dnc w')))
        = Some (Ocells KFloat [Cfloat 0])
     /\ linkage_cell (linked_block ILP32) 0 0 = Some (Cfloat 1065353216)
     /\ m_usage_temporal (memory (w_dnc w')) = [Pnull; Pblock 20]
     /\ linkage_cell w' 0 0 = None
     /\ deref (w_heap w') (Pblock 19) = Some (Ocells KFloat [Cfloat 1065353216])
     /\ linkage_cell w' 1 0 = Some (Cfloat 1073741824))
  /\ deeplearn_dnc_clear_memory (hdr := header64) (linked_block LP64) = Undefined
  /\ deeplearn_dnc_clear_memory (hdr := header32) (scenario_a ILP32) = Undefined
  /\ deeplearn_dnc_clear_memory (hdr := header64) (scenario_a LP64) = Undefined.
Proof.
  split; [|repeat split; vm_compute; reflexivity].
  eexists. split; [vm_compute; reflexivity|].
  split.
  - intros i j Hi Hj.
    do 16 (destruct i as [|i]; [do 2 (destruct j as [|j]; [reflexivity|]); lia|]).
    lia.
  - repeat split; vm_compute; reflexivity.
Qed.

(** ** Further properties on the instance of one block *)

Lemma one_block_init (m : data_model) :
  init16 m 16 2 10 20 1 2 [1084227584] 42 (blank_world []) = Done 0 (one_block m).
Proof. destruct m; vm_compute; reflexivity. Qed.

(** What the release leaves of the controller object is the library's:
    an uninitialised object when [deeplearn_free] keeps it, a dead block
    when it releases it; either way a feed-forward pass after the release
    is undefined. *)
Example controller_after_free :
  let w := one_block ILP32 in
  let w' :=
    world_after
      (deeplearn_dnc_init (hdr := header32) (lib := releasing_library)
         16 2 10 20 1 2 [1084227584] 42 (blank_world []))
      (blank_world []) in
  deref (w_heap (world_after (deeplearn_dnc_free (hdr := header32) w) w))
        (Pblock 0)
  = Some (Octrl None)
  /\ deref (w_heap (world_after (deeplearn_dnc_free (hdr := header32) w') w'))
           (Pblock 0)
     = None
  /\ (deeplearn_dnc_free (hdr := header32);; deeplearn_dnc_feed_forward) w
     = Undefined
  /\ (deeplearn_dnc_free (hdr := header32);; deeplearn_dnc_feed_forward) w'
     = Undefined.
Proof. vm_compute. repeat split. Qed.

Lemma use_after_free_undefined_witness :
  (deeplearn_dnc_free (hdr := header32);; deeplearn_dnc_free (hdr := header32))
    (one_block ILP32) = Undefined
  /\ (deeplearn_dnc_free (hdr := header32);;
      deeplearn_dnc_clear_memory (hdr := header32)) (one_block ILP32) = Undefined.
Proof.
  apply (use_after_free_undefined (hdr := header32) (lib := counting_library)
           (one_block ILP32)).
  apply one_block_releasable.
Defined.

Lemma init_free_round_trip_witness :
  let w0 := blank_world (lib := counting_library) [] in
  let w := one_block ILP32 in
  exists w',
    deeplearn_dnc_free (hdr := header32) w = Done tt w'
    /\ (forall b, (b < length (w_heap w0))%nat ->
          deref (w_heap w') (Pblock b) = deref (w_heap w0) (Pblock b))
    /\ (forall b, (length (w_heap w0) < b)%nat ->
          deref (w_heap w') (Pblock b) = None)
    /\ controller (w_dnc w') = Pblock (length (w_heap w0))
    /\ w_trace w' = w_trace w ++ release_sequence (hdr := header32) w
    /\ EvFree (Pblock (length (w_heap w0))) ∉ release_sequence (hdr := header32) w.
Proof.
  apply (init_free_round_trip (hdr := header32) (lib := counting_library)
           16 2 10 20 1 2 [1084227584] 42 (blank_world []) (one_block ILP32)).
  - reflexivity.
  - unfold INT_MAX. lia.
  - vm_compute. reflexivity.
  - vm_compute. discriminate.
  - apply blank_well_shaped.
  - apply one_block_init.
Defined.

Lemma init_allocations_witness :
  let w' := one_block ILP32 in
  deref (w_heap w') (m_usage (memory (w_dnc w')))
  = Some (Ocells KFloat (replicate (Z.to_nat (16 / 16)) Cundef))
  /\ (forall p, p ∈ m_usage_temporal (memory (w_dnc w')) ->
        deref (w_heap w') p
        = Some (Ocells KFloat
                  (replicate (Z.to_nat ((16 / 16) * (16 / 16))) Cundef)))
  /\ (forall r, r ∈ read_head (w_dnc w') ->
        deref (w_heap w') (rh_key r)
        = Some (Ocells KFloat (replicate (Z.to_nat 2) Cundef)))
  /\ (forall x p, x ∈ write_head (w_dnc w') -> p ∈ write_head_pointers x ->
        deref (w_heap w') p
        = Some (Ocells KFloat (replicate (Z.to_nat 2) Cundef))).
Proof.
  apply (init_allocations (hdr := header32) (lib := counting_library)
           16 2 10 20 1 2 [1084227584] 42 (blank_world []) (one_block ILP32)).
  - unfold INT_MAX. simpl. lia.
  - unfold INT_MAX. lia.
  - vm_compute. reflexivity.
  - unfold INT_MAX. lia.
  - vm_compute. reflexivity.
  - vm_compute. discriminate.
  - vm_compute. reflexivity.
  - apply blank_well_shaped.
  - apply one_block_init.
Defined.

(** Scenario C again: the refused call is the seventh (number 6), the
    fifth vector of the bank. *)
Lemma init_refusal_code_witness :
  exists w',
    init16 ILP32 128 4 10 20 1 2 [1084227584] 42 (blank_world scenario_c_plan)
    = Done 2002 w'.
Proof.
  apply (init_refusal_code (hdr := header32) (lib := counting_library)
           128 4 10 20 1 2 [1084227584] 42 (blank_world scenario_c_plan)).
  - apply blank_well_shaped.
  - reflexivity.
  - unfold INT_MAX. lia.
  - vm_compute. reflexivity.
  - vm_compute. discriminate.
  - vm_compute. lia.
Defined.

(** Scenario A with a controller whose initialisation fails with 7. *)
Lemma init_code_all_served_witness :
  exists w',
    deeplearn_dnc_init (hdr := header64) (lib := failing_library)
      128 4 10 20 1 2 [] 42 (blank_world []) = Done 5007 w'.
Proof.
  apply (init_code_all_served (hdr := header64) (lib := failing_library)
           128 4 10 20 1 2 [] 42 (blank_world [])).
  - apply blank_well_shaped.
  - reflexivity.
  - unfold INT_MAX. lia.
  - vm_compute. reflexivity.
  - vm_compute. discriminate.
  - vm_compute. reflexivity.
Defined.

(** On an LP64 build clearing the instance of one block is undefined: the
    usage vector has one float and is cleared over one pointer. *)
Lemma clear_memory_after_init_witness :
  deeplearn_dnc_clear_memory (hdr := header64) (one_block LP64) = Undefined.
Proof.
  refine (proj2 (clear_memory_after_init (hdr := header64)
                   (lib := counting_library)
                   16 2 10 20 1 2 [1084227584] 42 (blank_world [])
                   (one_block LP64) _ _ _ _ _ _ _ _ _) _).
  - unfold INT_MAX. simpl. lia.
  - unfold INT_MAX. lia.
  - vm_compute. reflexivity.
  - unfold INT_MAX. lia.
  - vm_compute. reflexivity.
  - vm_compute. discriminate.
  - vm_compute. reflexivity.
  - apply blank_well_shaped.
  - apply one_block_init.
  - left. vm_compute. split; reflexivity.
Defined.

Lemma operations_keep_releasable_witness :
  let w := one_block ILP32 in
  exists w1 w2,
    run_operations (hdr := header32)
      [OpFeedForward; OpUpdate; OpForward (ReqSetInput 0 0); OpUpdateReadHeads] w
    = Done tt w1
    /\ w_dnc w1 = w_dnc w
    /\ (forall p, p <> controller (w_dnc w) ->
          deref (w_heap w1) p = deref (w_heap w) p)
    /\ releasable (hdr := header32) w1
    /\ deeplearn_dnc_free (hdr := header32) w1 = Done tt w2
    /\ w_trace w2 = w_trace w1 ++ release_sequence (hdr := header32) w.
Proof.
  apply (operations_keep_releasable (hdr := header32) (lib := counting_library)
           [OpFeedForward; OpUpdate; OpForward (ReqSetInput 0 0); OpUpdateReadHeads]
           (one_block ILP32)).
  - apply one_block_releasable.
  - reflexivity.
Defined.

(** The instance of one block after one clearing, on an ILP32 build. *)
Definition cleared_block : world (lib := counting_library) :=
  world_after (deeplearn_dnc_clear_memory (hdr := header32) (one_block ILP32))
              (one_block ILP32).

Lemma clear_memory_zeroes_witness :
  let w' := one_block ILP32 in
  let w'' := cleared_block in
  (forall i j, Z.of_nat i < size_of w'' -> Z.of_nat j < width_of w'' ->
     bank_cell w'' i j = Some (Cfloat 0))
  /\ deref (w_heap w'') (m_usage (memory (w_dnc w'')))
     = Some (Ocells KFloat (replicate (Z.to_nat (16 / 16)) (Cfloat 0)))
  /\ (forall p, p ∈ m_usage_temporal (memory (w_dnc w')) ->
        deref (w_heap w'') p = deref (w_heap w') p)
  /\ m_usage_temporal (memory (w_dnc w''))
     = replicate (Z.to_nat ((16 / 16) * (16 / 16))) Pnull
       ++ drop (Z.to_nat ((16 / 16) * (16 / 16)))
            (m_usage_temporal (memory (w_dnc w'))).
Proof.
  apply (clear_memory_zeroes (hdr := header32) (lib := counting_library)
           16 2 10 20 1 2 [1084227584] 42 (blank_world []) (one_block ILP32)
           cleared_block).
  - unfold INT_MAX. simpl. lia.
  - unfold INT_MAX. lia.
  - vm_compute. reflexivity.
  - unfold INT_MAX. lia.
  - vm_compute. reflexivity.
  - vm_compute. discriminate.
  - vm_compute. reflexivity.
  - apply blank_well_shaped.
  - apply one_block_init.
  - vm_compute. reflexivity.
Defined.

(** * deeplearn_random.c: the Lehmer generator *)

Definition INT_MIN : Z := -2147483648.
Definition ULLONG_MOD : Z := 18446744073709551616.

(** Conversion to [unsigned long long]. *)
Definition to_ullong (x : Z) : Z := x mod ULLONG_MOD.

(** [((unsigned long long) v * 279470273UL) % 4294967291UL]. *)
Definition lehmer_step (v : Z) : Z :=
  to_ullong (to_ullong v * 279470273) mod 4294967291.

(** [abs (x)] of <stdlib.h>: undefined when the result is not an [int]. *)
Definition c_abs (x : Z) : option Z :=
  if x =? INT_MIN then None else Some (Z.abs x).

(** What a call of [rand_num] does: it returns a value and leaves a new
    seed in [*seed], or leaves defined behaviour; the model of the loop
    may also run out of fuel. *)
Inductive rand_result :=
| RandReturns (value seed : Z)
| RandUndefined
| RandOutOfFuel.

(** [while (((unsigned long long) v * 279470273UL) % 4294967291UL == 0) v++;]
    with [v] an [unsigned int]. *)
Fixpoint avoid_singularity (fuel : nat) (v : Z) : option Z :=
  match fuel with
  | O => None
  | S fuel' =>
      if lehmer_step v =? 0
      then avoid_singularity fuel' (to_uint (v + 1))
      else Some v
  end.

Definition rand_num (fuel : nat) (seed : Z) : rand_result :=
  let v := to_uint (lehmer_step seed) in
  let v' :=
    (* avoid the singularity *)
    if v =? 0 then avoid_singularity fuel (to_uint (v + 1)) else Some v in
  match v' with
  | None => RandOutOfFuel
  | Some v =>
      (* *seed = v; return abs((int)v); *)
      match c_abs (to_int v) with
      | Some r => RandReturns r v
      | None => RandUndefined
      end
  end.

(** The seed a call leaves, written without the machine arithmetic: the
    Lehmer step modulo the prime 4294967291, with 1 in place of 0. *)
Definition next_seed (seed : Z) : Z :=
  let v := (seed * 279470273) mod 4294967291 in
  if v =? 0 then 1 else v.

(** The multiplier's inverse modulo 4294967291. *)
Definition LEHMER_INVERSE : Z := 1815976680.

(** The only seed whose successor is 2^31, which [(int)] turns into
    [INT_MIN]. *)
Definition INT_MIN_SEED : Z := 244974409.

Lemma lehmer_step_eq seed :
  0 <= seed < UINT_MOD ->
  lehmer_step seed = (seed * 279470273) mod 4294967291.
Proof.
  intros Hs. unfold lehmer_step, to_ullong, ULLONG_MOD, UINT_MOD in *.
  rewrite (Z.mod_small seed) by lia.
  rewrite (Z.mod_small (seed * 279470273)) by nia.
  reflexivity.
Qed.

Lemma lehmer_step_range seed :
  0 <= seed < UINT_MOD -> 0 <= lehmer_step seed < 4294967291.
Proof.
  intros Hs. rewrite lehmer_step_eq by exact Hs.
  apply Z.mod_pos_bound. lia.
Qed.

Lemma next_seed_range seed : 1 <= next_seed seed < 4294967291.
Proof.
  unfold next_seed. cbv zeta.
  pose proof (Z.mod_pos_bound (seed * 279470273) 4294967291 ltac:(lia)).
  destruct (Z.eqb_spec ((seed * 279470273) mod 4294967291) 0); lia.
Qed.

(** The loop entered at 1 stops at once. *)
Lemma avoid_singularity_one fuel : avoid_singularity (S fuel) 1 = Some 1.
Proof. reflexivity. Qed.

Lemma rand_num_next_seed fuel seed :
  0 <= seed < UINT_MOD ->
  rand_num (S fuel) seed
  = match c_abs (to_int (next_seed seed)) with
    | Some r => RandReturns r (next_seed seed)
    | None => RandUndefined
    end.
Proof.
  intros Hs. unfold rand_num, next_seed. cbv zeta.
  pose proof (lehmer_step_range seed Hs) as Hr.
  rewrite <- (lehmer_step_eq seed Hs).
  assert (to_uint (lehmer_step seed) = lehmer_step seed) as ->
    by (unfold to_uint, UINT_MOD; apply Z.mod_small; lia).
  destruct (Z.eqb_spec (lehmer_step seed) 0) as [->|Hne]; [|reflexivity].
  change (to_uint (0 + 1)) with 1. rewrite avoid_singularity_one. reflexivity.
Qed.

Lemma to_int_next_seed seed :
  to_int (next_seed seed)
  = if next_seed seed <=? INT_MAX then next_seed seed
    else next_seed seed - UINT_MOD.
Proof.
  pose proof (next_seed_range seed). unfold to_int. cbv zeta.
  rewrite (Z.mod_small (next_seed seed)) by (unfold UINT_MOD; lia).
  reflexivity.
Qed.

(** The result of a call, by the successor of the seed. *)
Lemma rand_num_successor fuel seed :
  0 <= seed < UINT_MOD ->
  rand_num (S fuel) seed
  = if next_seed seed =? 2147483648 then RandUndefined
    else RandReturns
           (if next_seed seed <? 2147483648 then next_seed seed
            else UINT_MOD - next_seed seed)
           (next_seed seed).
Proof.
  intros Hs. rewrite rand_num_next_seed by exact Hs.
  rewrite to_int_next_seed. pose proof (next_seed_range seed) as Hr.
  unfold c_abs, INT_MIN, INT_MAX, UINT_MOD.
  destruct (Z.leb_spec (next_seed seed) 2147483647) as [Hle|Hgt].
  - rewrite (proj2 (Z.eqb_neq _ _)) by lia.
    rewrite (proj2 (Z.eqb_neq (next_seed seed) 2147483648)) by lia.
    rewrite (proj2 (Z.ltb_lt _ _)) by lia.
    rewrite Z.abs_eq by lia. reflexivity.
  - destruct (Z.eqb_spec (next_seed seed) 2147483648) as [E|Hne].
    + rewrite E. reflexivity.
    + rewrite (proj2 (Z.eqb_neq _ _)) by lia.
      rewrite (proj2 (Z.ltb_ge _ _)) by lia.
      rewrite Z.abs_neq by lia. f_equal. lia.
Qed.

(** More fuel never changes a result. *)
Lemma rand_num_fuel fuel fuel' seed r :
  0 <= seed < UINT_MOD ->
  rand_num fuel seed = r -> r <> RandOutOfFuel ->
  rand_num (S fuel') seed = r.
Proof.
  intros Hs E Hr. destruct fuel as [|fuel].
  - subst r. unfold rand_num in *. cbv zeta in *.
    destruct (to_uint (lehmer_step seed) =? 0); [|reflexivity].
    simpl in Hr. congruence.
  - rewrite <- E, !rand_num_successor by exact Hs. reflexivity.
Qed.

(** X1.  Whatever the seed, the loop of [rand_num] that avoids the
    singularity stops without running its body (one unit of fuel is enough),
    and the call leaves in [*seed] the Lehmer successor of the seed modulo
    4294967291, with 1 in place of 0 (seeds 0 and 4294967291); it returns
    that value when it is below 2^31, and 2^32 minus it when it is above;
    when it is 2^31 itself the call is undefined, [(int) v] being
    [INT_MIN]. *)
Theorem rand_num_closed_form fuel seed :
  0 <= seed < UINT_MOD ->
  rand_num (S fuel) seed <> RandOutOfFuel
  /\ rand_num (S fuel) seed
     = if next_seed seed =? 2147483648 then RandUndefined
       else RandReturns
              (if next_seed seed <? 2147483648 then next_seed seed
               else UINT_MOD - next_seed seed)
              (next_seed seed).
Proof.
  intros Hs. rewrite rand_num_successor by exact Hs.
  split; [|reflexivity].
  destruct (next_seed seed =? 2147483648); discriminate.
Qed.

(** X2.  A call that returns leaves a seed between 1 and 4294967290, never
    0, and returns a value between 1 and [INT_MAX] which is that seed or
    its two's complement opposite. *)
Theorem rand_num_range fuel seed value seed' :
  0 <= seed < UINT_MOD ->
  rand_num fuel seed = RandReturns value seed' ->
  1 <= seed' < 4294967291
  /\ 1 <= value <= INT_MAX
  /\ (value = seed' \/ value = UINT_MOD - seed').
Proof.
  intros Hs E.
  apply (rand_num_fuel fuel O) in E; [|exact Hs|discriminate].
  rewrite rand_num_successor in E by exact Hs.
  pose proof (next_seed_range seed) as Hr.
  unfold INT_MAX, UINT_MOD in *.
  destruct (Z.eqb_spec (next_seed seed) 2147483648); [discriminate|].
  destruct (Z.ltb_spec (next_seed seed) 2147483648);
    inversion E; subst; lia.
Qed.

Lemma lehmer_inverse_mod x :
  ((x * 279470273) mod 4294967291 * LEHMER_INVERSE) mod 4294967291
  = x mod 4294967291.
Proof.
  unfold LEHMER_INVERSE.
  rewrite Z.mul_mod_idemp_l by lia.
  rewrite <- Z.mul_assoc.
  rewrite <- Z.mul_mod_idemp_r by lia.
  change ((279470273 * 1815976680) mod 4294967291) with 1.
  rewrite Z.mul_1_r. reflexivity.
Qed.

(** X3.  On the states 1 .. 4294967290 the generator can be run backwards:
    multiplying the seed a call leaves by 1815976680 modulo 4294967291
    gives the seed it started from, the seed left being the plain Lehmer
    successor: the singularity rule plays no part there. *)
Theorem rand_num_invertible fuel seed value seed' :
  1 <= seed < 4294967291 ->
  rand_num fuel seed = RandReturns value seed' ->
  (seed' * LEHMER_INVERSE) mod 4294967291 = seed
  /\ seed' = (seed * 279470273) mod 4294967291.
Proof.
  intros Hs E.
  assert (0 <= seed < UINT_MOD) as Hs' by (unfold UINT_MOD; lia).
  assert ((seed * 279470273) mod 4294967291 <> 0) as Hne.
  { intros E0. pose proof (lehmer_inverse_mod seed) as Hi.
    rewrite E0, Z.mul_0_l, Z.mod_0_l, Z.mod_small in Hi by lia. lia. }
  assert (seed' = (seed * 279470273) mod 4294967291) as ->.
  { apply (rand_num_fuel fuel O) in E; [|exact Hs'|discriminate].
    rewrite rand_num_successor in E by exact Hs'.
    unfold next_seed in E. cbv zeta in E.
    rewrite (proj2 (Z.eqb_neq ((seed * 279470273) mod 4294967291) 0)) in E
      by exact Hne.
    destruct (_ =? 2147483648); inversion E. reflexivity. }
  split; [|reflexivity].
  rewrite lehmer_inverse_mod. apply Z.mod_small. lia.
Qed.

(** X4.  Among the 2^32 seeds exactly one makes the call undefined:
    244974409, whose successor is 2^31, so that [abs] is applied to
    [INT_MIN]. *)
Theorem rand_num_undefined_iff fuel seed :
  0 <= seed < UINT_MOD ->
  rand_num (S fuel) seed = RandUndefined <-> seed = INT_MIN_SEED.
Proof.
  intros Hs. rewrite rand_num_successor by exact Hs. split.
  - destruct (Z.eqb_spec (next_seed seed) 2147483648) as [E|]; [|discriminate].
    intros _. unfold next_seed in E. cbv zeta in E.
    destruct (Z.eqb_spec ((seed * 279470273) mod 4294967291) 0); [discriminate|].
    pose proof (lehmer_inverse_mod seed) as Hi. rewrite E in Hi.
    change ((2147483648 * LEHMER_INVERSE) mod 4294967291) with 244974409 in Hi.
    unfold INT_MIN_SEED, UINT_MOD in *.
    destruct (Z.lt_ge_cases seed 4294967291) as [Hlt|Hge].
    + rewrite Z.mod_small in Hi by lia. lia.
    + assert (seed mod 4294967291 = seed - 4294967291) as Hm.
      { symmetry. apply (Z.mod_unique _ _ 1); lia. }
      lia.
  - intros ->. reflexivity.
Qed.

(** ** The generator from the seed 42 *)

Lemma rand_num_closed_form_witness :
  rand_num 1 42 <> RandOutOfFuel
  /\ rand_num 1 42 = RandReturns 1147150412 3147816884.
Proof.
  apply (rand_num_closed_form 0 42). unfold UINT_MOD. lia.
Defined.

Lemma rand_num_range_witness :
  1 <= 3147816884 < 4294967291
  /\ 1 <= 1147150412 <= INT_MAX
  /\ (1147150412 = 3147816884 \/ 1147150412 = UINT_MOD - 3147816884).
Proof.
  apply (rand_num_range 1 42 1147150412 3147816884).
  - unfold UINT_MOD. lia.
  - vm_compute. reflexivity.
Defined.

Lemma rand_num_invertible_witness :
  (3147816884 * LEHMER_INVERSE) mod 4294967291 = 42
  /\ 3147816884 = (42 * 279470273) mod 4294967291.
Proof.
  apply (rand_num_invertible 1 42 1147150412 3147816884).
  - lia.
  - vm_compute. reflexivity.
Defined.

Lemma rand_num_undefined_iff_witness :
  rand_num 1 INT_MIN_SEED = RandUndefined.
Proof.
  apply (proj2 (rand_num_undefined_iff 0 INT_MIN_SEED
                  ltac:(unfold UINT_MOD, INT_MIN_SEED; lia))).
  reflexivity.
Defined.
